(* ===== verification/_CoqProject ===== *)
-Q . S2P
Prelude.v
ClassList.v
Dom.v
Tree.v
Commute.v
Wf.v
Query.v
Config.v
Page.v
Frame.v
Fixtures.v
Theme.v
MobileMenu.v
Header.v
Build.v
ThemeMenu.v
Events.v
Touchups.v
Layout.v
