(* ===== verification/Prelude.v ===== *)
(** * A verification development for the documentation-site script of remix-ide

    The program is [src/docs/_static/js/loaders.js], the script that
    reshapes the HTML a static-site generator (Sphinx with the Read the
    Docs theme) produces for the Remix documentation.  Its functions run
    once when the page loads ([preloadFonts], [rearrangeDom],
    [buildHeader], [updateEditButtonLabel], [cleanSearchInput],
    [addHrUnderSearchForm], [addFooterNote], [updateFooterButtonIcons],
    [updateFlyoverMenu], [preloadColorModeIcons]); what lives on
    afterwards is in the handlers they install (the theme menu, the
    "Learn" dropdown, the hamburger menu) and in the continuations of the
    [fetch] requests for the icons.  The constants ([COLOR_MODES],
    [NAV_LINKS], class names) and the helpers [setColorMode],
    [closeThemeMenu], [getIconFromMode], [appendSvg], [toggleDropdown]
    and [moveRstVersions] come from other scripts of the site, which are
    not under [src/].

    ** Files and what they model

    - [Prelude] (this file): the JavaScript execution model.  A statement
      is a [js St A := St -> outcome St A]; an [outcome] is [Normal a s] or
      [Throw e s], and an exception ([TypeError] of a [null] dereference,
      or a [DOMException] such as ["NotFoundError"]) keeps the mutations
      done before it, as the browser does.  [js_forEach], [js_forEachi]
      and [js_map] are [Array.prototype.forEach]/[map]; [jsval],
      [get_prop] and [to_property_key] are the property reads and keys
      of [icons[idx].value] and [loadedSvgs[...]].  [preserves P c]
      states that [c] keeps [P] on both outcomes; its rules follow the
      code's structure and are in the hint database [js].
    - [ClassList]: [element.classList] as an ordered token list with
      [add], [remove], [toggle] and [toggle(c, force)], the set
      equivalence [same_tokens] and its [Proper] instances.
    - [Dom]: the browser document the script acts on, as a store of
      nodes ([gmap nat node]) with the DOM methods the script calls
      ([createElement], [appendChild], [prepend], [insertBefore],
      [removeChild], [remove], [textContent]/[innerHTML] assignment,
      attribute and class updates) and [querySelector]/[querySelectorAll]
      on compound selectors with the descendant and child combinators.
      [agree R] relates documents a query cannot tell apart ([Proper]
      instances for [shape_equiv] and [same_but_class c]).  [wf] is the
      well-formed tree (handles below [next_id], children distinct and
      pointing back to their parent); the laws of [children_of],
      [parentNode], [text_of] and [has_class] under each mutation are
      applied by the tactic [dom_norm].  [HasDom] is the interface
      through which a page state exposes its document.
    - [Tree]: traversals of well-formed documents.  A downward [chain]
      from a parentless root never repeats a node, so the traversal
      bound [fuel_of] is enough ([preorder_fuel_adequate]); a query by
      a simple selector does not see a node outside the document
      ([querySelector_detached]), such as an element just created;
      going up the parents from a node of the document walks a chain
      from the root backwards ([ancestors_chain]).
    - [Commute]: when two mutations can be swapped: writes to distinct
      nodes, creation and writes elsewhere, and detaching a node with
      appending another ([append_all_detach_all]: removing nodes before
      appending them elsewhere changes nothing).
    - [Wf]: [wf] read through [children_of] and [parentNode], and kept
      by every mutation the scripts perform: writes to classes,
      attributes and text, creation, [remove], and [appendChild] or
      [prepend] of an existing element under another.
    - [Query]: what a query by a simple selector sees after a change:
      a new leaf it does not match and an attribute write change no
      answer ([querySelectorAll_new_leaf]); after [remove] it answers
      a sublist of what it answered before, and still finds an element
      when the removed one is neither it nor one of its ancestors
      ([querySelectorAll_detach_one]).
    - [Config]: the constants as a record [config], so every theorem
      holds for every configuration meeting its hypotheses;
      [sample_config] is the specification's scenario.
    - [Page]: the page state (document, [onclick] properties, click
      listeners, pending [fetch] continuations, the globals [mode] and
      [loadedSvgs]); closures are the constructors of [handler] and
      [task] with the values they capture.  [run_page] runs the DOM
      statements of a script on a symbolic page.
    - [Frame]: specifications [spec I R c Q E] of statements (invariant
      [I], relation [R] between start and end, postcondition [Q] of the
      result, condition [E] on what is thrown) with rules for bind and
      the loops, and the frame of a builder: [framed n] and [kept n]
      say that nothing below the handle [n] changes and that [n] only
      gains children; each DOM statement writing above [n] keeps it.
    - [Fixtures]: concrete pages for the witnesses, among them a
      well-formed page in the shape of the Read the Docs markup.
    - [Theme]: the colour-mode controller: [preloadColorModeIcons] and
      its continuation [icon_fetch_done] (lines 55-64), the theme item's
      [onclick] [theme_item_click] and the theme button's listener
      [theme_button_click] (lines 247-250, 260-263).  The helpers of the
      other script are the class [ColorModeApi]; [spec_api] implements
      it from the specification.  [Controller] is the specification's
      abstract controller and [abs] maps a page to it.
    - [MobileMenu]: [toggleMenu] (lines 281-296), forced or not.
    - [Header]: [buildHeader] (lines 120-274) statement by statement,
      with [navLinkElement], [navLink], [navDropdown]/[navDropdownItem],
      [appendLink], [buildThemeMenu], [themeDropdownItem] and
      [buildMenuButton].
    - [Build]: [buildHeader] run as a whole, its pieces given frame
      specifications ([navLinkElement_frame], [buildThemeMenu_frame]
      ...).
    - [ThemeMenu]: [buildThemeMenu] (lines 216-263) and
      [buildMenuButton] (lines 264-273) computed exactly:
      [item_dom] is the document after one [themeDropdownItem] call
      and [items_run] the [COLOR_MODES.forEach] loop, item [i] being
      the three elements from [x + 3 i].
    - [Events]: the page after load as a state machine: [step] is a
      click (the handlers of the target and its ancestors) or the
      settling of any pending request with any response; [reachable] is
      its closure.  [toggleDropdown] is the class [DropdownApi].
    - [Touchups]: [preloadFonts], [updateEditButtonLabel],
      [cleanSearchInput], [addHrUnderSearchForm], [addFooterNote],
      [updateFooterButtonIcons] and [updateFlyoverMenu].
    - [Layout]: [rearrangeDom] (lines 22-41) as [wrapBodyDivs] (lines
      23-28), the call of [moveRstVersions] (a parameter: neither the
      sources nor the specification say what it does) and
      [finishLayout] (lines 32-40); [backdrop_dom] is the document
      after lines 32-34.

    ** What the theorems show

    - Icon cache (C1, C2, C6, C27): a settled request stores its markup
      under the key ["undefined"] (the code reads [.value] of a path
      string); on every page reachable by clicks and responses in any
      order no mode's icon is ever cached under the mode's value (an
      invariant by induction on [reachable]), and the cache ends with at
      most one key more than it started with; the preload starts one
      request per mode.
    - Theme menu (C3-C5): an item click refines [selectMode], the button
      refines [toggleMenu] and writes exactly the negated
      [aria-expanded].
    - Mobile menu (C7-C9): the panels stay in step with the wrapper,
      forced toggles reach the forced value, and a missing wrapper
      throws after the panels changed.
    - Navigation (C10-C12): the classes and attributes of a top-level
      link and of a dropdown entry, and the [TypeError]s of entries
      without [href].
    - Touch-ups (C13-C21): the flyover ends with exactly the relabelled
      icon, the caret and a "Latest" span, and without a caret throws
      after it was emptied; the rule and the footer note are inserted
      right before the menu and right after the content-info block; the
      search box loses exactly its anchor and version block, or throws
      [NotFoundError] when the anchor is nested; the edit link's label,
      the footer icons and the font preload.
    - Layout (C22): the body's divs move, in order, into the new
      wrapper, which becomes the body's first child.
    - Whole header (C23-C25): without a wrapper [buildHeader] throws
      and leaves only a detached element; with one, the header becomes
      the wrapper's first child and no other existing element changes,
      whether it completes or not; it completes exactly when every
      [NAV_LINKS] entry is well formed, and otherwise throws a
      [TypeError].
    - Theme menu construction (C26): the wrapper holds the button and
      the collapsed menu, the menu one item per mode in order, each
      item's [onclick] selecting its mode; the button's listener
      toggles the menu and the icons are requested in order.  The
      hamburger button (C31) gets its class, attributes, the
      [toggleMenu] listener and its icon request.
    - Wiring (C28): a click on the hamburger button that lines 264-273
      build runs [toggleMenu] once, with [force] undefined, and nothing
      else, when neither the container nor its ancestors carry a click
      handler: the listener sits on the button itself, and a new leaf
      changes no other node's ancestors (Query.v).
    - Equivalence (C29): the [div.remove()] loop of [rearrangeDom] is
      redundant: without it, lines 23-28 leave exactly the same page.
    - Composition (C30): on a page without any element of class
      [WRAPPER_CLASS], the wrapper [rearrangeDom] creates is the
      element [buildHeader] mounts the header on and [toggleMenu]
      toggles, so their [TypeError] paths on [null] (C9, C23) are not
      taken.
    - Layout, second part (C32, C33): on the Read the Docs layout
      [finishLayout] appends the backdrop, gives the content element
      its [id] and makes it the grid's last child, and takes the old
      section out of the tree, the document staying well formed; its
      queries see through the changes made before them (Query.v).
      Each missing element throws a [TypeError] after the statements
      before it took effect; without a grid the content leaves the
      document with the old section.
    Theorems with hypotheses have witnesses on [Fixtures]; mutants of
    [icon_fetch_done], [theme_item_click], [theme_button_click],
    [navLink], [updateFlyoverMenu], [addHrUnderSearchForm],
    [themeDropdownItem], [bubble_path], [wrapBodyDivs],
    [buildMenuButton] and [finishLayout] break C1-C5, C10, C13, C15
    and C26-C33.

    ** Bounds and fuel

    Traversals ([preorder], [ancestors]) take [fuel_of d], one more than
    the number of nodes of the store.  [Tree.preorder_fuel_adequate]
    proves it enough: on a well-formed document whose root has no
    parent, more fuel gives the same traversal, since a chain of
    children from the root has distinct nodes.  The same bound serves
    the walk up the parents ([ancestors]) from any node of the document:
    it follows such a chain backwards, so it reaches the root before the
    fuel runs out ([Events.click_bubbles_to_root]).

    ** Not modelled, and the plan

    - [rearrangeDom] as a whole has no theorem: [finishLayout] runs on
      the document [moveRstVersions] leaves, of which nothing is known.
      C32 and C33 take that document as their hypothesis: rooted, with
      the wrapper, and with the elements the queries find.
    - [Dom.appendChild] does not model the [HierarchyRequestError] of
      appending an element under itself or its own descendant: where
      the browser throws, the model builds a cycle.  C32 excludes only
      the content element being the grid.
    - The navigation links inside the inner header are described per
      entry (C10-C12) and by the frame theorems of [Build]; there is
      no single theorem listing the whole header's children.
    - [Dom.wf] is the agreement of the links, not acyclicity: a cycle
      of nodes detached from the document would be well formed.  The
      theorems that need the document to be a tree from its root assume
      [Tree.rooted], under which chains from the root never repeat a
      node ([Tree.chain_NoDup]).
    - [toggleDropdown], [appendSvg]'s insertion and the helpers of the
      colour-mode script are modelled from the specification only, and
      the classes [ColorModeApi] and [DropdownApi] state what the
      handlers' theorems assume of them.  No theorem states an
      invariant of the whole page that rests only on those assumed
      laws: the structure of the document after [appendSvg]'s
      insertion and the [aria-expanded] values written by the other
      scripts are not what [loaders.js] decides; the
      page-load script that calls the functions is not modelled, so the
      order in which they run (C30 assumes [rearrangeDom] before
      [buildHeader]) is an assumption. *)

(** This file: the JavaScript execution model shared by the development. *)

From stdpp Require Import base gmap strings list pretty.
From Stdlib Require Import String.

Declare Scope js_scope.
Delimit Scope js_scope with js.

(** ** Exceptions and outcomes

    A JavaScript statement either completes normally with a value or
    throws.  The only exception the modelled code can raise is the
    [TypeError] of a property access or method call on [null] or
    [undefined] (e.g. [document.querySelector(...).appendChild] when the
    selector matches nothing).  Mutations of the page done before the
    throw are kept: the outcome carries the state in both cases. *)
Inductive exn :=
  | TypeError (what : string)
  | DOMException (name : string).

Inductive outcome (S A : Type) :=
  | Normal (a : A) (s : S)
  | Throw (e : exn) (s : S).
Arguments Normal {S A} a s.
Arguments Throw {S A} e s.

Definition js (St A : Type) := St -> outcome St A.

Section Monad.
Context {St : Type}.

Definition js_ret {A} (a : A) : js St A := fun s => Normal a s.

Definition js_bind {A B} (c : js St A) (k : A -> js St B) : js St B :=
  fun s => match c s with
           | Normal a s' => k a s'
           | Throw e s' => Throw e s'
           end.

Definition js_throw {A} (e : exn) : js St A := fun s => Throw e s.
Definition js_get : js St St := fun s => Normal s s.
Definition js_put (s' : St) : js St unit := fun _ => Normal tt s'.
Definition js_modify (f : St -> St) : js St unit := fun s => Normal tt (f s).

(** The state an outcome leaves, whether it threw or not. *)
Definition final {A} (o : outcome St A) : St :=
  match o with Normal _ s => s | Throw _ s => s end.

(** Dereferencing a nullable handle: [x.f] on [null] throws. *)
Definition deref {A} (what : string) (o : option A) : js St A :=
  match o with Some a => js_ret a | None => js_throw (TypeError what) end.
End Monad.

Notation "x <- c ;; k" := (js_bind c (fun x => k))
  (at level 100, c at next level, right associativity) : js_scope.
Notation "c ;; k" := (js_bind c (fun _ : unit => k))
  (at level 100, k at level 200, right associativity) : js_scope.
Open Scope js_scope.

(** ** Array iteration

    [arr.forEach(f)] runs [f] on every element in index order; an
    exception stops the loop.  [arr.forEach((x, idx) => ...)] also passes
    the index, and [arr.map(f)] collects the results. *)
Section Iteration.
Context {St A : Type}.

Fixpoint js_forEach (f : A -> js St unit) (l : list A) : js St unit :=
  match l with
  | [] => js_ret tt
  | x :: l' => f x ;; js_forEach f l'
  end.

Fixpoint js_forEachi_from (f : A -> nat -> js St unit) (i : nat) (l : list A)
  : js St unit :=
  match l with
  | [] => js_ret tt
  | x :: l' => f x i ;; js_forEachi_from f (S i) l'
  end.

Definition js_forEachi (f : A -> nat -> js St unit) (l : list A) : js St unit :=
  js_forEachi_from f 0 l.

Fixpoint js_map {B} (f : A -> js St B) (l : list A) : js St (list B) :=
  match l with
  | [] => js_ret []
  | x :: l' => y <- f x ;; ys <- js_map f l' ;; js_ret (y :: ys)
  end.
End Iteration.

(** ** JavaScript values and property access

    Only the fragment the code touches: [undefined], strings, numbers
    and plain objects given by their own properties.  A string primitive
    has no own property but its [length] (and its indices, which the
    code never reads), so [s.value] is [undefined]. *)
Inductive jsval :=
  | JUndefined
  | JStr (s : string)
  | JNum (n : nat)
  | JObj (fields : list (string * jsval)).

Fixpoint assoc_lookup (p : string) (fs : list (string * jsval)) : jsval :=
  match fs with
  | [] => JUndefined
  | (q, v) :: fs' => if String.eqb p q then v else assoc_lookup p fs'
  end.

Definition get_prop (v : jsval) (p : string) : jsval :=
  match v with
  | JObj fs => assoc_lookup p fs
  | JStr s => if String.eqb p "length" then JNum (String.length s) else JUndefined
  | _ => JUndefined
  end.

(** ToPropertyKey, for the values used as object keys: [o[undefined]]
    writes the property named ["undefined"]. *)
Definition to_property_key (v : jsval) : string :=
  match v with
  | JUndefined => "undefined"
  | JStr s => s
  | JNum n => pretty n
  | JObj _ => "[object Object]"
  end.

(** Truthiness of a string (the guard [if (href)]): only [""] is falsy. *)
Definition str_truthy (s : string) : bool := negb (String.eqb s "").

(** [s.startsWith(p)]. *)
Definition startsWith (s p : string) : bool := String.prefix p s.

(** ** Invariants of effectful code

    [preserves P c]: from a state satisfying [P], the code [c] leaves a
    state satisfying [P], whether it completes or throws.  This is the
    form every invariant of the development takes, and the lemmas below
    discharge it by following the structure of the code. *)
Section Invariants.
Context {St : Type} (P : St -> Prop).

Definition preserves {A} (c : js St A) : Prop :=
  forall s, P s -> P (final (c s)).

Lemma preserves_ret {A} (a : A) : preserves (js_ret a).
Proof. intros s Hs. exact Hs. Qed.

Lemma preserves_throw {A} e : preserves (@js_throw St A e).
Proof. intros s Hs. exact Hs. Qed.

Lemma preserves_deref {A} what (o : option A) : preserves (deref what o).
Proof. destruct o; intros s Hs; exact Hs. Qed.

Lemma preserves_get : preserves js_get.
Proof. intros s Hs. exact Hs. Qed.

Lemma preserves_modify f : (forall s, P s -> P (f s)) -> preserves (js_modify f).
Proof. intros Hf s Hs. exact (Hf s Hs). Qed.

Lemma preserves_bind {A B} (c : js St A) (k : A -> js St B) :
  preserves c -> (forall a, preserves (k a)) -> preserves (js_bind c k).
Proof.
  intros Hc Hk s Hs. unfold js_bind.
  specialize (Hc s Hs). destruct (c s); [apply Hk|]; exact Hc.
Qed.

Lemma preserves_forEach {A} (f : A -> js St unit) (l : list A) :
  (forall x, In x l -> preserves (f x)) -> preserves (js_forEach f l).
Proof.
  induction l as [|x l IH]; intros Hf; simpl.
  - apply preserves_ret.
  - apply preserves_bind; [apply Hf; left; reflexivity|].
    intros _. apply IH. intros y Hy. apply Hf. right. exact Hy.
Qed.

Lemma preserves_forEachi_from {A} (f : A -> nat -> js St unit) (l : list A) i :
  (forall x j, In x l -> preserves (f x j)) -> preserves (js_forEachi_from f i l).
Proof.
  revert i. induction l as [|x l IH]; intros i Hf; simpl.
  - apply preserves_ret.
  - apply preserves_bind; [apply Hf; left; reflexivity|].
    intros _. apply IH. intros y j Hy. apply Hf. right. exact Hy.
Qed.

Lemma preserves_map {A B} (f : A -> js St B) (l : list A) :
  (forall x, In x l -> preserves (f x)) -> preserves (js_map f l).
Proof.
  induction l as [|x l IH]; intros Hf; simpl.
  - apply preserves_ret.
  - apply preserves_bind; [apply Hf; left; reflexivity|]. intros y.
    apply preserves_bind; [apply IH; intros z Hz; apply Hf; right; exact Hz|].
    intros ys. apply preserves_ret.
Qed.
End Invariants.

Create HintDb js discriminated.
#[export] Hint Resolve preserves_ret preserves_throw preserves_deref preserves_get : js.
#[export] Hint Resolve preserves_bind preserves_forEach preserves_forEachi_from
  preserves_map : js.

(** Running the monad on a concrete state: the equations of [js_bind]. *)
Lemma js_bind_Normal {St A B} (c : js St A) (k : A -> js St B) s a s' :
  c s = Normal a s' -> js_bind c k s = k a s'.
Proof. intros H. unfold js_bind. rewrite H. reflexivity. Qed.

Lemma js_bind_Throw {St A B} (c : js St A) (k : A -> js St B) s e s' :
  c s = Throw e s' -> js_bind c k s = Throw e s'.
Proof. intros H. unfold js_bind. rewrite H. reflexivity. Qed.

Lemma final_bind_Normal {St A B} (c : js St A) (k : A -> js St B) s a s' :
  c s = Normal a s' -> final (js_bind c k s) = final (k a s').
Proof. intros H. rewrite (js_bind_Normal c k s a s' H). reflexivity. Qed.

Lemma deref_Some {St A} what (a : A) (s : St) : deref what (Some a) s = Normal a s.
Proof. reflexivity. Qed.

(** [js_forEach] over a concatenation runs the two halves in order. *)
Lemma js_forEach_app {St A} (f : A -> js St unit) l1 l2 s :
  js_forEach f (l1 ++ l2) s = js_bind (js_forEach f l1) (fun _ => js_forEach f l2) s.
Proof.
  revert s. induction l1 as [|x l1 IH]; intros s; simpl; [reflexivity|].
  unfold js_bind. destruct (f x s) as [[] s'|e s']; [|reflexivity].
  specialize (IH s'). unfold js_bind in IH. exact IH.
Qed.

(** Unfold a model definition and let [simpl] run the monad. *)
Ltac js_run := cbn [js_bind js_ret js_throw js_get js_put js_modify final deref
                    js_forEach js_forEachi js_forEachi_from js_map].

(** ** Facts on strings and JavaScript values *)
Lemma str_truthy_iff s : str_truthy s = true <-> s <> ""%string.
Proof.
  unfold str_truthy. rewrite negb_true_iff.
  destruct (String.eqb_spec s "") as [->|Hne]; split; congruence.
Qed.

Lemma get_prop_string_value s : get_prop (JStr s) "value" = JUndefined.
Proof. reflexivity. Qed.

Lemma assoc_lookup_head p v fs : assoc_lookup p ((p, v) :: fs) = v.
Proof. simpl. rewrite String.eqb_refl. reflexivity. Qed.

Create Rewrite HintDb js_rw.
#[export] Hint Rewrite get_prop_string_value assoc_lookup_head : js_rw.

(** [String(b)] and the implicit conversion of [setAttribute(k, b)]. *)
Definition bool_to_js_string (b : bool) : string := if b then "true" else "false".

(** ** Generic list lemmas *)
Lemma existsb_ext {A} (f g : A -> bool) (l : list A) :
  (forall x, f x = g x) -> existsb f l = existsb g l.
Proof. intros H. induction l as [|x l IH]; simpl; [reflexivity|]. by rewrite H, IH. Qed.

Lemma bool_to_js_string_true b :
  bool_decide (Some (bool_to_js_string b) = Some "true"%string) = b.
Proof. by destruct b. Qed.
#[export] Hint Rewrite bool_to_js_string_true : js_rw.

Lemma forallb_ext_in {A} (f g : A -> bool) (l : list A) :
  (forall x, In x l -> f x = g x) -> forallb f l = forallb g l.
Proof.
  intros H. induction l as [|x l IH]; simpl; [reflexivity|].
  rewrite H by (left; reflexivity). f_equal. apply IH. intros y Hy. apply H. right. exact Hy.
Qed.

(** Removing every occurrence of an absent element changes nothing. *)
Lemma filter_neq_absent {A} `{EqDecision A} (c : A) (l : list A) :
  c ∉ l -> filter (fun d => d ≠ c) l = l.
Proof.
  induction l as [|d l IH]; intros Hc; [reflexivity|].
  rewrite filter_cons_True by set_solver. f_equal. apply IH. set_solver.
Qed.

Lemma NoDup_app_cons_notin {A} (l1 l2 : list A) x : NoDup (l1 ++ x :: l2) -> x ∉ l1.
Proof. intros H Hx. apply NoDup_app in H as (_ & Hd & _). apply (Hd x Hx). set_solver. Qed.
