(* ===== verification/ClassList.v ===== *)
(** * ClassList: the DOMTokenList behind [element.classList]

    The browser's [classList] is an ordered set of class names.  The
    code calls [add], [remove], [contains] and [toggle] with and without
    its [force] argument ([loaders.js], [toggleMenu] and
    [updateFooterButtonIcons]).  This file models those four methods as
    the DOM standard defines them, the set equivalence under which two
    token lists denote the same classes, and the laws the client code
    relies on. *)

From stdpp Require Import base list strings sets.
From Stdlib Require Import String.
From S2P Require Import Prelude.

Module ClassList.

Abbreviation t := (list string).

Definition contains (c : string) (l : t) : bool :=
  bool_decide (c ∈ l).

(** [add] appends a token that is absent and does nothing otherwise. *)
Definition add (c : string) (l : t) : t :=
  if contains c l then l else l ++ [c].

(** [remove] drops every occurrence of the token. *)
Definition remove (c : string) (l : t) : t :=
  filter (fun d => d ≠ c) l.

(** [toggle(c)]: remove when present, add when absent. *)
Definition toggle (c : string) (l : t) : t :=
  if contains c l then remove c l else add c l.

(** [toggle(c, force)]: [force = true] only adds, [false] only removes. *)
Definition toggle_force (c : string) (force : bool) (l : t) : t :=
  if force then add c l else remove c l.

(** Two token lists are equivalent when they hold the same classes. *)
Definition same_tokens (l1 l2 : t) : Prop := forall c, c ∈ l1 <-> c ∈ l2.

#[export] Instance equiv_Equivalence : Equivalence same_tokens.
Proof.
  split.
  - intros l c. reflexivity.
  - intros l1 l2 H c. symmetry. apply H.
  - intros l1 l2 l3 H1 H2 c. rewrite (H1 c). apply H2.
Qed.

(** ** Membership after each method *)
Lemma contains_true c l : contains c l = true <-> c ∈ l.
Proof. unfold contains. apply bool_decide_eq_true. Qed.

Lemma elem_of_add c d l : d ∈ add c l <-> d = c \/ d ∈ l.
Proof.
  unfold add. destruct (contains c l) eqn:E.
  - apply contains_true in E. split; [tauto|]. intros [->|H]; assumption.
  - rewrite elem_of_app, list_elem_of_singleton. tauto.
Qed.

Lemma elem_of_remove c d l : d ∈ remove c l <-> d ≠ c /\ d ∈ l.
Proof. unfold remove. rewrite list_elem_of_filter. tauto. Qed.

Lemma elem_of_toggle c d l :
  d ∈ toggle c l <-> (d = c /\ c ∉ l) \/ (d ≠ c /\ d ∈ l).
Proof.
  unfold toggle. destruct (contains c l) eqn:E.
  - apply contains_true in E. rewrite elem_of_remove. intuition congruence.
  - assert (c ∉ l) by (intros Hc; apply contains_true in Hc; congruence).
    rewrite elem_of_add. destruct (decide (d = c)); intuition congruence.
Qed.

Lemma elem_of_toggle_force c f d l :
  d ∈ toggle_force c f l <-> (d = c /\ f = true) \/ (d ≠ c /\ d ∈ l).
Proof.
  unfold toggle_force. destruct f.
  - rewrite elem_of_add. destruct (decide (d = c)); intuition congruence.
  - rewrite elem_of_remove. intuition congruence.
Qed.

Lemma contains_toggle c l : contains c (toggle c l) = negb (contains c l).
Proof.
  unfold contains. rewrite <- bool_decide_not. apply bool_decide_ext.
  rewrite elem_of_toggle. intuition congruence.
Qed.

Lemma contains_toggle_force c f l : contains c (toggle_force c f l) = f.
Proof.
  unfold contains. destruct f.
  - apply bool_decide_eq_true. rewrite elem_of_toggle_force. auto.
  - apply bool_decide_eq_false. rewrite elem_of_toggle_force. intuition congruence.
Qed.

Lemma contains_toggle_other c d l : d ≠ c -> contains d (toggle c l) = contains d l.
Proof.
  intros Hne. apply bool_decide_ext. rewrite elem_of_toggle. intuition congruence.
Qed.

Lemma contains_toggle_force_other c f d l :
  d ≠ c -> contains d (toggle_force c f l) = contains d l.
Proof.
  intros Hne. apply bool_decide_ext. rewrite elem_of_toggle_force. intuition congruence.
Qed.

(** ** The methods respect the same_tokens relation *)
#[export] Instance contains_Proper c : Proper (same_tokens ==> eq) (contains c).
Proof.
  intros l1 l2 H. apply bool_decide_ext. apply H.
Qed.

#[export] Instance add_Proper c : Proper (same_tokens ==> same_tokens) (add c).
Proof. intros l1 l2 H d. rewrite !elem_of_add, (H d). reflexivity. Qed.

#[export] Instance remove_Proper c : Proper (same_tokens ==> same_tokens) (remove c).
Proof. intros l1 l2 H d. rewrite !elem_of_remove, (H d). reflexivity. Qed.

#[export] Instance toggle_Proper c : Proper (same_tokens ==> same_tokens) (toggle c).
Proof. intros l1 l2 H d. rewrite !elem_of_toggle, (H c), (H d). reflexivity. Qed.

#[export] Instance toggle_force_Proper c f : Proper (same_tokens ==> same_tokens) (toggle_force c f).
Proof. intros l1 l2 H d. rewrite !elem_of_toggle_force, (H d). reflexivity. Qed.

(** ** Laws *)
(** [toggle] is its own inverse up to the order of the tokens. *)
Lemma toggle_toggle c l : same_tokens (toggle c (toggle c l)) l.
Proof.
  intros d. rewrite !elem_of_toggle.
  destruct (decide (d = c)) as [->|Hne]; [|intuition congruence].
  destruct (decide (c ∈ l)); intuition congruence.
Qed.

Lemma contains_false c l : contains c l = false <-> c ∉ l.
Proof. unfold contains. apply bool_decide_eq_false. Qed.

Lemma remove_absent c l : c ∉ l -> remove c l = l.
Proof. apply filter_neq_absent. Qed.

(** From a list without the token the round trip is exact. *)
Lemma toggle_toggle_absent c l : c ∉ l -> toggle c (toggle c l) = l.
Proof.
  intros Hc. pose proof Hc as Hc'. apply contains_false in Hc'.
  unfold toggle at 2, add. rewrite Hc'.
  unfold toggle. replace (contains c (l ++ [c])) with true
    by (symmetry; apply contains_true; set_solver).
  unfold remove. rewrite filter_app, filter_singleton_False by auto.
  rewrite app_nil_r. apply remove_absent. exact Hc.
Qed.

Lemma toggle_force_idem c f l :
  toggle_force c f (toggle_force c f l) = toggle_force c f l.
Proof.
  unfold toggle_force. destruct f.
  - unfold add at 1. replace (contains c (add c l)) with true; [reflexivity|].
    symmetry. apply contains_true, elem_of_add. left. reflexivity.
  - unfold remove. rewrite list_filter_filter.
    apply list_filter_iff. intros d. tauto.
Qed.

(** Duplicate-free token lists stay duplicate-free. *)
Lemma add_NoDup c l : NoDup l -> NoDup (add c l).
Proof.
  intros Hl. unfold add. destruct (contains c l) eqn:E; [exact Hl|].
  apply NoDup_app. split; [exact Hl|]. split; [|apply NoDup_singleton].
  intros d Hd Hd'. apply list_elem_of_singleton in Hd' as ->.
  apply contains_true in Hd. congruence.
Qed.

Lemma remove_NoDup c l : NoDup l -> NoDup (remove c l).
Proof. intros Hl. apply NoDup_filter. exact Hl. Qed.

Lemma toggle_NoDup c l : NoDup l -> NoDup (toggle c l).
Proof.
  unfold toggle. destruct (contains c l); [apply remove_NoDup|apply add_NoDup].
Qed.

Lemma toggle_force_NoDup c f l : NoDup l -> NoDup (toggle_force c f l).
Proof. destruct f; [apply add_NoDup|apply remove_NoDup]. Qed.

End ClassList.

#[export] Hint Resolve ClassList.add_NoDup ClassList.remove_NoDup
  ClassList.toggle_NoDup ClassList.toggle_force_NoDup : js.
#[export] Hint Rewrite ClassList.contains_toggle ClassList.contains_toggle_force : js_rw.
