(* ===== verification/Dom.v ===== *)
(** * Dom: the part of the browser DOM the code manipulates

    A document is a store of element nodes indexed by [nat] handles,
    with the tree given by each node's [children] and [parent].  The
    operations are the DOM methods [loaders.js] calls: [createElement],
    [classList], [setAttribute]/[getAttribute], the [innerText] family,
    [appendChild], [prepend], [insertBefore], [remove], and
    [querySelector]/[querySelectorAll] on the selectors the code uses.
    They are pure functions on [dom]; the class [HasDom] lifts them to
    any page state that contains a document. *)

From stdpp Require Import base gmap strings list sets.
From Stdlib Require Import String.
From S2P Require Import Prelude ClassList.

Module Dom.

Record node := mkNode {
  tag : string;
  classes : list string;
  attrs : gmap string string;
  text : string;
  children : list nat;
  parent : option nat;
}.

Record dom := mkDom {
  nodes : gmap nat node;
  next_id : nat;
  root_id : nat;    (** the document: its descendants are what queries see *)
  head_id : nat;    (** [document.head] *)
  body_id : nat;    (** [document.body] *)
}.

Definition blank (t : string) : node :=
  mkNode t [] ∅ "" [] None.

Definition node_at (d : dom) (i : nat) : option node := nodes d !! i.

Definition set_nodes (m : gmap nat node) (d : dom) : dom :=
  mkDom m (next_id d) (root_id d) (head_id d) (body_id d).

Definition update (i : nat) (f : node -> node) (d : dom) : dom :=
  set_nodes (alter f i (nodes d)) d.

(** Record updates of one field. *)
Definition with_classes (f : list string -> list string) (n : node) : node :=
  mkNode (tag n) (f (classes n)) (attrs n) (text n) (children n) (parent n).
Definition with_attrs (f : gmap string string -> gmap string string) (n : node) : node :=
  mkNode (tag n) (classes n) (f (attrs n)) (text n) (children n) (parent n).
Definition with_text (s : string) (n : node) : node :=
  mkNode (tag n) (classes n) (attrs n) s (children n) (parent n).
Definition with_children (f : list nat -> list nat) (n : node) : node :=
  mkNode (tag n) (classes n) (attrs n) (text n) (f (children n)) (parent n).
Definition with_parent (p : option nat) (n : node) : node :=
  mkNode (tag n) (classes n) (attrs n) (text n) (children n) p.

(** ** Element creation and attributes *)

(** [document.createElement(t)]: a fresh, detached element. *)
Definition createElement (t : string) (d : dom) : nat * dom :=
  let i := next_id d in
  (i, mkDom (<[i := blank t]> (nodes d)) (S i) (root_id d) (head_id d) (body_id d)).

Definition classList_add (i : nat) (c : string) : dom -> dom :=
  update i (with_classes (ClassList.add c)).
Definition classList_remove (i : nat) (c : string) : dom -> dom :=
  update i (with_classes (ClassList.remove c)).
Definition classList_toggle (i : nat) (c : string) : dom -> dom :=
  update i (with_classes (ClassList.toggle c)).
Definition classList_toggle_force (i : nat) (c : string) (f : bool) : dom -> dom :=
  update i (with_classes (ClassList.toggle_force c f)).

Definition has_class (d : dom) (i : nat) (c : string) : bool :=
  match node_at d i with
  | Some n => ClassList.contains c (classes n)
  | None => false
  end.

(** [el.setAttribute(k, v)]; the reflected properties the code assigns
    ([href], [id], [rel], [as], [crossOrigin], [ariaLabel]) are the
    attributes of the same (content-attribute) name. *)
Definition setAttribute (i : nat) (k v : string) : dom -> dom :=
  update i (with_attrs (insert k v)).

Definition getAttribute (d : dom) (i : nat) (k : string) : option string :=
  n ← node_at d i; attrs n !! k.

(** [innerText], [textContent] and [innerHTML] assignments replace the
    element's content by the given string. *)
Definition setText (i : nat) (s : string) : dom -> dom :=
  update i (with_text s).

(** ** Tree mutation *)

(** [el.remove()]: detach from the parent, if any. *)
Definition detach (c : nat) (d : dom) : dom :=
  match node_at d c with
  | Some n =>
      let d' := match parent n with
                | Some p => update p (with_children (filter (fun j => j ≠ c))) d
                | None => d
                end in
      update c (with_parent None) d'
  | None => d
  end.

Definition attach_at (p c : nat) (place : list nat -> list nat) (d : dom) : dom :=
  let d' := detach c d in
  update c (with_parent (Some p)) (update p (with_children place) d').

(** [p.appendChild(c)] and [p.prepend(c)]: a node already in the tree
    is moved, not copied. *)
Definition appendChild (p c : nat) (d : dom) : dom :=
  attach_at p c (fun l => l ++ [c]) d.

Definition prepend (p c : nat) (d : dom) : dom :=
  attach_at p c (fun l => c :: l) d.

(** Insert [c] before [r] in a list of children ([r] absent: at the end,
    as [insertBefore(c, null)] does). *)
Fixpoint insert_before (c r : nat) (l : list nat) : list nat :=
  match l with
  | [] => [c]
  | x :: l' => if decide (x = r) then c :: x :: l' else x :: insert_before c r l'
  end.

Definition insertBefore (p c : nat) (r : option nat) (d : dom) : dom :=
  match r with
  | Some r => attach_at p c (insert_before c r) d
  | None => appendChild p c d
  end.

(** ** Traversal and selectors *)

(** Document-order traversal below [i], with [fuel] bounding the depth. *)
Fixpoint preorder (fuel : nat) (d : dom) (i : nat) : list nat :=
  match fuel with
  | 0 => []
  | S f =>
      i :: match node_at d i with
           | Some n => List.concat (map (preorder f d) (children n))
           | None => []
           end
  end.

(** A tree never has more levels than nodes: the store's size bounds
    every traversal of a well-formed document. *)
Definition fuel_of (d : dom) : nat := S (size (nodes d)).

Definition descendants (d : dom) (i : nat) : list nat :=
  List.tl (preorder (fuel_of d) d i).

Fixpoint ancestors (fuel : nat) (d : dom) (i : nat) : list nat :=
  match fuel with
  | 0 => []
  | S f =>
      match node_at d i ≫= parent with
      | Some p => p :: ancestors f d p
      | None => []
      end
  end.

(** A compound selector [tag.c1.c2[a=v]] and the two combinators of the
    code, descendant ([".wy-breadcrumbs-aside a"]) and child
    (["body>div"]). *)
Record compound := Compound {
  sel_tag : option string;
  sel_classes : list string;
  sel_attrs : list (string * string);
}.

Inductive selector :=
  | Simple (c : compound)
  | Descendant (s : selector) (c : compound)
  | Child (s : selector) (c : compound).

Definition compound_matches (c : compound) (n : node) : bool :=
  match sel_tag c with Some t => String.eqb t (tag n) | None => true end &&
  forallb (fun k => ClassList.contains k (classes n)) (sel_classes c) &&
  forallb (fun '(k, v) => bool_decide (attrs n !! k = Some v)) (sel_attrs c).

Definition node_matches (d : dom) (c : compound) (i : nat) : bool :=
  match node_at d i with Some n => compound_matches c n | None => false end.

Fixpoint matches (d : dom) (s : selector) (i : nat) : bool :=
  match s with
  | Simple c => node_matches d c i
  | Descendant s' c =>
      node_matches d c i && existsb (matches d s') (ancestors (fuel_of d) d i)
  | Child s' c =>
      node_matches d c i &&
      match node_at d i ≫= parent with Some p => matches d s' p | None => false end
  end.

(** [scope.querySelectorAll(s)]: the matching descendants in document
    order; [querySelector] is the first of them or [null]. *)
Definition querySelectorAll_from (d : dom) (scope : nat) (s : selector) : list nat :=
  List.filter (matches d s) (descendants d scope).

Definition querySelector_from (d : dom) (scope : nat) (s : selector) : option nat :=
  List.hd_error (querySelectorAll_from d scope s).

Definition querySelectorAll (d : dom) (s : selector) : list nat :=
  querySelectorAll_from d (root_id d) s.

Definition querySelector (d : dom) (s : selector) : option nat :=
  querySelector_from d (root_id d) s.

(** Shorthands for the selectors of the code. *)
Definition by_class (c : string) : selector := Simple (Compound None [c] []).
Definition by_tag (t : string) : selector := Simple (Compound (Some t) [] []).
Definition by_attr (k v : string) : selector := Simple (Compound None [] [(k, v)]).

(** ** Basic laws *)
Lemma node_at_update_eq d i f : node_at (update i f d) i = f <$> node_at d i.
Proof. unfold node_at, update, set_nodes. simpl. apply lookup_alter_eq. Qed.

Lemma node_at_update_ne d i j f : i ≠ j -> node_at (update i f d) j = node_at d j.
Proof. intros H. unfold node_at, update, set_nodes. simpl. by apply lookup_alter_ne. Qed.

Lemma update_root d i f : root_id (update i f d) = root_id d.
Proof. reflexivity. Qed.

Lemma getAttribute_setAttribute d i k v :
  is_Some (node_at d i) -> getAttribute (setAttribute i k v d) i k = Some v.
Proof.
  intros [n Hn]. unfold getAttribute, setAttribute.
  rewrite node_at_update_eq, Hn. simpl. apply lookup_insert_eq.
Qed.

Lemma getAttribute_setAttribute_other_key d i k k' v :
  k ≠ k' -> getAttribute (setAttribute i k v d) i k' = getAttribute d i k'.
Proof.
  intros Hk. unfold getAttribute, setAttribute.
  rewrite node_at_update_eq. destruct (node_at d i); simpl; [|reflexivity].
  by apply lookup_insert_ne.
Qed.

Lemma getAttribute_update_ne d i j f k :
  i ≠ j -> getAttribute (update i f d) j k = getAttribute d j k.
Proof. intros H. unfold getAttribute. by rewrite node_at_update_ne. Qed.

Lemma has_class_update_ne d i j f c :
  i ≠ j -> has_class (update i f d) j c = has_class d j c.
Proof. intros H. unfold has_class. by rewrite node_at_update_ne. Qed.

Lemma has_class_toggle d i c :
  is_Some (node_at d i) ->
  has_class (classList_toggle i c d) i c = negb (has_class d i c).
Proof.
  intros [n Hn]. unfold has_class, classList_toggle.
  rewrite node_at_update_eq, Hn. simpl. apply ClassList.contains_toggle.
Qed.

Lemma has_class_toggle_force d i c f :
  is_Some (node_at d i) -> has_class (classList_toggle_force i c f d) i c = f.
Proof.
  intros [n Hn]. unfold has_class, classList_toggle_force.
  rewrite node_at_update_eq, Hn. simpl. apply ClassList.contains_toggle_force.
Qed.

Lemma has_class_toggle_other d i c c' :
  c' ≠ c -> has_class (classList_toggle i c d) i c' = has_class d i c'.
Proof.
  intros H. unfold has_class, classList_toggle. rewrite node_at_update_eq.
  destruct (node_at d i); simpl; [by apply ClassList.contains_toggle_other|reflexivity].
Qed.

Lemma has_class_toggle_force_other d i c c' f :
  c' ≠ c -> has_class (classList_toggle_force i c f d) i c' = has_class d i c'.
Proof.
  intros H. unfold has_class, classList_toggle_force. rewrite node_at_update_eq.
  destruct (node_at d i); simpl; [by apply ClassList.contains_toggle_force_other|reflexivity].
Qed.

Lemma is_Some_node_at_update d i j f :
  is_Some (node_at (update i f d) j) <-> is_Some (node_at d j).
Proof.
  destruct (decide (i = j)) as [->|H].
  - rewrite node_at_update_eq. apply fmap_is_Some.
  - by rewrite node_at_update_ne.
Qed.

(** ** Documents that agree on what a query sees

    [agree R d1 d2]: the same root, the same number of nodes, and at
    each handle nodes related by [R].  When [R] keeps the tree (children
    and parent), traversals coincide, and a selector whose compound
    parts cannot tell [R]-related nodes apart returns the same elements.
    Two instances are used: [shape_equiv] forgets the text (no selector
    sees it) and [tree_equiv] also forgets the classes (selectors
    without class conditions do not see them). *)
Definition agree (R : node -> node -> Prop) (d1 d2 : dom) : Prop :=
  root_id d1 = root_id d2 /\ size (nodes d1) = size (nodes d2) /\
  forall j, option_Forall2 R (node_at d1 j) (node_at d2 j).

Fixpoint compounds (s : selector) : list compound :=
  match s with
  | Simple c => [c]
  | Descendant s' c | Child s' c => c :: compounds s'
  end.

Definition respects (R : node -> node -> Prop) (s : selector) : Prop :=
  Forall (fun c => forall n1 n2, R n1 n2 -> compound_matches c n1 = compound_matches c n2)
         (compounds s).

Section Agree.
Context (R : node -> node -> Prop)
        (R_children : forall n1 n2, R n1 n2 -> children n1 = children n2)
        (R_parent : forall n1 n2, R n1 n2 -> parent n1 = parent n2)
        (d1 d2 : dom) (Hag : agree R d1 d2).

Lemma agree_node j :
  (node_at d1 j = None /\ node_at d2 j = None) \/
  exists n1 n2, node_at d1 j = Some n1 /\ node_at d2 j = Some n2 /\ R n1 n2.
Proof. destruct (proj2 (proj2 Hag) j); [right; eauto|left; auto]. Qed.

Lemma agree_parent j : node_at d1 j ≫= parent = node_at d2 j ≫= parent.
Proof.
  destruct (agree_node j) as [[-> ->]|(n1 & n2 & -> & -> & HR)]; [done|].
  simpl. eauto.
Qed.

Lemma agree_node_matches c j :
  (forall n1 n2, R n1 n2 -> compound_matches c n1 = compound_matches c n2) ->
  node_matches d1 c j = node_matches d2 c j.
Proof.
  intros Hc. unfold node_matches.
  destruct (agree_node j) as [[-> ->]|(n1 & n2 & -> & -> & HR)]; eauto.
Qed.

Lemma agree_preorder fuel i : preorder fuel d1 i = preorder fuel d2 i.
Proof.
  revert i. induction fuel as [|f IH]; intros i; [reflexivity|]. simpl.
  destruct (agree_node i) as [[-> ->]|(n1 & n2 & -> & -> & HR)]; [done|].
  rewrite (R_children n1 n2 HR). do 2 f_equal. apply map_ext. exact IH.
Qed.

Lemma agree_ancestors fuel i : ancestors fuel d1 i = ancestors fuel d2 i.
Proof.
  revert i. induction fuel as [|f IH]; intros i; [reflexivity|]. simpl.
  rewrite agree_parent. destruct (node_at d2 i ≫= parent); [|done].
  by rewrite IH.
Qed.

Lemma agree_fuel : fuel_of d1 = fuel_of d2.
Proof. unfold fuel_of. f_equal. apply Hag. Qed.

Lemma agree_matches s j : respects R s -> matches d1 s j = matches d2 s j.
Proof.
  revert j. induction s as [c|s IH c|s IH c]; intros j Hs; cbn [matches];
    inversion Hs as [|? ? Hc Hs']; subst.
  - by apply agree_node_matches.
  - rewrite agree_node_matches, agree_fuel, agree_ancestors by exact Hc.
    f_equal. apply existsb_ext. intros k. apply IH. exact Hs'.
  - rewrite agree_node_matches, agree_parent by exact Hc.
    destruct (node_at d2 j ≫= parent); [f_equal; apply IH; exact Hs'|done].
Qed.

Lemma agree_querySelectorAll s : respects R s -> querySelectorAll d1 s = querySelectorAll d2 s.
Proof.
  intros Hs. unfold querySelectorAll, querySelectorAll_from, descendants.
  rewrite (proj1 Hag), agree_fuel, agree_preorder.
  apply List.filter_ext. intros j. by apply agree_matches.
Qed.

Lemma agree_querySelectorAll_from scope s :
  respects R s -> querySelectorAll_from d1 scope s = querySelectorAll_from d2 scope s.
Proof.
  intros Hs. unfold querySelectorAll_from, descendants.
  rewrite agree_fuel, agree_preorder.
  apply List.filter_ext. intros j. by apply agree_matches.
Qed.

Lemma agree_querySelector s : respects R s -> querySelector d1 s = querySelector d2 s.
Proof.
  intros Hs.
  change (List.hd_error (querySelectorAll d1 s) = List.hd_error (querySelectorAll d2 s)).
  by rewrite agree_querySelectorAll.
Qed.
End Agree.

Lemma agree_refl R d : (forall n, R n n) -> agree R d d.
Proof.
  intros HR. split; [done|]. split; [done|]. intros j.
  destruct (node_at d j); constructor. apply HR.
Qed.

Lemma agree_sym R d1 d2 : (forall n1 n2, R n1 n2 -> R n2 n1) -> agree R d1 d2 -> agree R d2 d1.
Proof.
  intros HR (Hr & Hs & Hn). split; [done|]. split; [done|]. intros j.
  destruct (Hn j); constructor. by apply HR.
Qed.

Lemma agree_trans R d1 d2 d3 :
  (forall n1 n2 n3, R n1 n2 -> R n2 n3 -> R n1 n3) ->
  agree R d1 d2 -> agree R d2 d3 -> agree R d1 d3.
Proof.
  intros HR (Hr & Hs & Hn) (Hr' & Hs' & Hn'). split; [congruence|]. split; [congruence|].
  intros j. pose proof (Hn j) as H1. pose proof (Hn' j) as H2.
  destruct (node_at d1 j), (node_at d2 j), (node_at d3 j);
    inversion H1; inversion H2; subst; constructor; eauto.
Qed.

Lemma size_alter {A} (f : A -> A) i (m : gmap nat A) : size (alter f i m) = size m.
Proof.
  destruct (m !! i) as [x|] eqn:E.
  - replace (alter f i m) with (<[i := f x]> m).
    { apply map_size_insert_Some. by exists x. }
    apply map_eq. intros j. destruct (decide (i = j)) as [->|Hne].
    + by rewrite lookup_insert_eq, lookup_alter_eq, E.
    + by rewrite lookup_insert_ne, lookup_alter_ne.
  - f_equal. apply map_eq. intros j. destruct (decide (i = j)) as [->|Hne].
    + by rewrite lookup_alter_eq, E.
    + by rewrite lookup_alter_ne.
Qed.

(** Updating one node within the relation. *)
Lemma update_agree R d i f :
  (forall n, R n n) -> (forall n, R (f n) n) -> agree R (update i f d) d.
Proof.
  intros Hrefl Hf. split; [reflexivity|]. split; [apply size_alter|].
  intros j. destruct (decide (i = j)) as [->|Hne].
  - rewrite node_at_update_eq. destruct (node_at d j); constructor. apply Hf.
  - rewrite node_at_update_ne by exact Hne. destruct (node_at d j); constructor. apply Hrefl.
Qed.

(** *** Forgetting the text *)
Definition shape (n : node) := (tag n, classes n, attrs n, children n, parent n).
Definition same_shape (n1 n2 : node) : Prop := shape n1 = shape n2.
Definition shape_equiv : dom -> dom -> Prop := agree same_shape.

#[export] Instance shape_equiv_Equivalence : Equivalence shape_equiv.
Proof.
  split.
  - intros d. apply agree_refl. reflexivity.
  - intros d1 d2. apply agree_sym. unfold same_shape. congruence.
  - intros d1 d2 d3. apply agree_trans. unfold same_shape. congruence.
Qed.

Lemma same_shape_children n1 n2 : same_shape n1 n2 -> children n1 = children n2.
Proof. unfold same_shape, shape. congruence. Qed.
Lemma same_shape_parent n1 n2 : same_shape n1 n2 -> parent n1 = parent n2.
Proof. unfold same_shape, shape. congruence. Qed.

Lemma respects_same_shape s : respects same_shape s.
Proof.
  apply Forall_forall. intros c _ n1 n2 H. unfold same_shape, shape in H.
  injection H as Ht Hc Ha _ _. unfold compound_matches. by rewrite Ht, Hc, Ha.
Qed.

#[export] Instance querySelectorAll_Proper :
  Proper (shape_equiv ==> eq ==> eq) querySelectorAll.
Proof.
  intros d1 d2 H s ? <-.
  eapply agree_querySelectorAll; eauto using same_shape_children, same_shape_parent,
    respects_same_shape.
Qed.

#[export] Instance querySelector_Proper :
  Proper (shape_equiv ==> eq ==> eq) querySelector.
Proof.
  intros d1 d2 H s ? <-.
  eapply agree_querySelector; eauto using same_shape_children, same_shape_parent,
    respects_same_shape.
Qed.

#[export] Instance querySelector_from_Proper :
  Proper (shape_equiv ==> eq ==> eq ==> eq) querySelector_from.
Proof.
  intros d1 d2 H scope ? <- s ? <-. unfold querySelector_from. f_equal.
  eapply agree_querySelectorAll_from; eauto using same_shape_children, same_shape_parent,
    respects_same_shape.
Qed.

Lemma setText_shape_equiv d i s : shape_equiv (setText i s d) d.
Proof. apply update_agree; reflexivity. Qed.

(** Updating one node whose current value [f] keeps related. *)
Lemma update_agree_at R d i f :
  (forall n, R n n) -> (forall n, node_at d i = Some n -> R (f n) n) -> agree R (update i f d) d.
Proof.
  intros Hrefl Hf. split; [reflexivity|]. split; [apply size_alter|].
  intros j. destruct (decide (i = j)) as [->|Hne].
  - rewrite node_at_update_eq. destruct (node_at d j) eqn:E; constructor. by apply Hf.
  - rewrite node_at_update_ne by exact Hne. destruct (node_at d j); constructor. apply Hrefl.
Qed.

(** *** Forgetting one class *)
Definition same_but_class (c : string) (n1 n2 : node) : Prop :=
  tag n1 = tag n2 /\ attrs n1 = attrs n2 /\ children n1 = children n2 /\
  parent n1 = parent n2 /\ (forall k, k ≠ c -> (k ∈ classes n1 <-> k ∈ classes n2)).

Lemma same_but_class_refl c n : same_but_class c n n.
Proof. repeat split; auto. Qed.

(** A selector that never asks for class [c]. *)
Definition avoids (c : string) (s : selector) : Prop :=
  Forall (fun cp => c ∉ sel_classes cp) (compounds s).

Lemma respects_same_but_class c s : avoids c s -> respects (same_but_class c) s.
Proof.
  intros Hs. eapply Forall_impl; [exact Hs|]. intros cp Hc n1 n2 (Ht & Ha & _ & _ & Hk).
  unfold compound_matches. rewrite Ht, Ha. f_equal. f_equal.
  apply forallb_ext_in. intros k Hin. apply bool_decide_ext. apply Hk.
  intros ->. apply Hc. by apply list_elem_of_In.
Qed.

Lemma class_update_agree c d i f :
  (forall l k, k ≠ c -> (k ∈ f l <-> k ∈ l)) ->
  agree (same_but_class c) (update i (with_classes f) d) d.
Proof.
  intros Hf. apply update_agree; [apply same_but_class_refl|].
  intros n. repeat split; try reflexivity; apply Hf; auto.
Qed.

Lemma class_update_querySelectorAll c d i f s :
  (forall l k, k ≠ c -> (k ∈ f l <-> k ∈ l)) -> avoids c s ->
  querySelectorAll (update i (with_classes f) d) s = querySelectorAll d s.
Proof.
  intros Hf Hs. apply (agree_querySelectorAll (same_but_class c)).
  - intros n1 n2 (_ & _ & Hc & _). exact Hc.
  - intros n1 n2 (_ & _ & _ & Hp & _). exact Hp.
  - by apply class_update_agree.
  - by apply respects_same_but_class.
Qed.

Lemma class_update_querySelector c d i f s :
  (forall l k, k ≠ c -> (k ∈ f l <-> k ∈ l)) -> avoids c s ->
  querySelector (update i (with_classes f) d) s = querySelector d s.
Proof.
  intros Hf Hs.
  change (List.hd_error (querySelectorAll (update i (with_classes f) d) s) =
          List.hd_error (querySelectorAll d s)).
  by rewrite (class_update_querySelectorAll c).
Qed.

Lemma getAttribute_setText d i t j k :
  getAttribute (setText i t d) j k = getAttribute d j k.
Proof.
  unfold getAttribute, setText. destruct (decide (i = j)) as [->|Hne].
  - rewrite node_at_update_eq. by destruct (node_at d j).
  - by rewrite node_at_update_ne.
Qed.

(** A query only returns elements of the document. *)
Lemma matches_node d s i : matches d s i = true -> is_Some (node_at d i).
Proof.
  assert (forall c, node_matches d c i = true -> is_Some (node_at d i)) as Hn.
  { unfold node_matches. intros c. destruct (node_at d i); [by eauto|discriminate]. }
  destruct s; simpl; [apply Hn|..]; intros H; apply andb_prop in H as [H _]; eauto.
Qed.

Lemma querySelectorAll_node d s i :
  i ∈ querySelectorAll d s -> is_Some (node_at d i).
Proof.
  unfold querySelectorAll, querySelectorAll_from. intros H.
  apply list_elem_of_In, filter_In in H as [_ H]. exact (matches_node d s i H).
Qed.

Lemma avoids_by_attr c k v : avoids c (by_attr k v).
Proof. repeat constructor. set_solver. Qed.

Lemma avoids_by_class c k : c ≠ k -> avoids c (by_class k).
Proof. intros H. repeat constructor. set_solver. Qed.


(** The element [createElement] adds, as the store looks right after. *)
Lemma node_at_created t d :
  node_at (mkDom (<[next_id d := blank t]> (nodes d)) (S (next_id d))
                 (root_id d) (head_id d) (body_id d)) (next_id d) = Some (blank t).
Proof. unfold node_at. simpl. apply lookup_insert_eq. Qed.

Lemma node_at_created_ne t d j :
  j ≠ next_id d ->
  node_at (mkDom (<[next_id d := blank t]> (nodes d)) (S (next_id d))
                 (root_id d) (head_id d) (body_id d)) j = node_at d j.
Proof. intros H. unfold node_at. simpl. by apply lookup_insert_ne. Qed.


(** ** Siblings, clearing, and the freshness of handles *)

(** [el.nextSibling] (element children only: the generator's markup has
    no text node between the elements the code touches). *)
Fixpoint next_of (c : nat) (l : list nat) : option nat :=
  match l with
  | x :: ((y :: _) as l') => if decide (x = c) then Some y else next_of c l'
  | _ => None
  end.

Definition nextSibling (d : dom) (c : nat) : option nat :=
  p ← node_at d c ≫= parent; n ← node_at d p; next_of c (children n).

Definition parentNode (d : dom) (c : nat) : option nat := node_at d c ≫= parent.

(** [el.innerHTML = ""]: the children are detached and the text cleared. *)
Definition clear (i : nat) (d : dom) : dom :=
  match node_at d i with
  | Some n =>
      let d' := fold_left (fun d c => update c (with_parent None) d) (children n) d in
      update i (fun n => with_text "" (with_children (fun _ => []) n)) d'
  | None => d
  end.

(** Handles at or above [next_id] are free: [createElement] never
    overwrites an element. *)
Definition fresh (d : dom) : Prop := forall j, next_id d <= j -> node_at d j = None.

Lemma fresh_ne d i : fresh d -> is_Some (node_at d i) -> i ≠ next_id d.
Proof. intros Hf [n Hn] ->. rewrite (Hf (next_id d)) in Hn by lia. discriminate. Qed.

Lemma fresh_update d i f : fresh d -> fresh (update i f d).
Proof.
  intros Hf j Hj. unfold node_at, update, set_nodes. simpl.
  rewrite lookup_alter_None. apply Hf. exact Hj.
Qed.

Lemma fresh_created t d :
  fresh d -> fresh (mkDom (<[next_id d := blank t]> (nodes d)) (S (next_id d))
                          (root_id d) (head_id d) (body_id d)).
Proof.
  intros Hf j Hj. simpl in Hj. rewrite node_at_created_ne by lia. apply Hf. lia.
Qed.

(** [insert_before] puts the new node right before the first occurrence
    of the reference. *)
Lemma insert_before_app c r l1 l2 :
  r ∉ l1 -> insert_before c r (l1 ++ r :: l2) = l1 ++ c :: r :: l2.
Proof.
  induction l1 as [|x l1 IH]; intros Hr; simpl.
  - by rewrite decide_True.
  - rewrite decide_False by set_solver. f_equal. apply IH. set_solver.
Qed.

(** ** Children and parents after the tree mutations *)

Definition children_of (d : dom) (p : nat) : list nat :=
  from_option children [] (node_at d p).

Lemma children_of_update_ne d i j f : i ≠ j -> children_of (update i f d) j = children_of d j.
Proof. intros H. unfold children_of. by rewrite node_at_update_ne. Qed.

Lemma parentNode_update_ne d i j f : i ≠ j -> parentNode (update i f d) j = parentNode d j.
Proof. intros H. unfold parentNode. by rewrite node_at_update_ne. Qed.

Lemma children_of_with_parent d i j p : children_of (update i (with_parent p) d) j = children_of d j.
Proof.
  destruct (decide (i = j)) as [->|]; [|by apply children_of_update_ne].
  unfold children_of. rewrite node_at_update_eq. by destruct (node_at d j).
Qed.

Lemma parentNode_with_parent d i p :
  is_Some (node_at d i) -> parentNode (update i (with_parent p) d) i = p.
Proof. intros [n Hn]. unfold parentNode. by rewrite node_at_update_eq, Hn. Qed.

Lemma children_of_with_children d i f :
  is_Some (node_at d i) -> children_of (update i (with_children f) d) i = f (children_of d i).
Proof. intros [n Hn]. unfold children_of. by rewrite node_at_update_eq, Hn. Qed.

Lemma parentNode_with_children d i j f : parentNode (update i (with_children f) d) j = parentNode d j.
Proof.
  destruct (decide (i = j)) as [->|]; [|by apply parentNode_update_ne].
  unfold parentNode. rewrite node_at_update_eq. by destruct (node_at d j).
Qed.

(** [detach c] takes [c] out of its parent's list and nothing else. *)
Lemma children_of_detach d c q :
  children_of (detach c d) q =
    if decide (parentNode d c = Some q)
    then filter (fun j => j ≠ c) (children_of d q) else children_of d q.
Proof.
  unfold detach, parentNode. destruct (node_at d c) as [n|] eqn:Hc; cbn [mbind option_bind];
    [|by case_decide].
  rewrite children_of_with_parent. destruct (parent n) as [p|];
    [|by case_decide].
  destruct (decide (p = q)) as [->|Hne].
  - rewrite decide_True by reflexivity. unfold children_of.
    rewrite node_at_update_eq. by destruct (node_at d q).
  - rewrite decide_False by congruence. by apply children_of_update_ne.
Qed.

Lemma parentNode_detach d c : parentNode (detach c d) c = None.
Proof.
  unfold detach. destruct (node_at d c) as [n|] eqn:Hc.
  - apply parentNode_with_parent. destruct (parent n); [|by rewrite Hc].
    apply is_Some_node_at_update. by rewrite Hc.
  - unfold parentNode. by rewrite Hc.
Qed.

Lemma parentNode_detach_ne d c j : j ≠ c -> parentNode (detach c d) j = parentNode d j.
Proof.
  intros H. unfold detach. destruct (node_at d c) as [n|]; [|reflexivity].
  rewrite parentNode_update_ne by congruence.
  destruct (parent n); [apply parentNode_with_children|reflexivity].
Qed.

Lemma is_Some_detach d c j : is_Some (node_at (detach c d) j) <-> is_Some (node_at d j).
Proof.
  unfold detach. destruct (node_at d c) as [n|]; [|reflexivity].
  rewrite is_Some_node_at_update. destruct (parent n); [|reflexivity].
  apply is_Some_node_at_update.
Qed.

(** [attach_at p c place]: [c] leaves its old parent, [p]'s list is
    rearranged by [place], [c]'s parent is [p]. *)
Lemma children_of_attach_at d p c place :
  is_Some (node_at d p) ->
  children_of (attach_at p c place d) p = place (children_of (detach c d) p).
Proof.
  intros Hp. unfold attach_at. rewrite children_of_with_parent.
  apply children_of_with_children. by apply is_Some_detach.
Qed.

Lemma children_of_attach_at_ne d p c place q :
  q ≠ p -> children_of (attach_at p c place d) q = children_of (detach c d) q.
Proof.
  intros H. unfold attach_at. rewrite children_of_with_parent.
  by apply children_of_update_ne.
Qed.

Lemma parentNode_attach_at d p c place :
  is_Some (node_at d c) -> parentNode (attach_at p c place d) c = Some p.
Proof.
  intros Hc. unfold attach_at. apply parentNode_with_parent.
  apply is_Some_node_at_update. by apply is_Some_detach.
Qed.

Lemma parentNode_attach_at_ne d p c place j :
  j ≠ c -> parentNode (attach_at p c place d) j = parentNode d j.
Proof.
  intros H. unfold attach_at. rewrite parentNode_update_ne by congruence.
  rewrite parentNode_with_children. by apply parentNode_detach_ne.
Qed.

Lemma is_Some_attach_at d p c place j :
  is_Some (node_at (attach_at p c place d) j) <-> is_Some (node_at d j).
Proof. unfold attach_at. by rewrite !is_Some_node_at_update, is_Some_detach. Qed.

(** An element no list holds and without parent: freshly created. *)
Definition loose (d : dom) (c : nat) : Prop := parentNode d c = None.

Lemma children_of_detach_loose d c q : loose d c -> children_of (detach c d) q = children_of d q.
Proof. intros H. rewrite children_of_detach. unfold loose in H. by rewrite H, decide_False. Qed.

Lemma children_of_appendChild d p c :
  is_Some (node_at d p) -> children_of (appendChild p c d) p = children_of (detach c d) p ++ [c].
Proof. apply children_of_attach_at. Qed.

Lemma children_of_appendChild_loose d p c :
  is_Some (node_at d p) -> loose d c -> children_of (appendChild p c d) p = children_of d p ++ [c].
Proof. intros Hp Hc. rewrite children_of_appendChild by exact Hp. by rewrite children_of_detach_loose. Qed.

Lemma children_of_appendChild_ne_loose d p c q :
  q ≠ p -> loose d c -> children_of (appendChild p c d) q = children_of d q.
Proof. intros Hq Hc. unfold appendChild. rewrite children_of_attach_at_ne by exact Hq. by apply children_of_detach_loose. Qed.

Lemma children_of_insertBefore d p c r :
  is_Some (node_at d p) ->
  children_of (insertBefore p c (Some r) d) p = insert_before c r (children_of (detach c d) p).
Proof. apply children_of_attach_at. Qed.

(** Updates that keep a field keep what the field tells. *)
Lemma parentNode_update_keep d i j f :
  (forall n, parent (f n) = parent n) -> parentNode (update i f d) j = parentNode d j.
Proof.
  intros Hf. destruct (decide (i = j)) as [->|]; [|by apply parentNode_update_ne].
  unfold parentNode. rewrite node_at_update_eq. destruct (node_at d j); simpl; [apply Hf|reflexivity].
Qed.

Definition text_of (d : dom) (i : nat) : option string := text <$> node_at d i.

Lemma text_of_update_keep d i j f :
  (forall n, text (f n) = text n) -> text_of (update i f d) j = text_of d j.
Proof.
  intros Hf. unfold text_of. destruct (decide (i = j)) as [->|].
  - rewrite node_at_update_eq. destruct (node_at d j); simpl; [by rewrite Hf|reflexivity].
  - by rewrite node_at_update_ne.
Qed.

Lemma text_of_setText d i t : is_Some (node_at d i) -> text_of (setText i t d) i = Some t.
Proof. intros [n Hn]. unfold text_of, setText. by rewrite node_at_update_eq, Hn. Qed.

Lemma text_of_setText_ne d i j t : i ≠ j -> text_of (setText i t d) j = text_of d j.
Proof. intros H. unfold text_of, setText. by rewrite node_at_update_ne. Qed.

Lemma text_of_detach d c j : text_of (detach c d) j = text_of d j.
Proof.
  unfold detach. destruct (node_at d c) as [n|]; [|reflexivity].
  rewrite text_of_update_keep by reflexivity.
  destruct (parent n); [by apply text_of_update_keep|reflexivity].
Qed.

Lemma text_of_attach_at d p c place j : text_of (attach_at p c place d) j = text_of d j.
Proof.
  unfold attach_at. rewrite !text_of_update_keep by reflexivity. apply text_of_detach.
Qed.

(** [clear] through the loop that detaches the children. *)
Definition unparent_all (l : list nat) (d : dom) : dom :=
  fold_left (fun d c => update c (with_parent None) d) l d.

Lemma unparent_all_children l d q : children_of (unparent_all l d) q = children_of d q.
Proof.
  revert d. induction l as [|c l IH]; intros d; [reflexivity|].
  simpl. rewrite IH. apply children_of_with_parent.
Qed.

Lemma unparent_all_parent_notin l d j : j ∉ l -> parentNode (unparent_all l d) j = parentNode d j.
Proof.
  revert d. induction l as [|c l IH]; intros d Hj; [reflexivity|].
  simpl. rewrite IH by set_solver. apply parentNode_update_ne. set_solver.
Qed.

Lemma unparent_all_is_Some l d j : is_Some (node_at (unparent_all l d) j) <-> is_Some (node_at d j).
Proof.
  revert d. induction l as [|c l IH]; intros d; [reflexivity|].
  simpl. rewrite IH. apply is_Some_node_at_update.
Qed.

Lemma unparent_all_parent_in l d j :
  j ∈ l -> is_Some (node_at d j) -> parentNode (unparent_all l d) j = None.
Proof.
  revert d. induction l as [|c l IH]; intros d Hj Hs; [set_solver|]. simpl.
  destruct (decide (j ∈ l)) as [Hin|Hout].
  - apply IH; [exact Hin|]. by apply is_Some_node_at_update.
  - apply elem_of_cons in Hj as [->|]; [|done].
    rewrite unparent_all_parent_notin by exact Hout. by apply parentNode_with_parent.
Qed.

Lemma unparent_all_text l d j : text_of (unparent_all l d) j = text_of d j.
Proof.
  revert d. induction l as [|c l IH]; intros d; [reflexivity|].
  simpl. rewrite IH. by apply text_of_update_keep.
Qed.

Lemma clear_unfold d i n :
  node_at d i = Some n ->
  clear i d = update i (fun n => with_text "" (with_children (fun _ => []) n))
                       (unparent_all (children n) d).
Proof. intros Hn. unfold clear. by rewrite Hn. Qed.

Lemma children_of_clear d i : is_Some (node_at d i) -> children_of (clear i d) i = [].
Proof.
  intros [n Hn]. rewrite (clear_unfold d i n Hn). unfold children_of. rewrite node_at_update_eq.
  destruct (unparent_all_is_Some (children n) d i) as [_ [m ->]]; [by rewrite Hn|reflexivity].
Qed.

Lemma children_of_clear_ne d i q : q ≠ i -> children_of (clear i d) q = children_of d q.
Proof.
  intros H. unfold clear. destruct (node_at d i) as [n|]; [|reflexivity].
  rewrite children_of_update_ne by congruence. apply unparent_all_children.
Qed.

Lemma parentNode_clear_in d i j :
  j ∈ children_of d i -> is_Some (node_at d j) -> parentNode (clear i d) j = None.
Proof.
  intros Hj Hs. unfold children_of in Hj. destruct (node_at d i) as [n|] eqn:Hn; [|set_solver].
  rewrite (clear_unfold d i n Hn), parentNode_update_keep by reflexivity.
  by apply unparent_all_parent_in.
Qed.

Lemma parentNode_clear_notin d i j :
  j ∉ children_of d i -> parentNode (clear i d) j = parentNode d j.
Proof.
  intros Hj. unfold children_of in Hj. unfold clear. destruct (node_at d i) as [n|]; [|reflexivity].
  rewrite parentNode_update_keep by reflexivity. by apply unparent_all_parent_notin.
Qed.

Lemma text_of_clear_ne d i j : i ≠ j -> text_of (clear i d) j = text_of d j.
Proof.
  intros H. unfold clear. destruct (node_at d i); [|reflexivity].
  unfold text_of at 1. rewrite node_at_update_ne by exact H.
  apply unparent_all_text.
Qed.

(** Clearing an element without children only empties its text. *)
Lemma clear_childless_shape_equiv d i : children_of d i = [] -> shape_equiv (clear i d) d.
Proof.
  intros Hc. unfold children_of in Hc. unfold clear.
  destruct (node_at d i) as [n|] eqn:Hn; [|reflexivity]. simpl in Hc. rewrite Hc.
  apply update_agree_at; [reflexivity|]. intros m Hm. simpl in Hm.
  rewrite Hn in Hm. injection Hm as <-. unfold same_shape, shape. simpl. by rewrite Hc.
Qed.

Lemma children_of_detach_notin d c q :
  c ∉ children_of d q -> children_of (detach c d) q = children_of d q.
Proof. intros H. rewrite children_of_detach. case_decide; [|reflexivity]. by apply filter_neq_absent. Qed.

Lemma is_Some_clear d i j : is_Some (node_at (clear i d) j) <-> is_Some (node_at d j).
Proof.
  unfold clear. destruct (node_at d i); [|reflexivity].
  by rewrite is_Some_node_at_update, unparent_all_is_Some.
Qed.

Lemma is_Some_setText d i t j : is_Some (node_at (setText i t d) j) <-> is_Some (node_at d j).
Proof. apply is_Some_node_at_update. Qed.

(** [el.textContent = t] as the code uses it: [clear] then [setText]. *)
Lemma text_of_textContent d i t :
  is_Some (node_at d i) -> text_of (setText i t (clear i d)) i = Some t.
Proof. intros H. apply text_of_setText. by apply is_Some_clear. Qed.

Lemma children_of_textContent d i t : is_Some (node_at d i) -> children_of (setText i t (clear i d)) i = [].
Proof.
  intros H. unfold setText. rewrite <- (children_of_clear d i H).
  destruct (is_Some_clear d i i) as [_ [n Hn]]; [exact H|].
  unfold children_of. by rewrite node_at_update_eq, Hn.
Qed.

(** The appendChild laws. *)
Lemma children_of_appendChild_ne d p c q :
  q ≠ p -> children_of (appendChild p c d) q = children_of (detach c d) q.
Proof. apply children_of_attach_at_ne. Qed.

Lemma parentNode_appendChild d p c : is_Some (node_at d c) -> parentNode (appendChild p c d) c = Some p.
Proof. apply parentNode_attach_at. Qed.

Lemma parentNode_appendChild_ne d p c j : j ≠ c -> parentNode (appendChild p c d) j = parentNode d j.
Proof. apply parentNode_attach_at_ne. Qed.

Lemma text_of_appendChild d p c j : text_of (appendChild p c d) j = text_of d j.
Proof. apply text_of_attach_at. Qed.

Lemma is_Some_appendChild d p c j : is_Some (node_at (appendChild p c d) j) <-> is_Some (node_at d j).
Proof. apply is_Some_attach_at. Qed.

(** A query below any scope returns elements of the document. *)
Lemma querySelector_from_Some_node d scope s i :
  querySelector_from d scope s = Some i -> is_Some (node_at d i).
Proof.
  unfold querySelector_from, querySelectorAll_from. intros H. apply (matches_node d s).
  destruct (List.filter (matches d s) _) as [|j l] eqn:E; [discriminate|].
  injection H as ->. assert (In i (List.filter (matches d s) (descendants d scope)))
    as Hin by (rewrite E; left; reflexivity).
  apply filter_In in Hin. apply Hin.
Qed.

(** ** The document right after [createElement] *)
Definition created (t : string) (d : dom) : dom := snd (createElement t d).

Lemma createElement_created t d : createElement t d = (next_id d, created t d).
Proof. reflexivity. Qed.

Lemma node_at_created_self t d : node_at (created t d) (next_id d) = Some (blank t).
Proof. apply node_at_created. Qed.

Lemma node_at_created_other t d j : j ≠ next_id d -> node_at (created t d) j = node_at d j.
Proof. apply node_at_created_ne. Qed.

Lemma is_Some_created t d j : is_Some (node_at d j) -> is_Some (node_at (created t d) j).
Proof.
  intros H. destruct (decide (j = next_id d)) as [->|].
  - rewrite node_at_created_self. by eexists.
  - by rewrite node_at_created_other.
Qed.

Lemma children_of_created t d j : j ≠ next_id d -> children_of (created t d) j = children_of d j.
Proof. intros H. unfold children_of. by rewrite node_at_created_other. Qed.

Lemma children_of_created_self t d j : j = next_id d -> children_of (created t d) j = [].
Proof. intros ->. unfold children_of. by rewrite node_at_created_self. Qed.

Lemma parentNode_created t d j : j ≠ next_id d -> parentNode (created t d) j = parentNode d j.
Proof. intros H. unfold parentNode. by rewrite node_at_created_other. Qed.

Lemma parentNode_created_self t d j : j = next_id d -> parentNode (created t d) j = None.
Proof. intros ->. unfold parentNode. by rewrite node_at_created_self. Qed.

Lemma is_Some_created_self t d j : j = next_id d -> is_Some (node_at (created t d) j).
Proof. intros ->. rewrite node_at_created_self. by eexists. Qed.

Lemma text_of_created t d j : j ≠ next_id d -> text_of (created t d) j = text_of d j.
Proof. intros H. unfold text_of. by rewrite node_at_created_other. Qed.

(** The mutations keep the handles of the document. *)
Lemma next_id_update d i f : next_id (update i f d) = next_id d.
Proof. reflexivity. Qed.
Lemma next_id_detach d c : next_id (detach c d) = next_id d.
Proof. unfold detach. by repeat case_match. Qed.
Lemma next_id_attach_at d p c place : next_id (attach_at p c place d) = next_id d.
Proof. apply next_id_detach. Qed.
Lemma next_id_unparent_all l d : next_id (unparent_all l d) = next_id d.
Proof.
  revert d. induction l as [|c l IH]; intros d; [reflexivity|].
  unfold unparent_all in *. simpl. by rewrite IH.
Qed.
Lemma next_id_clear d i : next_id (clear i d) = next_id d.
Proof.
  unfold clear. case_match; [|reflexivity]. apply next_id_unparent_all.
Qed.
Lemma next_id_created t d : next_id (created t d) = S (next_id d).
Proof. reflexivity. Qed.

(** Node-local effects of [setText] and [clear] on the other projections. *)
Lemma parentNode_setText d i t j : parentNode (setText i t d) j = parentNode d j.
Proof. by apply parentNode_update_keep. Qed.

Lemma children_of_setText d i t j : children_of (setText i t d) j = children_of d j.
Proof.
  destruct (decide (i = j)) as [->|]; [|by apply children_of_update_ne].
  unfold children_of, setText. rewrite node_at_update_eq. by destruct (node_at d j).
Qed.

Lemma parentNode_clear_childless d i j : children_of d i = [] -> parentNode (clear i d) j = parentNode d j.
Proof. intros H. apply parentNode_clear_notin. rewrite H. set_solver. Qed.

Lemma next_id_appendChild d p c : next_id (appendChild p c d) = next_id d.
Proof. apply next_id_attach_at. Qed.
Lemma next_id_prepend d p c : next_id (prepend p c d) = next_id d.
Proof. apply next_id_attach_at. Qed.
Lemma next_id_insertBefore d p c r : next_id (insertBefore p c r d) = next_id d.
Proof. destruct r; apply next_id_attach_at. Qed.
Lemma next_id_setText d i t : next_id (setText i t d) = next_id d.
Proof. reflexivity. Qed.
Lemma next_id_setAttribute d i k v : next_id (setAttribute i k v d) = next_id d.
Proof. reflexivity. Qed.
Lemma next_id_classList_add d i c : next_id (classList_add i c d) = next_id d.
Proof. reflexivity. Qed.

(** ** Well-formed documents

    Handles of the store are below [next_id]; a node's children are
    distinct and point back to it; a node's parent lists it. *)
Definition wf_node (d : dom) (i : nat) (n : node) : Prop :=
  i < next_id d /\ NoDup (children n) /\
  Forall (fun c => parentNode d c = Some i) (children n) /\
  match parent n with Some p => i ∈ children_of d p | None => True end.

#[global] Instance wf_node_dec d i n : Decision (wf_node d i n).
Proof. unfold wf_node. destruct (parent n); apply _. Defined.

Definition wf (d : dom) : Prop := map_Forall (wf_node d) (nodes d).

#[global] Instance wf_dec d : Decision (wf d).
Proof. unfold wf. apply _. Defined.

Section WellFormed.
Context (d : dom) (Hwf : wf d).

Lemma wf_at i n : node_at d i = Some n -> wf_node d i n.
Proof. intros H. exact (map_Forall_lookup_1 _ _ _ _ Hwf H). Qed.

Lemma wf_fresh : fresh d.
Proof.
  intros j Hj. destruct (node_at d j) as [n|] eqn:E; [|reflexivity].
  destruct (wf_at j n E) as [Hlt _]. lia.
Qed.

Lemma wf_children_NoDup p : NoDup (children_of d p).
Proof.
  unfold children_of. destruct (node_at d p) as [n|] eqn:E; simpl; [|constructor].
  apply (wf_at p n E).
Qed.

Lemma wf_child_parent p c : c ∈ children_of d p -> parentNode d c = Some p.
Proof.
  unfold children_of. destruct (node_at d p) as [n|] eqn:E; simpl; [|set_solver].
  intros Hc. destruct (wf_at p n E) as (_ & _ & Hall & _).
  rewrite Forall_forall in Hall. exact (Hall c Hc).
Qed.

Lemma wf_parent_child c p : parentNode d c = Some p -> c ∈ children_of d p.
Proof.
  unfold parentNode. destruct (node_at d c) as [n|] eqn:E; simpl; [|discriminate].
  intros Hp. destruct (wf_at c n E) as (_ & _ & _ & Hc). by rewrite Hp in Hc.
Qed.

Lemma parentNode_is_Some c p : parentNode d c = Some p -> is_Some (node_at d c).
Proof. unfold parentNode. destruct (node_at d c); [by eexists|discriminate]. Qed.

Lemma wf_child_node p c : c ∈ children_of d p -> is_Some (node_at d c).
Proof. intros H. eapply parentNode_is_Some, wf_child_parent, H. Qed.

(** A child splits its parent's list around its only occurrence. *)
Lemma wf_child_split c p :
  parentNode d c = Some p ->
  exists l1 l2, children_of d p = l1 ++ c :: l2 /\ NoDup (l1 ++ c :: l2).
Proof.
  intros Hp. apply wf_parent_child in Hp as Hin.
  apply list_elem_of_split in Hin as (l1 & l2 & Hl).
  exists l1, l2. split; [exact Hl|]. rewrite <- Hl. apply wf_children_NoDup.
Qed.
Lemma wf_next_not_child p : next_id d ∉ children_of d p.
Proof.
  intros H. apply wf_child_node in H as [n Hn].
  rewrite (wf_fresh (next_id d)) in Hn by lia. discriminate.
Qed.
End WellFormed.

Lemma children_of_is_Some d p c : c ∈ children_of d p -> is_Some (node_at d p).
Proof. unfold children_of. destruct (node_at d p); simpl; [by eexists|set_solver]. Qed.

(** [nextSibling] through the parent's list of children. *)
Lemma nextSibling_eq d c :
  nextSibling d c = p ← parentNode d c; next_of c (children_of d p).
Proof.
  unfold nextSibling, parentNode, children_of.
  destruct (node_at d c ≫= parent) as [p|]; simpl; [|reflexivity].
  by destruct (node_at d p).
Qed.

Lemma next_of_app c l1 l2 : c ∉ l1 -> next_of c (l1 ++ c :: l2) = List.hd_error l2.
Proof.
  induction l1 as [|x l1 IH]; intros Hc.
  - simpl. destruct l2; [reflexivity|]. by case_decide.
  - rewrite <- IH by set_solver.
    destruct l1; simpl; (case_decide; [set_solver|reflexivity]).
Qed.

(** Inserting right after [c], before its next sibling. *)
Lemma insert_before_after l1 c x l2 n :
  NoDup (l1 ++ c :: x :: l2) -> insert_before n x (l1 ++ c :: x :: l2) = l1 ++ c :: n :: x :: l2.
Proof.
  intros Hnd.
  assert (NoDup ((l1 ++ [c]) ++ x :: l2)) as Hnd' by (by rewrite <- app_assoc).
  apply NoDup_app in Hnd' as (_ & Hd & _).
  replace (l1 ++ c :: x :: l2) with ((l1 ++ [c]) ++ x :: l2) by (by rewrite <- app_assoc).
  rewrite insert_before_app; [by rewrite <- app_assoc|].
  intros Hx. apply (Hd x Hx). set_solver.
Qed.

(** Class and attribute updates keep the tree and the text. *)
Lemma children_of_update_keep d i j f :
  (forall n, children (f n) = children n) -> children_of (update i f d) j = children_of d j.
Proof.
  intros Hf. destruct (decide (i = j)) as [->|]; [|by apply children_of_update_ne].
  unfold children_of. rewrite node_at_update_eq. destruct (node_at d j); simpl; [apply Hf|reflexivity].
Qed.

Lemma has_class_add d i c : is_Some (node_at d i) -> has_class (classList_add i c d) i c = true.
Proof.
  intros [n Hn]. unfold has_class, classList_add. rewrite node_at_update_eq, Hn. simpl.
  apply ClassList.contains_true, ClassList.elem_of_add. by left.
Qed.

Lemma has_class_add_other d i c c' : c' ≠ c -> has_class (classList_add i c d) i c' = has_class d i c'.
Proof.
  intros H. unfold has_class, classList_add. rewrite node_at_update_eq.
  destruct (node_at d i); simpl; [|reflexivity]. apply bool_decide_ext.
  rewrite ClassList.elem_of_add. intuition congruence.
Qed.

Lemma has_class_remove d i c : has_class (classList_remove i c d) i c = false.
Proof.
  unfold has_class, classList_remove. rewrite node_at_update_eq.
  destruct (node_at d i); simpl; [|reflexivity]. apply ClassList.contains_false.
  rewrite ClassList.elem_of_remove. tauto.
Qed.

Lemma has_class_remove_other d i c c' :
  c' ≠ c -> has_class (classList_remove i c d) i c' = has_class d i c'.
Proof.
  intros H. unfold has_class, classList_remove. rewrite node_at_update_eq.
  destruct (node_at d i); simpl; [|reflexivity]. apply bool_decide_ext.
  rewrite ClassList.elem_of_remove. intuition congruence.
Qed.

(** The tree projections of class and attribute updates. *)
Lemma children_of_classList_add d i c j : children_of (classList_add i c d) j = children_of d j.
Proof. by apply children_of_update_keep. Qed.
Lemma children_of_classList_remove d i c j : children_of (classList_remove i c d) j = children_of d j.
Proof. by apply children_of_update_keep. Qed.
Lemma children_of_setAttribute d i k v j : children_of (setAttribute i k v d) j = children_of d j.
Proof. by apply children_of_update_keep. Qed.
Lemma parentNode_classList_add d i c j : parentNode (classList_add i c d) j = parentNode d j.
Proof. by apply parentNode_update_keep. Qed.
Lemma parentNode_classList_remove d i c j : parentNode (classList_remove i c d) j = parentNode d j.
Proof. by apply parentNode_update_keep. Qed.
Lemma parentNode_setAttribute d i k v j : parentNode (setAttribute i k v d) j = parentNode d j.
Proof. by apply parentNode_update_keep. Qed.
Lemma text_of_classList_add d i c j : text_of (classList_add i c d) j = text_of d j.
Proof. by apply text_of_update_keep. Qed.
Lemma text_of_setAttribute d i k v j : text_of (setAttribute i k v d) j = text_of d j.
Proof. by apply text_of_update_keep. Qed.

(** ** What the tree mutations keep: tag, classes and attributes *)
Definition look (d : dom) (j : nat) : option (string * list string * gmap string string) :=
  (fun n => (tag n, classes n, attrs n)) <$> node_at d j.

Lemma look_update_keep d i j f :
  (forall n, tag (f n) = tag n /\ classes (f n) = classes n /\ attrs (f n) = attrs n) ->
  look (update i f d) j = look d j.
Proof.
  intros Hf. unfold look. destruct (decide (i = j)) as [->|].
  - rewrite node_at_update_eq. destruct (node_at d j) as [n|]; simpl; [|reflexivity].
    destruct (Hf n) as (-> & -> & ->). reflexivity.
  - by rewrite node_at_update_ne.
Qed.

Lemma look_detach d c j : look (detach c d) j = look d j.
Proof.
  unfold detach. destruct (node_at d c) as [n|]; [|reflexivity].
  rewrite look_update_keep by done. destruct (parent n); [|reflexivity].
  by apply look_update_keep.
Qed.

Lemma look_attach_at d p c place j : look (attach_at p c place d) j = look d j.
Proof. unfold attach_at. rewrite !look_update_keep by done. apply look_detach. Qed.

Lemma look_unparent_all l d j : look (unparent_all l d) j = look d j.
Proof.
  revert d. induction l as [|c l IH]; intros d; [reflexivity|].
  unfold unparent_all in *. simpl. rewrite IH. by apply look_update_keep.
Qed.

Lemma look_clear d i j : look (clear i d) j = look d j.
Proof.
  unfold clear. destruct (node_at d i); [|reflexivity].
  rewrite look_update_keep by done. apply look_unparent_all.
Qed.

Lemma look_setText d i t j : look (setText i t d) j = look d j.
Proof. by apply look_update_keep. Qed.

Lemma has_class_look d1 d2 j c : look d1 j = look d2 j -> has_class d1 j c = has_class d2 j c.
Proof.
  unfold look, has_class. destruct (node_at d1 j), (node_at d2 j); simpl; try discriminate; [|done].
  intros [= _ -> _]. reflexivity.
Qed.

Lemma getAttribute_look d1 d2 j k : look d1 j = look d2 j -> getAttribute d1 j k = getAttribute d2 j k.
Proof.
  unfold look, getAttribute. destruct (node_at d1 j), (node_at d2 j); simpl; try discriminate; [|done].
  intros [= _ _ ->]. reflexivity.
Qed.

Lemma look_created d t j : j ≠ next_id d -> look (created t d) j = look d j.
Proof. intros H. unfold look. by rewrite node_at_created_other. Qed.

Lemma getAttribute_node_at d1 d2 j k :
  node_at d1 j = node_at d2 j -> getAttribute d1 j k = getAttribute d2 j k.
Proof. unfold getAttribute. by intros ->. Qed.

Lemma parentNode_node_at d1 d2 j : node_at d1 j = node_at d2 j -> parentNode d1 j = parentNode d2 j.
Proof. unfold parentNode. by intros ->. Qed.

Lemma is_Some_look d j : is_Some (look d j) <-> is_Some (node_at d j).
Proof. apply fmap_is_Some. Qed.

Lemma look_created_self d t : look (created t d) (next_id d) = Some (t, [], ∅).
Proof. unfold look. by rewrite node_at_created_self. Qed.

Lemma look_appendChild d p c j : look (appendChild p c d) j = look d j.
Proof. apply look_attach_at. Qed.

Lemma look_prepend d p c j : look (prepend p c d) j = look d j.
Proof. apply look_attach_at. Qed.

Lemma node_at_setAttribute_ne d i k v j : i ≠ j -> node_at (setAttribute i k v d) j = node_at d j.
Proof. apply node_at_update_ne. Qed.
Lemma node_at_classList_add_ne d i c j : i ≠ j -> node_at (classList_add i c d) j = node_at d j.
Proof. apply node_at_update_ne. Qed.
Lemma node_at_setText_ne d i t j : i ≠ j -> node_at (setText i t d) j = node_at d j.
Proof. apply node_at_update_ne. Qed.

Lemma look_setAttribute_ne d i k v j : i ≠ j -> look (setAttribute i k v d) j = look d j.
Proof. intros H. unfold look, setAttribute. by rewrite node_at_update_ne. Qed.

Lemma look_classList_add_ne d i c j : i ≠ j -> look (classList_add i c d) j = look d j.
Proof. intros H. unfold look, classList_add. by rewrite node_at_update_ne. Qed.

Lemma look_classList_add d i c :
  look (classList_add i c d) i = (fun '(t, cl, a) => (t, ClassList.add c cl, a)) <$> look d i.
Proof. unfold look, classList_add. rewrite node_at_update_eq. by destruct (node_at d i). Qed.

(** [p.prepend(c)] on the projections. *)
Lemma children_of_prepend d p c :
  is_Some (node_at d p) -> children_of (prepend p c d) p = c :: children_of (detach c d) p.
Proof. apply children_of_attach_at. Qed.

Lemma children_of_prepend_ne d p c q :
  q ≠ p -> children_of (prepend p c d) q = children_of (detach c d) q.
Proof. apply children_of_attach_at_ne. Qed.

Lemma parentNode_prepend d p c : is_Some (node_at d c) -> parentNode (prepend p c d) c = Some p.
Proof. apply parentNode_attach_at. Qed.

Lemma parentNode_prepend_ne d p c j : j ≠ c -> parentNode (prepend p c d) j = parentNode d j.
Proof. apply parentNode_attach_at_ne. Qed.

Lemma is_Some_prepend d p c j : is_Some (node_at (prepend p c d) j) <-> is_Some (node_at d j).
Proof. apply is_Some_attach_at. Qed.

(** [insertBefore] and [el.remove()] on the projections. *)
Lemma insertBefore_None p c d : insertBefore p c None d = appendChild p c d.
Proof. reflexivity. Qed.

Lemma parentNode_insertBefore d p c r :
  is_Some (node_at d c) -> parentNode (insertBefore p c (Some r) d) c = Some p.
Proof. apply parentNode_attach_at. Qed.

Lemma has_class_appendChild d p c j k : has_class (appendChild p c d) j k = has_class d j k.
Proof. apply has_class_look, look_attach_at. Qed.
Lemma has_class_insertBefore d p c r j k : has_class (insertBefore p c r d) j k = has_class d j k.
Proof. apply has_class_look. destruct r; apply look_attach_at. Qed.
Lemma has_class_setText d i t j k : has_class (setText i t d) j k = has_class d j k.
Proof. apply has_class_look, look_setText. Qed.
Lemma has_class_clear d i j k : has_class (clear i d) j k = has_class d j k.
Proof. apply has_class_look, look_clear. Qed.
Lemma text_of_insertBefore d p c r j : text_of (insertBefore p c r d) j = text_of d j.
Proof. destruct r; apply text_of_attach_at. Qed.
Lemma getAttribute_appendChild d p c j k : getAttribute (appendChild p c d) j k = getAttribute d j k.
Proof. apply getAttribute_look, look_attach_at. Qed.

(** A class query is blind to updates of another class. *)
Lemma querySelector_classList_add d i c k :
  c ≠ k -> querySelector (classList_add i c d) (by_class k) = querySelector d (by_class k).
Proof.
  intros H. apply (class_update_querySelector c); [|by apply avoids_by_class].
  intros l k' Hk. rewrite ClassList.elem_of_add. intuition congruence.
Qed.

Lemma querySelector_classList_remove d i c k :
  c ≠ k -> querySelector (classList_remove i c d) (by_class k) = querySelector d (by_class k).
Proof.
  intros H. apply (class_update_querySelector c); [|by apply avoids_by_class].
  intros l k' Hk. rewrite ClassList.elem_of_remove. intuition congruence.
Qed.

Lemma head_id_update d i f : head_id (update i f d) = head_id d.
Proof. reflexivity. Qed.
Lemma head_id_created t d : head_id (created t d) = head_id d.
Proof. reflexivity. Qed.
Lemma head_id_setAttribute d i k v : head_id (setAttribute i k v d) = head_id d.
Proof. reflexivity. Qed.

Lemma has_class_setAttribute d i k v j c : has_class (setAttribute i k v d) j c = has_class d j c.
Proof.
  unfold has_class, setAttribute. destruct (decide (i = j)) as [->|Hne].
  - rewrite node_at_update_eq. by destruct (node_at d j).
  - by rewrite node_at_update_ne.
Qed.

Lemma has_class_add_ne d i j c k : i ≠ j -> has_class (classList_add i c d) j k = has_class d j k.
Proof. apply has_class_update_ne. Qed.
Lemma has_class_remove_ne d i j c k : i ≠ j -> has_class (classList_remove i c d) j k = has_class d j k.
Proof. apply has_class_update_ne. Qed.

Lemma parentNode_absent d j : ~ is_Some (node_at d j) -> parentNode d j = None.
Proof. unfold parentNode. destruct (node_at d j); [intros H; by destruct H|reflexivity]. Qed.

(** ** Moving several nodes: [bodyDivs.forEach(div => div.remove())]
    and [bodyDivs.forEach(div => wrapperDiv.appendChild(div))] *)
Definition detach_all (l : list nat) (d : dom) : dom := fold_left (fun d x => detach x d) l d.
Definition append_all (p : nat) (l : list nat) (d : dom) : dom :=
  fold_left (fun d x => appendChild p x d) l d.

Lemma children_of_detach_all l d q :
  NoDup l -> (forall x, x ∈ l -> parentNode d x = Some q) ->
  children_of (detach_all l d) q = filter (fun j => j ∉ l) (children_of d q).
Proof.
  revert d. induction l as [|x l IH]; intros d Hnd Hp; simpl.
  - induction (children_of d q) as [|c l IH]; [done|].
    rewrite filter_cons_True by set_solver. by f_equal.
  - apply NoDup_cons in Hnd as [Hx Hnd]. unfold detach_all in IH. rewrite IH; [|done|].
    + rewrite children_of_detach, (Hp x) by set_solver. case_decide; [|congruence].
      rewrite list_filter_filter. apply list_filter_iff. intros j. set_solver.
    + intros y Hy. rewrite parentNode_detach_ne by set_solver. apply Hp. set_solver.
Qed.

Lemma parentNode_detach_all_notin l d j : j ∉ l -> parentNode (detach_all l d) j = parentNode d j.
Proof.
  revert d. induction l as [|x l IH]; intros d Hj; [reflexivity|].
  change (parentNode (detach_all l (detach x d)) j = parentNode d j).
  rewrite IH by set_solver. apply parentNode_detach_ne. set_solver.
Qed.

Lemma parentNode_detach_all l d j : j ∈ l -> parentNode (detach_all l d) j = None.
Proof.
  revert d. induction l as [|x l IH]; intros d Hj; [set_solver|].
  change (parentNode (detach_all l (detach x d)) j = None).
  destruct (decide (j ∈ l)) as [Hin|Hout]; [by apply IH|].
  rewrite parentNode_detach_all_notin by done.
  apply elem_of_cons in Hj as [->|]; [apply parentNode_detach|done].
Qed.

Lemma children_of_detach_all_other l d q :
  (forall x, x ∈ l -> parentNode d x ≠ Some q) ->
  children_of (detach_all l d) q = children_of d q.
Proof.
  revert d. induction l as [|x l IH]; intros d Hp; [reflexivity|]. simpl.
  unfold detach_all in IH. rewrite IH.
  - rewrite children_of_detach. case_decide as Hd; [|done]. exfalso. revert Hd. apply Hp. set_solver.
  - intros y Hy. destruct (decide (y = x)) as [->|Hne].
    + by rewrite parentNode_detach.
    + rewrite parentNode_detach_ne by exact Hne. apply Hp. set_solver.
Qed.

Lemma is_Some_detach_all l d j : is_Some (node_at (detach_all l d) j) <-> is_Some (node_at d j).
Proof.
  revert d. induction l as [|x l IH]; intros d; [reflexivity|]. simpl.
  unfold detach_all in IH. by rewrite IH, is_Some_detach.
Qed.

Lemma next_id_detach_all l d : next_id (detach_all l d) = next_id d.
Proof.
  revert d. induction l as [|x l IH]; intros d; [reflexivity|]. simpl.
  unfold detach_all in IH. by rewrite IH, next_id_detach.
Qed.

Lemma body_id_detach_all l d : body_id (detach_all l d) = body_id d.
Proof.
  revert d. induction l as [|x l IH]; intros d; [reflexivity|]. simpl.
  unfold detach_all in IH. rewrite IH. unfold detach. by repeat case_match.
Qed.

(** Appending loose nodes one after the other lists them in order. *)
Lemma children_of_append_all p l d :
  is_Some (node_at d p) -> NoDup l -> p ∉ l ->
  (forall x, x ∈ l -> parentNode d x = None /\ x ∉ children_of d p) ->
  children_of (append_all p l d) p = children_of d p ++ l.
Proof.
  revert d. induction l as [|x l IH]; intros d Sp Hnd Hpl Hl; [by rewrite app_nil_r|].
  change (children_of (append_all p l (appendChild p x d)) p = children_of d p ++ x :: l).
  apply NoDup_cons in Hnd as [Hx Hnd]. destruct (Hl x ltac:(set_solver)) as [Hpx Hcx].
  rewrite IH.
  - rewrite children_of_appendChild, children_of_detach_notin, <- app_assoc by done. reflexivity.
  - by apply is_Some_appendChild.
  - done.
  - set_solver.
  - intros y Hy. destruct (Hl y ltac:(set_solver)) as [Hpy Hcy]. split.
    + rewrite parentNode_appendChild_ne by set_solver. exact Hpy.
    + rewrite children_of_appendChild, children_of_detach_notin by done. set_solver.
Qed.

Lemma parentNode_append_all_notin p l d j :
  j ∉ l -> parentNode (append_all p l d) j = parentNode d j.
Proof.
  revert d. induction l as [|x l IH]; intros d Hj; [reflexivity|].
  change (parentNode (append_all p l (appendChild p x d)) j = parentNode d j).
  rewrite IH by set_solver. apply parentNode_appendChild_ne. set_solver.
Qed.

Lemma parentNode_append_all p l d j :
  j ∈ l -> is_Some (node_at d j) -> parentNode (append_all p l d) j = Some p.
Proof.
  revert d. induction l as [|x l IH]; intros d Hj Sj; [set_solver|].
  change (parentNode (append_all p l (appendChild p x d)) j = Some p).
  destruct (decide (j ∈ l)) as [Hin|Hout].
  - apply IH; [done|]. by apply is_Some_appendChild.
  - apply elem_of_cons in Hj as [->|]; [|done].
    rewrite parentNode_append_all_notin by done. by apply parentNode_appendChild.
Qed.

Lemma children_of_append_all_other p l d q :
  q ≠ p -> (forall x, x ∈ l -> parentNode d x ≠ Some q) ->
  children_of (append_all p l d) q = children_of d q.
Proof.
  revert d. induction l as [|x l IH]; intros d Hq Hp; [reflexivity|].
  change (children_of (append_all p l (appendChild p x d)) q = children_of d q).
  rewrite IH; [|done|].
  - rewrite children_of_appendChild_ne, children_of_detach by done.
    case_decide as Hd; [|done]. exfalso. revert Hd. apply Hp. set_solver.
  - intros y Hy. destruct (decide (y = x)) as [->|Hne].
    + destruct (decide (is_Some (node_at d x))) as [Sx|Nx].
      * rewrite parentNode_appendChild by done. congruence.
      * rewrite parentNode_absent; [congruence|]. by rewrite is_Some_appendChild.
    + rewrite parentNode_appendChild_ne by done. apply Hp. set_solver.
Qed.

Lemma has_class_append_all p l d j k : has_class (append_all p l d) j k = has_class d j k.
Proof.
  revert d. induction l as [|x l IH]; intros d; [reflexivity|].
  change (has_class (append_all p l (appendChild p x d)) j k = has_class d j k).
  by rewrite IH, has_class_appendChild.
Qed.

Lemma is_Some_append_all p l d j : is_Some (node_at (append_all p l d) j) <-> is_Some (node_at d j).
Proof.
  revert d. induction l as [|x l IH]; intros d; [reflexivity|].
  change (is_Some (node_at (append_all p l (appendChild p x d)) j) <-> is_Some (node_at d j)).
  by rewrite IH, is_Some_appendChild.
Qed.

Lemma has_class_attach_at d p c place j k : has_class (attach_at p c place d) j k = has_class d j k.
Proof. apply has_class_look, look_attach_at. Qed.

Lemma parentNode_detach_loose d c : loose d c -> parentNode (detach c d) c = parentNode d c.
Proof. intros H. rewrite parentNode_detach. by rewrite H. Qed.

Lemma body_id_detach d c : body_id (detach c d) = body_id d.
Proof. unfold detach. by repeat case_match. Qed.
Lemma body_id_append_all p l d : body_id (append_all p l d) = body_id d.
Proof.
  revert d. induction l as [|x l IH]; intros d; [reflexivity|].
  change (body_id (append_all p l (appendChild p x d)) = body_id d).
  rewrite IH. apply body_id_detach.
Qed.
Lemma next_id_append_all p l d : next_id (append_all p l d) = next_id d.
Proof.
  revert d. induction l as [|x l IH]; intros d; [reflexivity|].
  change (next_id (append_all p l (appendChild p x d)) = next_id d).
  rewrite IH. apply next_id_appendChild.
Qed.

Lemma body_id_update d i f : body_id (update i f d) = body_id d.
Proof. reflexivity. Qed.
Lemma body_id_created t d : body_id (created t d) = body_id d.
Proof. reflexivity. Qed.
Lemma body_id_classList_add d i c : body_id (classList_add i c d) = body_id d.
Proof. reflexivity. Qed.

(** Class updates leave every attribute as it was. *)
Lemma getAttribute_with_classes d i j g k :
  getAttribute (update i (with_classes g) d) j k = getAttribute d j k.
Proof.
  unfold getAttribute. destruct (decide (i = j)) as [->|Hne].
  - rewrite node_at_update_eq. by destruct (node_at d j).
  - by rewrite node_at_update_ne.
Qed.

Lemma getAttribute_created t d j k :
  getAttribute (created t d) j k = if decide (j = next_id d) then None else getAttribute d j k.
Proof.
  unfold getAttribute. case_decide as H.
  - subst. by rewrite node_at_created_self.
  - by rewrite node_at_created_other.
Qed.

(** [setAttribute] at an element either writes the value or, when the
    element does not exist, changes nothing. *)
Lemma getAttribute_setAttribute_cases d i k v :
  getAttribute (setAttribute i k v d) i k = Some v \/
  getAttribute (setAttribute i k v d) i k = getAttribute d i k.
Proof.
  destruct (node_at d i) as [n|] eqn:E.
  - left. apply getAttribute_setAttribute. by rewrite E.
  - right. unfold getAttribute, setAttribute. by rewrite node_at_update_eq, E.
Qed.

Lemma querySelector_Some_node d s i :
  querySelector d s = Some i -> is_Some (node_at d i).
Proof. apply querySelector_from_Some_node. Qed.

Lemma textContent_shape_equiv d i t : children_of d i = [] -> shape_equiv (setText i t (clear i d)) d.
Proof. intros H. etrans; [apply setText_shape_equiv|]. by apply clear_childless_shape_equiv. Qed.

Lemma querySelector_from_textContent d i t scope sel :
  children_of d i = [] ->
  querySelector_from (setText i t (clear i d)) scope sel = querySelector_from d scope sel.
Proof. intros H. by rewrite (textContent_shape_equiv d i t H). Qed.

End Dom.

Create Rewrite HintDb dom_id.
#[export] Hint Rewrite Dom.next_id_appendChild Dom.next_id_prepend Dom.next_id_insertBefore Dom.next_id_setText
  Dom.next_id_setAttribute Dom.next_id_classList_add Dom.next_id_clear Dom.next_id_detach
  Dom.next_id_created Dom.head_id_created Dom.head_id_setAttribute Dom.next_id_detach_all
  Dom.body_id_detach_all Dom.body_id_append_all Dom.next_id_append_all Dom.body_id_created
  Dom.body_id_classList_add : dom_id.

(** ** Documents inside a page state

    The page state of the program holds the document next to the
    script's globals; [HasDom] is the interface through which the
    components reach it. *)
Class HasDom (St : Type) := {
  get_dom : St -> Dom.dom;
  set_dom : Dom.dom -> St -> St;
  get_set_dom : forall d s, get_dom (set_dom d s) = d;
}.

Section DomOps.
Context {St : Type} `{HasDom St}.

Definition dom_read {A} (f : Dom.dom -> A) : js St A :=
  fun s => Normal (f (get_dom s)) s.

Definition dom_do (f : Dom.dom -> Dom.dom) : js St unit :=
  js_modify (fun s => set_dom (f (get_dom s)) s).

Definition dom_create (t : string) : js St nat :=
  fun s => let '(i, d) := Dom.createElement t (get_dom s) in Normal i (set_dom d s).

(** The element methods as statements of the script. *)
Definition add_class (i : nat) (c : string) : js St unit := dom_do (Dom.classList_add i c).
Definition remove_class (i : nat) (c : string) : js St unit := dom_do (Dom.classList_remove i c).
Definition set_attr (i : nat) (k v : string) : js St unit := dom_do (Dom.setAttribute i k v).
Definition set_text (i : nat) (t : string) : js St unit := dom_do (Dom.setText i t).
Definition append (p c : nat) : js St unit := dom_do (Dom.appendChild p c).
Definition prepend_child (p c : nat) : js St unit := dom_do (Dom.prepend p c).
Definition query (sel : Dom.selector) : js St (option nat) :=
  dom_read (fun d => Dom.querySelector d sel).
Definition query_all (sel : Dom.selector) : js St (list nat) :=
  dom_read (fun d => Dom.querySelectorAll d sel).
Definition query_in (scope : nat) (sel : Dom.selector) : js St (option nat) :=
  dom_read (fun d => Dom.querySelector_from d scope sel).

(** [p.removeChild(c)]: [c] must be a child of [p]. *)
Definition remove_child (p c : nat) : js St unit :=
  fun s => if bool_decide (Dom.parentNode (get_dom s) c = Some p)
           then Normal tt (set_dom (Dom.detach c (get_dom s)) s)
           else Throw (DOMException "NotFoundError") s.

(** [p.insertBefore(c, r)]: a non-null reference must be a child of [p]. *)
Definition insert_before (p c : nat) (r : option nat) : js St unit :=
  fun s => match r with
           | Some x => if bool_decide (Dom.parentNode (get_dom s) x = Some p)
                       then Normal tt (set_dom (Dom.insertBefore p c r (get_dom s)) s)
                       else Throw (DOMException "NotFoundError") s
           | None => Normal tt (set_dom (Dom.insertBefore p c None (get_dom s)) s)
           end.

(** [el.textContent = t]: the children are removed, the text set. *)
Definition set_textContent (i : nat) (t : string) : js St unit :=
  dom_do (fun d => Dom.setText i t (Dom.clear i d)).

(** [el.innerHTML = ""]. *)
Definition clear_children (i : nat) : js St unit := dom_do (Dom.clear i).

(** [el.remove()]. *)
Definition remove_node (i : nat) : js St unit := dom_do (Dom.detach i).
End DomOps.

#[export] Hint Resolve Dom.node_at_update_eq : js.

(** ** Normalising the projections of a mutated document

    [dom_norm] pushes [children_of], [text_of], [parentNode] and
    [is_Some (node_at ...)] through the mutations, one law at a time,
    chosen by the syntax of the goal, and discharges each law's side
    condition with [dom_side] (which normalises in turn). *)
Ltac dom_some :=
  repeat match goal with
    | |- is_Some (Dom.node_at (Dom.appendChild ?p ?c ?d) ?j) => apply (Dom.is_Some_appendChild d p c j)
    | |- is_Some (Dom.node_at (Dom.prepend ?p ?c ?d) ?j) => apply (Dom.is_Some_prepend d p c j)
    | |- is_Some (Dom.node_at (Dom.insertBefore ?p ?c (Some ?r) ?d) ?j) =>
        apply (Dom.is_Some_attach_at d p c (Dom.insert_before c r) j)
    | |- is_Some (Dom.node_at (Dom.clear ?i ?d) ?j) => apply (Dom.is_Some_clear d i j)
    | |- is_Some (Dom.node_at (Dom.setText ?i ?t ?d) ?j) => apply (Dom.is_Some_setText d i t j)
    | |- is_Some (Dom.node_at (Dom.detach ?c ?d) ?j) => apply (Dom.is_Some_detach d c j)
    | |- is_Some (Dom.node_at (Dom.classList_add ?i ?c ?d) ?j) => apply (Dom.is_Some_node_at_update d i j)
    | |- is_Some (Dom.node_at (Dom.classList_remove ?i ?c ?d) ?j) => apply (Dom.is_Some_node_at_update d i j)
    | |- is_Some (Dom.node_at (Dom.setAttribute ?i ?k ?v ?d) ?j) => apply (Dom.is_Some_node_at_update d i j)
    | |- is_Some (Dom.node_at (Dom.created ?t ?d) ?j) =>
        first [ apply (Dom.is_Some_created_self t d j); autorewrite with dom_id; reflexivity
              | apply (Dom.is_Some_created t d j) ]
    end;
  assumption.

(** Side conditions by their shape: existence, absence from a list of
    children, distinctness of handles, a handle being the fresh one, an
    element without children. *)
Ltac dom_side :=
  lazymatch goal with
  | |- is_Some _ => dom_some
  | |- _ ∉ _ => dom_norm; autorewrite with dom_id; set_solver
  | |- _ ≠ _ => autorewrite with dom_id; first [ assumption | congruence | lia ]
  | |- Dom.children_of _ _ = [] => dom_norm; reflexivity
  | |- _ = Dom.next_id _ => autorewrite with dom_id; reflexivity
  | |- Dom.loose _ _ => unfold Dom.loose; dom_norm; reflexivity
  end
with dom_norm := repeat dom_step
with dom_step :=
  match goal with
  | |- context [Dom.children_of (Dom.appendChild ?p ?c ?d) ?q] =>
      first [ rewrite (Dom.children_of_appendChild d p c) by dom_side
            | rewrite (Dom.children_of_appendChild_ne d p c q) by dom_side ]
  | |- context [Dom.children_of (Dom.prepend ?p ?c ?d) ?q] =>
      first [ rewrite (Dom.children_of_prepend d p c) by dom_side
            | rewrite (Dom.children_of_prepend_ne d p c q) by dom_side ]
  | |- context [Dom.parentNode (Dom.prepend ?p ?c ?d) ?j] =>
      first [ rewrite (Dom.parentNode_prepend d p c) by dom_side
            | rewrite (Dom.parentNode_prepend_ne d p c j) by dom_side ]
  | |- context [Dom.children_of (Dom.insertBefore ?p ?c (Some ?r) ?d) ?p] =>
      rewrite (Dom.children_of_insertBefore d p c r) by dom_side
  | |- context [Dom.children_of (Dom.detach ?c ?d) ?q] =>
      first [ rewrite (Dom.children_of_detach_notin d c q) by dom_side
            | rewrite (Dom.children_of_detach_loose d c q) by dom_side ]
  | |- context [Dom.children_of (Dom.clear ?i ?d) ?q] =>
      first [ rewrite (Dom.children_of_clear d i) by dom_side
            | rewrite (Dom.children_of_clear_ne d i q) by dom_side ]
  | |- context [Dom.children_of (Dom.setText ?i ?t ?d) ?q] => rewrite (Dom.children_of_setText d i t q)
  | |- context [Dom.children_of (Dom.classList_add ?i ?c ?d) ?q] => rewrite (Dom.children_of_classList_add d i c q)
  | |- context [Dom.children_of (Dom.classList_remove ?i ?c ?d) ?q] =>
      rewrite (Dom.children_of_classList_remove d i c q)
  | |- context [Dom.children_of (Dom.setAttribute ?i ?k ?v ?d) ?q] =>
      rewrite (Dom.children_of_setAttribute d i k v q)
  | |- context [Dom.parentNode (Dom.classList_add ?i ?c ?d) ?q] => rewrite (Dom.parentNode_classList_add d i c q)
  | |- context [Dom.parentNode (Dom.classList_remove ?i ?c ?d) ?q] =>
      rewrite (Dom.parentNode_classList_remove d i c q)
  | |- context [Dom.parentNode (Dom.setAttribute ?i ?k ?v ?d) ?q] =>
      rewrite (Dom.parentNode_setAttribute d i k v q)
  | |- context [Dom.text_of (Dom.classList_add ?i ?c ?d) ?q] => rewrite (Dom.text_of_classList_add d i c q)
  | |- context [Dom.text_of (Dom.setAttribute ?i ?k ?v ?d) ?q] => rewrite (Dom.text_of_setAttribute d i k v q)
  | |- context [Dom.children_of (Dom.created ?t ?d) ?q] =>
      first [ rewrite (Dom.children_of_created_self t d q) by dom_side
            | rewrite (Dom.children_of_created t d q) by dom_side ]
  | |- context [Dom.text_of (Dom.setText ?i ?t (Dom.clear ?i ?d)) ?i] =>
      rewrite (Dom.text_of_textContent d i t) by dom_side
  | |- context [Dom.text_of (Dom.setText ?i ?t ?d) ?j] =>
      first [ rewrite (Dom.text_of_setText d i t) by dom_side
            | rewrite (Dom.text_of_setText_ne d i j t) by dom_side ]
  | |- context [Dom.text_of (Dom.clear ?i ?d) ?j] => rewrite (Dom.text_of_clear_ne d i j) by dom_side
  | |- context [Dom.text_of (Dom.appendChild ?p ?c ?d) ?j] => rewrite (Dom.text_of_appendChild d p c j)
  | |- context [Dom.text_of (Dom.insertBefore ?p ?c ?r ?d) ?j] =>
      rewrite (Dom.text_of_insertBefore d p c r j)
  | |- context [Dom.text_of (Dom.detach ?c ?d) ?j] => rewrite (Dom.text_of_detach d c j)
  | |- context [Dom.text_of (Dom.created ?t ?d) ?j] => rewrite (Dom.text_of_created t d j) by dom_side
  | |- context [Dom.parentNode (Dom.appendChild ?p ?c ?d) ?j] =>
      first [ rewrite (Dom.parentNode_appendChild d p c) by dom_side
            | rewrite (Dom.parentNode_appendChild_ne d p c j) by dom_side ]
  | |- context [Dom.parentNode (Dom.setText ?i ?t ?d) ?j] => rewrite (Dom.parentNode_setText d i t j)
  | |- context [Dom.parentNode (Dom.insertBefore ?p ?c (Some ?r) ?d) ?c] =>
      rewrite (Dom.parentNode_insertBefore d p c r) by dom_side
  | |- context [Dom.parentNode (Dom.detach ?c ?d) ?c] => rewrite (Dom.parentNode_detach d c)
  | |- context [Dom.parentNode (Dom.detach ?c ?d) ?j] => rewrite (Dom.parentNode_detach_ne d c j) by dom_side
  | |- context [Dom.has_class (Dom.appendChild ?p ?c ?d) ?j ?k] =>
      rewrite (Dom.has_class_appendChild d p c j k)
  | |- context [Dom.has_class (Dom.insertBefore ?p ?c ?r ?d) ?j ?k] =>
      rewrite (Dom.has_class_insertBefore d p c r j k)
  | |- context [Dom.has_class (Dom.setText ?i ?t ?d) ?j ?k] => rewrite (Dom.has_class_setText d i t j k)
  | |- context [Dom.has_class (Dom.clear ?i ?d) ?j ?k] => rewrite (Dom.has_class_clear d i j k)
  | |- context [Dom.getAttribute (Dom.appendChild ?p ?c ?d) ?j ?k] =>
      rewrite (Dom.getAttribute_appendChild d p c j k)
  | |- context [Dom.parentNode (Dom.clear ?i ?d) ?j] =>
      first [ rewrite (Dom.parentNode_clear_childless d i j) by dom_side
            | rewrite (Dom.parentNode_clear_notin d i j) by dom_side ]
  | |- context [Dom.parentNode (Dom.created ?t ?d) ?j] =>
      first [ rewrite (Dom.parentNode_created_self t d j) by dom_side
            | rewrite (Dom.parentNode_created t d j) by dom_side ]
  end.

(** [look] through the statements of a builder. *)
Ltac look_norm :=
  repeat first
    [ rewrite Dom.look_appendChild
    | rewrite Dom.look_prepend
    | rewrite Dom.look_setText
    | rewrite Dom.look_classList_add_ne by (autorewrite with dom_id; lia)
    | rewrite Dom.look_setAttribute_ne by (autorewrite with dom_id; lia)
    | rewrite Dom.look_created by (autorewrite with dom_id; lia)
    | rewrite Dom.look_classList_add
    | rewrite Dom.look_created_self ].

(** Children through [appendChild] of elements known to hang nowhere,
    as a builder appends its new elements; the rest by [dom_norm]. *)
Ltac loose_step :=
  match goal with
  | |- context [Dom.children_of (Dom.appendChild ?p ?c ?d) ?q] =>
      first [ rewrite (Dom.children_of_appendChild_loose d p c) by
                (dom_some || (unfold Dom.loose; dom_norm; reflexivity))
            | rewrite (Dom.children_of_appendChild_ne_loose d p c q) by
                (lia || (unfold Dom.loose; dom_norm; reflexivity)) ]
  end.
Ltac loose_norm := repeat first [ loose_step | dom_step ].
