(* ===== verification/Tree.v ===== *)
(** * Tree: traversals of well-formed documents

    The DOM model bounds its traversals by [Dom.fuel_of d], one more
    than the number of nodes.  This file proves that the bound is
    enough: in a well-formed document whose root has no parent, a
    downward chain of nodes from the root never repeats a node, so it
    is shorter than the store, and more fuel does not change the
    document-order traversal.  With that, a created element that is
    still detached changes nothing a query returns (a new leaf in the
    document: Query.v). *)

From stdpp Require Import base gmap strings list sets.
From Stdlib Require Import String.
From S2P Require Import Prelude ClassList Dom.

Module Tree.

(** [chain d l]: each element of [l] after the first is a child of the
    one before it. *)
Inductive chain (d : Dom.dom) : list nat -> Prop :=
  | chain_one x : chain d [x]
  | chain_cons x y l : y ∈ Dom.children_of d x -> chain d (y :: l) -> chain d (x :: y :: l).

(** The document is well formed and its root has no parent. *)
Definition rooted (d : Dom.dom) : Prop :=
  Dom.wf d /\ Dom.parentNode d (Dom.root_id d) = None /\ is_Some (Dom.node_at d (Dom.root_id d)).

#[global] Instance rooted_dec d : Decision (rooted d).
Proof. unfold rooted. apply _. Defined.

(** How many parents are above a node, counted with fuel. *)
Fixpoint depth (m : nat) (d : Dom.dom) (x : nat) : nat :=
  match m with
  | 0 => 0
  | S m' => match Dom.parentNode d x with Some p => S (depth m' d p) | None => 0 end
  end.

Section Traversal.
Context (d : Dom.dom).

Lemma preorder_S_eq f i :
  Dom.preorder (S f) d i = i :: List.concat (map (Dom.preorder f d) (Dom.children_of d i)).
Proof. simpl. unfold Dom.children_of. by destruct (Dom.node_at d i). Qed.

(** One more unit of fuel changes nothing when every chain below [i]
    is shorter than the fuel. *)
Lemma preorder_S f i :
  (forall l, chain d (i :: l) -> List.length l <= f) ->
  Dom.preorder (S f) d i = Dom.preorder (S (S f)) d i.
Proof.
  revert i. induction f as [|f IH]; intros i Hb.
  - rewrite !preorder_S_eq. destruct (Dom.children_of d i) as [|c cs] eqn:E; [reflexivity|].
    exfalso. assert (chain d [i; c]) as Hc by (constructor; [rewrite E; set_solver|constructor]).
    specialize (Hb _ Hc). simpl in Hb. lia.
  - rewrite (preorder_S_eq (S f)), (preorder_S_eq (S (S f))). f_equal. f_equal.
    apply map_ext_in. intros c Hc. apply IH. intros l Hl.
    assert (chain d (i :: c :: l)) as Hcl by (constructor; [by apply list_elem_of_In|exact Hl]).
    specialize (Hb _ Hcl). simpl in Hb. lia.
Qed.

Lemma preorder_stable f i k :
  (forall l, chain d (i :: l) -> List.length l <= f) ->
  Dom.preorder (S f + k) d i = Dom.preorder (S f) d i.
Proof.
  intros Hb. induction k as [|k IH]; [by rewrite Nat.add_0_r|].
  rewrite Nat.add_succ_r, <- IH. symmetry. change (S f + k) with (S (f + k)). apply preorder_S.
  intros l Hl. specialize (Hb l Hl). lia.
Qed.

Lemma chain_take l n : chain d l -> chain d (take (S n) l).
Proof.
  intros H. revert n. induction H as [x|x y l Hy Hc IH]; intros n.
  - destruct n; simpl; constructor.
  - destruct n as [|n]; simpl; [constructor|].
    specialize (IH n). simpl in IH. by constructor.
Qed.
End Traversal.

Section Rooted.
Context (d : Dom.dom) (Hwf : Dom.wf d).

(** Going up a chain from its last node reaches its first. *)
Lemma chain_depth x l z m :
  chain d (x :: l) -> (x :: l) !! List.length l = Some z ->
  depth (m + List.length l) d z = List.length l + depth m d x.
Proof.
  revert x m. induction l as [|y l IH]; intros x m Hc Hz.
  - simpl in Hz. injection Hz as <-. by rewrite Nat.add_0_r.
  - inversion Hc as [|? ? ? Hy Hc']; subst.
    simpl List.length. rewrite <- Nat.add_succ_comm.
    rewrite (IH y (S m) Hc' Hz). simpl. rewrite (Dom.wf_child_parent _ Hwf _ _ Hy). lia.
Qed.

Lemma depth_parentless r m : Dom.parentNode d r = None -> depth m d r = 0.
Proof. intros H. destruct m; simpl; [reflexivity|]. by rewrite H. Qed.

(** A chain from a parentless node never repeats a node. *)
Lemma chain_NoDup r l : Dom.parentNode d r = None -> chain d (r :: l) -> NoDup (r :: l).
Proof.
  intros Hr Hc. apply NoDup_alt. intros i j z Hi Hj.
  assert (forall k, (r :: l) !! k = Some z -> forall m, depth (m + k) d z = k) as Hd.
  { intros k Hk m. assert (k < S (List.length l)) as Hlt
      by (apply lookup_lt_Some in Hk; simpl in Hk; lia).
    pose proof (chain_take d _ k Hc) as Ht. simpl in Ht.
    assert (List.length (take k l) = k) as Hlen by (rewrite length_take_le; lia).
    rewrite <- Hlen.
    rewrite (chain_depth r (take k l) z m Ht).
    - rewrite (depth_parentless r m Hr). lia.
    - rewrite Hlen. destruct k as [|k]; [exact Hk|]. simpl in *.
      rewrite lookup_take_lt; [exact Hk|lia]. }
  pose proof (Hd i Hi j) as E1. pose proof (Hd j Hj i) as E2.
  rewrite Nat.add_comm in E2. lia.
Qed.

(** Every node of a chain from an existing node exists. *)
Lemma chain_nodes x l : is_Some (Dom.node_at d x) -> chain d (x :: l) ->
  forall y, y ∈ x :: l -> is_Some (Dom.node_at d y).
Proof.
  revert x. induction l as [|y' l IH]; intros x Sx Hc y Hy.
  - apply list_elem_of_singleton in Hy. by subst.
  - inversion Hc as [|? ? ? Hy' Hc']; subst.
    apply elem_of_cons in Hy as [->|Hy]; [exact Sx|].
    apply (IH y'); [|exact Hc'|exact Hy]. exact (Dom.wf_child_node _ Hwf _ _ Hy').
Qed.

(** So a chain from a parentless node is shorter than the store. *)
Lemma chain_length r l :
  Dom.parentNode d r = None -> is_Some (Dom.node_at d r) -> chain d (r :: l) ->
  List.length (r :: l) <= size (Dom.nodes d).
Proof.
  intros Hr Sr Hc. rewrite <- length_map_to_list.
  transitivity (List.length (map fst (map_to_list (Dom.nodes d)))); [|by rewrite length_map].
  apply submseteq_length, NoDup_submseteq; [by apply chain_NoDup|].
  intros y Hy. destruct (chain_nodes r l Sr Hc y Hy) as [n Hn].
  apply list_elem_of_fmap. exists (y, n). split; [reflexivity|].
  by apply elem_of_map_to_list.
Qed.
End Rooted.

(** The traversal bound of the DOM model is enough. *)
Theorem preorder_fuel_adequate d k :
  rooted d ->
  Dom.preorder (Dom.fuel_of d + k) d (Dom.root_id d) = Dom.preorder (Dom.fuel_of d) d (Dom.root_id d).
Proof.
  intros (Hwf & Hr & Sr). unfold Dom.fuel_of. apply preorder_stable.
  intros l Hl. pose proof (chain_length d Hwf _ l Hr Sr Hl) as H. simpl in H. lia.
Qed.

(** ** Queries do not see detached changes *)

(** Every node a traversal from an existing node visits exists. *)
Lemma preorder_nodes f d i :
  Dom.wf d -> is_Some (Dom.node_at d i) -> forall y, y ∈ Dom.preorder f d i -> is_Some (Dom.node_at d y).
Proof.
  intros Hwf. revert i. induction f as [|f IH]; intros i Si y Hy; [set_solver|].
  rewrite preorder_S_eq in Hy. apply elem_of_cons in Hy as [->|Hy]; [exact Si|].
  apply list_elem_of_In, in_concat in Hy as (l & Hl & Hy).
  apply in_map_iff in Hl as (c & <- & Hc). apply (IH c); [|by apply list_elem_of_In].
  apply (Dom.wf_child_node _ Hwf i). by apply list_elem_of_In.
Qed.

(** A traversal that never visits [x] does not see what happens at [x]. *)
Lemma preorder_frame f d d' i x :
  (forall j, j ≠ x -> Dom.node_at d' j = Dom.node_at d j) ->
  x ∉ Dom.preorder f d i -> Dom.preorder f d' i = Dom.preorder f d i.
Proof.
  intros Hd. revert i. induction f as [|f IH]; intros i Hx; [reflexivity|].
  rewrite !preorder_S_eq. rewrite preorder_S_eq in Hx.
  assert (i ≠ x) as Hi by set_solver.
  unfold Dom.children_of. rewrite (Hd i Hi). f_equal. f_equal.
  apply map_ext_in. intros c Hc. apply IH. intros Hxc. apply Hx. right.
  apply list_elem_of_In, in_concat. exists (Dom.preorder f d c). split; [|by apply list_elem_of_In].
  apply in_map_iff. exists c. split; [reflexivity|]. unfold Dom.children_of. exact Hc.
Qed.

(** A simple selector asks nothing of a node's ancestors. *)
Lemma matches_Simple_frame d d' x c j :
  (forall j, j ≠ x -> Dom.node_at d' j = Dom.node_at d j) -> j ≠ x ->
  Dom.matches d' (Dom.Simple c) j = Dom.matches d (Dom.Simple c) j.
Proof. intros Hd Hj. simpl. unfold Dom.node_matches. by rewrite (Hd j Hj). Qed.

(** Changing a node that is not in the document, in a store that grows,
    changes no answer of a query by a simple selector. *)
Theorem querySelectorAll_detached d d' x c :
  rooted d -> Dom.node_at d x = None ->
  (forall j, j ≠ x -> Dom.node_at d' j = Dom.node_at d j) ->
  Dom.root_id d' = Dom.root_id d -> Dom.fuel_of d <= Dom.fuel_of d' ->
  Dom.querySelectorAll d' (Dom.Simple c) = Dom.querySelectorAll d (Dom.Simple c).
Proof.
  intros Hr Hx Hd Hroot Hfuel. pose proof Hr as (Hwf & _ & Sr).
  assert (forall f y, y ∈ Dom.preorder f d (Dom.root_id d) -> y ≠ x) as Hne.
  { intros f y Hy ->. destruct (preorder_nodes f d _ Hwf Sr x Hy) as [? E]. congruence. }
  unfold Dom.querySelectorAll, Dom.querySelectorAll_from, Dom.descendants. rewrite Hroot.
  assert (x ∉ Dom.preorder (Dom.fuel_of d') d (Dom.root_id d)) as Hx' by (intros Hy; exact (Hne _ x Hy eq_refl)).
  rewrite (preorder_frame _ d d' _ x Hd Hx').
  replace (Dom.fuel_of d') with (Dom.fuel_of d + (Dom.fuel_of d' - Dom.fuel_of d)) by lia.
  rewrite preorder_fuel_adequate by exact Hr.
  apply filter_ext_in. intros y Hy. apply (matches_Simple_frame d d' x c y Hd).
  apply (Hne (Dom.fuel_of d)). destruct (Dom.preorder (Dom.fuel_of d) d (Dom.root_id d)); [simpl in Hy; contradiction|]. simpl in Hy. apply elem_of_cons. right. by apply list_elem_of_In.
Qed.

Corollary querySelector_detached d d' x c :
  rooted d -> Dom.node_at d x = None ->
  (forall j, j ≠ x -> Dom.node_at d' j = Dom.node_at d j) ->
  Dom.root_id d' = Dom.root_id d -> Dom.fuel_of d <= Dom.fuel_of d' ->
  Dom.querySelector d' (Dom.Simple c) = Dom.querySelector d (Dom.Simple c).
Proof.
  intros. unfold Dom.querySelector, Dom.querySelector_from. fold (Dom.querySelectorAll d' (Dom.Simple c)).
  fold (Dom.querySelectorAll d (Dom.Simple c)). by rewrite (querySelectorAll_detached d d' x c).
Qed.

(** So an element just created, and written to but not inserted, is
    invisible to a query by a simple selector. *)
Corollary querySelector_created_update d t f c :
  rooted d -> Dom.fresh d ->
  Dom.querySelector (Dom.update (Dom.next_id d) f (Dom.created t d)) (Dom.Simple c) =
  Dom.querySelector d (Dom.Simple c).
Proof.
  intros Hr Hf. apply (querySelector_detached _ _ (Dom.next_id d)); [exact Hr|by apply Hf| |done|].
  - intros j Hj. rewrite Dom.node_at_update_ne by congruence. by apply Dom.node_at_created_other.
  - unfold Dom.fuel_of. cbn [Dom.nodes Dom.update Dom.set_nodes Dom.created Dom.createElement snd].
    rewrite Dom.size_alter, map_size_insert_None; [lia|]. apply (Hf (Dom.next_id d)). lia.
Qed.

(** ** The walk up the parents

    [Dom.ancestors], the walk a click's bubbling and a descendant
    selector make, follows a chain from the root backwards. *)

Lemma tail_app_ne {A} (l k : list A) : l ≠ [] -> List.tl (l ++ k) = List.tl l ++ k.
Proof. by destruct l. Qed.

(** Every node a traversal visits ends a chain from where it started. *)
Lemma preorder_chain f d i y :
  y ∈ Dom.preorder f d i -> exists l, chain d (i :: l) /\ (i :: l) !! List.length l = Some y.
Proof.
  revert i. induction f as [|f IH]; intros i Hy; [set_solver|].
  rewrite preorder_S_eq in Hy. apply elem_of_cons in Hy as [->|Hy]; [by exists (@nil nat); split; constructor|].
  apply list_elem_of_In, in_concat in Hy as (k & Hk & Hy).
  apply in_map_iff in Hk as (c & <- & Hc). apply list_elem_of_In in Hy.
  destruct (IH c Hy) as (l & Hl & Hz). exists (c :: l). split; [|exact Hz].
  constructor; [by apply list_elem_of_In|exact Hl].
Qed.

Section Up.
Context (d : Dom.dom) (Hwf : Dom.wf d).

(** Going up from the last node of a chain walks the chain backwards. *)
Lemma ancestors_chain x l z m :
  chain d (x :: l) -> (x :: l) !! List.length l = Some z ->
  Dom.ancestors (m + List.length l) d z = List.tl (reverse (x :: l)) ++ Dom.ancestors m d x.
Proof.
  revert x m. induction l as [|y l IH]; intros x m Hc Hz.
  - simpl in Hz. injection Hz as <-. by rewrite Nat.add_0_r.
  - inversion Hc as [|? ? ? Hy Hc']; subst.
    simpl List.length. rewrite <- Nat.add_succ_comm, (IH y (S m) Hc' Hz).
    cbn [Dom.ancestors]. fold (Dom.parentNode d y). rewrite (Dom.wf_child_parent _ Hwf _ _ Hy).
    rewrite (reverse_cons (y :: l) x), tail_app_ne, <- app_assoc; [reflexivity|].
    rewrite reverse_cons. by destruct (reverse l).
Qed.

Lemma ancestors_parentless r m : Dom.parentNode d r = None -> Dom.ancestors m d r = [].
Proof. intros H. destruct m; simpl; [reflexivity|]. fold (Dom.parentNode d r). by rewrite H. Qed.

(** The reverse of a list whose last element is [z] starts with [z]. *)
Lemma reverse_chain_head {A} (x : A) l z :
  (x :: l) !! List.length l = Some z -> reverse (x :: l) = z :: List.tl (reverse (x :: l)).
Proof.
  intros Hz. assert (reverse (x :: l) !! 0 = Some z) as H0.
  { rewrite reverse_lookup by (simpl; lia). rewrite <- Hz. f_equal. simpl. lia. }
  destruct (reverse (x :: l)); simpl in *; congruence.
Qed.
End Up.

(** ** Reaching a node from the root *)

(** A chain from [x] shorter than the fuel ends at a node the traversal
    from [x] visits. *)
Lemma chain_preorder f d x l z :
  chain d (x :: l) -> (x :: l) !! List.length l = Some z -> List.length l < f ->
  z ∈ Dom.preorder f d x.
Proof.
  revert x f. induction l as [|y l IH]; intros x f Hc Hz Hf; destruct f as [|f]; try (simpl in Hf; lia).
  - simpl in Hz. injection Hz as <-. rewrite preorder_S_eq. apply elem_of_cons. by left.
  - inversion Hc as [|? ? ? Hy Hc']; subst. rewrite preorder_S_eq. apply elem_of_cons. right.
    apply list_elem_of_In, in_concat. exists (Dom.preorder f d y). split.
    + apply in_map_iff. exists y. split; [reflexivity|]. by apply list_elem_of_In.
    + apply list_elem_of_In. apply (IH y f Hc' Hz). simpl in Hf. lia.
Qed.

(** A chain extended by a child of its last node. *)
Lemma chain_snoc d x l z c :
  chain d (x :: l) -> (x :: l) !! List.length l = Some z -> c ∈ Dom.children_of d z ->
  chain d (x :: l ++ [c]) /\ (x :: l ++ [c]) !! List.length (l ++ [c]) = Some c.
Proof.
  revert x. induction l as [|y l IH]; intros x Hc Hz Hcz.
  - simpl in Hz. injection Hz as <-. split; [constructor; [exact Hcz|constructor]|reflexivity].
  - inversion Hc as [|? ? ? Hy Hc']; subst. destruct (IH y Hc' Hz Hcz) as [Hc2 Hz2].
    split; [by constructor|]. exact Hz2.
Qed.

(** A chain without repetition stays a chain in a document where each
    of its nodes but the last keeps its children. *)
Lemma chain_transfer d d' x l z :
  chain d (x :: l) -> NoDup (x :: l) -> (x :: l) !! List.length l = Some z ->
  (forall a y, a ∈ x :: l -> a ≠ z -> y ∈ Dom.children_of d a -> y ∈ Dom.children_of d' a) ->
  chain d' (x :: l).
Proof.
  revert x. induction l as [|y l IH]; intros x Hc Hnd Hz Ha; [constructor|].
  inversion Hc as [|? ? ? Hy Hc']; subst. apply NoDup_cons in Hnd as [Hx Hnd]. simpl in Hz.
  constructor.
  - apply Ha; [set_solver| |exact Hy]. intros ->. apply Hx. exact (list_elem_of_lookup_2 _ _ _ Hz).
  - apply IH; [exact Hc'|exact Hnd|exact Hz|]. intros a w Ha' Haz Hw. apply Ha; [set_solver|exact Haz|exact Hw].
Qed.

End Tree.
