(* ===== verification/Commute.v ===== *)
(** * Commute: when two document mutations can be swapped

    Writes to different nodes commute; detaching a node that has no
    parent does nothing; creating an element commutes with a write to
    an existing one.  From these, detaching a node commutes with
    appending another one elsewhere, which is what makes the removal
    loop of [rearrangeDom] redundant (Layout.v). *)

From stdpp Require Import base gmap list.
From S2P Require Import Prelude Dom.

Module Commute.

(** ** Writes to nodes *)

Lemma alter_comm {A} (f g : A -> A) (m : gmap nat A) i j :
  i ≠ j -> alter f i (alter g j m) = alter g j (alter f i m).
Proof.
  intros H. apply map_eq. intros k.
  rewrite !lookup_alter. repeat case_decide; subst; try congruence; reflexivity.
Qed.

Lemma update_comm i j f g d :
  i ≠ j -> Dom.update i f (Dom.update j g d) = Dom.update j g (Dom.update i f d).
Proof. intros H. unfold Dom.update, Dom.set_nodes. simpl. f_equal. by apply alter_comm. Qed.

(** A write that leaves the node as it is leaves the document as it is. *)
Lemma update_id i f d :
  (forall n, Dom.node_at d i = Some n -> f n = n) -> Dom.update i f d = d.
Proof. intros H. unfold Dom.update, Dom.set_nodes. rewrite alter_id by exact H. by destruct d. Qed.

Lemma created_update_comm t k f d :
  k ≠ Dom.next_id d -> Dom.created t (Dom.update k f d) = Dom.update k f (Dom.created t d).
Proof.
  intros H. unfold Dom.created, Dom.createElement, Dom.update, Dom.set_nodes. simpl.
  f_equal. symmetry. by apply alter_insert_ne.
Qed.

(** ** Detaching and appending *)

Lemma detach_loose d c : Dom.loose d c -> Dom.detach c d = d.
Proof.
  unfold Dom.loose, Dom.parentNode, Dom.detach. intros H.
  destruct (Dom.node_at d c) as [n|] eqn:E; [|reflexivity]. simpl in H. rewrite H.
  apply update_id. intros n' E'. rewrite E in E'. injection E' as <-.
  destruct n; simpl in *; subst; reflexivity.
Qed.

Lemma detach_parent d c n p :
  Dom.node_at d c = Some n -> Dom.parent n = Some p ->
  Dom.detach c d = Dom.update c (Dom.with_parent None) (Dom.update p (Dom.with_children (filter (fun j => j ≠ c))) d).
Proof. intros E P. unfold Dom.detach. by rewrite E, P. Qed.

Lemma appendChild_loose_eq d p c :
  Dom.loose d c ->
  Dom.appendChild p c d = Dom.update c (Dom.with_parent (Some p)) (Dom.update p (Dom.with_children (fun l => l ++ [c])) d).
Proof. intros H. unfold Dom.appendChild, Dom.attach_at. by rewrite detach_loose. Qed.

(** [p.appendChild(c)] detaches [c] itself: a [c.remove()] before it
    changes nothing. *)
Lemma appendChild_detach d p c : Dom.appendChild p c (Dom.detach c d) = Dom.appendChild p c d.
Proof.
  unfold Dom.appendChild, Dom.attach_at. rewrite (detach_loose (Dom.detach c d) c); [reflexivity|].
  apply Dom.parentNode_detach.
Qed.

Lemma loose_update_ne d i f c : i ≠ c -> Dom.loose d c -> Dom.loose (Dom.update i f d) c.
Proof. unfold Dom.loose. intros H Hc. by rewrite Dom.parentNode_update_ne. Qed.

Lemma loose_detach_ne d y c : c ≠ y -> Dom.loose d c -> Dom.loose (Dom.detach y d) c.
Proof. unfold Dom.loose. intros H Hc. by rewrite Dom.parentNode_detach_ne. Qed.

(** Detaching [y] commutes with appending a detached [x] to [w] when
    the nodes involved are distinct. *)
Lemma detach_appendChild_comm d w x y :
  y ≠ x -> y ≠ w -> x ≠ w -> Dom.loose d x ->
  (forall p, Dom.parentNode d y = Some p -> p ≠ w /\ p ≠ x /\ p ≠ y) ->
  Dom.detach y (Dom.appendChild w x d) = Dom.appendChild w x (Dom.detach y d).
Proof.
  intros Hyx Hyw Hxw Hx Hp.
  rewrite !appendChild_loose_eq by (auto using loose_detach_ne).
  destruct (Dom.parentNode d y) as [p|] eqn:P.
  - destruct (Hp p eq_refl) as (Hpw & Hpx & Hpy).
    unfold Dom.parentNode in P. destruct (Dom.node_at d y) as [n|] eqn:E; simpl in P; [|discriminate].
    rewrite (detach_parent d y n p E P).
    rewrite (detach_parent _ y n p); [|rewrite !Dom.node_at_update_ne by congruence; exact E|exact P].
    rewrite (update_comm p x), (update_comm y x), (update_comm p w), (update_comm y w) by congruence.
    reflexivity.
  - rewrite !detach_loose; [reflexivity|exact P|].
    apply loose_update_ne, loose_update_ne; [congruence|congruence|exact P].
Qed.

(** Detaching [y] commutes with a write to, or the creation of, an
    element [w] other than [y] and its parent. *)
Lemma detach_update_comm d w f y :
  y ≠ w -> (forall p, Dom.parentNode d y = Some p -> p ≠ w) ->
  Dom.detach y (Dom.update w f d) = Dom.update w f (Dom.detach y d).
Proof.
  intros Hyw Hp. destruct (Dom.parentNode d y) as [p|] eqn:P.
  - pose proof (Hp p eq_refl) as Hpw.
    unfold Dom.parentNode in P. destruct (Dom.node_at d y) as [n|] eqn:E; simpl in P; [|discriminate].
    rewrite (detach_parent d y n p E P).
    rewrite (detach_parent _ y n p); [|rewrite Dom.node_at_update_ne by congruence; exact E|exact P].
    rewrite (update_comm p w), (update_comm y w) by congruence. reflexivity.
  - rewrite !detach_loose; [reflexivity|exact P|]. apply loose_update_ne; [congruence|exact P].
Qed.

Lemma detach_created_comm d t y :
  y ≠ Dom.next_id d -> (forall p, Dom.parentNode d y = Some p -> p ≠ Dom.next_id d) ->
  Dom.detach y (Dom.created t d) = Dom.created t (Dom.detach y d).
Proof.
  intros Hyw Hp. destruct (Dom.parentNode d y) as [p|] eqn:P.
  - pose proof (Hp p eq_refl) as Hpw.
    unfold Dom.parentNode in P. destruct (Dom.node_at d y) as [n|] eqn:E; simpl in P; [|discriminate].
    rewrite (detach_parent d y n p E P).
    rewrite (detach_parent _ y n p); [|rewrite Dom.node_at_created_other by congruence; exact E|exact P].
    rewrite !created_update_comm; [reflexivity|exact Hpw|]. by rewrite Dom.next_id_update.
  - rewrite !detach_loose; [reflexivity|exact P|].
    unfold Dom.loose. rewrite Dom.parentNode_created by exact Hyw. exact P.
Qed.

(** ** Lists of nodes *)

Section Lists.
Context (w : nat).

(** The nodes of [l] and their parents are away from [w] and [x]. *)
Definition apart (d : Dom.dom) (x : nat) (l : list nat) : Prop :=
  forall y p, y ∈ l -> Dom.parentNode d y = Some p -> p ≠ w /\ p ≠ x /\ p ∉ l.

Lemma detach_all_appendChild_comm d x l :
  x ∉ l -> w ∉ l -> x ≠ w -> Dom.loose d x -> apart d x l ->
  Dom.detach_all l (Dom.appendChild w x d) = Dom.appendChild w x (Dom.detach_all l d).
Proof.
  revert d. induction l as [|y l IH]; intros d Hx Hw Hxw Hl Hp; [reflexivity|]. cbn [Dom.detach_all fold_left].
  rewrite detach_appendChild_comm; [|set_solver..|exact Hl|].
  2:{ intros p Hy. destruct (Hp y p ltac:(set_solver) Hy) as (? & ? & ?). set_solver. }
  apply IH; [set_solver|set_solver|exact Hxw|apply loose_detach_ne; [set_solver|exact Hl]|].
  intros z p Hz Hzp. destruct (decide (z = y)) as [->|Hzy].
  - by rewrite Dom.parentNode_detach in Hzp.
  - rewrite Dom.parentNode_detach_ne in Hzp by exact Hzy.
    destruct (Hp z p ltac:(set_solver) Hzp) as (? & ? & ?). set_solver.
Qed.

(** Removing the nodes of [l] and then appending them to [w] is
    appending them to [w]. *)
Lemma append_all_detach_all d l :
  NoDup l -> w ∉ l -> apart d w l ->
  Dom.append_all w l (Dom.detach_all l d) = Dom.append_all w l d.
Proof.
  revert d. induction l as [|x l IH]; intros d Hnd Hw Hp; [reflexivity|].
  apply NoDup_cons in Hnd as [Hx Hnd]. cbn [Dom.append_all Dom.detach_all fold_left].
  fold (Dom.detach_all l (Dom.detach x d)). fold (Dom.append_all w l (Dom.appendChild w x d)).
  fold (Dom.append_all w l (Dom.appendChild w x (Dom.detach_all l (Dom.detach x d)))).
  rewrite <- detach_all_appendChild_comm; [|exact Hx|set_solver|set_solver|apply Dom.parentNode_detach|].
  2:{ intros y p Hy Hyp. rewrite Dom.parentNode_detach_ne in Hyp by set_solver.
      destruct (Hp y p ltac:(set_solver) Hyp) as (? & ? & ?). set_solver. }
  rewrite appendChild_detach. apply IH; [exact Hnd|set_solver|].
  intros y p Hy Hyp. rewrite Dom.parentNode_appendChild_ne in Hyp by set_solver.
  destruct (Hp y p ltac:(set_solver) Hyp) as (? & ? & ?). set_solver.
Qed.
End Lists.

(** Removing nodes commutes with creating an element and writing to it. *)
Lemma detach_all_created_update l t f d :
  (forall y, y ∈ l -> y ≠ Dom.next_id d /\ forall p, Dom.parentNode d y = Some p -> p ≠ Dom.next_id d) ->
  Dom.detach_all l (Dom.update (Dom.next_id d) f (Dom.created t d)) =
  Dom.update (Dom.next_id d) f (Dom.created t (Dom.detach_all l d)).
Proof.
  revert d. induction l as [|y l IH]; intros d Hl; [reflexivity|]. cbn [Dom.detach_all fold_left].
  destruct (Hl y ltac:(set_solver)) as [Hy Hp].
  rewrite detach_update_comm, detach_created_comm; [|exact Hy|exact Hp|exact Hy|].
  2:{ intros p Hyp. rewrite Dom.parentNode_created in Hyp by exact Hy. exact (Hp p Hyp). }
  rewrite <- (Dom.next_id_detach d y) at 1 2. apply IH.
  intros z Hz. rewrite Dom.next_id_detach. destruct (Hl z ltac:(set_solver)) as [Hz1 Hz2].
  split; [exact Hz1|]. intros p Hzp. destruct (decide (z = y)) as [->|Hzy].
  - by rewrite Dom.parentNode_detach in Hzp.
  - rewrite Dom.parentNode_detach_ne in Hzp by exact Hzy. exact (Hz2 p Hzp).
Qed.

End Commute.
