(* ===== verification/Wf.v ===== *)
(** * Wf: the document stays a tree

    [Dom.wf] says that the links of the store agree: every child of a
    node has that node as parent, a node's parent lists it among its
    children, children lists have no duplicates and every handle is
    below [next_id].  This file proves that every mutation the scripts
    perform keeps it: writes that leave the links alone (classes,
    attributes, text), element creation, [remove] and
    [appendChild]/[prepend] of an existing element under another. *)

From stdpp Require Import base gmap list.
From S2P Require Import Prelude Dom.

Module Wf.

(** [Dom.wf] read through the projections. *)
Definition links_ok (d : Dom.dom) : Prop :=
  forall i, is_Some (Dom.node_at d i) ->
    i < Dom.next_id d /\ NoDup (Dom.children_of d i) /\
    (forall c, c ∈ Dom.children_of d i -> Dom.parentNode d c = Some i) /\
    (forall p, Dom.parentNode d i = Some p -> i ∈ Dom.children_of d p).

Lemma wf_links d : Dom.wf d <-> links_ok d.
Proof.
  unfold Dom.wf, links_ok, Dom.children_of, Dom.parentNode. split.
  - intros H i [n Hn]. destruct (map_Forall_lookup_1 _ _ _ _ H Hn) as (Hlt & Hnd & Hall & Hp).
    rewrite Hn. simpl. split_and!; [exact Hlt|exact Hnd|by apply Forall_forall|].
    intros p Hp'. rewrite Hp' in Hp. exact Hp.
  - intros H i n Hn. destruct (H i ltac:(by eexists)) as (Hlt & Hnd & Hall & Hp).
    unfold Dom.node_at in *. rewrite Hn in Hnd, Hall, Hp. simpl in *.
    split_and!; [exact Hlt|exact Hnd|by apply Forall_forall|]. destruct (Dom.parent n); [by apply Hp|done].
Qed.

Lemma wf_elim d i : Dom.wf d -> is_Some (Dom.node_at d i) ->
  i < Dom.next_id d /\ NoDup (Dom.children_of d i) /\
  (forall c, c ∈ Dom.children_of d i -> Dom.parentNode d c = Some i) /\
  (forall p, Dom.parentNode d i = Some p -> i ∈ Dom.children_of d p).
Proof. intros H. by apply wf_links. Qed.

(** A document with the same nodes and links is a tree when the first is. *)
Lemma wf_same_links d d' :
  Dom.next_id d <= Dom.next_id d' ->
  (forall j, is_Some (Dom.node_at d' j) <-> is_Some (Dom.node_at d j)) ->
  (forall j, Dom.children_of d' j = Dom.children_of d j) ->
  (forall j, Dom.parentNode d' j = Dom.parentNode d j) ->
  Dom.wf d -> Dom.wf d'.
Proof.
  intros Hn Hs Hc Hp H. apply wf_links. intros i Si. apply Hs in Si.
  destruct (wf_elim d i H Si) as (Hlt & Hnd & Hall & Hpar). rewrite !Hc.
  split_and!; [lia|exact Hnd| |].
  - intros c Hx. rewrite Hp. by apply Hall.
  - intros p Hx. rewrite Hc. apply Hpar. by rewrite <- Hp.
Qed.

(** ** Writes that leave the links alone *)

Lemma wf_update_keep d i f :
  (forall n, Dom.children (f n) = Dom.children n) -> (forall n, Dom.parent (f n) = Dom.parent n) ->
  Dom.wf d -> Dom.wf (Dom.update i f d).
Proof.
  intros Hc Hp. apply wf_same_links; [done| |intros j; by apply Dom.children_of_update_keep
                                          |intros j; by apply Dom.parentNode_update_keep].
  intros j. apply Dom.is_Some_node_at_update.
Qed.

Lemma wf_setAttribute d i k v : Dom.wf d -> Dom.wf (Dom.setAttribute i k v d).
Proof. by apply wf_update_keep. Qed.
Lemma wf_classList_add d i c : Dom.wf d -> Dom.wf (Dom.classList_add i c d).
Proof. by apply wf_update_keep. Qed.
Lemma wf_classList_toggle d i c : Dom.wf d -> Dom.wf (Dom.classList_toggle i c d).
Proof. by apply wf_update_keep. Qed.
Lemma wf_classList_toggle_force d i c f : Dom.wf d -> Dom.wf (Dom.classList_toggle_force i c f d).
Proof. by apply wf_update_keep. Qed.
Lemma wf_setText d i t : Dom.wf d -> Dom.wf (Dom.setText i t d).
Proof. by apply wf_update_keep. Qed.

(** ** Creation *)

Lemma wf_created t d : Dom.wf d -> Dom.wf (Dom.created t d).
Proof.
  intros Hwf. pose proof (Dom.wf_fresh _ Hwf) as Hf. apply wf_links. intros i Si.
  rewrite Dom.next_id_created. destruct (decide (i = Dom.next_id d)) as [->|Hi].
  - rewrite Dom.children_of_created_self, Dom.parentNode_created_self by reflexivity.
    split_and!; [lia|constructor|set_solver|discriminate].
  - rewrite Dom.node_at_created_other in Si by exact Hi.
    destruct (wf_elim d i Hwf Si) as (Hlt & Hnd & Hall & Hp).
    rewrite Dom.children_of_created, Dom.parentNode_created by exact Hi.
    split_and!; [lia|exact Hnd| |].
    + intros c Hc. pose proof (Hall c Hc) as Hpc.
      rewrite Dom.parentNode_created; [exact Hpc|].
      exact (Dom.fresh_ne _ _ Hf (Dom.parentNode_is_Some _ _ _ Hpc)).
    + intros p Hpp. pose proof (Hp p Hpp) as Hip. rewrite Dom.children_of_created; [exact Hip|].
      exact (Dom.fresh_ne _ _ Hf (Dom.children_of_is_Some _ _ _ Hip)).
Qed.

(** ** Detaching *)

Lemma wf_detach c d : Dom.wf d -> Dom.wf (Dom.detach c d).
Proof.
  intros Hwf. apply wf_links. intros i Si. apply Dom.is_Some_detach in Si.
  destruct (wf_elim d i Hwf Si) as (Hlt & Hnd & Hall & Hp).
  rewrite Dom.next_id_detach, Dom.children_of_detach. split_and!; [exact Hlt| | |].
  - case_decide; [by apply NoDup_filter|exact Hnd].
  - intros x Hx. destruct (decide (x = c)) as [->|Hxc].
    + case_decide as Hq; [apply list_elem_of_filter in Hx; naive_solver|].
      exfalso. exact (Hq (Hall c Hx)).
    + rewrite Dom.parentNode_detach_ne by exact Hxc. apply Hall.
      case_decide; [apply list_elem_of_filter in Hx; naive_solver|exact Hx].
  - intros p Hpp. destruct (decide (i = c)) as [->|Hic]; [by rewrite Dom.parentNode_detach in Hpp|].
    rewrite Dom.parentNode_detach_ne in Hpp by exact Hic. rewrite Dom.children_of_detach.
    case_decide; [apply list_elem_of_filter; split; [exact Hic|by apply Hp]|by apply Hp].
Qed.

(** ** Attaching *)

Section Attach.
Context (p c : nat) (place : list nat -> list nat).
Context (Hnd : forall l, c ∉ l -> NoDup l -> NoDup (place l)).
Context (Hin : forall l x, x ∈ place l <-> x = c \/ x ∈ l).

Lemma wf_attach_at d :
  Dom.wf d -> c ≠ p -> is_Some (Dom.node_at d p) -> is_Some (Dom.node_at d c) ->
  Dom.wf (Dom.attach_at p c place d).
Proof.
  intros Hwf Hcp Sp Sc. pose proof (wf_detach c d Hwf) as Hwf1.
  assert (c ∉ Dom.children_of (Dom.detach c d) p) as Hc1.
  { intros H. pose proof (Dom.wf_child_parent _ Hwf1 p c H) as E.
    by rewrite Dom.parentNode_detach in E. }
  apply wf_links. intros i Si. apply Dom.is_Some_attach_at in Si.
  pose proof (proj2 (Dom.is_Some_detach d c i) Si) as Si1.
  destruct (wf_elim _ i Hwf1 Si1) as (Hlt & HndI & Hall & Hpar).
  rewrite Dom.next_id_detach in Hlt. rewrite Dom.next_id_attach_at. split_and!; [exact Hlt| | |].
  - destruct (decide (i = p)) as [->|Hip].
    + rewrite Dom.children_of_attach_at by exact Sp. by apply Hnd.
    + by rewrite Dom.children_of_attach_at_ne.
  - intros x Hx. destruct (decide (i = p)) as [->|Hip].
    + rewrite Dom.children_of_attach_at in Hx by exact Sp. apply Hin in Hx as [->|Hx].
      * by apply Dom.parentNode_attach_at.
      * assert (x ≠ c) as Hxc by (intros ->; exact (Hc1 Hx)).
        rewrite Dom.parentNode_attach_at_ne, <- (Dom.parentNode_detach_ne d c x) by exact Hxc.
        by apply Hall.
    + rewrite Dom.children_of_attach_at_ne in Hx by exact Hip.
      pose proof (Hall x Hx) as Hx'.
      assert (x ≠ c) as Hxc by (intros ->; by rewrite Dom.parentNode_detach in Hx').
      rewrite Dom.parentNode_attach_at_ne, <- (Dom.parentNode_detach_ne d c x) by exact Hxc. exact Hx'.
  - intros q Hq. destruct (decide (i = c)) as [->|Hic].
    + rewrite Dom.parentNode_attach_at in Hq by exact Sc. injection Hq as <-.
      rewrite Dom.children_of_attach_at by exact Sp. apply Hin. by left.
    + rewrite Dom.parentNode_attach_at_ne, <- (Dom.parentNode_detach_ne d c i) in Hq by exact Hic.
      pose proof (Hpar q Hq) as Hiq. destruct (decide (q = p)) as [->|Hqp].
      * rewrite Dom.children_of_attach_at by exact Sp. apply Hin. by right.
      * by rewrite Dom.children_of_attach_at_ne.
Qed.
End Attach.

Lemma wf_appendChild d p c :
  Dom.wf d -> c ≠ p -> is_Some (Dom.node_at d p) -> is_Some (Dom.node_at d c) ->
  Dom.wf (Dom.appendChild p c d).
Proof.
  apply wf_attach_at.
  - intros l Hc Hl. apply NoDup_app. split_and!; [exact Hl|set_solver|apply NoDup_singleton].
  - intros l x. rewrite elem_of_app, list_elem_of_singleton. tauto.
Qed.

Lemma wf_detach_all l d : Dom.wf d -> Dom.wf (Dom.detach_all l d).
Proof.
  revert d. induction l as [|c l IH]; intros d Hwf; [exact Hwf|]. apply IH, wf_detach, Hwf.
Qed.

Lemma wf_append_all p l d :
  Dom.wf d -> is_Some (Dom.node_at d p) ->
  (forall c, c ∈ l -> c ≠ p /\ is_Some (Dom.node_at d c)) ->
  Dom.wf (Dom.append_all p l d).
Proof.
  revert d. induction l as [|c l IH]; intros d Hwf Sp Hl; [exact Hwf|].
  destruct (Hl c ltac:(set_solver)) as [Hcp Sc]. apply IH.
  - by apply wf_appendChild.
  - by apply Dom.is_Some_appendChild.
  - intros c' Hc'. destruct (Hl c' ltac:(set_solver)) as [? ?]. split; [done|]. by apply Dom.is_Some_appendChild.
Qed.

Lemma wf_prepend d p c :
  Dom.wf d -> c ≠ p -> is_Some (Dom.node_at d p) -> is_Some (Dom.node_at d c) ->
  Dom.wf (Dom.prepend p c d).
Proof.
  apply wf_attach_at.
  - intros l Hc Hl. by apply NoDup_cons_2.
  - intros l x. by rewrite elem_of_cons.
Qed.

End Wf.
