(* ===== verification/Query.v ===== *)
(** * Query: what a query sees after the page has changed

    [finishLayout] (Layout.v) queries the document after it has
    appended a backdrop, written an [id] and removed the old wrapping
    section.  This file proves what those changes do to the queries
    that follow them.  A fresh leaf that a simple selector does not
    match, and an attribute write under a selector that asks for no
    attribute, change no answer.  After a [remove], a query answers a
    sublist of what it answered before, and it still finds an element
    when the removed one is neither that element nor one of its
    ancestors.  A new leaf changes no other node's ancestors. *)

From stdpp Require Import base gmap strings list sets.
From Stdlib Require Import String.
From S2P Require Import Prelude ClassList Dom Tree Wf.

Module Query.

(** ** Lists *)

Lemma filter_concat_map {A B} (P : B -> Prop) `{!forall x, Decision (P x)} (F : A -> list B) l :
  filter P (List.concat (map F l)) = List.concat (map (fun x => filter P (F x)) l).
Proof. induction l as [|x l IH]; [done|]. simpl. by rewrite filter_app, IH. Qed.

(** A boolean filter keeps the order of what it keeps, so it maps a
    sublist to a sublist. *)
Lemma sublist_List_filter {A} (p : A -> bool) l1 l2 :
  l1 `sublist_of` l2 -> List.filter p l1 `sublist_of` List.filter p l2.
Proof.
  induction 1 as [|x l1 l2 _ IH|x l1 l2 _ IH]; simpl; [constructor| |].
  - destruct (p x); [by apply sublist_skip|exact IH].
  - destruct (p x); [by apply sublist_cons|exact IH].
Qed.

Lemma sublist_concat_map {A B} (F G : A -> list B) l1 l2 :
  l1 `sublist_of` l2 -> (forall x, x ∈ l1 -> F x `sublist_of` G x) ->
  List.concat (map F l1) `sublist_of` List.concat (map G l2).
Proof.
  induction 1 as [|x l1 l2 _ IH|x l1 l2 _ IH]; intros H; simpl; [constructor| |].
  - apply sublist_app; [apply H; set_solver|apply IH; intros y Hy; apply H; set_solver].
  - apply sublist_inserts_l, IH, H.
Qed.

(** Dropping first the elements a boolean filter rejects anyway
    changes nothing. *)
Lemma List_filter_drop {A} (p : A -> bool) (P : A -> Prop) `{!forall x, Decision (P x)} l :
  (forall x, p x = true -> P x) -> List.filter p (filter P l) = List.filter p l.
Proof.
  intros Hp. induction l as [|x l IH]; [done|]. rewrite filter_cons.
  destruct (decide (P x)) as [Hx|Hx]; simpl; rewrite IH; [done|].
  destruct (p x) eqn:E; [exfalso; exact (Hx (Hp x E))|done].
Qed.

Lemma sublist_singleton_elem {A} (l : list A) x : l `sublist_of` [x] -> x ∈ l -> l = [x].
Proof.
  intros Hs Hx. inversion Hs as [|? l1 ? H1|? ? ? H1]; subst.
  - apply sublist_nil_r in H1. by subst.
  - apply sublist_nil_r in H1. subst. set_solver.
Qed.

(** ** The root and the size of the store through the mutations *)

Lemma root_id_detach c d : Dom.root_id (Dom.detach c d) = Dom.root_id d.
Proof. unfold Dom.detach. by repeat case_match. Qed.

Lemma root_id_attach_at p c place d : Dom.root_id (Dom.attach_at p c place d) = Dom.root_id d.
Proof. unfold Dom.attach_at. rewrite !Dom.update_root. apply root_id_detach. Qed.

Lemma fuel_of_update i f d : Dom.fuel_of (Dom.update i f d) = Dom.fuel_of d.
Proof. unfold Dom.fuel_of, Dom.update, Dom.set_nodes. simpl. by rewrite Dom.size_alter. Qed.

Lemma fuel_of_detach c d : Dom.fuel_of (Dom.detach c d) = Dom.fuel_of d.
Proof. unfold Dom.detach. repeat case_match; rewrite ?fuel_of_update; reflexivity. Qed.

Lemma fuel_of_attach_at p c place d : Dom.fuel_of (Dom.attach_at p c place d) = Dom.fuel_of d.
Proof. unfold Dom.attach_at. by rewrite !fuel_of_update, fuel_of_detach. Qed.

Lemma fuel_of_created t d : Dom.fresh d -> Dom.fuel_of (Dom.created t d) = S (Dom.fuel_of d).
Proof.
  intros Hf. unfold Dom.fuel_of, Dom.created, Dom.createElement. simpl.
  rewrite map_size_insert_None; [reflexivity|]. apply (Hf (Dom.next_id d)). lia.
Qed.

(** A simple selector reads the tag, classes and attributes only. *)
Lemma node_matches_look d1 d2 c j :
  Dom.look d1 j = Dom.look d2 j -> Dom.node_matches d1 c j = Dom.node_matches d2 c j.
Proof.
  unfold Dom.look, Dom.node_matches, Dom.compound_matches.
  destruct (Dom.node_at d1 j), (Dom.node_at d2 j); simpl; intros H; try discriminate; [|done].
  by injection H as -> -> ->.
Qed.

Lemma look_update_ne d i f j : i ≠ j -> Dom.look (Dom.update i f d) j = Dom.look d j.
Proof. intros H. unfold Dom.look. by rewrite Dom.node_at_update_ne. Qed.

Lemma querySelector_all d s : Dom.querySelector d s = List.hd_error (Dom.querySelectorAll d s).
Proof. reflexivity. Qed.

(** ** A new leaf *)

(** A traversal of a document that differs from [d] by one more child
    [b], a leaf, at the end of [w]'s children, visits what the
    traversal of [d] visits and [b]. *)
Section Leaf.
Context (d d' : Dom.dom) (w b : nat).
Context (Hc : forall j, j ≠ w -> j ≠ b -> Dom.children_of d' j = Dom.children_of d j).
Context (Hw : Dom.children_of d' w = Dom.children_of d w ++ [b]).
Context (Hb : Dom.children_of d' b = []).
Context (Hn : forall j, b ∉ Dom.children_of d j).

Lemma preorder_leaf f i : i ≠ b -> filter (fun j => j ≠ b) (Dom.preorder f d' i) = Dom.preorder f d i.
Proof.
  revert i. induction f as [|f IH]; intros i Hi; [reflexivity|].
  rewrite !Tree.preorder_S_eq, filter_cons_True by exact Hi. f_equal. rewrite filter_concat_map.
  assert (forall l, (forall c, c ∈ l -> c ≠ b) ->
    List.concat (map (fun x => filter (fun j => j ≠ b) (Dom.preorder f d' x)) l) =
    List.concat (map (Dom.preorder f d) l)) as Hl.
  { intros l Hl. f_equal. apply map_ext_in. intros c Hc'. apply IH, Hl. by apply list_elem_of_In. }
  destruct (decide (i = w)) as [->|Hiw].
  - rewrite Hw, map_app, concat_app, Hl by (intros c Hc' ->; exact (Hn w Hc')).
    cbn [map List.concat]. destruct f as [|f]; [by rewrite !app_nil_r|].
    rewrite Tree.preorder_S_eq, Hb. simpl. rewrite filter_cons_False by congruence. by rewrite app_nil_r.
  - rewrite Hc by assumption. apply Hl. intros c Hc' ->. exact (Hn i Hc').
Qed.
End Leaf.

(** [p.appendChild(x)] of an element [x] just created and written by
    [g], which keeps links: a query by a simple selector that does not
    match [x] answers what it answered before. *)
Theorem querySelectorAll_new_leaf d p t g c :
  Tree.rooted d -> is_Some (Dom.node_at d p) ->
  (forall n, Dom.children (g n) = Dom.children n /\ Dom.parent (g n) = Dom.parent n) ->
  Dom.compound_matches c (g (Dom.blank t)) = false ->
  Dom.querySelectorAll (Dom.appendChild p (Dom.next_id d) (Dom.update (Dom.next_id d) g (Dom.created t d)))
    (Dom.Simple c) = Dom.querySelectorAll d (Dom.Simple c).
Proof.
  intros Hr Sp Hg Hm. pose proof Hr as (Hwf & _ & Sr). pose proof (Dom.wf_fresh _ Hwf) as Hf.
  set (b := Dom.next_id d). set (d0 := Dom.update b g (Dom.created t d)).
  set (d' := Dom.appendChild p b d0).
  assert (forall j, is_Some (Dom.node_at d j) -> j ≠ b) as Hne by (intros j Sj; exact (Dom.fresh_ne _ _ Hf Sj)).
  assert (Dom.loose d0 b) as Hlb.
  { unfold Dom.loose, d0. rewrite Dom.parentNode_update_keep by (intros n; apply Hg).
    by apply Dom.parentNode_created_self. }
  assert (forall j, j ≠ b -> Dom.children_of d0 j = Dom.children_of d j) as Hd0.
  { intros j Hj. unfold d0. rewrite Dom.children_of_update_ne by congruence. by apply Dom.children_of_created. }
  assert (forall j, j ≠ b -> Dom.look d' j = Dom.look d j) as Hlook.
  { intros j Hj. unfold d', d0. rewrite Dom.look_appendChild, look_update_ne by congruence. by apply Dom.look_created. }
  assert (Dom.node_matches d' c b = false) as Hmb.
  { rewrite (node_matches_look d' d0) by apply Dom.look_appendChild.
    unfold Dom.node_matches, d0. rewrite Dom.node_at_update_eq, Dom.node_at_created_self. exact Hm. }
  assert (forall f, filter (fun j => j ≠ b) (Dom.preorder f d' (Dom.root_id d)) = Dom.preorder f d (Dom.root_id d)) as Hpre.
  { intros f. apply (preorder_leaf d d' p b); [| | | |exact (Hne _ Sr)].
    - intros j Hj1 Hj2. unfold d'. rewrite Dom.children_of_appendChild_ne_loose by assumption. by apply Hd0.
    - unfold d'. rewrite Dom.children_of_appendChild_loose; [by rewrite Hd0 by exact (Hne p Sp)| |exact Hlb].
      unfold d0. apply Dom.is_Some_node_at_update, Dom.is_Some_created, Sp.
    - unfold d'. rewrite Dom.children_of_appendChild_ne_loose by (exact (not_eq_sym (Hne p Sp)) || exact Hlb).
      unfold d0. rewrite Dom.children_of_update_keep by (intros n; apply Hg). by apply Dom.children_of_created_self.
    - intros j Hj. exact (Hne b (Dom.wf_child_node _ Hwf _ _ Hj) eq_refl). }
  assert (Dom.root_id d' = Dom.root_id d) as Hroot by (unfold d', Dom.appendChild; by rewrite root_id_attach_at).
  assert (Dom.fuel_of d' = S (Dom.fuel_of d)) as Hfuel.
  { unfold d', d0, Dom.appendChild. by rewrite fuel_of_attach_at, fuel_of_update, fuel_of_created. }
  assert (Dom.preorder (Dom.fuel_of d) d (Dom.root_id d) =
          filter (fun j => j ≠ b) (Dom.preorder (S (Dom.fuel_of d)) d' (Dom.root_id d))) as HF.
  { rewrite Hpre. replace (S (Dom.fuel_of d)) with (Dom.fuel_of d + 1) by lia.
    symmetry. apply Tree.preorder_fuel_adequate, Hr. }
  unfold Dom.querySelectorAll, Dom.querySelectorAll_from, Dom.descendants. fold d0 b d'.
  rewrite Hroot, Hfuel, HF, (Tree.preorder_S_eq d'), filter_cons_True by exact (Hne _ Sr). cbn [List.tl].
  rewrite <- (List_filter_drop (Dom.matches d' (Dom.Simple c)) (fun j => j ≠ b)).
  2:{ intros x Hx ->. cbn [Dom.matches] in Hx. congruence. }
  apply filter_ext_in. intros y Hy. cbn [Dom.matches]. apply node_matches_look, Hlook.
  apply list_elem_of_In, list_elem_of_filter in Hy as [Hy _]. exact Hy.
Qed.

(** ** Attribute writes *)

Definition same_but_attrs (n1 n2 : Dom.node) : Prop :=
  Dom.tag n1 = Dom.tag n2 /\ Dom.classes n1 = Dom.classes n2 /\
  Dom.children n1 = Dom.children n2 /\ Dom.parent n1 = Dom.parent n2.

(** A selector that asks for no attribute does not see [setAttribute]. *)
Lemma querySelectorAll_setAttribute d i k v c :
  Dom.sel_attrs c = [] ->
  Dom.querySelectorAll (Dom.setAttribute i k v d) (Dom.Simple c) = Dom.querySelectorAll d (Dom.Simple c).
Proof.
  intros Hc. apply (Dom.agree_querySelectorAll same_but_attrs).
  - by intros n1 n2 (_ & _ & ? & _).
  - by intros n1 n2 (_ & _ & _ & ?).
  - apply Dom.update_agree; [done|]. done.
  - constructor; [|constructor]. intros n1 n2 (Ht & Hcl & _).
    unfold Dom.compound_matches. by rewrite Ht, Hcl, Hc.
Qed.

(** ** Removing an element *)

Lemma children_of_detach_sublist c d j : Dom.children_of (Dom.detach c d) j `sublist_of` Dom.children_of d j.
Proof. rewrite Dom.children_of_detach. case_decide; [apply sublist_filter|reflexivity]. Qed.

Lemma children_of_detach_keep c d a y :
  y ≠ c -> y ∈ Dom.children_of d a -> y ∈ Dom.children_of (Dom.detach c d) a.
Proof. intros Hy H. rewrite Dom.children_of_detach. case_decide; [by apply list_elem_of_filter|exact H]. Qed.

Lemma preorder_sublist f d d' i :
  (forall j, Dom.children_of d' j `sublist_of` Dom.children_of d j) ->
  Dom.preorder f d' i `sublist_of` Dom.preorder f d i.
Proof.
  intros H. revert i. induction f as [|f IH]; intros i; [constructor|].
  rewrite !Tree.preorder_S_eq. apply sublist_skip, sublist_concat_map; [apply H|intros x _; apply IH].
Qed.

(** After [ow.remove()], a query by a simple selector answers a
    sublist of what it answered before. *)
Lemma querySelectorAll_detach_sublist ow d c :
  Dom.querySelectorAll (Dom.detach ow d) (Dom.Simple c) `sublist_of` Dom.querySelectorAll d (Dom.Simple c).
Proof.
  unfold Dom.querySelectorAll, Dom.querySelectorAll_from, Dom.descendants.
  rewrite root_id_detach, fuel_of_detach.
  rewrite (List.filter_ext (Dom.matches (Dom.detach ow d) (Dom.Simple c)) (Dom.matches d (Dom.Simple c))).
  2:{ intros j. cbn [Dom.matches]. apply node_matches_look, Dom.look_detach. }
  apply sublist_List_filter. unfold Dom.fuel_of. rewrite !Tree.preorder_S_eq. cbn [List.tl].
  apply sublist_concat_map; [apply children_of_detach_sublist|].
  intros x _. apply preorder_sublist, children_of_detach_sublist.
Qed.

(** ** Paths from the root *)

Lemma chain_keep d d' L :
  Tree.chain d L -> (forall a y, a ∈ L -> y ∈ L -> y ∈ Dom.children_of d a -> y ∈ Dom.children_of d' a) ->
  Tree.chain d' L.
Proof.
  induction 1 as [x|x y l Hy _ IH]; intros H; constructor.
  - apply H; [set_solver|set_solver|exact Hy].
  - apply IH. intros a z Ha Hz Haz. apply H; [set_solver|set_solver|exact Haz].
Qed.

(** A descendant of [r] ends a chain from a child of [r]. *)
Lemma descendants_path d r g :
  g ∈ Dom.descendants d r ->
  exists c l, c ∈ Dom.children_of d r /\ Tree.chain d (c :: l) /\ (c :: l) !! List.length l = Some g.
Proof.
  unfold Dom.descendants, Dom.fuel_of. rewrite Tree.preorder_S_eq. cbn [List.tl]. intros Hg.
  apply list_elem_of_In, in_concat in Hg as (k & Hk & Hg). apply in_map_iff in Hk as (c & <- & Hc).
  apply list_elem_of_In in Hg. destruct (Tree.preorder_chain _ _ _ _ Hg) as (l & Hl & Hz).
  exists c, l. split_and!; [by apply list_elem_of_In|exact Hl|exact Hz].
Qed.

Lemma path_descendants d r c l g :
  c ∈ Dom.children_of d r -> Tree.chain d (c :: l) -> (c :: l) !! List.length l = Some g ->
  List.length l < size (Dom.nodes d) -> g ∈ Dom.descendants d r.
Proof.
  intros Hc Hl Hz Hn. unfold Dom.descendants, Dom.fuel_of. rewrite Tree.preorder_S_eq. cbn [List.tl].
  apply list_elem_of_In, in_concat. exists (Dom.preorder (size (Dom.nodes d)) d c). split.
  - apply in_map_iff. exists c. split; [reflexivity|]. by apply list_elem_of_In.
  - apply list_elem_of_In. exact (Tree.chain_preorder _ _ _ _ _ Hl Hz Hn).
Qed.

(** The ancestors of a node are the path from the root to it, read
    backwards. *)
Lemma path_ancestors d c l g :
  Tree.rooted d -> c ∈ Dom.children_of d (Dom.root_id d) -> Tree.chain d (c :: l) ->
  (c :: l) !! List.length l = Some g ->
  g :: Dom.ancestors (Dom.fuel_of d) d g = reverse (Dom.root_id d :: c :: l).
Proof.
  intros (Hwf & Hr & Sr) Hc Hl Hz.
  assert (Tree.chain d (Dom.root_id d :: c :: l)) as Hrl by (constructor; assumption).
  pose proof (Tree.chain_length d Hwf _ _ Hr Sr Hrl) as Hn. cbn [List.length] in Hn.
  assert ((Dom.root_id d :: c :: l) !! List.length (c :: l) = Some g) as Hz' by exact Hz.
  replace (Dom.fuel_of d) with ((Dom.fuel_of d - List.length (c :: l)) + List.length (c :: l))
    by (unfold Dom.fuel_of; cbn [List.length]; lia).
  rewrite (Tree.ancestors_chain d Hwf _ _ _ _ Hrl Hz'), Tree.ancestors_parentless, app_nil_r by exact Hr.
  symmetry. exact (Tree.reverse_chain_head _ _ _ Hz').
Qed.

(** A document that keeps every link of a rooted one, and maybe adds
    some, gives its nodes the same ancestors. *)
Lemma ancestors_grow d d' g :
  Tree.rooted d -> Tree.rooted d' -> Dom.root_id d' = Dom.root_id d ->
  (forall a y, y ∈ Dom.children_of d a -> y ∈ Dom.children_of d' a) ->
  g ∈ Dom.descendants d (Dom.root_id d) ->
  Dom.ancestors (Dom.fuel_of d') d' g = Dom.ancestors (Dom.fuel_of d) d g.
Proof.
  intros Hr Hr' Hroot Hk Hg. destruct (descendants_path _ _ _ Hg) as (c & l & Hc & Hl & Hz).
  assert (c ∈ Dom.children_of d' (Dom.root_id d')) as Hc' by (rewrite Hroot; by apply Hk).
  assert (Tree.chain d' (c :: l)) as Hl' by (apply (chain_keep d); [exact Hl|intros; by apply Hk]).
  pose proof (path_ancestors d c l g Hr Hc Hl Hz) as E. pose proof (path_ancestors d' c l g Hr' Hc' Hl' Hz) as E'.
  rewrite Hroot, <- E in E'. by injection E'.
Qed.

(** After [ow.remove()], the only match of a simple selector is still
    found when [ow] is neither that match nor one of its ancestors. *)
Theorem querySelectorAll_detach_one d ow c g :
  Tree.rooted d -> Dom.querySelectorAll d (Dom.Simple c) = [g] ->
  ow ∉ (g :: Dom.ancestors (Dom.fuel_of d) d g) ->
  Dom.querySelectorAll (Dom.detach ow d) (Dom.Simple c) = [g].
Proof.
  intros Hr Hq Ho. apply sublist_singleton_elem; [rewrite <- Hq; apply querySelectorAll_detach_sublist|].
  assert (g ∈ Dom.querySelectorAll d (Dom.Simple c)) as Hg by (rewrite Hq; set_solver).
  unfold Dom.querySelectorAll, Dom.querySelectorAll_from in Hg |- *. rewrite root_id_detach.
  apply list_elem_of_In, filter_In in Hg as [Hg Hm]. apply list_elem_of_In in Hg.
  destruct (descendants_path _ _ _ Hg) as (c0 & l & Hc0 & Hl & Hz).
  rewrite (path_ancestors d c0 l g Hr Hc0 Hl Hz), elem_of_reverse in Ho.
  apply list_elem_of_In, filter_In. split.
  - apply list_elem_of_In. pose proof Hr as (Hwf & Hrp & Sr).
    pose proof (Tree.chain_length d Hwf _ (c0 :: l) Hrp Sr ltac:(by constructor)) as Hn. cbn [List.length] in Hn.
    pose proof (fuel_of_detach ow d) as Hs. unfold Dom.fuel_of in Hs.
    apply (path_descendants _ _ c0 l); [| |exact Hz|lia].
    + apply children_of_detach_keep; [set_solver|exact Hc0].
    + apply (chain_keep d); [exact Hl|]. intros a y _ Hy Hay. apply children_of_detach_keep; [set_solver|exact Hay].
  - cbn [Dom.matches] in Hm |- *. rewrite (node_matches_look (Dom.detach ow d) d) by apply Dom.look_detach. exact Hm.
Qed.

(** ** A new leaf keeps every other node's ancestors *)

(** The ancestors of a node of a well-formed document are nodes of it. *)
Lemma ancestors_elem_node F d i j :
  Dom.wf d -> j ∈ Dom.ancestors F d i -> is_Some (Dom.node_at d j).
Proof.
  intros Hwf. revert i. induction F as [|F IH]; intros i Hj; cbn [Dom.ancestors] in Hj; [set_solver|].
  destruct (Dom.node_at d i ≫= Dom.parent) as [p|] eqn:Hp; [|set_solver].
  apply elem_of_cons in Hj as [->|Hj]; [|exact (IH p Hj)].
  apply (Dom.children_of_is_Some d p i), (Dom.wf_parent_child d Hwf), Hp.
Qed.

(** A document that gives every node but the fresh handle its old
    parent gives every old node its old ancestors. *)
Lemma ancestors_new_leaf F d d' i :
  Dom.wf d -> (forall j, j ≠ Dom.next_id d -> Dom.parentNode d' j = Dom.parentNode d j) ->
  i ≠ Dom.next_id d -> Dom.ancestors F d' i = Dom.ancestors F d i.
Proof.
  intros Hwf Hp. revert i. induction F as [|F IH]; intros i Hi; [reflexivity|]. cbn [Dom.ancestors].
  change (Dom.node_at d' i ≫= Dom.parent) with (Dom.parentNode d' i).
  change (Dom.node_at d i ≫= Dom.parent) with (Dom.parentNode d i).
  rewrite (Hp i Hi). destruct (Dom.parentNode d i) as [q|] eqn:Hq; [|reflexivity].
  f_equal. apply IH, Dom.fresh_ne; [exact (Dom.wf_fresh d Hwf)|].
  apply (Dom.children_of_is_Some d q i), (Dom.wf_parent_child d Hwf), Hq.
Qed.

End Query.
