(* ===== verification/Config.v ===== *)
(** * Config: the constants [loaders.js] reads

    [loaders.js] uses constants declared in another script of the site
    ([COLOR_MODES], [NAV_LINKS], the class names and asset paths).  Their
    values are site configuration, so the development keeps them as the
    fields of a record [config]: every theorem holds for every
    configuration that satisfies the hypotheses it states, and
    [sample_config] (the scenario of the specification: a light and a
    dark mode) is the concrete input of the witnesses. *)

From stdpp Require Import base strings list.
From Stdlib Require Import String.
From S2P Require Import Prelude.

Module Config.

(** An entry of [COLOR_MODES]: [{ name, icon, value }]. *)
Record color_mode := ColorMode {
  cm_name : string;
  cm_icon : string;
  cm_value : string;
}.

(** [type NavItem = { name: string } & ({ href: string } | { items: NavItem[] })]:
    [href] and [items] are optional fields of the object literal. *)
Inductive nav_item :=
  | NavItem (name : string) (href : option string) (items : option (list nav_item)).

Record config := {
  WRAPPER_CLASS : string;
  COLOR_MODES : list color_mode;
  NAV_LINKS : list nav_item;
  REMIX_HOME_URL : string;
  REMIX_DOCS_URL : string;
  REMIX_LOGO_PATH : string;
  REMIX_LOGO_CLASS : string;
  CHEVRON_DOWN_PATH : string;
  NE_ARROW_PATH : string;
  HAMBURGER_PATH : string;
  THEME_BUTTON_WRAPPER_CLASS : string;
  THEME_BUTTON_CLASS : string;
  THEME_DROPDOWN_MENU_CLASS : string;
  COLOR_TOGGLE_ICON_CLASS : string;
  MOBILE_MENU_TOGGLE_CLASS : string;
  MOBILE_MENU_ICON_CLASS : string;
}.

(** The JavaScript object of a [COLOR_MODES] entry. *)
Definition color_mode_obj (m : color_mode) : jsval :=
  JObj [("name", JStr (cm_name m)); ("icon", JStr (cm_icon m));
        ("value", JStr (cm_value m))].

Definition mode_values (cfg : config) : list string := map cm_value (COLOR_MODES cfg).

(** The scenario of the specification. *)
Definition sample_config : config := {|
  WRAPPER_CLASS := "unified-wrapper";
  COLOR_MODES := [ColorMode "Light" "/icons/sun.svg" "light";
                  ColorMode "Dark" "/icons/moon.svg" "dark"];
  NAV_LINKS := [NavItem "Home" (Some "https://remix-project.org") None;
                NavItem "Documentation" (Some "https://remix-ide.readthedocs.io") None;
                NavItem "Learn" None
                  (Some [NavItem "Blog" (Some "https://medium.com/remix-ide") None;
                         NavItem "Guide" (Some "/guide") None])];
  REMIX_HOME_URL := "https://remix-project.org";
  REMIX_DOCS_URL := "https://remix-ide.readthedocs.io";
  REMIX_LOGO_PATH := "_static/img/logo.svg";
  REMIX_LOGO_CLASS := "remix-logo";
  CHEVRON_DOWN_PATH := "_static/img/chevron-down.svg";
  NE_ARROW_PATH := "_static/img/ne-arrow.svg";
  HAMBURGER_PATH := "_static/img/hamburger.svg";
  THEME_BUTTON_WRAPPER_CLASS := "theme-button-wrapper";
  THEME_BUTTON_CLASS := "theme-button";
  THEME_DROPDOWN_MENU_CLASS := "theme-dropdown-menu";
  COLOR_TOGGLE_ICON_CLASS := "color-toggle-icon";
  MOBILE_MENU_TOGGLE_CLASS := "shift";
  MOBILE_MENU_ICON_CLASS := "mobile-menu-icon";
|}.

End Config.
