(* ===== verification/Page.v ===== *)
(** * Page: the state the script acts on

    The page state is the document together with the script's globals:
    the [mode] variable and the [loadedSvgs] object of the site's
    scripts, the click handlers registered on elements, and the
    asynchronous work in flight (the [fetch] promises of
    [preloadColorModeIcons] and [appendSvg]).  Closures of the code are
    represented by the [handler] and [task] constructors that name them
    with the values they capture (defunctionalisation). *)

From stdpp Require Import base gmap strings list.
From Stdlib Require Import String.
From S2P Require Import Prelude ClassList Dom Config.

Module Page.

(** The click handlers the code installs. *)
Inductive handler :=
  | HToggleDropdown                (** [button.onclick = toggleDropdown] *)
  | HThemeItem (value : string)    (** [dropdownItem.onclick = () => {...}] *)
  | HThemeButton (menu : nat)      (** the listener of [themeDropdownButton] *)
  | HToggleMenu.                   (** [addEventListener("click", toggleMenu)] *)

(** Pending continuations of [fetch(...).then(...)]. *)
Inductive task :=
  | TIconFetch (icons : list string) (idx : nat)
      (** [preloadColorModeIcons]: [.then(data => loadedSvgs[...] = data)] *)
  | TAppendSvg (path : string) (target : nat) (cls : string).
      (** [appendSvg(path, target, cls)] *)

Record page := mkPage {
  pdom : Dom.dom;
  onclick : gmap nat handler;          (** the [onclick] property *)
  listeners : list (nat * handler);    (** [addEventListener("click", ...)] *)
  tasks : list task;                   (** promises not yet settled *)
  mode : string;                       (** the global [mode] *)
  loadedSvgs : gmap string string;     (** the global [loadedSvgs] *)
}.

Definition set_pdom (d : Dom.dom) (s : page) : page :=
  mkPage d (onclick s) (listeners s) (tasks s) (mode s) (loadedSvgs s).
Definition set_onclick (m : gmap nat handler) (s : page) : page :=
  mkPage (pdom s) m (listeners s) (tasks s) (mode s) (loadedSvgs s).
Definition set_listeners (l : list (nat * handler)) (s : page) : page :=
  mkPage (pdom s) (onclick s) l (tasks s) (mode s) (loadedSvgs s).
Definition set_tasks (l : list task) (s : page) : page :=
  mkPage (pdom s) (onclick s) (listeners s) l (mode s) (loadedSvgs s).
Definition set_mode (m : string) (s : page) : page :=
  mkPage (pdom s) (onclick s) (listeners s) (tasks s) m (loadedSvgs s).
Definition set_loadedSvgs (m : gmap string string) (s : page) : page :=
  mkPage (pdom s) (onclick s) (listeners s) (tasks s) (mode s) m.

#[export] Instance page_HasDom : HasDom page := {|
  get_dom := pdom;
  set_dom := set_pdom;
  get_set_dom := fun _ _ => eq_refl;
|}.

Lemma get_dom_page s : get_dom s = pdom s.
Proof. reflexivity. Qed.
Lemma set_dom_page d s : set_dom d s = set_pdom d s.
Proof. reflexivity. Qed.

(** [el.onclick = h] and [el.addEventListener("click", h)]. *)
Definition set_onclick_of (i : nat) (h : handler) : js page unit :=
  js_modify (fun s => set_onclick (<[i := h]> (onclick s)) s).
Definition add_listener (i : nat) (h : handler) : js page unit :=
  js_modify (fun s => set_listeners (listeners s ++ [(i, h)]) s).

(** Starting a [fetch]: its continuation joins the pending tasks. *)
Definition spawn (t : task) : js page unit :=
  js_modify (fun s => set_tasks (tasks s ++ [t]) s).

(** [appendSvg(path, target, className)], defined in another script of
    the site: it requests the SVG file and, once it arrives, inserts it
    into [target] with the class [className].  Called, it only starts
    the request. *)
Definition appendSvg (path : string) (target : nat) (cls : string) : js page unit :=
  spawn (TAppendSvg path target cls).

(** The continuation of [appendSvg]: the markup becomes an [svg] child
    of the target with the class; a failed request inserts nothing. *)
Definition appendSvg_done (target : nat) (cls : string) (response : option string)
  : js page unit :=
  match response with
  | None => js_ret tt
  | Some markup =>
      svg <- dom_create "svg" ;;
      add_class svg cls ;;
      set_text svg markup ;;
      append target svg
  end.


(** ** Statements that only touch the document

    A predicate that ignores the document is kept by every statement that
    only reads or writes the document.  Most of the invariants about the
    globals follow from these rules and those of [Prelude]. *)
Definition dom_blind (P : page -> Prop) : Prop := forall d s, P (set_pdom d s) <-> P s.

Section DomBlind.
Context (P : page -> Prop) (HP : dom_blind P).

Lemma preserves_dom_do f : preserves P (dom_do f).
Proof. intros s Hs. simpl. apply HP. exact Hs. Qed.

Lemma preserves_dom_read {A} (f : Dom.dom -> A) : preserves P (dom_read f).
Proof. intros s Hs. exact Hs. Qed.

Lemma preserves_dom_create t : preserves P (dom_create t).
Proof. intros s Hs. unfold dom_create. simpl. apply HP. exact Hs. Qed.

Lemma preserves_set_onclick_of i h :
  (forall s m, P s -> P (set_onclick m s)) -> preserves P (set_onclick_of i h).
Proof. intros Hm s Hs. apply Hm. exact Hs. Qed.

Lemma preserves_add_class i c : preserves P (add_class i c).
Proof. apply preserves_dom_do. Qed.
Lemma preserves_set_text i t : preserves P (set_text i t).
Proof. apply preserves_dom_do. Qed.
Lemma preserves_append p c : preserves P (append p c).
Proof. apply preserves_dom_do. Qed.
Lemma preserves_set_attr i k v : preserves P (set_attr i k v).
Proof. apply preserves_dom_do. Qed.
End DomBlind.

Lemma dom_blind_loadedSvgs (Q : gmap string string -> Prop) : dom_blind (fun s => Q (loadedSvgs s)).
Proof. intros d s. reflexivity. Qed.

Lemma dom_blind_tasks (Q : list task -> Prop) : dom_blind (fun s => Q (tasks s)).
Proof. intros d s. reflexivity. Qed.

(** One DOM statement on a page, as an equation of the monad. *)
Lemma dom_create_page t (s : page) :
  dom_create t s = Normal (Dom.next_id (pdom s)) (set_pdom (Dom.created t (pdom s)) s).
Proof. reflexivity. Qed.

Lemma dom_do_page f (s : page) : dom_do f s = Normal tt (set_pdom (f (pdom s)) s).
Proof. reflexivity. Qed.

Lemma add_class_page i c (s : page) :
  add_class i c s = Normal tt (set_pdom (Dom.classList_add i c (pdom s)) s).
Proof. reflexivity. Qed.

Lemma append_page p c (s : page) : append p c s = Normal tt (set_pdom (Dom.appendChild p c (pdom s)) s).
Proof. reflexivity. Qed.

Lemma prepend_child_page p c (s : page) :
  prepend_child p c s = Normal tt (set_pdom (Dom.prepend p c (pdom s)) s).
Proof. reflexivity. Qed.

Lemma query_page sel (s : page) : query sel s = Normal (Dom.querySelector (pdom s) sel) s.
Proof. reflexivity. Qed.

Lemma set_pdom_twice d1 d2 (s : page) : set_pdom d1 (set_pdom d2 s) = set_pdom d1 s.
Proof. reflexivity. Qed.

Lemma pdom_set_pdom d (s : page) : pdom (set_pdom d s) = d.
Proof. reflexivity. Qed.

Lemma set_attr_page i k v (s : page) :
  set_attr i k v s = Normal tt (set_pdom (Dom.setAttribute i k v (pdom s)) s).
Proof. reflexivity. Qed.

Lemma set_text_page i t (s : page) : set_text i t s = Normal tt (set_pdom (Dom.setText i t (pdom s)) s).
Proof. reflexivity. Qed.

Lemma set_onclick_of_page i h (s : page) :
  set_onclick_of i h s = Normal tt (set_onclick (<[i := h]> (onclick s)) s).
Proof. reflexivity. Qed.

Lemma add_listener_page i h (s : page) :
  add_listener i h s = Normal tt (set_listeners (listeners s ++ [(i, h)]) s).
Proof. reflexivity. Qed.

Lemma appendSvg_page path i cls (s : page) :
  appendSvg path i cls s = Normal tt (set_tasks (tasks s ++ [TAppendSvg path i cls]) s).
Proof. reflexivity. Qed.

Lemma js_get_page (s : page) : js_get s = Normal s s.
Proof. reflexivity. Qed.

Lemma pdom_set_onclick m (s : page) : pdom (set_onclick m s) = pdom s.
Proof. reflexivity. Qed.
Lemma pdom_set_listeners l (s : page) : pdom (set_listeners l s) = pdom s.
Proof. reflexivity. Qed.
Lemma pdom_set_tasks l (s : page) : pdom (set_tasks l s) = pdom s.
Proof. reflexivity. Qed.

Lemma tasks_set_pdom d (s : page) : tasks (set_pdom d s) = tasks s.
Proof. reflexivity. Qed.
Lemma mode_set_pdom d (s : page) : mode (set_pdom d s) = mode s.
Proof. reflexivity. Qed.
Lemma loadedSvgs_set_pdom d (s : page) : loadedSvgs (set_pdom d s) = loadedSvgs s.
Proof. reflexivity. Qed.
Lemma onclick_set_pdom d (s : page) : onclick (set_pdom d s) = onclick s.
Proof. reflexivity. Qed.
Lemma listeners_set_pdom d (s : page) : listeners (set_pdom d s) = listeners s.
Proof. reflexivity. Qed.
Lemma set_tasks_set_pdom l d (s : page) : set_tasks l (set_pdom d s) = set_pdom d (set_tasks l s).
Proof. reflexivity. Qed.
Lemma set_onclick_set_pdom m d (s : page) : set_onclick m (set_pdom d s) = set_pdom d (set_onclick m s).
Proof. reflexivity. Qed.
Lemma set_listeners_set_pdom l d (s : page) :
  set_listeners l (set_pdom d s) = set_pdom d (set_listeners l s).
Proof. reflexivity. Qed.

Lemma onclick_set_tasks l (s : page) : onclick (set_tasks l s) = onclick s.
Proof. reflexivity. Qed.
Lemma listeners_set_tasks l (s : page) : listeners (set_tasks l s) = listeners s.
Proof. reflexivity. Qed.
Lemma tasks_set_tasks l (s : page) : tasks (set_tasks l s) = l.
Proof. reflexivity. Qed.
Lemma mode_set_tasks l (s : page) : mode (set_tasks l s) = mode s.
Proof. reflexivity. Qed.
Lemma loadedSvgs_set_tasks l (s : page) : loadedSvgs (set_tasks l s) = loadedSvgs s.
Proof. reflexivity. Qed.
Lemma onclick_set_listeners l (s : page) : onclick (set_listeners l s) = onclick s.
Proof. reflexivity. Qed.
Lemma listeners_set_listeners l (s : page) : listeners (set_listeners l s) = l.
Proof. reflexivity. Qed.
Lemma tasks_set_listeners l (s : page) : tasks (set_listeners l s) = tasks s.
Proof. reflexivity. Qed.
Lemma mode_set_listeners l (s : page) : mode (set_listeners l s) = mode s.
Proof. reflexivity. Qed.
Lemma loadedSvgs_set_listeners l (s : page) : loadedSvgs (set_listeners l s) = loadedSvgs s.
Proof. reflexivity. Qed.

Lemma dom_read_page {A} (f : Dom.dom -> A) (s : page) : dom_read f s = Normal (f (pdom s)) s.
Proof. reflexivity. Qed.

End Page.

#[export] Hint Rewrite Page.get_dom_page Page.set_dom_page : js_rw.
#[export] Hint Resolve Page.preserves_dom_do Page.preserves_dom_read Page.preserves_dom_create
  Page.preserves_add_class Page.preserves_set_text Page.preserves_append Page.preserves_set_attr
  Page.dom_blind_loadedSvgs Page.dom_blind_tasks : js.

(** A loop whose body is one DOM statement folds the statement over
    the document; written in the shape [run_page] leaves it in. *)
Lemma forEach_dom {A} (f : A -> Dom.dom -> Dom.dom) (l : list A) (s : Page.page) :
  js_forEach (fun x s => Normal tt (Page.set_pdom (f x (Page.pdom s)) s)) l s =
  Normal tt (Page.set_pdom (fold_left (fun d x => f x d) l (Page.pdom s)) s).
Proof.
  revert s. induction l as [|x l IH]; intros s; [by destruct s|].
  cbn [js_forEach]. unfold js_bind. rewrite IH. reflexivity.
Qed.

(** Run the DOM statements of a script on a symbolic page: the monad
    and the statement wrappers are unfolded, [createElement] names its
    fresh handle, and the page record is simplified.  A query whose
    result is not known stays as a [match]; rewriting it with its
    result and running again continues the script. *)
Ltac run_page :=
  cbv beta iota zeta delta [js_bind js_ret deref js_throw query query_in query_all dom_read dom_do
    js_modify dom_create set_textContent clear_children append add_class remove_class set_attr
    remove_child insert_before remove_node prepend_child get_dom set_dom Page.page_HasDom];
  rewrite ?Dom.createElement_created;
  cbv beta iota zeta;
  cbn [Page.pdom Page.set_pdom].

Create Rewrite HintDb page_rw.
#[export] Hint Rewrite Page.pdom_set_pdom Page.pdom_set_onclick Page.pdom_set_listeners
  Page.pdom_set_tasks Page.set_pdom_twice Page.tasks_set_pdom Page.mode_set_pdom
  Page.loadedSvgs_set_pdom Page.onclick_set_pdom Page.listeners_set_pdom Page.set_tasks_set_pdom
  Page.set_onclick_set_pdom Page.set_listeners_set_pdom
  Page.onclick_set_tasks Page.listeners_set_tasks Page.tasks_set_tasks Page.mode_set_tasks Page.loadedSvgs_set_tasks Page.onclick_set_listeners Page.listeners_set_listeners Page.tasks_set_listeners Page.mode_set_listeners Page.loadedSvgs_set_listeners : page_rw.

(** Run the next statement of a script whose outcome is known, keeping
    the document as a term of [Dom]'s operations. *)
Ltac run_stmt :=
  first [ rewrite (js_bind_Normal _ _ _ _ _ (Page.dom_create_page _ _))
        | rewrite (js_bind_Normal _ _ _ _ _ (Page.add_class_page _ _ _))
        | rewrite (js_bind_Normal _ _ _ _ _ (Page.append_page _ _ _))
        | rewrite (js_bind_Normal _ _ _ _ _ (Page.prepend_child_page _ _ _))
        | rewrite (js_bind_Normal _ _ _ _ _ (Page.set_attr_page _ _ _ _))
        | rewrite (js_bind_Normal _ _ _ _ _ (Page.set_text_page _ _ _))
        | rewrite (js_bind_Normal _ _ _ _ _ (Page.set_onclick_of_page _ _ _))
        | rewrite (js_bind_Normal _ _ _ _ _ (Page.add_listener_page _ _ _))
        | rewrite (js_bind_Normal _ _ _ _ _ (Page.appendSvg_page _ _ _ _))
        | rewrite (js_bind_Normal _ _ _ _ _ (Page.js_get_page _))
        | rewrite (js_bind_Normal _ _ _ _ _ (Page.query_page _ _))
        | rewrite (js_bind_Normal _ _ _ _ _ (deref_Some _ _ _)) ];
  autorewrite with page_rw.
