(* ===== verification/Frame.v ===== *)
(** * Frame: what a builder may touch

    A builder such as [buildHeader] creates elements and puts them
    together; it writes only to elements it created, and to one
    existing element it hangs them below.  This file gives the
    specification form the proofs of such code use, [spec I R c Q E]:
    from a state satisfying the invariant [I], the statement [c] ends in
    a state satisfying [I] and related to the start by [R], with a
    result satisfying [Q] or an exception satisfying [E].  The rules
    follow the monad: [spec_bind] composes, and [spec_forEach] and
    [spec_map] run the loops of the code.

    The frame [framed n] and [kept n] instantiate [I] and [R]: below
    [n] nothing changes, the node [n] only gains or loses children, and
    every node above [n] has its parent at [n] or above.  The DOM
    statements of a builder satisfy the frame when they write above
    [n] ([frame_dom_create], [frame_add_class], [frame_append] ...). *)

From stdpp Require Import base gmap strings list sets.
From Stdlib Require Import String.
From S2P Require Import Prelude ClassList Dom Config Page.
Import Page.

(** ** Specifications of statements *)
Section Spec.
Context {St : Type} (I : St -> Prop) (R : St -> St -> Prop) `{!PreOrder R}.

Definition spec {A} (c : js St A) (Q : A -> Prop) (E : exn -> Prop) : Prop :=
  forall s, I s ->
    match c s with
    | Normal a s' => I s' /\ R s s' /\ Q a
    | Throw e s' => I s' /\ R s s' /\ E e
    end.

Lemma spec_ret {A} (a : A) (Q : A -> Prop) E : Q a -> spec (js_ret a) Q E.
Proof. intros Ha s Hs. split_and!; [exact Hs|reflexivity|exact Ha]. Qed.

Lemma spec_throw {A} e (Q : A -> Prop) (E : exn -> Prop) : E e -> spec (js_throw e) Q E.
Proof. intros He s Hs. split_and!; [exact Hs|reflexivity|exact He]. Qed.

Lemma spec_deref {A} what (o : option A) (Q : A -> Prop) (E : exn -> Prop) :
  (forall a, o = Some a -> Q a) -> (o = None -> E (TypeError what)) -> spec (deref what o) Q E.
Proof. intros HQ HE. destruct o; [apply spec_ret, HQ|apply spec_throw, HE]; reflexivity. Qed.

Lemma spec_modify (f : St -> St) Q E :
  (forall s, I s -> I (f s) /\ R s (f s)) -> Q tt -> spec (js_modify f) Q E.
Proof. intros Hf HQ s Hs. destruct (Hf s Hs). split_and!; assumption. Qed.

Lemma spec_weaken {A} (c : js St A) (Q Q' : A -> Prop) (E E' : exn -> Prop) :
  spec c Q E -> (forall a, Q a -> Q' a) -> (forall e, E e -> E' e) -> spec c Q' E'.
Proof.
  intros Hc HQ HE s Hs. specialize (Hc s Hs). destruct (c s); naive_solver.
Qed.

Lemma spec_bind {A B} (c : js St A) (k : A -> js St B) Q1 Q2 E :
  spec c Q1 E -> (forall a, Q1 a -> spec (k a) Q2 E) -> spec (js_bind c k) Q2 E.
Proof.
  intros Hc Hk s Hs. unfold js_bind. specialize (Hc s Hs).
  destruct (c s) as [a s1|e s1]; [|exact Hc].
  destruct Hc as (H1 & R1 & Q1a). specialize (Hk a Q1a s1 H1).
  destruct (k a s1); destruct Hk as (? & ? & ?); split_and!; try assumption; by transitivity s1.
Qed.

(** [arr.forEach(f)]: every call completes, and then each element's
    postcondition holds, or one of them throws. *)
Lemma spec_forEach {A} (f : A -> js St unit) (P : A -> Prop) (E : A -> exn -> Prop) l :
  (forall x, x ∈ l -> spec (f x) (fun _ => P x) (E x)) ->
  spec (js_forEach f l) (fun _ => forall x, x ∈ l -> P x) (fun e => exists x, x ∈ l /\ E x e).
Proof.
  induction l as [|x l IH]; intros Hf; simpl.
  - apply spec_ret. set_solver.
  - apply (spec_bind _ _ (fun _ => P x)).
    + eapply spec_weaken; [apply Hf; set_solver|done|]. intros e He. exists x. set_solver.
    + intros _ Px. eapply spec_weaken; [apply IH; intros y Hy; apply Hf; set_solver| |].
      * intros ? Hl y Hy. apply elem_of_cons in Hy as [->|Hy]; auto.
      * intros e (y & Hy & He). exists y. set_solver.
Qed.

(** [arr.map(f)]: each result is related to its element. *)
Lemma spec_map {A B} (f : A -> js St B) (Q : A -> B -> Prop) (E : A -> exn -> Prop) l :
  (forall x, x ∈ l -> spec (f x) (Q x) (E x)) ->
  spec (js_map f l) (Forall2 Q l) (fun e => exists x, x ∈ l /\ E x e).
Proof.
  induction l as [|x l IH]; intros Hf; simpl.
  - apply spec_ret. constructor.
  - apply (spec_bind _ _ (Q x)).
    + eapply spec_weaken; [apply Hf; set_solver|done|]. intros e He. exists x. set_solver.
    + intros y Hy. apply (spec_bind _ _ (Forall2 Q l)).
      * eapply spec_weaken; [apply IH; intros z Hz; apply Hf; set_solver|done|].
        intros e (z & Hz & He). exists z. set_solver.
      * intros ys Hys. apply spec_ret. by constructor.
Qed.
End Spec.

(** The outcome a specification allows, read back on a run. *)
Lemma spec_run {St A} (I : St -> Prop) R (c : js St A) Q E s :
  spec I R c Q E -> I s ->
  (exists a s', c s = Normal a s' /\ I s' /\ R s s' /\ Q a) \/
  (exists e s', c s = Throw e s' /\ I s' /\ R s s' /\ E e).
Proof. intros Hc Hs. specialize (Hc s Hs). destruct (c s); [left|right]; eauto. Qed.

(** What holds of the final state, whichever way the statement ends. *)
Lemma spec_final {St A} (I : St -> Prop) R (c : js St A) Q E s :
  spec I R c Q E -> I s -> I (final (c s)) /\ R s (final (c s)).
Proof. intros Hc Hs. specialize (Hc s Hs). destruct (c s); simpl; tauto. Qed.

(** ** The frame of a builder *)
Module Frame.
Section Frame.
Context (n : nat).

(** A node with its list of children forgotten. *)
Definition stem (d : Dom.dom) (i : nat) : option Dom.node :=
  Dom.with_children (fun _ => []) <$> Dom.node_at d i.

(** Every node above [n] hangs below [n], if anywhere. *)
Definition closed_above (d : Dom.dom) : Prop :=
  forall j p, n < j -> Dom.parentNode d j = Some p -> n <= p.

Definition framed (s : page) : Prop :=
  Dom.fresh (pdom s) /\ closed_above (pdom s) /\ n < Dom.next_id (pdom s).

(** What a builder keeps: the nodes below [n], the node [n] but for
    its children, and the globals. *)
Definition kept (s s' : page) : Prop :=
  Dom.next_id (pdom s) <= Dom.next_id (pdom s') /\
  (forall j, j < n -> Dom.node_at (pdom s') j = Dom.node_at (pdom s) j) /\
  stem (pdom s') n = stem (pdom s) n /\
  mode s' = mode s /\ loadedSvgs s' = loadedSvgs s.

#[global] Instance kept_preorder : PreOrder kept.
Proof.
  split.
  - intros s. unfold kept. split_and!; done.
  - intros s1 s2 s3 (? & H12 & ? & ? & ?) (? & H23 & ? & ? & ?). unfold kept.
    split_and!; [lia| |congruence|congruence|congruence].
    intros j Hj. by rewrite H23, H12.
Qed.

(** Below [n], every projection of a node is kept. *)
Lemma kept_node s s' j :
  kept s s' -> j < n ->
  Dom.children_of (pdom s') j = Dom.children_of (pdom s) j /\
  Dom.look (pdom s') j = Dom.look (pdom s) j /\
  Dom.parentNode (pdom s') j = Dom.parentNode (pdom s) j.
Proof.
  intros (_ & Hk & _) Hj. unfold Dom.children_of, Dom.look, Dom.parentNode. by rewrite (Hk j Hj).
Qed.

(** In a store with nothing above [n], the frame's parent
    condition holds for want of nodes. *)
Lemma closed_above_fresh d : Dom.fresh d -> Dom.next_id d <= S n -> closed_above d.
Proof.
  intros Hf Hn j p Hj. unfold Dom.parentNode. rewrite (Hf j) by lia. discriminate.
Qed.

(** *** The DOM statements a builder uses *)

Lemma stem_update_ne d i j f : i ≠ j -> stem (Dom.update i f d) j = stem d j.
Proof. intros H. unfold stem. by rewrite Dom.node_at_update_ne. Qed.

Lemma stem_with_children d i j f : stem (Dom.update i (Dom.with_children f) d) j = stem d j.
Proof.
  destruct (decide (i = j)) as [->|]; [|by apply stem_update_ne].
  unfold stem. rewrite Dom.node_at_update_eq. by destruct (Dom.node_at d j).
Qed.

Lemma stem_detach d c j : j ≠ c -> stem (Dom.detach c d) j = stem d j.
Proof.
  intros H. unfold Dom.detach. destruct (Dom.node_at d c) as [x|]; [|reflexivity].
  rewrite stem_update_ne by congruence. destruct (Dom.parent x); [apply stem_with_children|reflexivity].
Qed.

Lemma stem_attach_at d p c place j : j ≠ c -> stem (Dom.attach_at p c place d) j = stem d j.
Proof.
  intros H. unfold Dom.attach_at. rewrite stem_update_ne, stem_with_children by congruence.
  by apply stem_detach.
Qed.

Lemma node_at_detach_other d c j :
  j ≠ c -> Dom.parentNode d c ≠ Some j -> Dom.node_at (Dom.detach c d) j = Dom.node_at d j.
Proof.
  intros H Hp. unfold Dom.detach, Dom.parentNode in *.
  destruct (Dom.node_at d c) as [x|]; [|reflexivity]. simpl in Hp.
  rewrite Dom.node_at_update_ne by congruence.
  destruct (Dom.parent x); [|reflexivity]. apply Dom.node_at_update_ne. congruence.
Qed.

Lemma node_at_attach_at_other d p c place j :
  j ≠ p -> j ≠ c -> Dom.parentNode d c ≠ Some j ->
  Dom.node_at (Dom.attach_at p c place d) j = Dom.node_at d j.
Proof.
  intros Hp Hc Hq. unfold Dom.attach_at. rewrite !Dom.node_at_update_ne by congruence.
  by apply node_at_detach_other.
Qed.

(** A node that hangs nowhere is moved without touching a third node. *)
Lemma node_at_attach_loose d p c place j :
  j ≠ p -> j ≠ c -> Dom.parentNode d c = None ->
  Dom.node_at (Dom.attach_at p c place d) j = Dom.node_at d j.
Proof. intros Hp Hc Hn. apply node_at_attach_at_other; congruence. Qed.

Lemma node_at_appendChild_loose d p c j :
  j ≠ p -> j ≠ c -> Dom.parentNode d c = None ->
  Dom.node_at (Dom.appendChild p c d) j = Dom.node_at d j.
Proof. apply node_at_attach_loose. Qed.

Lemma node_at_prepend_loose d p c j :
  j ≠ p -> j ≠ c -> Dom.parentNode d c = None ->
  Dom.node_at (Dom.prepend p c d) j = Dom.node_at d j.
Proof. apply node_at_attach_loose. Qed.

Lemma fresh_detach d c : Dom.fresh d -> Dom.fresh (Dom.detach c d).
Proof.
  intros Hf. unfold Dom.detach. destruct (Dom.node_at d c) as [x|]; [|exact Hf].
  apply Dom.fresh_update. destruct (Dom.parent x); [apply Dom.fresh_update|]; exact Hf.
Qed.

Lemma fresh_attach_at d p c place : Dom.fresh d -> Dom.fresh (Dom.attach_at p c place d).
Proof. intros Hf. unfold Dom.attach_at. by apply Dom.fresh_update, Dom.fresh_update, fresh_detach. Qed.

(** [dom_ok f]: the document change [f] keeps the frame. *)
Definition dom_ok (f : Dom.dom -> Dom.dom) : Prop :=
  forall d, Dom.fresh d -> closed_above d -> n < Dom.next_id d ->
    Dom.fresh (f d) /\ closed_above (f d) /\ Dom.next_id (f d) = Dom.next_id d /\
    (forall j, j < n -> Dom.node_at (f d) j = Dom.node_at d j) /\ stem (f d) n = stem d n.

Lemma frame_dom_do f E : dom_ok f -> spec framed kept (dom_do f) (fun _ => True) E.
Proof.
  intros Hf. apply spec_modify; [|done]. intros s (Hfr & Hcl & Hn).
  destruct (Hf _ Hfr Hcl Hn) as (? & ? & Hid & ? & ?). cbn [get_dom set_dom page_HasDom pdom set_pdom].
  unfold framed, kept. cbn [pdom set_pdom mode loadedSvgs]. rewrite Hid. split_and!; done.
Qed.

(** Writing to a node above [n] that keeps its parent. *)
Lemma dom_ok_update i f :
  n < i -> (forall x, Dom.parent (f x) = Dom.parent x) -> dom_ok (Dom.update i f).
Proof.
  intros Hi Hf d Hfr Hcl Hn. split_and!.
  - by apply Dom.fresh_update.
  - intros j p Hj. rewrite Dom.parentNode_update_keep by exact Hf. by apply Hcl.
  - apply Dom.next_id_update.
  - intros j Hj. apply Dom.node_at_update_ne. lia.
  - apply stem_update_ne. lia.
Qed.

(** [p.appendChild(c)] with [p] at or above [n] and [c] above it. *)
Lemma dom_ok_appendChild p c : n <= p -> n < c -> dom_ok (Dom.appendChild p c).
Proof.
  intros Hp Hc d Hfr Hcl Hn. unfold Dom.appendChild. split_and!.
  - by apply fresh_attach_at.
  - intros j q Hj. destruct (decide (j = c)) as [->|Hjc].
    + unfold Dom.attach_at. destruct (Dom.node_at (Dom.detach c d) c) as [x|] eqn:E.
      * rewrite Dom.parentNode_with_parent; [congruence|].
        apply Dom.is_Some_node_at_update. rewrite E. by eexists.
      * unfold Dom.parentNode. rewrite Dom.node_at_update_eq.
        destruct (Dom.node_at (Dom.update p _ (Dom.detach c d)) c) eqn:E'; [|discriminate].
        exfalso. assert (is_Some (Dom.node_at (Dom.detach c d) c)) as [? E2]
          by (apply (proj1 (Dom.is_Some_node_at_update _ p c (Dom.with_children (fun l => l ++ [c])))); rewrite E'; by eexists).
        congruence.
    + rewrite Dom.parentNode_attach_at_ne by exact Hjc. by apply Hcl.
  - apply Dom.next_id_attach_at.
  - intros j Hj. apply node_at_attach_at_other; [lia|lia|].
    intros Hq. pose proof (Hcl c j Hc Hq). lia.
  - apply stem_attach_at. lia.
Qed.

Lemma frame_dom_create t E : spec framed kept (dom_create t) (fun a => n < a) E.
Proof.
  intros s (Hfr & Hcl & Hn). unfold dom_create. cbn [get_dom set_dom page_HasDom].
  rewrite Dom.createElement_created. unfold framed, kept. cbn [pdom set_pdom mode loadedSvgs].
  rewrite Dom.next_id_created. split_and!.
  - by apply Dom.fresh_created.
  - intros j p Hj. destruct (decide (j = Dom.next_id (pdom s))) as [->|Hne].
    + by rewrite Dom.parentNode_created_self.
    + rewrite Dom.parentNode_created by exact Hne. by apply Hcl.
  - lia.
  - lia.
  - intros j Hj. apply Dom.node_at_created_other. lia.
  - unfold stem. rewrite Dom.node_at_created_other by lia. reflexivity.
  - reflexivity.
  - reflexivity.
  - exact Hn.
Qed.

Lemma frame_add_class i c E : n < i -> spec framed kept (add_class i c) (fun _ => True) E.
Proof. intros Hi. apply frame_dom_do, dom_ok_update; [exact Hi|reflexivity]. Qed.

Lemma frame_set_attr i k v E : n < i -> spec framed kept (set_attr i k v) (fun _ => True) E.
Proof. intros Hi. apply frame_dom_do, dom_ok_update; [exact Hi|reflexivity]. Qed.

Lemma frame_set_text i t E : n < i -> spec framed kept (set_text i t) (fun _ => True) E.
Proof. intros Hi. apply frame_dom_do, dom_ok_update; [exact Hi|reflexivity]. Qed.

Lemma frame_append p c E : n <= p -> n < c -> spec framed kept (append p c) (fun _ => True) E.
Proof. intros Hp Hc. by apply frame_dom_do, dom_ok_appendChild. Qed.

(** The statements that only write the script's own records. *)
Lemma frame_modify f E :
  (forall s, pdom (f s) = pdom s /\ mode (f s) = mode s /\ loadedSvgs (f s) = loadedSvgs s) ->
  spec framed kept (js_modify f) (fun _ => True) E.
Proof.
  intros Hf. apply spec_modify; [|done]. intros s Hs. destruct (Hf s) as (Hd & Hm & Hl).
  unfold framed, kept in *. rewrite Hd, Hm, Hl. destruct Hs as (? & ? & ?). split_and!; done.
Qed.

Lemma frame_set_onclick_of i h E : spec framed kept (set_onclick_of i h) (fun _ => True) E.
Proof. by apply frame_modify. Qed.

Lemma frame_add_listener i h E : spec framed kept (add_listener i h) (fun _ => True) E.
Proof. by apply frame_modify. Qed.

Lemma frame_appendSvg path i cls E : spec framed kept (appendSvg path i cls) (fun _ => True) E.
Proof. by apply frame_modify. Qed.

Lemma frame_get E : spec framed kept js_get (fun _ => True) E.
Proof. intros s Hs. split_and!; [exact Hs|reflexivity|done]. Qed.

End Frame.
End Frame.

(** Freshness through the statements of a builder, chosen by the
    syntax of the document. *)
Ltac fresh_tac :=
  repeat lazymatch goal with
  | |- Dom.fresh (Dom.appendChild _ _ _) => apply Frame.fresh_attach_at
  | |- Dom.fresh (Dom.prepend _ _ _) => apply Frame.fresh_attach_at
  | |- Dom.fresh (Dom.attach_at _ _ _ _) => apply Frame.fresh_attach_at
  | |- Dom.fresh (Dom.classList_add _ _ _) => apply Dom.fresh_update
  | |- Dom.fresh (Dom.setAttribute _ _ _ _) => apply Dom.fresh_update
  | |- Dom.fresh (Dom.setText _ _ _) => apply Dom.fresh_update
  | |- Dom.fresh (Dom.update _ _ _) => apply Dom.fresh_update
  | |- Dom.fresh (Dom.created _ _) => apply Dom.fresh_created
  end.

(** The nodes a builder's statements do not write, through them:
    handles compared by [lia], new elements loose by [dom_norm]. *)
Ltac node_norm :=
  repeat first
    [ rewrite Frame.node_at_appendChild_loose by (lia || (dom_norm; reflexivity))
    | rewrite Frame.node_at_prepend_loose by (lia || (dom_norm; reflexivity))
    | rewrite Dom.node_at_setAttribute_ne by (autorewrite with dom_id; lia)
    | rewrite Dom.node_at_classList_add_ne by (autorewrite with dom_id; lia)
    | rewrite Dom.node_at_setText_ne by (autorewrite with dom_id; lia)
    | rewrite Dom.node_at_created_other by (autorewrite with dom_id; lia) ].
