(* ===== verification/Fixtures.v ===== *)
(** * Fixtures: a concrete page for the witnesses

    A small document in the shape the documentation generator produces
    once the header is built: the page wrapper, the theme button and its
    collapsed dropdown menu, and the two elements the mobile menu
    toggles.  The witnesses evaluate the model on it with [vm_compute]. *)

From stdpp Require Import base gmap strings list.
From Stdlib Require Import String.
From S2P Require Import Prelude ClassList Dom Config Page.
Import Page.

Module Fixtures.

Definition el (t : string) (cls : list string) (attrs : list (string * string))
           (kids : list nat) (p : option nat) : Dom.node :=
  Dom.mkNode t cls (list_to_map attrs) "" kids p.

Definition sample_dom : Dom.dom := {|
  Dom.nodes := list_to_map [
    (0, el "#document" [] [] [1] None);
    (1, el "html" [] [] [2; 3] (Some 0));
    (2, el "head" [] [] [] (Some 1));
    (3, el "body" [] [] [4; 8] (Some 1));
    (4, el "div" ["unified-wrapper"] [] [5; 6; 7] (Some 3));
    (5, el "button" ["theme-button"] [("type", "button")] [] (Some 4));
    (6, el "div" ["theme-dropdown-menu"] [("aria-expanded", "false")] [] (Some 4));
    (7, el "nav" ["wy-nav-side"] [("data-toggle", "wy-nav-shift")] [] (Some 4));
    (8, el "div" ["rst-versions"] [("data-toggle", "rst-versions")] [] (Some 3))];
  Dom.next_id := 9;
  Dom.root_id := 0;
  Dom.head_id := 2;
  Dom.body_id := 3;
|}.

Definition sample_page : page := mkPage sample_dom ∅ [] [] "light" ∅.

(** The menu element of the sample. *)
Definition sample_menu : nat := 6.


(** The page as the generator emits it, before [rearrangeDom] adds the
    wrapper. *)
Definition raw_dom : Dom.dom := {|
  Dom.nodes := list_to_map [
    (0, el "#document" [] [] [1] None);
    (1, el "html" [] [] [2; 3] (Some 0));
    (2, el "head" [] [] [] (Some 1));
    (3, el "body" [] [] [4; 5] (Some 1));
    (4, el "nav" ["wy-nav-side"] [("data-toggle", "wy-nav-shift")] [] (Some 3));
    (5, el "div" ["rst-versions"] [("data-toggle", "rst-versions")] [] (Some 3))];
  Dom.next_id := 6;
  Dom.root_id := 0;
  Dom.head_id := 2;
  Dom.body_id := 3;
|}.

Definition raw_page : page := mkPage raw_dom ∅ [] [] "light" ∅.

(** A page in the shape of the Read the Docs theme's markup, with the
    elements the load-time touch-ups look for. *)
Definition rtd_dom : Dom.dom := {|
  Dom.nodes := list_to_map [
    (0, el "#document" [] [] [1] None);
    (1, el "html" [] [] [2; 3] (Some 0));
    (2, el "head" [] [] [] (Some 1));
    (3, el "body" [] [] [4; 17] (Some 1));
    (4, el "div" ["wy-grid-for-nav"] [] [5; 11] (Some 3));
    (5, el "nav" ["wy-nav-side"] [("data-toggle", "wy-nav-shift")] [6; 10] (Some 4));
    (6, el "div" ["wy-side-nav-search"] [] [7; 8; 9] (Some 5));
    (7, el "a" ["icon"; "icon-home"] [("href", "index.html")] [] (Some 6));
    (8, el "div" ["version"] [] [] (Some 6));
    (9, el "form" [] [] [] (Some 6));
    (10, el "div" ["wy-menu"; "wy-menu-vertical"] [("role", "navigation")] [] (Some 5));
    (11, el "section" ["wy-nav-content-wrap"] [] [12] (Some 4));
    (12, el "div" ["wy-nav-content"] [] [13; 15; 16] (Some 11));
    (13, el "li" ["wy-breadcrumbs-aside"] [] [14] (Some 12));
    (14, el "a" [] [("href", "https://github.com")] [20] (Some 13));
    (15, el "div" [] [("role", "contentinfo")] [] (Some 12));
    (16, el "span" ["fa"; "fa-arrow-circle-right"] [] [] (Some 12));
    (17, el "div" ["rst-versions"] [("data-toggle", "rst-versions")] [18] (Some 3));
    (18, el "span" ["rst-current-version"] [] [19; 21] (Some 17));
    (19, el "span" ["fa"; "fa-book"] [] [] (Some 18));
    (20, el "span" ["fa"; "fa-github"] [] [] (Some 14));
    (21, el "span" ["fa"; "fa-caret-down"] [] [] (Some 18))];
  Dom.next_id := 22;
  Dom.root_id := 0;
  Dom.head_id := 2;
  Dom.body_id := 3;
|}.

Definition rtd_page : page := mkPage rtd_dom ∅ [] [] "light" ∅.

(** The Read the Docs page is a well-formed tree. *)
Lemma rtd_dom_wf : Dom.wf rtd_dom.
Proof. apply (bool_decide_unpack _). vm_compute. reflexivity. Qed.

Lemma rtd_dom_fresh : Dom.fresh rtd_dom.
Proof. apply Dom.wf_fresh, rtd_dom_wf. Qed.

End Fixtures.
