(* ===== verification/Theme.v ===== *)
(** * Theme: the colour-mode menu and the icon cache

    The part of [loaders.js] that the specification calls the colour-mode
    controller: [preloadColorModeIcons] (lines 55-64), which fills the
    global [loadedSvgs] from one [fetch] per [COLOR_MODES] entry, and the
    theme dropdown built in [buildHeader] (lines 216-263): each item's
    [onclick] calls [setColorMode(value)] then [closeThemeMenu()], and the
    button's click listener flips the menu's [aria-expanded].

    [setColorMode], [closeThemeMenu] and [getIconFromMode] are defined in
    another script of the site; the class [ColorModeApi] states what the
    handlers need of them, the handlers' theorems are proved against it,
    and [spec_api] is an implementation written from the specification
    that discharges it.  [Controller] is the abstract controller of the
    specification, and the refinement theorems relate the two. *)

From stdpp Require Import base gmap strings list.
From Stdlib Require Import String.
From S2P Require Import Prelude ClassList Dom Config Page Fixtures.
Import Config Page Fixtures.

Module Theme.

Definition ARIA_EXPANDED : string := "aria-expanded".

(** The menu element that [closeThemeMenu] looks up. *)
Definition menu_selector (cfg : config) : Dom.selector :=
  Dom.by_class (THEME_DROPDOWN_MENU_CLASS cfg).

(** What the handlers need of the helpers defined outside [loaders.js]. *)
Class ColorModeApi (cfg : config) := {
  setColorMode : string -> js page unit;
  closeThemeMenu : js page unit;
  getIconFromMode : string -> string;

  (** [setColorMode] completes (an unknown mode is reported, not thrown). *)
  setColorMode_completes : forall v s, exists s', setColorMode v s = Normal tt s';
  (** A known mode becomes the current one; an unknown one changes nothing. *)
  setColorMode_known : forall v s, v ∈ mode_values cfg ->
    mode (final (setColorMode v s)) = v;
  setColorMode_unknown : forall v s, v ∉ mode_values cfg ->
    mode (final (setColorMode v s)) = mode s;
  (** It leaves the menu's attributes and the selectors' results alone. *)
  setColorMode_attrs : forall v s i k, k = ARIA_EXPANDED ->
    Dom.getAttribute (pdom (final (setColorMode v s))) i k = Dom.getAttribute (pdom s) i k;
  setColorMode_query : forall v s sel,
    Dom.querySelector (pdom (final (setColorMode v s))) sel = Dom.querySelector (pdom s) sel;
  (** It leaves the icon cache alone. *)
  setColorMode_cache : forall v s, loadedSvgs (final (setColorMode v s)) = loadedSvgs s;
  (** [closeThemeMenu] collapses the menu and touches neither the
      mode nor the cache. *)
  closeThemeMenu_collapses : forall s menu,
    Dom.querySelector (pdom s) (menu_selector cfg) = Some menu ->
    Dom.getAttribute (pdom (final (closeThemeMenu s))) menu ARIA_EXPANDED = Some "false"%string;
  closeThemeMenu_mode : forall s, mode (final (closeThemeMenu s)) = mode s;
  closeThemeMenu_cache : forall s, loadedSvgs (final (closeThemeMenu s)) = loadedSvgs s;
}.

(** ** The helpers, as the specification describes them

    [setColorMode(v)] validates [v] against [COLOR_MODES]: an unknown
    value is an [InvalidModeError] that is logged and changes nothing;
    a known one becomes the mode and the theme button shows its cached
    icon (a missing button skips the render).  [closeThemeMenu()] sets
    the menu's [aria-expanded] to ["false"]; a missing menu is skipped. *)
Section SpecApi.
Context (cfg : config).

Definition spec_setColorMode (v : string) : js page unit :=
  if bool_decide (v ∈ mode_values cfg) then
    js_modify (set_mode v) ;;
    btn <- dom_read (fun d => Dom.querySelector d (Dom.by_class (THEME_BUTTON_CLASS cfg))) ;;
    match btn with
    | Some b => s <- js_get ;; dom_do (Dom.setText b (default "" (loadedSvgs s !! v)))
    | None => js_ret tt
    end
  else js_ret tt.

Definition spec_closeThemeMenu : js page unit :=
  menu <- dom_read (fun d => Dom.querySelector d (menu_selector cfg)) ;;
  match menu with
  | Some m => dom_do (Dom.setAttribute m ARIA_EXPANDED "false")
  | None => js_ret tt
  end.

Definition spec_getIconFromMode (v : string) : string :=
  match List.find (fun m => String.eqb (cm_value m) v) (COLOR_MODES cfg) with
  | Some m => cm_icon m
  | None => ""
  end.

(** The one state change of a known mode, with the render. *)
Lemma spec_setColorMode_run v s :
  v ∈ mode_values cfg ->
  spec_setColorMode v s =
    Normal tt (match Dom.querySelector (pdom s) (Dom.by_class (THEME_BUTTON_CLASS cfg)) with
               | Some b => set_pdom (Dom.setText b (default "" (loadedSvgs s !! v)) (pdom s))
                             (set_mode v s)
               | None => set_mode v s
               end).
Proof.
  intros Hv. unfold spec_setColorMode. rewrite bool_decide_eq_true_2 by exact Hv.
  unfold js_bind, js_modify, dom_read. simpl.
  destruct (Dom.querySelector _ _); reflexivity.
Qed.

Lemma spec_setColorMode_unknown_run v s :
  v ∉ mode_values cfg -> spec_setColorMode v s = Normal tt s.
Proof. intros Hv. unfold spec_setColorMode. by rewrite bool_decide_eq_false_2. Qed.

(** Case analysis on a mode value, the first step of every law. *)
Ltac mode_cases v :=
  destruct (decide (v ∈ mode_values cfg)) as [Hv|Hv];
  [rewrite spec_setColorMode_run by exact Hv;
   destruct (Dom.querySelector _ (Dom.by_class (THEME_BUTTON_CLASS cfg)))
  |rewrite spec_setColorMode_unknown_run by exact Hv].

Lemma spec_setColorMode_completes v s : exists s', spec_setColorMode v s = Normal tt s'.
Proof. mode_cases v; eauto. Qed.

Lemma spec_setColorMode_known v s :
  v ∈ mode_values cfg -> mode (final (spec_setColorMode v s)) = v.
Proof. intros H. mode_cases v; done. Qed.

Lemma spec_setColorMode_unknown v s :
  v ∉ mode_values cfg -> mode (final (spec_setColorMode v s)) = mode s.
Proof. intros H. mode_cases v; done. Qed.

Lemma spec_setColorMode_attrs v s i k :
  k = ARIA_EXPANDED ->
  Dom.getAttribute (pdom (final (spec_setColorMode v s))) i k = Dom.getAttribute (pdom s) i k.
Proof. intros _. mode_cases v; try done. apply Dom.getAttribute_setText. Qed.

Lemma spec_setColorMode_query v s sel :
  Dom.querySelector (pdom (final (spec_setColorMode v s))) sel = Dom.querySelector (pdom s) sel.
Proof.
  mode_cases v; try done.
  apply Dom.querySelector_Proper; [apply Dom.setText_shape_equiv|reflexivity].
Qed.

Lemma spec_setColorMode_cache v s : loadedSvgs (final (spec_setColorMode v s)) = loadedSvgs s.
Proof. mode_cases v; done. Qed.

Lemma spec_closeThemeMenu_collapses s menu :
  Dom.querySelector (pdom s) (menu_selector cfg) = Some menu ->
  Dom.getAttribute (pdom (final (spec_closeThemeMenu s))) menu ARIA_EXPANDED = Some "false"%string.
Proof.
  intros Hq. unfold spec_closeThemeMenu, js_bind, dom_read, dom_do, js_modify.
  cbn -[Dom.querySelector Dom.getAttribute Dom.setAttribute]. rewrite Hq.
  apply Dom.getAttribute_setAttribute. exact (Dom.querySelector_Some_node _ _ _ Hq).
Qed.

Lemma spec_closeThemeMenu_mode s : mode (final (spec_closeThemeMenu s)) = mode s.
Proof. unfold spec_closeThemeMenu, js_bind, dom_read. by destruct (Dom.querySelector _ _). Qed.

Lemma spec_closeThemeMenu_cache s : loadedSvgs (final (spec_closeThemeMenu s)) = loadedSvgs s.
Proof. unfold spec_closeThemeMenu, js_bind, dom_read. by destruct (Dom.querySelector _ _). Qed.

#[export] Instance spec_api : ColorModeApi cfg := {|
  setColorMode := spec_setColorMode;
  closeThemeMenu := spec_closeThemeMenu;
  getIconFromMode := spec_getIconFromMode;
  setColorMode_completes := spec_setColorMode_completes;
  setColorMode_known := spec_setColorMode_known;
  setColorMode_unknown := spec_setColorMode_unknown;
  setColorMode_attrs := spec_setColorMode_attrs;
  setColorMode_query := spec_setColorMode_query;
  setColorMode_cache := spec_setColorMode_cache;
  closeThemeMenu_collapses := spec_closeThemeMenu_collapses;
  closeThemeMenu_mode := spec_closeThemeMenu_mode;
  closeThemeMenu_cache := spec_closeThemeMenu_cache;
|}.
End SpecApi.

Section Handlers.
Context (cfg : config) `{!ColorModeApi cfg}.

(** [dropdownItem.onclick = () => { setColorMode(value); closeThemeMenu() }] *)
Definition theme_item_click (value : string) : js page unit :=
  setColorMode value ;;
  closeThemeMenu.

(** [themeDropdownButton.addEventListener('click', () => {
      const isExpanded = dropdownMenu.getAttribute('aria-expanded') === 'true';
      dropdownMenu.setAttribute('aria-expanded', !isExpanded); })] *)
Definition theme_button_click (dropdownMenu : nat) : js page unit :=
  isExpanded <- dom_read (fun d =>
    bool_decide (Dom.getAttribute d dropdownMenu ARIA_EXPANDED = Some "true"%string)) ;;
  dom_do (Dom.setAttribute dropdownMenu ARIA_EXPANDED (bool_to_js_string (negb isExpanded))).
End Handlers.

(** ** The icon cache *)

(** [const icons = COLOR_MODES.map(({ icon }) => icon);
     icons.forEach((path, idx) => { fetch(path).then(...).then(...) })]:
    each iteration starts a request whose continuation is pending. *)
Definition preloadColorModeIcons (cfg : config) : js page unit :=
  let icons := map cm_icon (COLOR_MODES cfg) in
  js_forEachi (fun _ idx => spawn (TIconFetch icons idx)) icons.

(** The continuation [data => { loadedSvgs[icons[idx].value] = data; }],
    run when the request settles.  [None] is a failed request (or body
    read): the promise rejects, the callback never runs, and with no
    [.catch] the rejection goes unhandled. *)
Definition icon_fetch_done (icons : list string) (idx : nat) (response : option string)
  : js page unit :=
  match response with
  | None => js_ret tt
  | Some data =>
      path <- deref "icons[idx]" (icons !! idx) ;;
      let key := to_property_key (get_prop (JStr path) "value") in
      js_modify (fun s => set_loadedSvgs (<[key := data]> (loadedSvgs s)) s)
  end.


(** ** The abstract controller of the specification

    ActiveMode, IconCache and MenuState, with the operations of §4.1:
    [setActiveMode] validates, [selectMode] is [setActiveMode] then
    [closeMenu], and [toggleMenu] flips the menu state. *)
Module Controller.
Record ctrl := Ctrl { active : string; cache : gmap string string; menu_open : bool }.

Definition setActiveMode (cfg : config) (v : string) (c : ctrl) : ctrl :=
  if bool_decide (v ∈ mode_values cfg) then Ctrl v (cache c) (menu_open c) else c.
Definition toggleMenu (c : ctrl) : ctrl := Ctrl (active c) (cache c) (negb (menu_open c)).
Definition closeMenu (c : ctrl) : ctrl := Ctrl (active c) (cache c) false.
Definition selectMode (cfg : config) (v : string) (c : ctrl) : ctrl :=
  closeMenu (setActiveMode cfg v c).
End Controller.

(** The abstraction of a page, seen through the menu element [menu]. *)
Definition abs (menu : nat) (s : page) : Controller.ctrl :=
  Controller.Ctrl (mode s) (loadedSvgs s)
    (bool_decide (Dom.getAttribute (pdom s) menu ARIA_EXPANDED = Some "true"%string)).

(** ** The handlers *)
Section HandlerLaws.
Context (cfg : config) `{!ColorModeApi cfg}.

Definition aria_of (s : page) (menu : nat) : option string :=
  Dom.getAttribute (pdom s) menu ARIA_EXPANDED.

Lemma theme_item_click_run v s :
  exists s1, setColorMode v s = Normal tt s1 /\ theme_item_click cfg v s = closeThemeMenu s1.
Proof.
  destruct (setColorMode_completes v s) as [s1 H1]. exists s1. split; [exact H1|].
  unfold theme_item_click. by rewrite (js_bind_Normal _ _ _ _ _ H1).
Qed.

Lemma theme_button_click_run menu s :
  theme_button_click menu s =
    Normal tt (set_pdom (Dom.setAttribute menu ARIA_EXPANDED
                           (bool_to_js_string (negb (bool_decide (aria_of s menu = Some "true"%string))))
                           (pdom s)) s).
Proof. reflexivity. Qed.

Lemma aria_after_button_click menu s :
  is_Some (Dom.node_at (pdom s) menu) ->
  aria_of (final (theme_button_click menu s)) menu =
    Some (bool_to_js_string (negb (bool_decide (aria_of s menu = Some "true"%string)))).
Proof.
  intros Hn. rewrite theme_button_click_run. apply Dom.getAttribute_setAttribute. exact Hn.
Qed.

(** The two fields of the abstraction the item click changes. *)
Lemma theme_item_click_fields v s :
  mode (final (theme_item_click cfg v s)) = (if bool_decide (v ∈ mode_values cfg) then v else mode s) /\
  loadedSvgs (final (theme_item_click cfg v s)) = loadedSvgs s.
Proof.
  destruct (theme_item_click_run v s) as (s1 & H1 & ->).
  rewrite closeThemeMenu_mode, closeThemeMenu_cache.
  pose proof (setColorMode_cache v s) as Hc. rewrite H1 in Hc. split; [|exact Hc].
  case_bool_decide as Hv.
  - pose proof (setColorMode_known v s Hv) as Hm. by rewrite H1 in Hm.
  - pose proof (setColorMode_unknown v s Hv) as Hm. by rewrite H1 in Hm.
Qed.

Lemma theme_item_click_aria v s menu :
  Dom.querySelector (pdom s) (menu_selector cfg) = Some menu ->
  aria_of (final (theme_item_click cfg v s)) menu = Some "false"%string.
Proof.
  intros Hq. destruct (theme_item_click_run v s) as (s1 & H1 & ->).
  apply closeThemeMenu_collapses.
  pose proof (setColorMode_query v s (menu_selector cfg)) as Hq1.
  rewrite H1 in Hq1. simpl in Hq1. congruence.
Qed.
End HandlerLaws.

(** ** The icon cache *)

(** The key [preloadColorModeIcons] writes: [icons[idx]] is a path
    string, whose [value] property is [undefined]. *)
Lemma icon_fetch_done_run icons idx data s path :
  icons !! idx = Some path ->
  icon_fetch_done icons idx (Some data) s =
    Normal tt (set_loadedSvgs (<["undefined" := data]> (loadedSvgs s)) s).
Proof. intros H. unfold icon_fetch_done. simpl. by rewrite H. Qed.

Lemma preload_forEachi icons i (l : list string) s :
  js_forEachi_from (fun _ idx => spawn (TIconFetch icons idx)) i l s =
    Normal tt (set_tasks (tasks s ++ map (TIconFetch icons) (seq i (List.length l))) s).
Proof.
  revert i s. induction l as [|x l IH]; intros i s; simpl.
  - rewrite app_nil_r. by destruct s.
  - unfold js_bind at 1. unfold spawn, js_modify. rewrite IH. simpl.
    by rewrite <- app_assoc.
Qed.


(** ** Properties of the colour-mode controller *)

(** C1. What a settled icon request does: a failed request changes
    nothing, and a successful one stores the markup under the key
    ["undefined"], whatever the mode, because [icons[idx]] is the path
    string and [icons[idx].value] is [undefined]. *)
Theorem icon_fetch_done_spec (cfg : config) idx m response s :
  COLOR_MODES cfg !! idx = Some m ->
  icon_fetch_done (map cm_icon (COLOR_MODES cfg)) idx response s =
    Normal tt (match response with
               | None => s
               | Some data => set_loadedSvgs (<["undefined" := data]> (loadedSvgs s)) s
               end).
Proof.
  intros Hm. destruct response as [data|]; [|reflexivity].
  apply (icon_fetch_done_run _ _ _ _ (cm_icon m)).
  by rewrite list_lookup_fmap, Hm.
Qed.

(** C6. [preloadColorModeIcons] starts one request per entry of
    [COLOR_MODES], in order, and changes nothing else before they
    settle. *)
Theorem preloadColorModeIcons_spec (cfg : config) s :
  preloadColorModeIcons cfg s =
    Normal tt (set_tasks (tasks s ++ map (TIconFetch (map cm_icon (COLOR_MODES cfg)))
                                         (seq 0 (List.length (COLOR_MODES cfg)))) s).
Proof. unfold preloadColorModeIcons, js_forEachi. by rewrite preload_forEachi, length_map. Qed.

Section HandlerProperties.
Context (cfg : config) `{!ColorModeApi cfg}.

(** C5. The theme button's click listener flips the menu's
    [aria-expanded]: ["true"] becomes ["false"], anything else
    becomes ["true"]. *)
Theorem theme_button_click_flips menu s :
  is_Some (Dom.node_at (pdom s) menu) ->
  aria_of (final (theme_button_click menu s)) menu =
    Some (if bool_decide (aria_of s menu = Some "true"%string) then "false" else "true")%string.
Proof.
  intros Hn. rewrite aria_after_button_click by exact Hn. by case_bool_decide.
Qed.

(** C4. The button's listener implements the controller's [toggleMenu]. *)
Theorem theme_button_click_refines menu s :
  is_Some (Dom.node_at (pdom s) menu) ->
  abs menu (final (theme_button_click menu s)) = Controller.toggleMenu (abs menu s).
Proof.
  intros Hn. unfold abs, Controller.toggleMenu.
  change (Dom.getAttribute (pdom (final (theme_button_click menu s))) menu ARIA_EXPANDED)
    with (aria_of (final (theme_button_click menu s)) menu).
  rewrite aria_after_button_click, bool_to_js_string_true by exact Hn.
  by rewrite theme_button_click_run.
Qed.

(** C3. A menu item's [onclick] implements the controller's
    [selectMode]: a known mode becomes active, an unknown one is
    ignored, and in both cases the menu ends collapsed and the icon
    cache is untouched. *)
Theorem theme_item_click_refines v s menu :
  Dom.querySelector (pdom s) (menu_selector cfg) = Some menu ->
  abs menu (final (theme_item_click cfg v s)) = Controller.selectMode cfg v (abs menu s).
Proof.
  intros Hq. destruct (theme_item_click_fields cfg v s) as [Hm Hc].
  unfold abs, Controller.selectMode, Controller.setActiveMode, Controller.closeMenu.
  change (Dom.getAttribute (pdom (final (theme_item_click cfg v s))) menu ARIA_EXPANDED)
    with (aria_of (final (theme_item_click cfg v s)) menu).
  rewrite theme_item_click_aria by exact Hq. rewrite Hm, Hc.
  by case_bool_decide.
Qed.

End HandlerProperties.


(** ** Witnesses on the sample page *)
Definition dark_mode : color_mode := ColorMode "Dark" "/icons/moon.svg" "dark".

Lemma icon_fetch_done_spec_witness :
  COLOR_MODES sample_config !! 1 = Some dark_mode /\
  icon_fetch_done (map cm_icon (COLOR_MODES sample_config)) 1 (Some "<svg>moon</svg>"%string)
                  sample_page =
    Normal tt (set_loadedSvgs (<["undefined" := "<svg>moon</svg>"%string]> (loadedSvgs sample_page))
                              sample_page).
Proof.
  split; [reflexivity|].
  exact (icon_fetch_done_spec sample_config 1 dark_mode (Some "<svg>moon</svg>"%string)
           sample_page eq_refl).
Defined.

Lemma sample_menu_exists : is_Some (Dom.node_at (pdom sample_page) sample_menu).
Proof. vm_compute. eexists. reflexivity. Qed.

Lemma theme_button_click_flips_witness :
  is_Some (Dom.node_at (pdom sample_page) sample_menu) /\
  aria_of (final (theme_button_click sample_menu sample_page)) sample_menu =
    Some (if bool_decide (aria_of sample_page sample_menu = Some "true"%string)
          then "false" else "true")%string.
Proof.
  split; [exact sample_menu_exists|].
  exact (theme_button_click_flips sample_menu sample_page sample_menu_exists).
Defined.

Lemma theme_button_click_refines_witness :
  is_Some (Dom.node_at (pdom sample_page) sample_menu) /\
  abs sample_menu (final (theme_button_click sample_menu sample_page)) =
    Controller.toggleMenu (abs sample_menu sample_page).
Proof.
  split; [exact sample_menu_exists|].
  exact (theme_button_click_refines sample_menu sample_page sample_menu_exists).
Defined.

Lemma theme_item_click_refines_witness :
  Dom.querySelector (pdom sample_page) (menu_selector sample_config) = Some sample_menu /\
  abs sample_menu (final (theme_item_click sample_config "dark" sample_page)) =
    Controller.selectMode sample_config "dark" (abs sample_menu sample_page).
Proof.
  assert (Dom.querySelector (pdom sample_page) (menu_selector sample_config) = Some sample_menu)
    as Hq by (vm_compute; reflexivity).
  split; [exact Hq|].
  exact (theme_item_click_refines sample_config "dark" sample_page sample_menu Hq).
Defined.

End Theme.
