(* ===== verification/MobileMenu.v ===== *)
(** * MobileMenu: [toggleMenu]

    [toggleMenu(options = {})] (loaders.js, lines 281-296) toggles the
    class [MOBILE_MENU_TOGGLE_CLASS] on every element with
    [data-toggle="rst-versions"], then on every element with
    [data-toggle="wy-nav-shift"], then the class ["menu-open"] on the
    page wrapper.  With [options.force] defined every toggle is forced
    to that value; otherwise each one flips.  The hamburger button
    installs it as a click listener, so it then receives the click
    event, whose [force] is [undefined].

    [force] is modelled as [option bool]: [None] for [undefined] (the
    event object or the default [{}]), [Some b] for a boolean. *)

From stdpp Require Import base gmap strings list sets.
From Stdlib Require Import String.
From S2P Require Import Prelude ClassList Dom Config Page Fixtures.
Import Config Page Fixtures.

Module MobileMenu.

Definition MENU_OPEN_CLASS : string := "menu-open".

Definition rst_selector : Dom.selector := Dom.by_attr "data-toggle" "rst-versions".
Definition shift_selector : Dom.selector := Dom.by_attr "data-toggle" "wy-nav-shift".
Definition wrapper_selector (cfg : config) : Dom.selector := Dom.by_class (WRAPPER_CLASS cfg).

(** [classList.toggle(className, options.force)] or
    [classList.toggle(className)], on the element with handle [i]. *)
Definition toggle_op (force : option bool) (i : nat) (className : string) : Dom.dom -> Dom.dom :=
  match force with
  | Some f => Dom.classList_toggle_force i className f
  | None => Dom.classList_toggle i className
  end.

(** [handleClassToggle({ classList }, className)]: destructuring
    [null] throws. *)
Definition handleClassToggle (force : option bool) (e : option nat) (className : string)
  : js page unit :=
  i <- deref "Cannot destructure 'classList' of null" e ;;
  dom_do (toggle_op force i className).

Definition toggleMenu (cfg : config) (force : option bool) : js page unit :=
  rst <- dom_read (fun d => Dom.querySelectorAll d rst_selector) ;;
  js_forEach (fun e => handleClassToggle force (Some e) (MOBILE_MENU_TOGGLE_CLASS cfg)) rst ;;
  shift <- dom_read (fun d => Dom.querySelectorAll d shift_selector) ;;
  js_forEach (fun e => handleClassToggle force (Some e) (MOBILE_MENU_TOGGLE_CLASS cfg)) shift ;;
  w <- dom_read (fun d => Dom.querySelector d (wrapper_selector cfg)) ;;
  handleClassToggle force w MENU_OPEN_CLASS.

(** ** The toggle loops *)

(** The document after toggling [c] on each element of [l] in turn. *)
Definition toggle_all (force : option bool) (l : list nat) (c : string) (d : Dom.dom) : Dom.dom :=
  fold_left (fun d e => toggle_op force e c d) l d.

Lemma toggle_op_classes force i c :
  exists f, toggle_op force i c = Dom.update i (Dom.with_classes f) /\
            forall l k, k ≠ c -> (k ∈ f l <-> k ∈ l).
Proof.
  destruct force as [b|].
  - exists (ClassList.toggle_force c b). split; [reflexivity|].
    intros l k Hk. rewrite ClassList.elem_of_toggle_force. intuition congruence.
  - exists (ClassList.toggle c). split; [reflexivity|].
    intros l k Hk. rewrite ClassList.elem_of_toggle. intuition congruence.
Qed.

Lemma forEach_toggle force l c s :
  js_forEach (fun e => handleClassToggle force (Some e) c) l s =
    Normal tt (set_pdom (toggle_all force l c (pdom s)) s).
Proof.
  revert s. induction l as [|e l IH]; intros s; simpl; [by destruct s|].
  unfold js_bind at 1. simpl. rewrite IH. reflexivity.
Qed.

Lemma toggle_all_node force l c d e :
  is_Some (Dom.node_at (toggle_all force l c d) e) <-> is_Some (Dom.node_at d e).
Proof.
  revert d. induction l as [|x l IH]; intros d; simpl; [done|].
  rewrite IH. destruct (toggle_op_classes force x c) as (f & -> & _).
  apply Dom.is_Some_node_at_update.
Qed.

Lemma toggle_all_query force l c d s :
  Dom.avoids c s -> Dom.querySelectorAll (toggle_all force l c d) s = Dom.querySelectorAll d s.
Proof.
  intros Hs. revert d. induction l as [|x l IH]; intros d; simpl; [done|].
  rewrite IH. destruct (toggle_op_classes force x c) as (f & -> & Hf).
  by apply (Dom.class_update_querySelectorAll c).
Qed.

Lemma toggle_all_query1 force l c d s :
  Dom.avoids c s -> Dom.querySelector (toggle_all force l c d) s = Dom.querySelector d s.
Proof.
  intros Hs.
  change (List.hd_error (Dom.querySelectorAll (toggle_all force l c d) s) =
          List.hd_error (Dom.querySelectorAll d s)).
  by rewrite toggle_all_query.
Qed.

(** Classes other than [c], and elements not in [l], are untouched. *)
Lemma toggle_all_other_class force l c c' d e :
  c' ≠ c -> Dom.has_class (toggle_all force l c d) e c' = Dom.has_class d e c'.
Proof.
  intros Hc. revert d. induction l as [|x l IH]; intros d; simpl; [done|].
  rewrite IH. destruct (decide (x = e)) as [->|Hne].
  - destruct force; simpl;
      [apply Dom.has_class_toggle_force_other|apply Dom.has_class_toggle_other]; done.
  - destruct force; apply Dom.has_class_update_ne; exact Hne.
Qed.

Lemma toggle_all_notin force l c c' d e :
  e ∉ l -> Dom.has_class (toggle_all force l c d) e c' = Dom.has_class d e c'.
Proof.
  revert d. induction l as [|x l IH]; intros d He; simpl; [done|].
  rewrite IH by set_solver. destruct force; apply Dom.has_class_update_ne; set_solver.
Qed.

(** A forced loop leaves [c] at the forced value on every element. *)
Lemma toggle_all_forced f l c d e :
  e ∈ l -> is_Some (Dom.node_at d e) -> Dom.has_class (toggle_all (Some f) l c d) e c = f.
Proof.
  revert d. induction l as [|x l IH]; intros d He Hn; simpl; [set_solver|].
  destruct (decide (e ∈ l)) as [Hin|Hnin].
  - apply IH; [exact Hin|]. by apply Dom.is_Some_node_at_update.
  - assert (x = e) as -> by set_solver. rewrite toggle_all_notin by exact Hnin.
    by apply Dom.has_class_toggle_force.
Qed.

(** An unforced loop over distinct elements flips [c] on each. *)
Lemma toggle_all_flips l c d e :
  NoDup l -> e ∈ l -> is_Some (Dom.node_at d e) ->
  Dom.has_class (toggle_all None l c d) e c = negb (Dom.has_class d e c).
Proof.
  revert d. induction l as [|x l IH]; intros d Hnd He Hn; simpl; [set_solver|].
  apply NoDup_cons in Hnd as [Hx Hnd].
  destruct (decide (x = e)) as [->|Hne].
  - rewrite toggle_all_notin by exact Hx. by apply Dom.has_class_toggle.
  - rewrite IH; [|exact Hnd|set_solver|by apply Dom.is_Some_node_at_update].
    f_equal. apply Dom.has_class_update_ne. exact Hne.
Qed.


Lemma toggle_all_app force l1 l2 c d :
  toggle_all force (l1 ++ l2) c d = toggle_all force l2 c (toggle_all force l1 c d).
Proof. unfold toggle_all. apply fold_left_app. Qed.

(** The last toggle, on the wrapper, leaves other elements and other
    classes alone. *)
Lemma has_class_toggle_op_other force w c d e c' :
  e ≠ w \/ c' ≠ c -> Dom.has_class (toggle_op force w c d) e c' = Dom.has_class d e c'.
Proof.
  intros [He|Hc].
  - destruct force; apply Dom.has_class_update_ne; congruence.
  - destruct (decide (e = w)) as [->|He]; [|destruct force; apply Dom.has_class_update_ne; congruence].
    destruct force; [apply Dom.has_class_toggle_force_other|apply Dom.has_class_toggle_other]; done.
Qed.

Section Run.
Context (cfg : config).

(** The elements the two loops visit, read from the initial document. *)
Definition panels (d : Dom.dom) : list nat :=
  Dom.querySelectorAll d rst_selector ++ Dom.querySelectorAll d shift_selector.

Definition wrapper_of (d : Dom.dom) : option nat :=
  Dom.querySelector d (wrapper_selector cfg).

(** What [toggleMenu] does, in one step: both loops, then the wrapper;
    a missing wrapper throws after the loops have run. *)
Lemma toggleMenu_run force s :
  MOBILE_MENU_TOGGLE_CLASS cfg ≠ WRAPPER_CLASS cfg ->
  toggleMenu cfg force s =
    let d2 := toggle_all force (panels (pdom s)) (MOBILE_MENU_TOGGLE_CLASS cfg) (pdom s) in
    match wrapper_of (pdom s) with
    | Some w => Normal tt (set_pdom (toggle_op force w MENU_OPEN_CLASS d2) s)
    | None => Throw (TypeError "Cannot destructure 'classList' of null") (set_pdom d2 s)
    end.
Proof.
  intros Hcls. unfold toggleMenu, panels, wrapper_of.
  unfold js_bind at 1. unfold dom_read at 1. simpl.
  unfold js_bind at 1. rewrite forEach_toggle.
  unfold js_bind at 1. unfold dom_read at 1. simpl.
  rewrite toggle_all_query by apply Dom.avoids_by_attr.
  unfold js_bind at 1. rewrite forEach_toggle.
  unfold js_bind at 1. unfold dom_read. simpl.
  rewrite !toggle_all_query1 by (apply Dom.avoids_by_class; exact Hcls).
  rewrite toggle_all_app.
  destruct (Dom.querySelector (pdom s) (wrapper_selector cfg)); reflexivity.
Qed.
End Run.


Lemma toggle_op_query force i c d s :
  Dom.avoids c s -> Dom.querySelectorAll (toggle_op force i c d) s = Dom.querySelectorAll d s.
Proof.
  intros Hs. destruct (toggle_op_classes force i c) as (f & -> & Hf).
  by apply (Dom.class_update_querySelectorAll c).
Qed.

Lemma toggle_op_query1 force i c d s :
  Dom.avoids c s -> Dom.querySelector (toggle_op force i c d) s = Dom.querySelector d s.
Proof.
  intros Hs. destruct (toggle_op_classes force i c) as (f & -> & Hf).
  by apply (Dom.class_update_querySelector c).
Qed.

(** The new value of a toggled class. *)
Definition toggled (force : option bool) (b : bool) : bool :=
  match force with Some f => f | None => negb b end.

Section Effect.
Context (cfg : config).
Let M := MOBILE_MENU_TOGGLE_CLASS cfg.

(** The queries [toggleMenu] makes see the same elements afterwards. *)
Lemma toggleMenu_queries force s w :
  M ≠ WRAPPER_CLASS cfg -> MENU_OPEN_CLASS ≠ WRAPPER_CLASS cfg ->
  wrapper_of cfg (pdom s) = Some w ->
  panels (pdom (final (toggleMenu cfg force s))) = panels (pdom s) /\
  wrapper_of cfg (pdom (final (toggleMenu cfg force s))) = Some w.
Proof.
  intros Hm Ho Hw. rewrite toggleMenu_run by exact Hm. rewrite Hw. simpl.
  unfold panels, wrapper_of in *. split.
  - rewrite !toggle_op_query, !toggle_all_query by apply Dom.avoids_by_attr. reflexivity.
  - rewrite toggle_op_query1 by (apply Dom.avoids_by_class; congruence).
    rewrite toggle_all_query1 by (apply Dom.avoids_by_class; exact Hm). exact Hw.
Qed.

(** Every panel and the wrapper get the toggled value, provided each
    element is toggled once per class. *)
Lemma toggleMenu_effect force s w :
  M ≠ WRAPPER_CLASS cfg -> wrapper_of cfg (pdom s) = Some w ->
  (force = None -> NoDup (panels (pdom s)) /\ (w ∉ panels (pdom s) \/ M ≠ MENU_OPEN_CLASS)) ->
  (forall e, e ∈ panels (pdom s) ->
     Dom.has_class (pdom (final (toggleMenu cfg force s))) e M =
       toggled force (Dom.has_class (pdom s) e M)) /\
  Dom.has_class (pdom (final (toggleMenu cfg force s))) w MENU_OPEN_CLASS =
    toggled force (Dom.has_class (pdom s) w MENU_OPEN_CLASS).
Proof.
  intros Hm Hw Hnf. rewrite toggleMenu_run by exact Hm. rewrite Hw. simpl.
  pose proof (Dom.querySelector_Some_node _ _ _ Hw) as Hwn.
  assert (forall e, e ∈ panels (pdom s) -> is_Some (Dom.node_at (pdom s) e)) as Hpn.
  { intros e He. apply elem_of_app in He as [He|He]; eapply Dom.querySelectorAll_node; exact He. }
  split.
  - intros e He. destruct (decide (e = w /\ M = MENU_OPEN_CLASS)) as [[-> Hc]|Hn].
    + destruct force as [f|]; [|destruct (Hnf eq_refl) as [_ [Hx|Hx]]; done].
      simpl. rewrite <- Hc. apply Dom.has_class_toggle_force. by apply toggle_all_node.
    + rewrite has_class_toggle_op_other
        by (destruct (decide (e = w)); [right; intros ?; apply Hn; auto|left; done]).
      destruct force as [f|]; [by apply toggle_all_forced, Hpn|].
      destruct (Hnf eq_refl) as [Hnd _]. apply toggle_all_flips; auto.
  - destruct force as [f|]; simpl.
    + apply Dom.has_class_toggle_force. by apply toggle_all_node.
    + rewrite Dom.has_class_toggle by (by apply toggle_all_node). f_equal.
      destruct (Hnf eq_refl) as [_ [Hx|Hx]]; [apply toggle_all_notin; exact Hx|].
      apply toggle_all_other_class. apply not_eq_sym. exact Hx.
Qed.
End Effect.


(** The panels agree with the wrapper: the menu is open everywhere or
    closed everywhere. *)
Definition menu_synced (cfg : config) (d : Dom.dom) : Prop :=
  exists w, wrapper_of cfg d = Some w /\
    forall e, e ∈ panels d ->
      Dom.has_class d e (MOBILE_MENU_TOGGLE_CLASS cfg) = Dom.has_class d w MENU_OPEN_CLASS.

(** ** Properties of [toggleMenu] *)

(** C8. With [force] given, every panel and the wrapper end with the
    forced value, whatever their classes were before. *)
Theorem toggleMenu_forced cfg f s w :
  MOBILE_MENU_TOGGLE_CLASS cfg ≠ WRAPPER_CLASS cfg -> wrapper_of cfg (pdom s) = Some w ->
  (forall e, e ∈ panels (pdom s) ->
     Dom.has_class (pdom (final (toggleMenu cfg (Some f) s))) e (MOBILE_MENU_TOGGLE_CLASS cfg) = f) /\
  Dom.has_class (pdom (final (toggleMenu cfg (Some f) s))) w MENU_OPEN_CLASS = f.
Proof.
  intros Hm Hw. apply (toggleMenu_effect cfg (Some f) s w Hm Hw). discriminate.
Qed.

(** C7. [toggleMenu] keeps the panels in step with the wrapper, and
    moves the wrapper's [menu-open] to the toggled value. *)
Theorem toggleMenu_keeps_synced cfg force s :
  MOBILE_MENU_TOGGLE_CLASS cfg ≠ WRAPPER_CLASS cfg -> MENU_OPEN_CLASS ≠ WRAPPER_CLASS cfg ->
  MOBILE_MENU_TOGGLE_CLASS cfg ≠ MENU_OPEN_CLASS -> NoDup (panels (pdom s)) ->
  menu_synced cfg (pdom s) ->
  menu_synced cfg (pdom (final (toggleMenu cfg force s))) /\
  forall w, wrapper_of cfg (pdom s) = Some w ->
    Dom.has_class (pdom (final (toggleMenu cfg force s))) w MENU_OPEN_CLASS =
      toggled force (Dom.has_class (pdom s) w MENU_OPEN_CLASS).
Proof.
  intros Hm Ho Hmo Hnd (w & Hw & Hsync).
  destruct (toggleMenu_queries cfg force s w Hm Ho Hw) as [Hp1 Hw1].
  destruct (toggleMenu_effect cfg force s w Hm Hw) as [He1 Hwr1]; [auto|].
  split.
  - exists w. split; [exact Hw1|]. intros e He. rewrite Hp1 in He.
    rewrite He1, Hwr1 by exact He. by rewrite Hsync.
  - intros w' Hw'. rewrite Hw in Hw'. injection Hw' as <-. exact Hwr1.
Qed.

(** C9. Without the page wrapper, [toggleMenu] throws a [TypeError]
    after the loops have already changed the panels: the page is left
    with the panels toggled and the wrapper untouched. *)
Theorem toggleMenu_no_wrapper cfg f s :
  MOBILE_MENU_TOGGLE_CLASS cfg ≠ WRAPPER_CLASS cfg -> wrapper_of cfg (pdom s) = None ->
  match toggleMenu cfg (Some f) s with
  | Throw (TypeError _) s' =>
      forall e, e ∈ panels (pdom s) ->
        Dom.has_class (pdom s') e (MOBILE_MENU_TOGGLE_CLASS cfg) = f
  | _ => False
  end.
Proof.
  intros Hm Hw. rewrite toggleMenu_run by exact Hm. rewrite Hw. simpl.
  intros e He. apply toggle_all_forced; [exact He|].
  apply elem_of_app in He as [He|He]; eapply Dom.querySelectorAll_node; exact He.
Qed.

(** ** Witnesses *)
Lemma sample_classes_distinct :
  MOBILE_MENU_TOGGLE_CLASS sample_config ≠ WRAPPER_CLASS sample_config /\
  MENU_OPEN_CLASS ≠ WRAPPER_CLASS sample_config /\
  MOBILE_MENU_TOGGLE_CLASS sample_config ≠ MENU_OPEN_CLASS.
Proof. split; [|split]; discriminate. Qed.

Lemma sample_wrapper : wrapper_of sample_config (pdom sample_page) = Some 4.
Proof. vm_compute. reflexivity. Qed.

Lemma sample_panels : panels (pdom sample_page) = [8; 7].
Proof. vm_compute. reflexivity. Qed.

Lemma sample_panels_NoDup : NoDup (panels (pdom sample_page)).
Proof. rewrite sample_panels. repeat constructor; set_solver. Qed.

Lemma toggleMenu_forced_witness :
  MOBILE_MENU_TOGGLE_CLASS sample_config ≠ WRAPPER_CLASS sample_config /\
  wrapper_of sample_config (pdom sample_page) = Some 4 /\
  ((forall e, e ∈ panels (pdom sample_page) ->
     Dom.has_class (pdom (final (toggleMenu sample_config (Some true) sample_page))) e
       (MOBILE_MENU_TOGGLE_CLASS sample_config) = true) /\
   Dom.has_class (pdom (final (toggleMenu sample_config (Some true) sample_page))) 4
     MENU_OPEN_CLASS = true).
Proof.
  destruct sample_classes_distinct as (Hm & _ & _).
  split; [exact Hm|]. split; [exact sample_wrapper|].
  exact (toggleMenu_forced sample_config true sample_page 4 Hm sample_wrapper).
Defined.

Lemma sample_synced : menu_synced sample_config (pdom sample_page).
Proof.
  exists 4. split; [exact sample_wrapper|]. rewrite sample_panels.
  intros e He. apply list_elem_of_In in He. simpl in He.
  destruct He as [<-|[<-|[]]]; vm_compute; reflexivity.
Qed.

Lemma toggleMenu_keeps_synced_witness :
  MOBILE_MENU_TOGGLE_CLASS sample_config ≠ WRAPPER_CLASS sample_config /\
  MENU_OPEN_CLASS ≠ WRAPPER_CLASS sample_config /\
  MOBILE_MENU_TOGGLE_CLASS sample_config ≠ MENU_OPEN_CLASS /\
  NoDup (panels (pdom sample_page)) /\
  menu_synced sample_config (pdom sample_page) /\
  menu_synced sample_config (pdom (final (toggleMenu sample_config None sample_page))).
Proof.
  destruct sample_classes_distinct as (Hm & Ho & Hmo).
  do 5 (split; [first [exact Hm | exact Ho | exact Hmo | exact sample_panels_NoDup | exact sample_synced]|]).
  exact (proj1 (toggleMenu_keeps_synced sample_config None sample_page Hm Ho Hmo
                  sample_panels_NoDup sample_synced)).
Defined.

Lemma toggleMenu_no_wrapper_witness :
  MOBILE_MENU_TOGGLE_CLASS sample_config ≠ WRAPPER_CLASS sample_config /\
  wrapper_of sample_config (pdom raw_page) = None /\
  match toggleMenu sample_config (Some true) raw_page with
  | Throw (TypeError _) s' =>
      forall e, e ∈ panels (pdom raw_page) ->
        Dom.has_class (pdom s') e (MOBILE_MENU_TOGGLE_CLASS sample_config) = true
  | _ => False
  end.
Proof.
  destruct sample_classes_distinct as (Hm & _ & _).
  assert (wrapper_of sample_config (pdom raw_page) = None) as Hw by (vm_compute; reflexivity).
  split; [exact Hm|]. split; [exact Hw|].
  exact (toggleMenu_no_wrapper sample_config true raw_page Hm Hw).
Defined.

End MobileMenu.
