(* ===== verification/Header.v ===== *)
(** * Header: [buildHeader]

    [buildHeader] (loaders.js, lines 120-274) builds the site header at
    the top of the page wrapper: the home link with the logo, the
    skip-to-content link, the navigation bar made from [NAV_LINKS] (a
    link per entry with [href], a dropdown per entry with [items]), the
    theme button with its dropdown menu of [COLOR_MODES], and the
    hamburger button of the mobile menu.  It wires the click handlers
    [Theme.theme_item_click], [Theme.theme_button_click] and
    [MobileMenu.toggleMenu] (as [Page.handler] values) and starts the
    [appendSvg] requests of the icons. *)

From stdpp Require Import base gmap strings list sets.
From Stdlib Require Import String.
From S2P Require Import Prelude ClassList Dom Config Page Fixtures Theme.
Import Config Page Fixtures Theme.

Module Header.

(** [setAttribute(k, undefined)] stores the string ["undefined"]. *)
Definition js_string_of_opt (o : option string) : string :=
  match o with Some s => s | None => "undefined" end.

Section Build.
Context (cfg : config) `{!ColorModeApi cfg}.

(** [items.map(({ name, href }) => { ... })], one entry of a dropdown. *)
Definition navDropdownItem (it : nav_item) : js page nat :=
  let '(NavItem name href _) := it in
  item <- dom_create "a" ;;
  add_class item "dropdown-item" ;;
  set_attr item "key" name ;;
  set_attr item "href" (js_string_of_opt href) ;;
  set_attr item "aria-label" name ;;
  h <- deref "Cannot read properties of undefined (reading 'startsWith')" href ;;
  (if startsWith h "http"
   then set_attr item "target" "_blank" ;; set_attr item "rel" "noopener noreferrer"
   else js_ret tt) ;;
  set_text item name ;;
  appendSvg (NE_ARROW_PATH cfg) item "external-link-icon" ;;
  js_ret item.

(** The [if (href)] branch: a plain navigation link. *)
Definition navLink (name h : string) : js page (option nat) :=
  link <- dom_create "a" ;;
  add_class link "nav-link" ;;
  set_attr link "key" name ;;
  set_attr link "href" h ;;
  set_attr link "aria-label" name ;;
  set_text link name ;;
  (if String.eqb h (REMIX_DOCS_URL cfg) then add_class link "active" else js_ret tt) ;;
  (if startsWith h "http" && negb (String.eqb h (REMIX_HOME_URL cfg))
   then set_attr link "target" "_blank" ;; set_attr link "rel" "noopener noreferrer"
   else js_ret tt) ;;
  js_ret (Some link).

(** The [if (items)] branch: the "Learn" dropdown. *)
Definition navDropdown (name : string) (its : list nav_item) : js page nat :=
  dropdown <- dom_create "div" ;;
  add_class dropdown "nav-dropdown" ;;
  set_attr dropdown "key" name ;;
  button <- dom_create "button" ;;
  add_class button "nav-link" ;;
  add_class button "dropdown-button" ;;
  set_attr button "id" "dropdown-button" ;;
  set_text button name ;;
  set_attr button "key" name ;;
  set_attr button "aria-label" name ;;
  set_attr button "aria-haspopup" "true" ;;
  set_attr button "aria-expanded" "false" ;;
  set_onclick_of button HToggleDropdown ;;
  appendSvg (CHEVRON_DOWN_PATH cfg) button "chevron-icon" ;;
  dropdownItemsBox <- dom_create "div" ;;
  add_class dropdownItemsBox "dropdown-items" ;;
  append dropdown button ;;
  append dropdown dropdownItemsBox ;;
  dropdownItems <- js_map navDropdownItem its ;;
  js_forEach (append dropdownItemsBox) dropdownItems ;;
  js_ret dropdown.

(** The callback of [NAV_LINKS.map]: an element, or [undefined] when
    the entry has neither a truthy [href] nor [items]. *)
Definition navLinkElement (it : nav_item) : js page (option nat) :=
  let '(NavItem name href items) := it in
  let dropdown_or_undefined :=
    match items with
    | Some its => d <- navDropdown name its ;; js_ret (Some d)
    | None => js_ret None
    end in
  match href with
  | Some h => if str_truthy h then navLink name h else dropdown_or_undefined
  | None => dropdown_or_undefined
  end.

(** [navBar.appendChild(link)]: [undefined] is not a node. *)
Definition appendLink (navBar : nat) (link : option nat) : js page unit :=
  l <- deref "Failed to execute 'appendChild' on 'Node': parameter 1 is not of type 'Node'" link ;;
  append navBar l.

(** [COLOR_MODES.forEach(({ name, icon, value }) => { ... })]. *)
Definition themeDropdownItem (dropdownMenu : nat) (m : color_mode) : js page unit :=
  dropdownItem <- dom_create "button" ;;
  add_class dropdownItem "theme-dropdown-item" ;;
  label <- dom_create "span" ;;
  set_text label (cm_name m) ;;
  append dropdownItem label ;;
  iconContainer <- dom_create "div" ;;
  appendSvg (cm_icon m) iconContainer "mode-choice-icon" ;;
  append dropdownItem iconContainer ;;
  set_onclick_of dropdownItem (HThemeItem (cm_value m)) ;;
  set_attr dropdownItem "key" (cm_value m) ;;
  append dropdownMenu dropdownItem.

(** The theme button, its menu and their handlers (lines 216-263);
    returns the menu. *)
Definition buildThemeMenu (navButtonContainer : nat) : js page nat :=
  themeButtonWrapper <- dom_create "div" ;;
  add_class themeButtonWrapper (THEME_BUTTON_WRAPPER_CLASS cfg) ;;
  append navButtonContainer themeButtonWrapper ;;
  themeDropdownButton <- dom_create "button" ;;
  add_class themeDropdownButton (THEME_BUTTON_CLASS cfg) ;;
  set_attr themeDropdownButton "type" "button" ;;
  set_attr themeDropdownButton "aria-label" "Theme menu button" ;;
  s <- js_get ;;
  appendSvg (getIconFromMode (mode s)) themeDropdownButton (COLOR_TOGGLE_ICON_CLASS cfg) ;;
  append themeButtonWrapper themeDropdownButton ;;
  dropdownMenu <- dom_create "div" ;;
  add_class dropdownMenu (THEME_DROPDOWN_MENU_CLASS cfg) ;;
  set_attr dropdownMenu "aria-expanded" "false" ;;
  set_attr dropdownMenu "aria-label" "Toggle theme menu" ;;
  js_forEach (themeDropdownItem dropdownMenu) (COLOR_MODES cfg) ;;
  append themeButtonWrapper dropdownMenu ;;
  add_listener themeDropdownButton (HThemeButton dropdownMenu) ;;
  js_ret dropdownMenu.

(** The mobile hamburger button (lines 264-273). *)
Definition buildMenuButton (navButtonContainer : nat) : js page unit :=
  menuButton <- dom_create "button" ;;
  add_class menuButton "mobile-menu-button" ;;
  set_attr menuButton "type" "button" ;;
  set_attr menuButton "aria-label" "Toggle menu" ;;
  set_attr menuButton "key" "menu button" ;;
  add_listener menuButton HToggleMenu ;;
  appendSvg (HAMBURGER_PATH cfg) menuButton (MOBILE_MENU_ICON_CLASS cfg) ;;
  append navButtonContainer menuButton.

Definition buildHeader : js page unit :=
  header <- dom_create "div" ;;
  add_class header "unified-header" ;;
  wrapper <- query (Dom.by_class (WRAPPER_CLASS cfg)) ;;
  w <- deref "Cannot read properties of null (reading 'prepend')" wrapper ;;
  prepend_child w header ;;
  innerHeader <- dom_create "div" ;;
  add_class innerHeader "inner-header" ;;
  append header innerHeader ;;
  homeLink <- dom_create "a" ;;
  add_class homeLink "home-link" ;;
  set_attr homeLink "href" (REMIX_HOME_URL cfg) ;;
  set_attr homeLink "aria-label" "Remix project home" ;;
  append innerHeader homeLink ;;
  appendSvg (REMIX_LOGO_PATH cfg) homeLink (REMIX_LOGO_CLASS cfg) ;;
  skipToContent <- dom_create "a" ;;
  add_class skipToContent "skip-to-content" ;;
  set_attr skipToContent "href" "#content" ;;
  set_text skipToContent "skip to content" ;;
  append innerHeader skipToContent ;;
  navBar <- dom_create "nav" ;;
  add_class navBar "nav-bar" ;;
  append innerHeader navBar ;;
  linkElements <- js_map navLinkElement (NAV_LINKS cfg) ;;
  js_forEach (appendLink navBar) linkElements ;;
  navButtonContainer <- dom_create "div" ;;
  add_class navButtonContainer "nav-button-container" ;;
  append innerHeader navButtonContainer ;;
  _ <- buildThemeMenu navButtonContainer ;;
  buildMenuButton navButtonContainer.
End Build.


(** ** Properties of the navigation bar *)

(** Run a straight-line builder on a symbolic page and read back the
    element it created. *)
Ltac run_builder :=
  unfold js_bind, dom_create, add_class, set_attr, set_text, dom_do, js_modify, js_ret,
    appendSvg, spawn, deref, js_throw; simpl.
Ltac read_node :=
  unfold Dom.getAttribute, Dom.has_class, Dom.classList_add, Dom.setAttribute, Dom.setText;
  cbn [pdom set_pdom set_tasks tasks];
  rewrite ?Dom.node_at_update_eq, ?Dom.node_at_created; simpl; vm_compute.

Section NavProperties.
Context (cfg : config) `{!ColorModeApi cfg}.

(** C10. A [NAV_LINKS] entry with a truthy [href] becomes a new [a]
    element carrying the [href] and the label, with the class
    ["active"] exactly for the documentation URL, and opening in a new
    tab exactly for [http] URLs other than the Remix home page; the
    rest of the page is unchanged. *)
Theorem navLink_spec name h s :
  let i := Dom.next_id (pdom s) in
  exists s', navLink cfg name h s = Normal (Some i) s' /\
    Dom.getAttribute (pdom s') i "href" = Some h /\
    Dom.getAttribute (pdom s') i "aria-label" = Some name /\
    Dom.has_class (pdom s') i "active" = String.eqb h (REMIX_DOCS_URL cfg) /\
    Dom.getAttribute (pdom s') i "target" =
      (if startsWith h "http" && negb (String.eqb h (REMIX_HOME_URL cfg))
       then Some "_blank"%string else None) /\
    (forall j, j ≠ i -> Dom.node_at (pdom s') j = Dom.node_at (pdom s) j).
Proof.
  intros i. unfold navLink. run_builder.
  destruct (String.eqb h (REMIX_DOCS_URL cfg));
  destruct (startsWith h "http" && negb (String.eqb h (REMIX_HOME_URL cfg))); simpl;
    eexists; (split; [reflexivity|]);
    (split; [read_node; reflexivity|]); (split; [read_node; reflexivity|]);
    (split; [read_node; reflexivity|]); (split; [read_node; reflexivity|]);
    intros j Hj; cbn [pdom set_pdom];
    unfold Dom.setAttribute, Dom.classList_add, Dom.setText;
    rewrite ?Dom.node_at_update_ne, Dom.node_at_created_ne by (unfold i in Hj; congruence);
    reflexivity.
Qed.

(** C11. An entry of a dropdown's [items] becomes a new [a] element
    that opens in a new tab exactly for [http] URLs (the Remix home
    page is not excepted, unlike the top-level links), and whose
    arrow icon is requested; an entry without [href] throws a
    [TypeError] at [href.startsWith], after the element got the
    attribute [href="undefined"]. *)
Theorem navDropdownItem_spec name href its s :
  let i := Dom.next_id (pdom s) in
  match href with
  | Some h =>
      exists s', navDropdownItem cfg (NavItem name (Some h) its) s = Normal i s' /\
        Dom.getAttribute (pdom s') i "href" = Some h /\
        Dom.getAttribute (pdom s') i "target" =
          (if startsWith h "http" then Some "_blank"%string else None) /\
        tasks s' = tasks s ++ [TAppendSvg (NE_ARROW_PATH cfg) i "external-link-icon"]
  | None =>
      exists msg s', navDropdownItem cfg (NavItem name None its) s = Throw (TypeError msg) s' /\
        Dom.getAttribute (pdom s') i "href" = Some "undefined"%string
  end.
Proof.
  intros i. unfold navDropdownItem. destruct href as [h|]; run_builder.
  - destruct (startsWith h "http"); simpl; eexists; (split; [reflexivity|]);
      (split; [read_node; reflexivity|]); (split; [read_node; reflexivity|]); reflexivity.
  - do 2 eexists. split; [reflexivity|]. read_node. reflexivity.
Qed.

(** C12. An entry with neither a truthy [href] nor [items] maps to
    [undefined] without touching the page, and appending it to the
    navigation bar throws a [TypeError]. *)
Theorem navLinkElement_undefined name href navBar s :
  (forall h, href = Some h -> h = ""%string) ->
  js_bind (navLinkElement cfg (NavItem name href None)) (appendLink navBar) s =
    Throw (TypeError "Failed to execute 'appendChild' on 'Node': parameter 1 is not of type 'Node'") s.
Proof.
  intros Hh. unfold navLinkElement.
  destruct href as [h|]; [rewrite (Hh h eq_refl)|]; reflexivity.
Qed.
End NavProperties.

(** ** Witnesses *)
Lemma navLink_spec_witness :
  exists s', navLink sample_config "Documentation" "https://remix-ide.readthedocs.io" sample_page =
               Normal (Some (Dom.next_id (pdom sample_page))) s' /\
    Dom.getAttribute (pdom s') (Dom.next_id (pdom sample_page)) "href" =
      Some "https://remix-ide.readthedocs.io"%string /\
    Dom.getAttribute (pdom s') (Dom.next_id (pdom sample_page)) "aria-label" =
      Some "Documentation"%string /\
    Dom.has_class (pdom s') (Dom.next_id (pdom sample_page)) "active" =
      String.eqb "https://remix-ide.readthedocs.io" (REMIX_DOCS_URL sample_config) /\
    Dom.getAttribute (pdom s') (Dom.next_id (pdom sample_page)) "target" =
      (if startsWith "https://remix-ide.readthedocs.io" "http" &&
          negb (String.eqb "https://remix-ide.readthedocs.io" (REMIX_HOME_URL sample_config))
       then Some "_blank"%string else None) /\
    (forall j, j ≠ Dom.next_id (pdom sample_page) ->
       Dom.node_at (pdom s') j = Dom.node_at (pdom sample_page) j).
Proof. exact (navLink_spec sample_config "Documentation" _ sample_page). Defined.

Lemma navDropdownItem_spec_witness :
  exists msg s', navDropdownItem sample_config (NavItem "Guide" None None) sample_page =
                   Throw (TypeError msg) s' /\
    Dom.getAttribute (pdom s') (Dom.next_id (pdom sample_page)) "href" = Some "undefined"%string.
Proof. exact (navDropdownItem_spec sample_config "Guide" None None sample_page). Defined.

Lemma navLinkElement_undefined_witness :
  (forall h, Some ""%string = Some h -> h = ""%string) /\
  js_bind (navLinkElement sample_config (NavItem "Learn" (Some "") None)) (appendLink 4) sample_page =
    Throw (TypeError "Failed to execute 'appendChild' on 'Node': parameter 1 is not of type 'Node'")
      sample_page.
Proof.
  assert (forall h, Some ""%string = Some h -> h = ""%string) as Hh by congruence.
  split; [exact Hh|].
  exact (navLinkElement_undefined sample_config "Learn" (Some "") 4 sample_page Hh).
Defined.

End Header.
