(* ===== verification/Build.v ===== *)
(** * Build: [buildHeader] as a whole

    The theorems of [Header] are about the pieces of the header; this
    file runs [buildHeader] (loaders.js, lines 120-274) from its first
    statement to its last on any page.  The pieces are given frame
    specifications ([Frame.spec] with [Frame.framed n] and
    [Frame.kept n]): each writes only to elements created after [n] or
    to the one it was asked to fill, never throws, or throws a
    [TypeError] exactly when a [NAV_LINKS] entry is malformed.  The
    query for the wrapper sees the document as it was, because the
    header created before it is still detached ([Tree.querySelector_detached]).

    The results: without a wrapper [buildHeader] throws and leaves only
    a detached element behind; with one, the header becomes the
    wrapper's first child and nothing else that existed changes; and it
    completes exactly when every [NAV_LINKS] entry is well formed. *)

From stdpp Require Import base gmap strings list sets.
From Stdlib Require Import String.
From S2P Require Import Prelude ClassList Dom Tree Config Page Frame Fixtures Theme Header.
Import Config Page Fixtures Theme Header.

Module Build.

(** An entry of a dropdown needs an [href]: [href.startsWith] is read. *)
Definition nav_leaf_ok (it : nav_item) : bool :=
  let '(NavItem _ href _) := it in bool_decide (is_Some href).

(** A top-level entry needs a truthy [href], or [items] whose entries
    are well formed. *)
Definition nav_entry_ok (it : nav_item) : bool :=
  let '(NavItem _ href items) := it in
  match href with Some h => str_truthy h | None => false end ||
  match items with Some its => forallb nav_leaf_ok its | None => false end.

Definition is_type_error (e : exn) : Prop := exists m, e = TypeError m.

(** The rules of [spec] need the relation to be a preorder, found by
    instance search once the rule is applied. *)
Ltac sapply L := eapply L; try lazymatch goal with |- PreOrder _ => typeclasses eauto end.
Ltac sbind := sapply @spec_bind.

(** Stepping a builder through its statements under the frame. *)
Ltac frame_prim :=
  lazymatch goal with
  | |- spec _ _ (dom_create _) _ _ => apply Frame.frame_dom_create
  | |- spec _ _ (add_class _ _) _ _ => apply Frame.frame_add_class; lia
  | |- spec _ _ (set_attr _ _ _) _ _ => apply Frame.frame_set_attr; lia
  | |- spec _ _ (set_text _ _) _ _ => apply Frame.frame_set_text; lia
  | |- spec _ _ (append _ _) _ _ => apply Frame.frame_append; lia
  | |- spec _ _ (set_onclick_of _ _) _ _ => apply Frame.frame_set_onclick_of
  | |- spec _ _ (add_listener _ _) _ _ => apply Frame.frame_add_listener
  | |- spec _ _ (appendSvg _ _ _) _ _ => apply Frame.frame_appendSvg
  | |- spec _ _ js_get _ _ => apply Frame.frame_get
  end.

Ltac sbind_with Q :=
  eapply spec_bind with (Q1 := Q); try lazymatch goal with |- PreOrder _ => typeclasses eauto end.

Ltac frame_run :=
  repeat lazymatch goal with
  | |- spec _ _ (js_bind (if ?b then _ else _) _) _ _ => destruct b
  | |- spec _ _ (js_bind (js_bind _ _) _) _ _ =>
      sbind_with (fun _ : unit => True); [frame_run|intros _ _]
  | |- spec _ _ (js_bind (js_ret _) _) _ _ =>
      sbind_with (fun _ : unit => True); [frame_run|intros _ _]
  | |- spec _ _ (js_bind ?c _) _ _ =>
      sbind; [frame_prim|];
      let a := fresh "a" in let Ha := fresh "Ha" in intros a Ha; cbv beta in Ha
  | |- spec _ _ (js_ret _) _ _ => sapply @spec_ret; cbv beta; try exact I
  | |- spec _ _ _ _ _ => frame_prim
  end.

Lemma Forall2_elem_r {A B} (P : A -> B -> Prop) l k y :
  Forall2 P l k -> y ∈ k -> exists x, x ∈ l /\ P x y.
Proof.
  intros HP Hy. apply list_elem_of_lookup in Hy as [i Hi].
  destruct (Forall2_lookup_r _ _ _ _ _ HP Hi) as (x & Hx & Pxy).
  exists x. split; [by apply list_elem_of_lookup; exists i|exact Pxy].
Qed.

Lemma Forall2_elem_l {A B} (P : A -> B -> Prop) l k x :
  Forall2 P l k -> x ∈ l -> exists y, y ∈ k /\ P x y.
Proof.
  intros HP Hx. apply list_elem_of_lookup in Hx as [i Hi].
  destruct (Forall2_lookup_l _ _ _ _ _ HP Hi) as (y & Hy & Pxy).
  exists y. split; [by apply list_elem_of_lookup; exists i|exact Pxy].
Qed.

Section Pieces.
Context (cfg : config) `{!ColorModeApi cfg} (n : nat).

Abbreviation spec_n := (spec (Frame.framed n) (Frame.kept n)).

Lemma navDropdownItem_frame it :
  spec_n (navDropdownItem cfg it) (fun a => n < a /\ nav_leaf_ok it = true)
    (fun e => nav_leaf_ok it = false /\ is_type_error e).
Proof.
  destruct it as [name href its]. unfold navDropdownItem. cbv beta iota. frame_run.
  sbind; [sapply @spec_deref; [intros ? H; exact H|]|].
  - intros ->. split; [reflexivity|]. by eexists.
  - intros h ->. frame_run; split; [lia|reflexivity|lia|reflexivity].
Qed.

Lemma navLink_frame name h :
  spec_n (navLink cfg name h) (fun r => exists x, r = Some x /\ n < x) (fun _ => False).
Proof. unfold navLink. frame_run; eauto. Qed.

Lemma forallb_false_elem {A} (f : A -> bool) l x : x ∈ l -> f x = false -> forallb f l = false.
Proof.
  intros Hx Hf. apply not_true_iff_false. rewrite forallb_forall. intros Hall.
  rewrite (Hall x) in Hf; [discriminate|by apply list_elem_of_In].
Qed.

Lemma navDropdown_frame name its :
  spec_n (navDropdown cfg name its) (fun a => n < a /\ forallb nav_leaf_ok its = true)
    (fun e => forallb nav_leaf_ok its = false /\ is_type_error e).
Proof.
  unfold navDropdown. frame_run. sbind.
  { eapply spec_weaken; [sapply @spec_map; intros x _; apply navDropdownItem_frame|intros ys Hys; exact Hys|].
    intros e (x & Hx & Hok & He). split; [exact (forallb_false_elem _ _ x Hx Hok)|exact He]. }
  intros items Hitems. sbind.
  { eapply spec_weaken; [eapply spec_forEach with (P := fun _ => True) (E := fun _ _ => False);
      try lazymatch goal with |- PreOrder _ => typeclasses eauto end| |].
    - intros x Hx. destruct (Forall2_elem_r _ _ _ _ Hitems Hx) as (? & _ & Hlt & _).
      apply Frame.frame_append; lia.
    - intros ? _. exact I.
    - intros e (? & _ & []). }
  intros _ _. frame_run. split; [lia|]. apply forallb_forall. intros x Hx.
  apply list_elem_of_In in Hx. destruct (Forall2_elem_l _ _ _ _ Hitems Hx) as (? & _ & _ & ?). done.
Qed.

(** What an entry of [NAV_LINKS] maps to: a new element exactly when
    the entry is well formed. *)
Definition link_result (it : nav_item) (r : option nat) : Prop :=
  (forall x, r = Some x -> n < x) /\ (is_Some r <-> nav_entry_ok it = true).

Lemma navLinkElement_frame it :
  spec_n (navLinkElement cfg it) (link_result it)
    (fun e => nav_entry_ok it = false /\ is_type_error e).
Proof.
  destruct it as [name href items]. unfold navLinkElement, link_result, nav_entry_ok.
  assert (spec_n (match items with
                  | Some its => d <- navDropdown cfg name its ;; js_ret (Some d)
                  | None => js_ret None end)
            (fun r => (forall x, r = Some x -> n < x) /\
                      (is_Some r <-> match items with Some its => forallb nav_leaf_ok its
                                     | None => false end = true))
            (fun e => match items with Some its => forallb nav_leaf_ok its | None => false end = false
                      /\ is_type_error e)) as Hdd.
  { destruct items as [its|].
    - sbind; [apply navDropdown_frame|]. intros d [Hd Hok]. sapply @spec_ret.
      split; [congruence|]. rewrite Hok. split; [done|]. intros _. by eexists.
    - sapply @spec_ret. split; [congruence|]. split; [intros [? ?]; discriminate|discriminate]. }
  destruct href as [h|]; [destruct (str_truthy h) eqn:Eh|]; cbn [orb].
  - eapply spec_weaken; [apply navLink_frame| |intros ? []].
    intros r (x & -> & Hx). split; [congruence|]. split; [done|intros _; by eexists].
  - exact Hdd.
  - exact Hdd.
Qed.

(** [navBar.appendChild(link)]. *)
Lemma appendLink_frame navBar r :
  n <= navBar -> (forall x, r = Some x -> n < x) ->
  spec_n (appendLink navBar r) (fun _ => is_Some r) (fun e => r = None /\ is_type_error e).
Proof.
  intros Hb Hr. unfold appendLink. sbind.
  - sapply @spec_deref; [intros x Hx; exact Hx|]. intros ->. split; [reflexivity|by eexists].
  - intros x ->. eapply spec_weaken; [apply Frame.frame_append; [lia|by apply Hr]| |].
    + intros _ _. by eexists.
    + intros e He; exact He.
Qed.

Lemma themeDropdownItem_frame menu m :
  n <= menu -> spec_n (themeDropdownItem menu m) (fun _ => True) (fun _ => False).
Proof. intros Hm. unfold themeDropdownItem. frame_run. Qed.

Lemma buildThemeMenu_frame container :
  n <= container -> spec_n (buildThemeMenu cfg container) (fun a => n < a) (fun _ => False).
Proof.
  intros Hc. unfold buildThemeMenu. frame_run. sbind.
  { eapply spec_weaken; [eapply spec_forEach with (P := fun _ => True) (E := fun _ _ => False);
      try lazymatch goal with |- PreOrder _ => typeclasses eauto end| |].
    - intros x _. apply themeDropdownItem_frame. lia.
    - intros ? _. exact I.
    - intros e (? & _ & []). }
  intros _ _. frame_run. lia.
Qed.
Lemma buildMenuButton_frame container :
  n <= container -> spec_n (buildMenuButton cfg container) (fun _ => True) (fun _ => False).
Proof. intros Hc. unfold buildMenuButton. frame_run. Qed.
End Pieces.

(** ** The whole of [buildHeader] *)

Section Whole.
Context (cfg : config) `{!ColorModeApi cfg}.

(** Lines 121-122: the header, created and given its class. *)
Definition detached_header (d : Dom.dom) : Dom.dom :=
  Dom.classList_add (Dom.next_id d) "unified-header" (Dom.created "div" d).

(** Line 123: the element the header is prepended to. *)
Definition wrapper_of (d : Dom.dom) : option nat :=
  Dom.querySelector d (Dom.by_class (WRAPPER_CLASS cfg)).

(** The header is created and given its class before the wrapper is
    looked up; being detached, it cannot be the wrapper. *)
Lemma header_query d :
  Tree.rooted d -> Dom.fresh d ->
  Dom.querySelector (Dom.classList_add (Dom.next_id d) "unified-header" (Dom.created "div" d))
    (Dom.by_class (WRAPPER_CLASS cfg)) =
  Dom.querySelector d (Dom.by_class (WRAPPER_CLASS cfg)).
Proof. intros Hr Hf. unfold Dom.classList_add, Dom.by_class. apply Tree.querySelector_created_update; assumption. Qed.

(** C23. Without an element of class [WRAPPER_CLASS], [buildHeader]
    throws the [TypeError] of [wrapper.prepend] on [null]; all it leaves
    behind is the header element it created, detached, with the class
    ["unified-header"]: no listener, no request, nothing in the page. *)
Theorem buildHeader_no_wrapper s :
  Tree.rooted (pdom s) -> Dom.fresh (pdom s) ->
  wrapper_of (pdom s) = None ->
  buildHeader cfg s =
    Throw (TypeError "Cannot read properties of null (reading 'prepend')")
      (set_pdom (detached_header (pdom s)) s).
Proof.
  intros Hr Hf Hw. unfold wrapper_of in Hw. unfold buildHeader. do 3 run_stmt.
  rewrite header_query, Hw by assumption. reflexivity.
Qed.
(** The document after the first statements of [buildHeader]: the
    header, prepended to the wrapper, holding the inner header. *)
Lemma header_dom d w :
  Dom.fresh d -> is_Some (Dom.node_at d w) ->
  let h := Dom.next_id d in
  let d8 := Dom.appendChild h (S h) (Dom.classList_add (S h) "inner-header" (Dom.created "div"
              (Dom.prepend w h (Dom.classList_add h "unified-header" (Dom.created "div" d))))) in
  Dom.fresh d8 /\ Dom.next_id d8 = S (S h) /\
  Dom.children_of d8 w = h :: Dom.children_of d w /\
  Dom.look d8 w = Dom.look d w /\ Dom.parentNode d8 w = Dom.parentNode d w /\
  Dom.look d8 h = Some ("div"%string, ["unified-header"%string], ∅) /\
  Dom.children_of d8 h = [S h] /\ Dom.parentNode d8 h = Some w /\
  (forall j, j < h -> j ≠ w -> Dom.node_at d8 j = Dom.node_at d j).
Proof.
  intros Hf Hw h d8. subst h d8.
  assert (w < Dom.next_id d) as Hlt.
  { destruct (decide (w < Dom.next_id d)) as [|Hge]; [done|]. destruct Hw as [? E].
    rewrite (Hf w) in E by lia. discriminate. }
  split_and!.
  - fresh_tac. exact Hf.
  - by autorewrite with dom_id.
  - dom_norm. reflexivity.
  - by look_norm.
  - dom_norm. reflexivity.
  - look_norm. reflexivity.
  - dom_norm. reflexivity.
  - dom_norm. reflexivity.
  - intros j Hj Hjw. by node_norm.
Qed.

Lemma buildHeader_prefix s w :
  Tree.rooted (pdom s) -> Dom.fresh (pdom s) ->
  wrapper_of (pdom s) = Some w ->
  let h := Dom.next_id (pdom s) in
  let d8 := Dom.appendChild h (S h) (Dom.classList_add (S h) "inner-header" (Dom.created "div"
              (Dom.prepend w h (Dom.classList_add h "unified-header" (Dom.created "div" (pdom s)))))) in
  exists c : js page unit, buildHeader cfg s = c (set_pdom d8 s) /\
    spec (Frame.framed (S h)) (Frame.kept (S h)) c
      (fun _ => forallb nav_entry_ok (NAV_LINKS cfg) = true)
      (fun e => forallb nav_entry_ok (NAV_LINKS cfg) = false /\ is_type_error e).
Proof.
  intros Hr Hf Hw h d8. unfold wrapper_of in Hw. unfold buildHeader. do 3 run_stmt.
  rewrite header_query, Hw by assumption. do 5 run_stmt. autorewrite with dom_id.
  eexists. split; [reflexivity|]. unfold h. frame_run. sbind.
  { eapply spec_weaken; [sapply @spec_map; intros x _; apply navLinkElement_frame|intros ys Hys; exact Hys|].
    intros e (x & Hx & Hok & He). split; [exact (forallb_false_elem _ _ x Hx Hok)|exact He]. }
  intros links Hlinks. sbind.
  { eapply spec_weaken; [eapply spec_forEach with (P := fun r => is_Some r)
        (E := fun r e => r = None /\ is_type_error e);
      try lazymatch goal with |- PreOrder _ => typeclasses eauto end| |].
    - intros r Hrl. destruct (Forall2_elem_r _ _ _ _ Hlinks Hrl) as (it & _ & Hlt & _).
      apply appendLink_frame; [lia|exact Hlt].
    - intros ? Hall. exact Hall.
    - intros e (r & Hrl & -> & He). split; [|exact He].
      destruct (Forall2_elem_r _ _ _ _ Hlinks Hrl) as (it & Hit & _ & Hiff).
      apply (forallb_false_elem _ _ it Hit), not_true_iff_false. intros Hok.
      apply Hiff in Hok as [? ?]. discriminate. }
  intros ? Hall.
  assert (forallb nav_entry_ok (NAV_LINKS cfg) = true) as Hok.
  { apply forallb_forall. intros it Hit. apply list_elem_of_In in Hit.
    destruct (Forall2_elem_l _ _ _ _ Hlinks Hit) as (r & Hrl & _ & Hiff). by apply Hiff, Hall. }
  frame_run. sbind.
  { eapply spec_weaken; [apply buildThemeMenu_frame; lia|intros ? H; exact H|intros ? []]. }
  intros m Hm.
  eapply spec_weaken; [apply buildMenuButton_frame; lia|intros _ _; exact Hok|intros e []].
Qed.
(** The state [buildHeader] continues from, under the frame of the
    inner header. *)
Lemma header_framed s w :
  Dom.fresh (pdom s) -> is_Some (Dom.node_at (pdom s) w) ->
  let h := Dom.next_id (pdom s) in
  Frame.framed (S h) (set_pdom (Dom.appendChild h (S h) (Dom.classList_add (S h) "inner-header"
    (Dom.created "div" (Dom.prepend w h (Dom.classList_add h "unified-header"
       (Dom.created "div" (pdom s))))))) s).
Proof.
  intros Hf Sw h. unfold h. destruct (header_dom _ _ Hf Sw) as (Hf8 & Hn8 & _).
  unfold Frame.framed. rewrite pdom_set_pdom. split_and!; [exact Hf8| |lia].
  apply Frame.closed_above_fresh; [exact Hf8|lia].
Qed.

(** C24. With a wrapper, [buildHeader] makes the header the wrapper's
    first child, whether it completes or throws on a malformed
    [NAV_LINKS] entry: the header is a [div] of class
    ["unified-header"] whose only child is the inner header; the
    wrapper keeps its tag, classes, attributes and parent; every other
    element that existed before is unchanged; and the mode and the icon
    cache are untouched. *)
Theorem buildHeader_places_header s w :
  Tree.rooted (pdom s) -> Dom.fresh (pdom s) ->
  wrapper_of (pdom s) = Some w ->
  let h := Dom.next_id (pdom s) in
  let s' := final (buildHeader cfg s) in
  Dom.children_of (pdom s') w = h :: Dom.children_of (pdom s) w /\
  Dom.look (pdom s') w = Dom.look (pdom s) w /\
  Dom.parentNode (pdom s') w = Dom.parentNode (pdom s) w /\
  Dom.look (pdom s') h = Some ("div"%string, ["unified-header"%string], ∅) /\
  Dom.children_of (pdom s') h = [S h] /\
  Dom.parentNode (pdom s') h = Some w /\
  (forall j, j < h -> j ≠ w -> Dom.node_at (pdom s') j = Dom.node_at (pdom s) j) /\
  mode s' = mode s /\ loadedSvgs s' = loadedSvgs s.
Proof.
  intros Hr Hf Hw h s'. pose proof (Dom.querySelector_Some_node _ _ _ Hw) as Sw.
  destruct (buildHeader_prefix s w Hr Hf Hw) as (c & Heq & Hc).
  destruct (header_dom _ _ Hf Sw) as (_ & _ & Hcw & Hlw & Hpw & Hlh & Hch & Hph & Hj).
  assert (w < h) as Hlt.
  { destruct (decide (w < h)) as [|Hge]; [done|]. destruct Sw as [? E].
    rewrite (Hf w) in E by (unfold h; lia). discriminate. }
  destruct (spec_final _ _ _ _ _ _ Hc (header_framed s w Hf Sw)) as [_ Hk].
  unfold s'. rewrite Heq. fold h in Hk.
  destruct (Frame.kept_node _ _ _ w Hk ltac:(lia)) as (Ecw & Elw & Epw).
  destruct (Frame.kept_node _ _ _ h Hk ltac:(lia)) as (Ech & Elh & Eph).
  destruct Hk as (_ & Hkj & _ & Hm & Hl).
  split_and!.
  - etrans; [exact Ecw|exact Hcw].
  - etrans; [exact Elw|exact Hlw].
  - etrans; [exact Epw|exact Hpw].
  - etrans; [exact Elh|exact Hlh].
  - etrans; [exact Ech|exact Hch].
  - etrans; [exact Eph|exact Hph].
  - intros j Hjh Hjw. etrans; [apply Hkj; lia|]. by apply Hj.
  - exact Hm.
  - exact Hl.
Qed.

(** What [buildHeader] may end in on a page: completion exactly when
    the page has a wrapper and every [NAV_LINKS] entry is well formed,
    a [TypeError] otherwise. *)
Definition header_outcome (s : page) (o : outcome page unit) : Prop :=
  match o with
  | Normal _ _ =>
      is_Some (wrapper_of (pdom s)) /\
      forallb nav_entry_ok (NAV_LINKS cfg) = true
  | Throw e _ =>
      is_type_error e /\
      (wrapper_of (pdom s) = None \/
       forallb nav_entry_ok (NAV_LINKS cfg) = false)
  end.

(** C25. [buildHeader] completes exactly when the page has a wrapper
    and every [NAV_LINKS] entry is well formed (a truthy [href], or
    [items] each with an [href]); otherwise it throws, and what it
    throws is a [TypeError]. *)
Theorem buildHeader_outcome s :
  Tree.rooted (pdom s) -> Dom.fresh (pdom s) -> header_outcome s (buildHeader cfg s).
Proof.
  intros Hr Hf. unfold header_outcome. destruct (wrapper_of (pdom s)) as [w|] eqn:Hw.
  - pose proof (Dom.querySelector_Some_node _ _ _ Hw) as Sw.
    destruct (buildHeader_prefix s w Hr Hf Hw) as (c & -> & Hc).
    pose proof (Hc _ (header_framed s w Hf Sw)) as Ho.
    destruct (c _) as [a s'|e s']; destruct Ho as (_ & _ & Ho); [by split|].
    destruct Ho as [Ho He]. split; [exact He|by right].
  - rewrite buildHeader_no_wrapper by assumption. split; [by eexists|by left].
Qed.
End Whole.

(** ** Witnesses *)
Lemma raw_rooted : Tree.rooted (pdom raw_page).
Proof. apply (bool_decide_unpack _). vm_compute. reflexivity. Qed.

Lemma raw_fresh : Dom.fresh (pdom raw_page).
Proof. apply Dom.wf_fresh. apply (bool_decide_unpack _). vm_compute. reflexivity. Qed.

Lemma sample_rooted : Tree.rooted (pdom sample_page).
Proof. apply (bool_decide_unpack _). vm_compute. reflexivity. Qed.

Lemma sample_fresh : Dom.fresh (pdom sample_page).
Proof. apply Dom.wf_fresh. apply (bool_decide_unpack _). vm_compute. reflexivity. Qed.

Lemma buildHeader_no_wrapper_witness :
  Tree.rooted (pdom raw_page) /\ Dom.fresh (pdom raw_page) /\
  Dom.querySelector (pdom raw_page) (Dom.by_class (WRAPPER_CLASS sample_config)) = None /\
  buildHeader sample_config raw_page =
    Throw (TypeError "Cannot read properties of null (reading 'prepend')")
      (set_pdom (Dom.classList_add (Dom.next_id (pdom raw_page)) "unified-header"
                   (Dom.created "div" (pdom raw_page))) raw_page).
Proof.
  assert (Dom.querySelector (pdom raw_page) (Dom.by_class (WRAPPER_CLASS sample_config)) = None)
    as Hw by (vm_compute; reflexivity).
  split_and!; [exact raw_rooted|exact raw_fresh|exact Hw|].
  exact (buildHeader_no_wrapper sample_config raw_page raw_rooted raw_fresh Hw).
Defined.

Lemma buildHeader_places_header_witness :
  Tree.rooted (pdom sample_page) /\ Dom.fresh (pdom sample_page) /\
  Dom.querySelector (pdom sample_page) (Dom.by_class (WRAPPER_CLASS sample_config)) = Some 4 /\
  let h := Dom.next_id (pdom sample_page) in
  let s' := final (buildHeader sample_config sample_page) in
  Dom.children_of (pdom s') 4 = h :: Dom.children_of (pdom sample_page) 4 /\
  Dom.look (pdom s') 4 = Dom.look (pdom sample_page) 4 /\
  Dom.parentNode (pdom s') 4 = Dom.parentNode (pdom sample_page) 4 /\
  Dom.look (pdom s') h = Some ("div"%string, ["unified-header"%string], ∅) /\
  Dom.children_of (pdom s') h = [S h] /\
  Dom.parentNode (pdom s') h = Some 4 /\
  (forall j, j < h -> j ≠ 4 -> Dom.node_at (pdom s') j = Dom.node_at (pdom sample_page) j) /\
  mode s' = mode sample_page /\ loadedSvgs s' = loadedSvgs sample_page.
Proof.
  assert (Dom.querySelector (pdom sample_page) (Dom.by_class (WRAPPER_CLASS sample_config)) = Some 4)
    as Hw by (vm_compute; reflexivity).
  split_and!; [exact sample_rooted|exact sample_fresh|exact Hw|].
  exact (buildHeader_places_header sample_config sample_page 4 sample_rooted sample_fresh Hw).
Defined.

Lemma buildHeader_outcome_witness :
  Tree.rooted (pdom sample_page) /\ Dom.fresh (pdom sample_page) /\
  header_outcome sample_config sample_page (buildHeader sample_config sample_page).
Proof.
  refine (conj sample_rooted (conj sample_fresh _)).
  exact (buildHeader_outcome sample_config sample_page sample_rooted sample_fresh).
Defined.

End Build.
