(* ===== verification/ThemeMenu.v ===== *)
(** * ThemeMenu: the buttons [buildHeader] puts in the nav-button container

    Lines 216-263 of loaders.js build the theme button, its dropdown
    menu with one item per [COLOR_MODES] entry, and the listener that
    opens and closes the menu ([Header.buildThemeMenu] and
    [Header.themeDropdownItem]).  This file computes what they build:
    the handles of the new elements (three per item, in order), the
    children of the menu, the [onclick] of each item, the listener of
    the button, and the icon requests started.  The mobile hamburger
    button of lines 264-273 ([Header.buildMenuButton]) is computed the
    same way. *)

From stdpp Require Import base gmap strings list sets.
From Stdlib Require Import String.
From S2P Require Import Prelude ClassList Dom Config Page Frame Fixtures Theme Header Build.
Import Config Page Fixtures Theme Header.

Module ThemeMenu.

(** The [i]-th item's button when the wrapper is [x]: after the
    wrapper, the theme button and the menu, three elements per item
    (the button, its label, its icon container). *)
Definition item_button (x i : nat) : nat := x + 3 + 3 * i.

Section Items.
Context (cfg : config) `{!ColorModeApi cfg}.

(** The document after one item: the button, its label and its icon
    container, the button appended to the menu. *)
Definition item_dom (menu : nat) (m : color_mode) (d : Dom.dom) : Dom.dom :=
  let x := Dom.next_id d in
  Dom.appendChild menu x (Dom.setAttribute x "key" (cm_value m)
    (Dom.appendChild x (S (S x)) (Dom.created "div"
      (Dom.appendChild x (S x) (Dom.setText (S x) (cm_name m) (Dom.created "span"
        (Dom.classList_add x "theme-dropdown-item" (Dom.created "button" d)))))))).

Lemma themeDropdownItem_eq menu m s :
  themeDropdownItem menu m s =
    Normal tt (mkPage (item_dom menu m (pdom s))
                      (<[Dom.next_id (pdom s) := HThemeItem (cm_value m)]> (onclick s))
                      (listeners s)
                      (tasks s ++ [TAppendSvg (cm_icon m) (S (S (Dom.next_id (pdom s)))) "mode-choice-icon"])
                      (mode s) (loadedSvgs s)).
Proof.
  unfold themeDropdownItem. repeat run_stmt. rewrite Page.append_page.
  autorewrite with page_rw dom_id. reflexivity.
Qed.
(** What one item does to the document: three new elements, the
    button appended to the menu with its [key], nothing else that
    existed before changed. *)
Lemma item_dom_facts menu m d :
  Dom.fresh d -> is_Some (Dom.node_at d menu) -> menu < Dom.next_id d ->
  let x := Dom.next_id d in
  let d' := item_dom menu m d in
  Dom.fresh d' /\ Dom.next_id d' = x + 3 /\
  Dom.children_of d' menu = Dom.children_of d menu ++ [x] /\
  Dom.look d' menu = Dom.look d menu /\ Dom.parentNode d' menu = Dom.parentNode d menu /\
  Dom.getAttribute d' x "key" = Some (cm_value m) /\ Dom.parentNode d' x = Some menu /\
  (forall j, j < x -> j ≠ menu -> Dom.node_at d' j = Dom.node_at d j).
Proof.
  intros Hf Sm Hm x d'. subst x d'. unfold item_dom. split_and!.
  - fresh_tac. exact Hf.
  - autorewrite with dom_id. lia.
  - dom_norm. reflexivity.
  - by look_norm.
  - dom_norm. reflexivity.
  - rewrite Dom.getAttribute_appendChild. apply Dom.getAttribute_setAttribute. dom_some.
  - dom_norm. reflexivity.
  - intros j Hj Hjm. by node_norm.
Qed.
(** The handles of the items: three new elements per item. *)
Lemma item_handles_S x k :
  map (fun i => x + 3 * i) (seq 0 (S k)) = x :: map (fun i => x + 3 + 3 * i) (seq 0 k).
Proof.
  cbn [seq map]. f_equal; [lia|]. rewrite <- seq_shift, map_map. apply map_ext. intros i. lia.
Qed.

Lemma item_tasks_S x m l :
  imap (fun i m => TAppendSvg (cm_icon m) (x + 3 * i + 2) "mode-choice-icon") (m :: l) =
  TAppendSvg (cm_icon m) (S (S x)) "mode-choice-icon" ::
  imap (fun i m => TAppendSvg (cm_icon m) (x + 3 + 3 * i + 2) "mode-choice-icon") l.
Proof.
  rewrite imap_cons. f_equal; [f_equal; lia|]. apply imap_ext. intros i y _. simpl. f_equal. lia.
Qed.

(** [COLOR_MODES.forEach(...)]: item [i] is the button [x + 3 i],
    appended to the menu in order, its [onclick] selecting the mode and
    its icon requested for the container [x + 3 i + 2]. *)
Lemma items_run menu l s :
  Dom.fresh (pdom s) -> is_Some (Dom.node_at (pdom s) menu) -> menu < Dom.next_id (pdom s) ->
  let x := Dom.next_id (pdom s) in
  exists s', js_forEach (themeDropdownItem menu) l s = Normal tt s' /\
    Dom.fresh (pdom s') /\ Dom.next_id (pdom s') = x + 3 * List.length l /\
    Dom.children_of (pdom s') menu =
      Dom.children_of (pdom s) menu ++ map (fun i => x + 3 * i) (seq 0 (List.length l)) /\
    Dom.look (pdom s') menu = Dom.look (pdom s) menu /\
    Dom.parentNode (pdom s') menu = Dom.parentNode (pdom s) menu /\
    (forall j, j < x -> j ≠ menu -> Dom.node_at (pdom s') j = Dom.node_at (pdom s) j) /\
    (forall i m, l !! i = Some m ->
       onclick s' !! (x + 3 * i) = Some (HThemeItem (cm_value m)) /\
       Dom.getAttribute (pdom s') (x + 3 * i) "key" = Some (cm_value m) /\
       Dom.parentNode (pdom s') (x + 3 * i) = Some menu) /\
    (forall j, j < x -> onclick s' !! j = onclick s !! j) /\
    listeners s' = listeners s /\
    tasks s' = tasks s ++ imap (fun i m => TAppendSvg (cm_icon m) (x + 3 * i + 2) "mode-choice-icon") l /\
    mode s' = mode s /\ loadedSvgs s' = loadedSvgs s.
Proof.
  revert s. induction l as [|m l IH]; intros s Hf Sm Hm x.
  - exists s. simpl. rewrite !app_nil_r. split_and!; done.
  - subst x. remember (Dom.next_id (pdom s)) as x eqn:Hx.
    set (s1 := mkPage (item_dom menu m (pdom s)) (<[x := HThemeItem (cm_value m)]> (onclick s))
                 (listeners s) (tasks s ++ [TAppendSvg (cm_icon m) (S (S x)) "mode-choice-icon"])
                 (mode s) (loadedSvgs s)).
    destruct (item_dom_facts menu m (pdom s) Hf Sm ltac:(lia))
      as (Hf1 & Hn1 & Hc1 & Hl1 & Hp1 & Hk1 & Hx1 & Hj1).
    rewrite <- Hx in *. assert (Dom.next_id (pdom s1) = x + 3) as Hn1' by exact Hn1.
    assert (is_Some (Dom.node_at (pdom s1) menu)) as Sm1
      by (apply Dom.is_Some_look; cbn [pdom s1]; rewrite Hl1; by apply Dom.is_Some_look).
    destruct (IH s1 Hf1 Sm1 ltac:(rewrite Hn1'; lia))
      as (s' & Hrun & Hf' & Hn' & Hc' & Hl' & Hp' & Hj' & Hi' & Ho' & HL' & HT' & HM' & HS').
    rewrite Hn1' in *. cbn [pdom s1] in *. exists s'. split.
    { subst x s1. cbn [js_forEach]. rewrite (js_bind_Normal _ _ _ _ _ (themeDropdownItem_eq menu m s)). exact Hrun. }
    split_and!.
    + exact Hf'.
    + rewrite Hn'. simpl. lia.
    + change (List.length (m :: l)) with (S (List.length l)).
      rewrite Hc', Hc1, item_handles_S. by rewrite <- app_assoc.
    + by rewrite Hl', Hl1.
    + by rewrite Hp', Hp1.
    + intros j Hj Hjm. rewrite Hj', Hj1 by lia. reflexivity.
    + intros [|i] m' Hi.
      * injection Hi as <-. rewrite Nat.add_0_r. rewrite Ho' by lia. cbn [onclick s1].
        rewrite lookup_insert_eq. split; [reflexivity|].
        rewrite (Dom.getAttribute_node_at _ (pdom s1)), (Dom.parentNode_node_at _ (pdom s1))
          by (apply Hj'; lia).
        split; [exact Hk1|exact Hx1].
      * destruct (Hi' i m' Hi) as (? & ? & ?). replace (x + 3 * S i) with (x + 3 + 3 * i) by lia.
        split_and!; assumption.
    + intros j Hj. rewrite Ho' by lia. cbn [onclick s1]. apply lookup_insert_ne. lia.
    + exact HL'.
    + rewrite HT'. cbn [tasks s1]. rewrite item_tasks_S. by rewrite <- app_assoc.
    + exact HM'.
    + exact HS'.
Qed.
Lemma children_of_node_at d1 d2 j : Dom.node_at d1 j = Dom.node_at d2 j -> Dom.children_of d1 j = Dom.children_of d2 j.
Proof. unfold Dom.children_of. by intros ->. Qed.

(** C26. On a well-formed page, the theme part of [buildHeader] appends
    to the container a wrapper [x] holding the theme button [x + 1] and
    the menu [x + 2]; the menu is collapsed ([aria-expanded="false"])
    and holds one item per [COLOR_MODES] entry, in order, the item of
    the [i]-th mode being [x + 3 + 3 i], whose [onclick] selects that
    mode and whose [key] is its value; the button's listener toggles
    that menu; the button's icon and the items' icons are requested, in
    this order; nothing else that existed changes. *)
Theorem buildThemeMenu_spec container s :
  Dom.fresh (pdom s) -> is_Some (Dom.node_at (pdom s) container) -> container < Dom.next_id (pdom s) ->
  let x := Dom.next_id (pdom s) in
  exists s', buildThemeMenu cfg container s = Normal (x + 2) s' /\
    Dom.children_of (pdom s') container = Dom.children_of (pdom s) container ++ [x] /\
    Dom.children_of (pdom s') x = [x + 1; x + 2] /\
    Dom.has_class (pdom s') (x + 2) (THEME_DROPDOWN_MENU_CLASS cfg) = true /\
    Dom.getAttribute (pdom s') (x + 2) "aria-expanded" = Some "false"%string /\
    Dom.children_of (pdom s') (x + 2) = map (item_button x) (seq 0 (List.length (COLOR_MODES cfg))) /\
    (forall i m, COLOR_MODES cfg !! i = Some m ->
       onclick s' !! (item_button x i) = Some (HThemeItem (cm_value m)) /\
       Dom.getAttribute (pdom s') (item_button x i) "key" = Some (cm_value m)) /\
    listeners s' = listeners s ++ [(x + 1, HThemeButton (x + 2))] /\
    tasks s' = tasks s ++ TAppendSvg (getIconFromMode (mode s)) (x + 1) (COLOR_TOGGLE_ICON_CLASS cfg) ::
      imap (fun i m => TAppendSvg (cm_icon m) (item_button x i + 2) "mode-choice-icon") (COLOR_MODES cfg) /\
    (forall j, j < x -> j ≠ container -> Dom.node_at (pdom s') j = Dom.node_at (pdom s) j) /\
    mode s' = mode s /\ loadedSvgs s' = loadedSvgs s.
Proof.
  intros Hf Sc Hc x. subst x. unfold item_button, buildThemeMenu. repeat run_stmt. autorewrite with page_rw dom_id.
  lazymatch goal with |- context [js_bind (js_forEach (themeDropdownItem ?mn) ?l) _ ?sm] =>
    assert (Dom.fresh (pdom sm)) as Hfm by (autorewrite with page_rw; fresh_tac; exact Hf);
    assert (is_Some (Dom.node_at (pdom sm) mn)) as Smm by (autorewrite with page_rw; dom_some);
    assert (mn < Dom.next_id (pdom sm)) as Hmm by (autorewrite with page_rw dom_id; lia);
    destruct (items_run mn l sm Hfm Smm Hmm)
      as (s1 & Hrun & Hf1 & Hn1 & Hc1 & Hl1 & Hp1 & Hj1 & Hi1 & Ho1 & HL1 & HT1 & HM1 & HS1)
  end.
  autorewrite with page_rw dom_id in Hn1, Hc1, Hl1, Hp1, Hj1, Hi1, Ho1, HL1, HT1, HM1, HS1.
  rewrite (js_bind_Normal _ _ _ _ _ Hrun). repeat run_stmt.
  assert (Dom.loose (pdom s1) (S (S (Dom.next_id (pdom s))))) as Hloose
    by (unfold Dom.loose; rewrite Hp1; dom_norm; reflexivity).
  eexists. split; [unfold js_ret; do 3 f_equal; lia|]. autorewrite with page_rw.
  rewrite !Nat.add_succ_r, !Nat.add_0_r.
  set (x := Dom.next_id (pdom s)) in *.
  assert (Dom.node_at (pdom s1) x = _) as Hjx by exact (Hj1 x ltac:(lia) ltac:(lia)).
  split_and!.
  - rewrite Dom.children_of_appendChild_ne, Dom.children_of_detach_loose by (lia || exact Hloose).
    rewrite (children_of_node_at _ _ container (Hj1 container ltac:(lia) ltac:(lia))).
    loose_norm. reflexivity.
  - rewrite Dom.children_of_appendChild_loose by (exact Hloose || (rewrite Hjx; dom_some)).
    rewrite (children_of_node_at _ _ x Hjx). loose_norm. reflexivity.
  - rewrite Dom.has_class_appendChild, (Dom.has_class_look _ _ _ _ Hl1), !Dom.has_class_setAttribute.
    apply Dom.has_class_add. dom_some.
  - rewrite Dom.getAttribute_appendChild, (Dom.getAttribute_look _ _ _ _ Hl1).
    rewrite Dom.getAttribute_setAttribute_other_key by done. apply Dom.getAttribute_setAttribute. dom_some.
  - rewrite Dom.children_of_appendChild_ne_loose, Hc1 by (lia || exact Hloose). loose_norm. reflexivity.
  - intros i m Hi. destruct (Hi1 i m Hi) as (Hoi & Hki & _). rewrite Dom.getAttribute_appendChild.
    split; assumption.
  - rewrite HL1. reflexivity.
  - rewrite HT1, <- app_assoc. reflexivity.
  - intros j Hj Hjc. rewrite Frame.node_at_appendChild_loose by (lia || exact Hloose).
    rewrite Hj1 by lia. by node_norm.
  - exact HM1.
  - exact HS1.
Qed.
End Items.

(** The theme menu built in the sample page's wrapper [4]. *)
Lemma buildThemeMenu_spec_witness :
  Dom.fresh (pdom sample_page) /\ is_Some (Dom.node_at (pdom sample_page) 4) /\
  4 < Dom.next_id (pdom sample_page) /\
  (let x := Dom.next_id (pdom sample_page) in
  exists s', buildThemeMenu sample_config 4 sample_page = Normal (x + 2) s' /\
    Dom.children_of (pdom s') 4 = Dom.children_of (pdom sample_page) 4 ++ [x] /\
    Dom.children_of (pdom s') x = [x + 1; x + 2] /\
    Dom.has_class (pdom s') (x + 2) (THEME_DROPDOWN_MENU_CLASS sample_config) = true /\
    Dom.getAttribute (pdom s') (x + 2) "aria-expanded" = Some "false"%string /\
    Dom.children_of (pdom s') (x + 2) =
      map (item_button x) (seq 0 (List.length (COLOR_MODES sample_config))) /\
    (forall i m, COLOR_MODES sample_config !! i = Some m ->
       onclick s' !! (item_button x i) = Some (HThemeItem (cm_value m)) /\
       Dom.getAttribute (pdom s') (item_button x i) "key" = Some (cm_value m)) /\
    listeners s' = listeners sample_page ++ [(x + 1, HThemeButton (x + 2))] /\
    tasks s' = tasks sample_page ++
      TAppendSvg (getIconFromMode (cfg := sample_config) (mode sample_page)) (x + 1) (COLOR_TOGGLE_ICON_CLASS sample_config) ::
      imap (fun i m => TAppendSvg (cm_icon m) (item_button x i + 2) "mode-choice-icon") (COLOR_MODES sample_config) /\
    (forall j, j < x -> j ≠ 4 -> Dom.node_at (pdom s') j = Dom.node_at (pdom sample_page) j) /\
    mode s' = mode sample_page /\ loadedSvgs s' = loadedSvgs sample_page).
Proof.
  assert (is_Some (Dom.node_at (pdom sample_page) 4)) as H4 by (vm_compute; eexists; reflexivity).
  assert (4 < Dom.next_id (pdom sample_page)) as H4' by (vm_compute; lia).
  split_and!; [exact Build.sample_fresh|exact H4|exact H4'|].
  exact (buildThemeMenu_spec sample_config 4 sample_page Build.sample_fresh H4 H4').
Defined.

(** ** The mobile menu button *)

Section MenuButton.
Context (cfg : config) `{!ColorModeApi cfg}.

(** The document after lines 264-273: the button, with its class and
    attributes, appended to the container. *)
Definition menu_button_dom (container : nat) (d : Dom.dom) : Dom.dom :=
  let x := Dom.next_id d in
  Dom.appendChild container x (Dom.setAttribute x "key" "menu button"
    (Dom.setAttribute x "aria-label" "Toggle menu" (Dom.setAttribute x "type" "button"
      (Dom.classList_add x "mobile-menu-button" (Dom.created "button" d))))).

Lemma buildMenuButton_eq container s :
  buildMenuButton cfg container s =
    Normal tt (mkPage (menu_button_dom container (pdom s)) (onclick s)
                      (listeners s ++ [(Dom.next_id (pdom s), HToggleMenu)])
                      (tasks s ++ [TAppendSvg (HAMBURGER_PATH cfg) (Dom.next_id (pdom s)) (MOBILE_MENU_ICON_CLASS cfg)])
                      (mode s) (loadedSvgs s)).
Proof. unfold buildMenuButton. repeat run_stmt. rewrite Page.append_page. autorewrite with page_rw dom_id. reflexivity. Qed.

(** C31. The hamburger button: on a page with the container, lines
    264-273 append to it a new [button] of class
    ["mobile-menu-button"] with [type="button"],
    [aria-label="Toggle menu"] and [key="menu button"], install
    [toggleMenu] as its click listener, request the hamburger icon for
    it, and change no element that existed but the container; the
    resulting document is exactly [menu_button_dom]. *)
Theorem buildMenuButton_spec container s :
  Dom.fresh (pdom s) -> is_Some (Dom.node_at (pdom s) container) -> container < Dom.next_id (pdom s) ->
  let x := Dom.next_id (pdom s) in
  exists s', buildMenuButton cfg container s = Normal tt s' /\
    pdom s' = menu_button_dom container (pdom s) /\
    Dom.children_of (pdom s') container = Dom.children_of (pdom s) container ++ [x] /\
    Dom.has_class (pdom s') x "mobile-menu-button" = true /\
    Dom.getAttribute (pdom s') x "type" = Some "button"%string /\
    Dom.getAttribute (pdom s') x "aria-label" = Some "Toggle menu"%string /\
    Dom.getAttribute (pdom s') x "key" = Some "menu button"%string /\
    Dom.parentNode (pdom s') x = Some container /\
    listeners s' = listeners s ++ [(x, HToggleMenu)] /\
    tasks s' = tasks s ++ [TAppendSvg (HAMBURGER_PATH cfg) x (MOBILE_MENU_ICON_CLASS cfg)] /\
    onclick s' = onclick s /\
    (forall j, j < x -> j ≠ container -> Dom.node_at (pdom s') j = Dom.node_at (pdom s) j) /\
    mode s' = mode s /\ loadedSvgs s' = loadedSvgs s.
Proof.
  intros Hf Sc Hc x. subst x. rewrite buildMenuButton_eq. eexists. split; [reflexivity|].
  cbn [pdom listeners tasks onclick mode loadedSvgs]. unfold menu_button_dom. split_and!; try reflexivity.
  - dom_norm. reflexivity.
  - rewrite Dom.has_class_appendChild, !Dom.has_class_setAttribute. apply Dom.has_class_add. dom_some.
  - rewrite Dom.getAttribute_appendChild. repeat (rewrite Dom.getAttribute_setAttribute_other_key by done).
    apply Dom.getAttribute_setAttribute. dom_some.
  - rewrite Dom.getAttribute_appendChild. repeat (rewrite Dom.getAttribute_setAttribute_other_key by done).
    apply Dom.getAttribute_setAttribute. dom_some.
  - rewrite Dom.getAttribute_appendChild. apply Dom.getAttribute_setAttribute. dom_some.
  - dom_norm. reflexivity.
  - intros j Hj Hjc. by node_norm.
Qed.
End MenuButton.

(** The button built in the sample page's wrapper [4]. *)
Lemma buildMenuButton_spec_witness :
  Dom.fresh (pdom sample_page) /\ is_Some (Dom.node_at (pdom sample_page) 4) /\
  4 < Dom.next_id (pdom sample_page) /\
  (let x := Dom.next_id (pdom sample_page) in
  exists s', buildMenuButton sample_config 4 sample_page = Normal tt s' /\
    pdom s' = menu_button_dom 4 (pdom sample_page) /\
    Dom.children_of (pdom s') 4 = Dom.children_of (pdom sample_page) 4 ++ [x] /\
    Dom.has_class (pdom s') x "mobile-menu-button" = true /\
    Dom.getAttribute (pdom s') x "type" = Some "button"%string /\
    Dom.getAttribute (pdom s') x "aria-label" = Some "Toggle menu"%string /\
    Dom.getAttribute (pdom s') x "key" = Some "menu button"%string /\
    Dom.parentNode (pdom s') x = Some 4 /\
    listeners s' = listeners sample_page ++ [(x, HToggleMenu)] /\
    tasks s' = tasks sample_page ++
      [TAppendSvg (HAMBURGER_PATH sample_config) x (MOBILE_MENU_ICON_CLASS sample_config)] /\
    onclick s' = onclick sample_page /\
    (forall j, j < x -> j ≠ 4 -> Dom.node_at (pdom s') j = Dom.node_at (pdom sample_page) j) /\
    mode s' = mode sample_page /\ loadedSvgs s' = loadedSvgs sample_page).
Proof.
  assert (is_Some (Dom.node_at (pdom sample_page) 4)) as H4 by (vm_compute; eexists; reflexivity).
  assert (4 < Dom.next_id (pdom sample_page)) as H4' by (vm_compute; lia).
  split_and!; [exact Build.sample_fresh|exact H4|exact H4'|].
  exact (buildMenuButton_spec sample_config 4 sample_page Build.sample_fresh H4 H4').
Defined.

End ThemeMenu.
