(* ===== verification/Events.v ===== *)
(** * Events: the page as a state machine

    After the load-time functions have run, the page changes only through
    two kinds of events: a click on an element, which runs the handlers
    installed on the element and on its ancestors (the event bubbles), in
    the order the code installed them, and the settling of one pending
    [fetch], with the response or a failure, in any order.  [step] is that
    transition relation; [reachable] its reflexive-transitive closure.

    A handler that throws does not stop the others: the browser reports
    the error and goes on with the next listener, with the page as the
    handler left it.  A click reaches the root of a well-formed
    document within the fuel bound, and a click on the hamburger button
    that [buildHeader] adds runs [toggleMenu] alone. *)

From stdpp Require Import base gmap strings list sets.
From Stdlib Require Import String.
From S2P Require Import Prelude ClassList Dom Tree Query Config Page Fixtures Theme MobileMenu Header Build ThemeMenu.
Import Config Page Fixtures Theme MobileMenu.

Module Events.

(** [toggleDropdown], the "Learn" dropdown's [onclick], belongs to another
    script of the site; the events only need that it acts on the
    document alone. *)
Class DropdownApi := {
  toggleDropdown : js page unit;
  toggleDropdown_dom_only : forall s, exists d, final (toggleDropdown s) = set_pdom d s;
}.

(** A model of it from the specification's description of toggles: flip
    the [aria-expanded] of the [#dropdown-button]. *)
Definition spec_toggleDropdown : js page unit :=
  b <- query (Dom.by_attr "id" "dropdown-button") ;;
  match b with
  | Some i =>
      isExpanded <- dom_read (fun d => bool_decide (Dom.getAttribute d i "aria-expanded" = Some "true"%string)) ;;
      set_attr i "aria-expanded" (bool_to_js_string (negb isExpanded))
  | None => js_ret tt
  end.

Lemma spec_toggleDropdown_dom_only s : exists d, final (spec_toggleDropdown s) = set_pdom d s.
Proof.
  unfold spec_toggleDropdown, query, dom_read, js_bind. simpl.
  destruct (Dom.querySelector _ _).
  - eexists. reflexivity.
  - exists (pdom s). by destruct s.
Qed.

#[export] Instance spec_dropdown_api : DropdownApi := {|
  toggleDropdown := spec_toggleDropdown;
  toggleDropdown_dom_only := spec_toggleDropdown_dom_only;
|}.

Section Semantics.
Context (cfg : config) `{!ColorModeApi cfg} `{!DropdownApi}.

(** What each installed closure runs.  The hamburger button's listener
    receives the click event, whose [force] is [undefined]. *)
Definition run_handler (h : handler) : js page unit :=
  match h with
  | HToggleDropdown => toggleDropdown
  | HThemeItem v => theme_item_click cfg v
  | HThemeButton m => theme_button_click m
  | HToggleMenu => MobileMenu.toggleMenu cfg None
  end.

(** The continuation a pending request runs when it settles. *)
Definition run_task (t : task) (response : option string) : js page unit :=
  match t with
  | TIconFetch icons idx => icon_fetch_done icons idx response
  | TAppendSvg _ target cls => appendSvg_done target cls response
  end.

(** The handlers of one element: its [onclick], then its listeners. *)
Definition handlers_of (s : page) (i : nat) : list handler :=
  match onclick s !! i with Some h => [h] | None => [] end ++
  map snd (List.filter (fun '(j, _) => Nat.eqb j i) (listeners s)).

(** The elements the click reaches: the target, then its ancestors. *)
Definition bubble_path (s : page) (i : nat) : list nat :=
  i :: Dom.ancestors (Dom.fuel_of (pdom s)) (pdom s) i.

(** Run handlers one after the other; an exception ends only its own
    handler. *)
Definition run_caught (hs : list handler) (s : page) : page :=
  fold_left (fun s h => final (run_handler h s)) hs s.

Definition dispatch_click (i : nat) (s : page) : page :=
  run_caught (List.concat (map (handlers_of s) (bubble_path s i))) s.

Inductive step : page -> page -> Prop :=
  | step_click i s : step s (dispatch_click i s)
  | step_settle k t response s :
      tasks s !! k = Some t ->
      step s (final (run_task t response (set_tasks (delete k (tasks s)) s))).

Inductive reachable (s0 : page) : page -> Prop :=
  | reach_refl : reachable s0 s0
  | reach_step s s' : reachable s0 s -> step s s' -> reachable s0 s'.

Lemma reachable_trans s0 s1 s2 : reachable s0 s1 -> reachable s1 s2 -> reachable s0 s2.
Proof. intros H1 H2. induction H2; [exact H1|]. econstructor; eauto. Qed.

(** An invariant of every handler and every continuation is an invariant
    of every reachable page. *)
Lemma reachable_invariant (P : page -> Prop) s0 s :
  (forall h, preserves P (run_handler h)) ->
  (forall t r, preserves P (run_task t r)) ->
  (forall s l, P s -> P (set_tasks l s)) ->
  P s0 -> reachable s0 s -> P s.
Proof.
  intros Hh Ht Hl H0 Hr. induction Hr as [|s s' _ IH Hs]; [exact H0|].
  destruct Hs as [i s|k t r s _].
  - unfold dispatch_click, run_caught.
    generalize (List.concat (map (handlers_of s) (bubble_path s i))) as hs.
    intros hs. revert s IH. induction hs as [|h hs IHhs]; intros s Hs; simpl; [exact Hs|].
    apply IHhs. apply Hh. exact Hs.
  - apply Ht. apply Hl. exact IH.
Qed.
End Semantics.


(** ** The icon cache over every run *)

(** Every key of [loadedSvgs] is ["undefined"]. *)
Definition cache_undefined (s : page) : Prop :=
  forall k v, loadedSvgs s !! k = Some v -> k = "undefined"%string.

(** The keys of the cache are among [K]. *)
Definition cache_within (K : gset string) (s : page) : Prop := dom (loadedSvgs s) ⊆ K.

Lemma cache_undefined_within s : cache_undefined s <-> cache_within {["undefined"%string]} s.
Proof.
  unfold cache_undefined, cache_within. split.
  - intros H k Hk. apply elem_of_dom in Hk as [v Hv]. apply elem_of_singleton. exact (H k v Hv).
  - intros H k v Hk. assert (k ∈ dom (loadedSvgs s)) by (apply elem_of_dom; by eexists). set_solver.
Qed.

Lemma preserves_cache_same K (c : js page unit) :
  (forall s, loadedSvgs (final (c s)) = loadedSvgs s) -> preserves (cache_within K) c.
Proof. intros Hc s Hs. unfold cache_within. by rewrite Hc. Qed.

(** A field the document operations do not touch stays as it was. *)
Lemma dom_blind_field {A} (get : page -> A) (x : A) :
  (forall d s, get (set_pdom d s) = get s) -> dom_blind (fun s => get s = x).
Proof. intros H d s. by rewrite H. Qed.

Lemma unchanged_of_preserves {A} (get : page -> A) (c : js page unit) :
  (forall x, preserves (fun s => get s = x) c) -> forall s, get (final (c s)) = get s.
Proof. intros H s. exact (H (get s) s eq_refl). Qed.

Lemma toggleMenu_keeps_field {A} (get : page -> A) cfg force :
  (forall d s, get (set_pdom d s) = get s) ->
  forall s, get (final (MobileMenu.toggleMenu cfg force s)) = get s.
Proof.
  intros Hg. apply unchanged_of_preserves. intros x.
  pose proof (dom_blind_field get x Hg) as HP.
  unfold MobileMenu.toggleMenu, MobileMenu.handleClassToggle.
  repeat first [ apply preserves_bind; [|intros ?] | apply preserves_forEach; intros ? _
               | apply preserves_dom_do; exact HP | apply preserves_dom_read; exact HP
               | apply preserves_deref ].
Qed.

Section CacheInvariant.
Context (cfg : config) `{!ColorModeApi cfg} `{!DropdownApi}.

Lemma run_handler_cache K h : preserves (cache_within K) (run_handler cfg h).
Proof.
  destruct h as [| v | m |]; simpl; apply preserves_cache_same; intros s.
  - destruct (toggleDropdown_dom_only s) as [d ->]. reflexivity.
  - apply (theme_item_click_fields cfg v s).
  - by rewrite theme_button_click_run.
  - apply toggleMenu_keeps_field. reflexivity.
Qed.

Lemma appendSvg_done_keeps_field {A} (get : page -> A) target cls r :
  (forall d s, get (set_pdom d s) = get s) ->
  forall s, get (final (appendSvg_done target cls r s)) = get s.
Proof.
  intros Hg. apply unchanged_of_preserves. intros x.
  pose proof (dom_blind_field get x Hg) as HP.
  destruct r as [markup|]; simpl; [|apply preserves_ret].
  repeat first [ apply preserves_bind; [|intros ?] | apply preserves_dom_create; exact HP
               | apply preserves_add_class; exact HP | apply preserves_set_text; exact HP
               | apply preserves_append; exact HP ].
Qed.

(** The continuation of an icon request writes under ["undefined"],
    whatever icon list and index it holds. *)
Lemma run_task_cache K t r : "undefined"%string ∈ K -> preserves (cache_within K) (run_task t r).
Proof.
  intros HK. destruct t as [icons idx | path target cls]; simpl.
  - destruct r as [data|]; [|apply preserves_ret].
    intros s Hs. destruct (icons !! idx) as [path|] eqn:Hp.
    2:{ unfold icon_fetch_done, js_bind. rewrite Hp. exact Hs. }
    rewrite (icon_fetch_done_run icons idx data s path Hp).
    unfold cache_within in *. simpl. rewrite dom_insert_L. set_solver.
  - apply preserves_cache_same. apply appendSvg_done_keeps_field. reflexivity.
Qed.

(** The cache's keys stay among [K] when [K] holds ["undefined"]. *)
Lemma cache_within_reachable K s0 s :
  "undefined"%string ∈ K -> cache_within K s0 -> reachable cfg s0 s -> cache_within K s.
Proof.
  intros HK H0 Hr. eapply (reachable_invariant cfg (cache_within K)); eauto.
  - intros h. apply run_handler_cache.
  - intros t r. by apply run_task_cache.
Qed.

Lemma cache_undefined_reachable s0 s :
  cache_undefined s0 -> reachable cfg s0 s -> cache_undefined s.
Proof.
  rewrite !cache_undefined_within. apply cache_within_reachable. set_solver.
Qed.

(** C2. On every page reachable from one whose cache holds only the key
    ["undefined"] (for instance the empty cache of a fresh page), after
    any clicks and any responses in any order, no colour mode's icon is
    cached under the mode's value: the lookup the specification's
    [getIcon] performs always misses. *)
Theorem no_mode_icon_ever_cached s0 s m :
  cache_undefined s0 -> reachable cfg s0 s -> cm_value m ≠ "undefined"%string ->
  loadedSvgs s !! cm_value m = None.
Proof.
  intros H0 Hr Hm. destruct (loadedSvgs s !! cm_value m) as [v|] eqn:E; [|reflexivity].
  exfalso. apply Hm. exact (cache_undefined_reachable s0 s H0 Hr _ v E).
Qed.
(** C27. The icon cache never grows by more than one entry: on every
    page reachable by clicks and responses in any order, [loadedSvgs]
    has at most one key more than it had at the start, however many
    icons were requested and fetched, since every completion writes
    under the same key. *)
Theorem icon_cache_bounded s0 s :
  reachable cfg s0 s -> size (loadedSvgs s) <= size (loadedSvgs s0) + 1.
Proof.
  intros Hr. set (u := "undefined"%string).
  assert (cache_within (dom (loadedSvgs s0) ∪ {[u]}) s) as Hw.
  { apply (cache_within_reachable _ s0); [set_solver| |exact Hr]. unfold cache_within. set_solver. }
  rewrite <- !size_dom. etrans; [apply subseteq_size, Hw|]. rewrite size_union_alt.
  pose proof (subseteq_size ({[u]} ∖ dom (loadedSvgs s0)) {[u]} ltac:(set_solver)) as Hu.
  rewrite size_singleton in Hu. lia.
Qed.
End CacheInvariant.


(** ** A click reaches the document *)

(** On a well-formed document, the bubbling of a click on any element
    of the document terminates at the document root within the fuel
    bound: the elements the click reaches are the element and its
    ancestors, exactly a chain of children from the root read
    backwards, whose handlers the click runs in that order, and more
    fuel walks the same path. *)
Section Bubbling.
Context (cfg : config) `{!ColorModeApi cfg} `{!DropdownApi}.

Lemma click_bubbles_to_root s i k :
  Tree.rooted (pdom s) -> i ∈ Dom.preorder (Dom.fuel_of (pdom s)) (pdom s) (Dom.root_id (pdom s)) ->
  (exists l, Tree.chain (pdom s) (Dom.root_id (pdom s) :: l) /\
             bubble_path s i = reverse (Dom.root_id (pdom s) :: l) /\
             dispatch_click cfg i s =
               run_caught cfg (List.concat (map (handlers_of s) (reverse (Dom.root_id (pdom s) :: l)))) s) /\
  Dom.ancestors (Dom.fuel_of (pdom s) + k) (pdom s) i = Dom.ancestors (Dom.fuel_of (pdom s)) (pdom s) i.
Proof.
  intros (Hwf & Hr & Sr) Hi. destruct (Tree.preorder_chain _ _ _ _ Hi) as (l & Hc & Hz).
  pose proof (Tree.chain_length _ Hwf _ l Hr Sr Hc) as Hlen. simpl in Hlen.
  assert (forall F, List.length l <= F ->
            Dom.ancestors F (pdom s) i = List.tl (reverse (Dom.root_id (pdom s) :: l))) as HF.
  { intros F HF. replace F with ((F - List.length l) + List.length l) by lia.
    rewrite (Tree.ancestors_chain _ Hwf _ l i _ Hc Hz), Tree.ancestors_parentless by exact Hr.
    apply app_nil_r. }
  split.
  - assert (bubble_path s i = reverse (Dom.root_id (pdom s) :: l)) as Hb.
    { unfold bubble_path. rewrite HF by (unfold Dom.fuel_of; lia).
      symmetry. exact (Tree.reverse_chain_head _ _ _ Hz). }
    exists l. split_and!; [exact Hc|exact Hb|]. unfold dispatch_click. by rewrite Hb.
  - rewrite !HF by (unfold Dom.fuel_of; lia). reflexivity.
Qed.
End Bubbling.

(** ** A click on the hamburger button *)
Section MenuButtonClick.
Context (cfg : config) `{!ColorModeApi cfg} `{!DropdownApi}.

Lemma handlers_of_snoc s s' x h j :
  onclick s' = onclick s -> listeners s' = listeners s ++ [(x, h)] ->
  handlers_of s' j = handlers_of s j ++ (if decide (j = x) then [h] else []).
Proof.
  intros Ho Hl. unfold handlers_of. rewrite Ho, Hl, List.filter_app, map_app, app_assoc. f_equal.
  cbn. destruct (decide (j = x)) as [->|Hne]; [by rewrite Nat.eqb_refl|].
  by rewrite (proj2 (Nat.eqb_neq x j)) by congruence.
Qed.

Lemma concat_map_nil {A B} (f : A -> list B) l :
  (forall a, a ∈ l -> f a = []) -> List.concat (map f l) = [].
Proof.
  induction l as [|a l IH]; intros Hf; [done|]. cbn [map List.concat].
  rewrite Hf by set_solver. apply IH. set_solver.
Qed.

(** A click on a new leaf [x] of parent [p] that carries one handler
    [h], where neither [p] nor its ancestors carry any, runs [h] alone. *)
Lemma dispatch_new_leaf s s' p h :
  Dom.wf (pdom s) -> p ≠ Dom.next_id (pdom s) ->
  Dom.parentNode (pdom s') (Dom.next_id (pdom s)) = Some p ->
  (forall j, j ≠ Dom.next_id (pdom s) -> Dom.parentNode (pdom s') j = Dom.parentNode (pdom s) j) ->
  onclick s' = onclick s -> listeners s' = listeners s ++ [(Dom.next_id (pdom s), h)] ->
  handlers_of s (Dom.next_id (pdom s)) = [] ->
  (forall F j, j ∈ p :: Dom.ancestors F (pdom s) p -> handlers_of s j = []) ->
  dispatch_click cfg (Dom.next_id (pdom s)) s' = final (run_handler cfg h s').
Proof.
  intros Hwf Hp Hpx Hpj Ho Hl Hx Ha. set (x := Dom.next_id (pdom s)) in *.
  unfold dispatch_click, bubble_path, Dom.fuel_of. cbn [Dom.ancestors].
  change (Dom.node_at (pdom s') x ≫= Dom.parent) with (Dom.parentNode (pdom s') x). rewrite Hpx.
  rewrite (Query.ancestors_new_leaf _ (pdom s) (pdom s') p Hwf Hpj Hp).
  assert (List.concat (map (handlers_of s') (p :: Dom.ancestors (size (Dom.nodes (pdom s'))) (pdom s) p)) = [])
    as Hrest.
  { apply concat_map_nil. intros j Hj. rewrite (handlers_of_snoc s s' x h j Ho Hl), (Ha _ j Hj).
    rewrite decide_False; [reflexivity|]. apply elem_of_cons in Hj as [->|Hj]; [exact Hp|].
    apply Dom.fresh_ne; [exact (Dom.wf_fresh _ Hwf)|exact (Query.ancestors_elem_node _ _ _ _ Hwf Hj)]. }
  cbn [map List.concat] in Hrest |- *. rewrite Hrest, (handlers_of_snoc s s' x h x Ho Hl), Hx, decide_True by reflexivity.
  reflexivity.
Qed.

Lemma menu_button_parents container d :
  Dom.parentNode (ThemeMenu.menu_button_dom container d) (Dom.next_id d) = Some container /\
  forall j, j ≠ Dom.next_id d -> Dom.parentNode (ThemeMenu.menu_button_dom container d) j = Dom.parentNode d j.
Proof.
  unfold ThemeMenu.menu_button_dom. split.
  - apply Dom.parentNode_appendChild. dom_some.
  - intros j Hj. rewrite Dom.parentNode_appendChild_ne, !Dom.parentNode_setAttribute, Dom.parentNode_classList_add,
      Dom.parentNode_created by done. reflexivity.
Qed.

(** C28. A click on the hamburger button built by lines 264-273 runs
    [toggleMenu] once, with [force] undefined, and nothing else: on a
    well-formed page where neither the new button's handle nor the
    container nor any of its ancestors carries a click handler, the
    click leaves the page exactly as [toggleMenu] leaves it. *)
Theorem menu_button_click_runs_toggleMenu container s s' :
  Dom.wf (pdom s) -> is_Some (Dom.node_at (pdom s) container) ->
  handlers_of s (Dom.next_id (pdom s)) = [] ->
  (forall F j, j ∈ container :: Dom.ancestors F (pdom s) container -> handlers_of s j = []) ->
  Header.buildMenuButton cfg container s = Normal tt s' ->
  dispatch_click cfg (Dom.next_id (pdom s)) s' = final (MobileMenu.toggleMenu cfg None s').
Proof.
  intros Hwf Sc Hx Ha Hb. rewrite ThemeMenu.buildMenuButton_eq in Hb. injection Hb as <-.
  destruct (menu_button_parents container (pdom s)) as [Hpx Hpj].
  apply (dispatch_new_leaf _ _ container HToggleMenu Hwf);
    [exact (Dom.fresh_ne _ _ (Dom.wf_fresh _ Hwf) Sc)|exact Hpx|exact Hpj|reflexivity|reflexivity|exact Hx|exact Ha].
Qed.
End MenuButtonClick.


(** ** Witnesses *)
Definition after_preload : page := final (preloadColorModeIcons sample_config sample_page).

Definition after_dark_icon : page :=
  final (run_task (TIconFetch (map cm_icon (COLOR_MODES sample_config)) 1)
           (Some "<svg>moon</svg>"%string)
           (set_tasks (delete 1 (tasks after_preload)) after_preload)).

Lemma no_mode_icon_ever_cached_witness :
  cache_undefined after_preload /\ reachable sample_config after_preload after_dark_icon /\
  cm_value dark_mode ≠ "undefined"%string /\
  loadedSvgs after_dark_icon !! cm_value dark_mode = None.
Proof.
  assert (cache_undefined after_preload) as H0.
  { intros k v Hk. vm_compute in Hk. discriminate. }
  assert (reachable sample_config after_preload after_dark_icon) as Hr.
  { econstructor; [constructor|]. apply (step_settle sample_config 1). vm_compute. reflexivity. }
  assert (cm_value dark_mode ≠ "undefined"%string) as Hm by discriminate.
  split; [exact H0|]. split; [exact Hr|]. split; [exact Hm|].
  exact (no_mode_icon_ever_cached sample_config after_preload after_dark_icon dark_mode H0 Hr Hm).
Defined.

(** Both remaining requests of the preload settled, one after the
    other. *)
Definition after_two_icons : page :=
  final (run_task (TIconFetch (map cm_icon (COLOR_MODES sample_config)) 0)
           (Some "<svg>sun</svg>"%string)
           (set_tasks (delete 0 (tasks after_dark_icon)) after_dark_icon)).

Lemma icon_cache_bounded_witness :
  reachable sample_config after_preload after_two_icons /\
  size (loadedSvgs after_two_icons) <= size (loadedSvgs after_preload) + 1.
Proof.
  assert (reachable sample_config after_preload after_two_icons) as Hr.
  { econstructor; [econstructor; [constructor|]|].
    - apply (step_settle sample_config 1). vm_compute. reflexivity.
    - apply (step_settle sample_config 0). vm_compute. reflexivity. }
  split; [exact Hr|].
  exact (icon_cache_bounded sample_config after_preload after_two_icons Hr).
Defined.

(** The hamburger button built in the sample page's wrapper [4], and a
    click on it. *)
Definition menu_wired_page : page := final (Header.buildMenuButton sample_config 4 sample_page).

Lemma menu_button_click_runs_toggleMenu_witness :
  Dom.wf (pdom sample_page) /\ is_Some (Dom.node_at (pdom sample_page) 4) /\
  handlers_of sample_page (Dom.next_id (pdom sample_page)) = [] /\
  (forall F j, j ∈ 4 :: Dom.ancestors F (pdom sample_page) 4 -> handlers_of sample_page j = []) /\
  Header.buildMenuButton sample_config 4 sample_page = Normal tt menu_wired_page /\
  dispatch_click sample_config (Dom.next_id (pdom sample_page)) menu_wired_page =
    final (MobileMenu.toggleMenu sample_config None menu_wired_page).
Proof.
  assert (Dom.wf (pdom sample_page)) as Hwf by exact (proj1 Build.sample_rooted).
  assert (is_Some (Dom.node_at (pdom sample_page) 4)) as H4 by (vm_compute; eexists; reflexivity).
  assert (handlers_of sample_page (Dom.next_id (pdom sample_page)) = []) as Hx by reflexivity.
  assert (forall F j, j ∈ 4 :: Dom.ancestors F (pdom sample_page) 4 -> handlers_of sample_page j = []) as Ha
    by (intros; reflexivity).
  assert (Header.buildMenuButton sample_config 4 sample_page = Normal tt menu_wired_page) as Hb
    by (vm_compute; reflexivity).
  split_and!; [exact Hwf|exact H4|exact Hx|exact Ha|exact Hb|].
  exact (menu_button_click_runs_toggleMenu sample_config 4 sample_page menu_wired_page Hwf H4 Hx Ha Hb).
Defined.

End Events.
