(* ===== verification/Touchups.v ===== *)
(** * Touchups: the straight-line edits of the generated markup

    Seven functions of [loaders.js] run once at page load and edit the
    Read the Docs markup in place: [preloadFonts] (lines 4-16),
    [updateEditButtonLabel] (46-50), [cleanSearchInput] (69-78),
    [addHrUnderSearchForm] (83-87), [addFooterNote] (92-99),
    [updateFooterButtonIcons] (104-115) and [updateFlyoverMenu]
    (301-316).  Each is a sequence of DOM statements on the page state;
    a [null] result of a query that the code dereferences without a
    guard is a [TypeError], and [removeChild]/[insertBefore] with a
    node that is not a child throw the DOM's ["NotFoundError"]. *)

From stdpp Require Import base gmap strings list sets.
From Stdlib Require Import String Ascii.
From S2P Require Import Prelude ClassList Dom Config Page Fixtures.
Import Page Fixtures.

Module Touchups.

(** ** [preloadFonts] *)
Definition fonts : list string := ["Helvetica.ttc"].

(** The callback of [fonts.forEach]; the properties [rel], [as],
    [href] and [crossOrigin] reflect the content attributes of the same
    (lower-case) name. *)
Definition preloadFont (filename : string) : js page unit :=
  link <- dom_create "link" ;;
  set_attr link "rel" "preload" ;;
  set_attr link "as" "font" ;;
  set_attr link "href" (String.append "_static/fonts/" filename) ;;
  set_attr link "crossorigin" "" ;;
  head <- dom_read Dom.head_id ;;
  append head link.

Definition preloadFonts : js page unit := js_forEach preloadFont fonts.

(** ** [updateEditButtonLabel] *)
Definition edit_button_selector : Dom.selector :=
  Dom.Descendant (Dom.Simple (Dom.Compound None ["wy-breadcrumbs-aside"] []))
                 (Dom.Compound (Some "a") [] []).

Definition updateEditButtonLabel : js page unit :=
  editButton <- query edit_button_selector ;;
  match editButton with
  | None => js_ret tt
  | Some e => set_textContent e "Edit on GitHub"
  end.

(** ** [cleanSearchInput] *)
Definition version_div_selector : Dom.selector :=
  Dom.Simple (Dom.Compound (Some "div") ["version"] []).

Definition cleanSearchInput : js page unit :=
  sideNavSearch <- query (Dom.by_class "wy-side-nav-search") ;;
  sns <- deref "Cannot read properties of null (reading 'querySelector')" sideNavSearch ;;
  anchor <- query_in sns (Dom.by_tag "a") ;;
  versionDiv <- query_in sns version_div_selector ;;
  (match anchor with Some a => remove_child sns a | None => js_ret tt end) ;;
  match versionDiv with Some v => remove_child sns v | None => js_ret tt end.

(** ** [addHrUnderSearchForm] *)
Definition vertical_menu_selector : Dom.selector :=
  Dom.Simple (Dom.Compound None ["wy-menu-vertical"] [("role", "navigation")]).

Definition addHrUnderSearchForm : js page unit :=
  verticalMenu <- query vertical_menu_selector ;;
  hr <- dom_create "hr" ;;
  vm <- deref "Cannot read properties of null (reading 'parentNode')" verticalMenu ;;
  parent <- dom_read (fun d => Dom.parentNode d vm) ;;
  p <- deref "Cannot read properties of null (reading 'insertBefore')" parent ;;
  insert_before p hr (Some vm).

(** ** [addFooterNote] *)
Definition quote : string := String (ascii_of_nat 34) EmptyString.

(** The markup assigned to [innerHTML]; the element is kept with this
    markup as its content (the parsed link inside it is not a node of
    the model). *)
Definition footer_note_html : string :=
  String.concat "" ["Customized with ❤️ by the <a href="; quote; "https://ethereum.org/"; quote;
                    " target="; quote; "_blank"; quote; ">ethereum.org</a> team."].

Definition content_info_selector : Dom.selector :=
  Dom.Simple (Dom.Compound (Some "div") [] [("role", "contentinfo")]).

Definition addFooterNote : js page unit :=
  contentInfo <- query content_info_selector ;;
  footerNote <- dom_create "p" ;;
  add_class footerNote "footer-note" ;;
  set_textContent footerNote footer_note_html ;;
  ci <- deref "Cannot read properties of null (reading 'parentNode')" contentInfo ;;
  parent <- dom_read (fun d => Dom.parentNode d ci) ;;
  p <- deref "Cannot read properties of null (reading 'insertBefore')" parent ;;
  next <- dom_read (fun d => Dom.nextSibling d ci) ;;
  insert_before p footerNote next.

(** ** [updateFooterButtonIcons] *)

(** One of the two guarded blocks: the first element with class [from]
    gets [to] and loses [from]. *)
Definition swapIcon (from to : string) : js page unit :=
  arrow <- query (Dom.by_class from) ;;
  match arrow with
  | Some a => add_class a to ;; remove_class a from
  | None => js_ret tt
  end.

Definition updateFooterButtonIcons : js page unit :=
  swapIcon "fa-arrow-circle-right" "fa-caret-right" ;;
  swapIcon "fa-arrow-circle-left" "fa-caret-left".

(** ** [updateFlyoverMenu] *)
Definition book_selector : Dom.selector := Dom.Simple (Dom.Compound None ["fa"; "fa-book"] []).
Definition caret_selector : Dom.selector :=
  Dom.Simple (Dom.Compound None ["fa"; "fa-caret-down"] []).

Definition updateFlyoverMenu : js page unit :=
  rtdVersion <- query (Dom.by_class "rst-current-version") ;;
  rv <- deref "Cannot read properties of null (reading 'querySelector')" rtdVersion ;;
  rtdLabel <- query_in rv book_selector ;;
  rl <- deref "Cannot set properties of null (setting 'textContent')" rtdLabel ;;
  set_textContent rl "RTD" ;;
  caretDown <- query_in rv caret_selector ;;
  clear_children rv ;;
  append rv rl ;;
  cd <- deref "Failed to execute 'appendChild' on 'Node': parameter 1 is not of type 'Node'"
          caretDown ;;
  append rv cd ;;
  latestSpan <- dom_create "span" ;;
  set_textContent latestSpan "Latest" ;;
  append rv latestSpan.

(** ** Properties of [updateFlyoverMenu] *)

(** The handles a query returns belong to the document, and the fresh
    handle is none of them. *)
Ltac found_nodes Hf :=
  repeat match goal with
    | H : Dom.querySelector _ _ = Some ?i |- _ =>
        let S := fresh "S" in
        pose proof (Dom.querySelector_Some_node _ _ _ H) as S;
        pose proof (Dom.fresh_ne _ _ Hf S); clear H
    | H : Dom.querySelector_from _ _ _ = Some ?i |- _ =>
        let S := fresh "S" in
        pose proof (Dom.querySelector_from_Some_node _ _ _ _ H) as S;
        pose proof (Dom.fresh_ne _ _ Hf S); clear H
    end.

(** C13. When the flyover's version box, its book icon and its caret
    are found, and the icon has no children, [updateFlyoverMenu]
    completes and leaves the box with exactly three children, in this
    order: the icon, now reading "RTD", the caret, and a new span
    reading "Latest". *)
Theorem updateFlyoverMenu_spec s rv rl cd :
  Dom.fresh (pdom s) ->
  Dom.querySelector (pdom s) (Dom.by_class "rst-current-version") = Some rv ->
  Dom.querySelector_from (pdom s) rv book_selector = Some rl ->
  Dom.querySelector_from (pdom s) rv caret_selector = Some cd ->
  Dom.children_of (pdom s) rl = [] -> rl ≠ rv -> cd ≠ rv -> rl ≠ cd ->
  let n := Dom.next_id (pdom s) in
  exists s', updateFlyoverMenu s = Normal tt s' /\
    Dom.children_of (pdom s') rv = [rl; cd; n] /\
    Dom.text_of (pdom s') rl = Some "RTD"%string /\
    Dom.text_of (pdom s') n = Some "Latest"%string /\
    Dom.parentNode (pdom s') rl = Some rv /\ Dom.parentNode (pdom s') cd = Some rv /\
    Dom.parentNode (pdom s') n = Some rv.
Proof.
  intros Hf Hv Hl Hc Hlc Hlv Hcv Hlcd n. subst n.
  unfold updateFlyoverMenu. run_page. rewrite Hv. run_page. rewrite Hl. run_page.
  rewrite (Dom.querySelector_from_textContent _ _ _ _ _ Hlc), Hc. run_page.
  found_nodes Hf. autorewrite with dom_id.
  eexists. split; [reflexivity|]. cbn [pdom set_pdom].
  split_and!; dom_norm; reflexivity.
Qed.

(** C14. Without a caret in the version box, [updateFlyoverMenu]
    throws a [TypeError] after it has already emptied the box: the
    box is left holding the relabelled icon alone. *)
Theorem updateFlyoverMenu_no_caret s rv rl :
  Dom.fresh (pdom s) ->
  Dom.querySelector (pdom s) (Dom.by_class "rst-current-version") = Some rv ->
  Dom.querySelector_from (pdom s) rv book_selector = Some rl ->
  Dom.querySelector_from (pdom s) rv caret_selector = None ->
  Dom.children_of (pdom s) rl = [] -> rl ≠ rv ->
  exists msg s', updateFlyoverMenu s = Throw (TypeError msg) s' /\
    Dom.children_of (pdom s') rv = [rl] /\ Dom.text_of (pdom s') rl = Some "RTD"%string.
Proof.
  intros Hf Hv Hl Hc Hlc Hlv.
  unfold updateFlyoverMenu. run_page. rewrite Hv. run_page. rewrite Hl. run_page.
  rewrite (Dom.querySelector_from_textContent _ _ _ _ _ Hlc), Hc. run_page.
  found_nodes Hf. do 2 eexists. split; [reflexivity|]. cbn [pdom set_pdom].
  split_and!; dom_norm; reflexivity.
Qed.

(** ** Properties of the insertions *)

(** C15. In a well-formed document whose vertical menu is found and
    has a parent, [addHrUnderSearchForm] completes and puts a new
    element right before the menu in its parent's list of children,
    the rest of the list unchanged. *)
Theorem addHrUnderSearchForm_spec s vm p :
  Dom.wf (pdom s) ->
  Dom.querySelector (pdom s) vertical_menu_selector = Some vm ->
  Dom.parentNode (pdom s) vm = Some p ->
  let n := Dom.next_id (pdom s) in
  exists l1 l2 s', addHrUnderSearchForm s = Normal tt s' /\
    Dom.children_of (pdom s) p = l1 ++ vm :: l2 /\
    Dom.children_of (pdom s') p = l1 ++ n :: vm :: l2 /\
    Dom.parentNode (pdom s') n = Some p.
Proof.
  intros Hwf Hq Hp n. subst n. pose proof (Dom.wf_fresh _ Hwf) as Hf.
  destruct (Dom.wf_child_split _ Hwf vm p Hp) as (l1 & l2 & Hl & Hnd).
  pose proof (Dom.wf_next_not_child _ Hwf p) as Hfree.
  assert (is_Some (Dom.node_at (pdom s) p)) as Sp
    by (apply (Dom.children_of_is_Some _ _ vm); rewrite Hl; set_solver).
  pose proof (Dom.fresh_ne _ _ Hf Sp).
  unfold addHrUnderSearchForm. run_page. rewrite Hq. run_page. found_nodes Hf.
  dom_norm. rewrite Hp. run_page. dom_norm. rewrite Hp, bool_decide_eq_true_2 by reflexivity.
  exists l1, l2. eexists. split_and!; [reflexivity|exact Hl| |]; cbn [pdom set_pdom]; dom_norm.
  - rewrite Hl. apply Dom.insert_before_app, (NoDup_app_cons_notin _ _ _ Hnd).
  - reflexivity.
Qed.

(** C16. In a well-formed document whose content-info block is found
    and has a parent, [addFooterNote] completes and puts a new
    paragraph of class ["footer-note"], holding the note's markup,
    right after the block among its parent's children (at the end when
    the block is the last child). *)
Theorem addFooterNote_spec s ci p :
  Dom.wf (pdom s) ->
  Dom.querySelector (pdom s) content_info_selector = Some ci ->
  Dom.parentNode (pdom s) ci = Some p ->
  let n := Dom.next_id (pdom s) in
  exists l1 l2 s', addFooterNote s = Normal tt s' /\
    Dom.children_of (pdom s) p = l1 ++ ci :: l2 /\
    Dom.children_of (pdom s') p = l1 ++ ci :: n :: l2 /\
    Dom.parentNode (pdom s') n = Some p /\
    Dom.text_of (pdom s') n = Some footer_note_html /\
    Dom.has_class (pdom s') n "footer-note" = true.
Proof.
  intros Hwf Hq Hp n. subst n. pose proof (Dom.wf_fresh _ Hwf) as Hf.
  destruct (Dom.wf_child_split _ Hwf ci p Hp) as (l1 & l2 & Hl & Hnd).
  pose proof (Dom.wf_next_not_child _ Hwf p) as Hfree.
  assert (is_Some (Dom.node_at (pdom s) p)) as Sp
    by (apply (Dom.children_of_is_Some _ _ ci); rewrite Hl; set_solver).
  pose proof (Dom.fresh_ne _ _ Hf Sp).
  unfold addFooterNote. run_page. rewrite Hq. run_page. found_nodes Hf.
  dom_norm. rewrite Hp. run_page. rewrite Dom.nextSibling_eq. dom_norm. rewrite Hp. cbn [mbind option_bind]. dom_norm.
  rewrite Hl, (Dom.next_of_app _ _ _ (NoDup_app_cons_notin _ _ _ Hnd)).
  exists l1, l2. destruct l2 as [|x l2]; cbn [List.hd_error].
  - rewrite Dom.insertBefore_None. eexists. split_and!; [reflexivity|reflexivity|..];
      cbn [pdom set_pdom]; dom_norm; rewrite ?Hl, <- ?app_assoc; try reflexivity.
    apply Dom.has_class_add; dom_side.
  - assert (x ∈ Dom.children_of (pdom s) p) as Hx by (rewrite Hl; set_solver).
    pose proof (Dom.wf_child_parent _ Hwf _ _ Hx) as Hxp.
    pose proof (Dom.fresh_ne _ _ Hf (Dom.wf_child_node _ Hwf _ _ Hx)).
    dom_norm. rewrite Hxp, bool_decide_eq_true_2 by reflexivity.
    eexists. split_and!; [reflexivity|reflexivity|..]; cbn [pdom set_pdom]; dom_norm;
      rewrite ?Hl; try reflexivity.
    + by apply Dom.insert_before_after.
    + apply Dom.has_class_add; dom_side.
Qed.

(** ** Properties of the removals and relabellings *)

(** C17. When the search box's first anchor and its version block are
    both children of the box, [cleanSearchInput] completes and removes
    exactly these two from the box's children, detaching them. *)
Theorem cleanSearchInput_spec s sns a v :
  Dom.querySelector (pdom s) (Dom.by_class "wy-side-nav-search") = Some sns ->
  Dom.querySelector_from (pdom s) sns (Dom.by_tag "a") = Some a ->
  Dom.querySelector_from (pdom s) sns version_div_selector = Some v ->
  Dom.parentNode (pdom s) a = Some sns -> Dom.parentNode (pdom s) v = Some sns -> a ≠ v ->
  exists s', cleanSearchInput s = Normal tt s' /\
    Dom.children_of (pdom s') sns =
      filter (fun j => j ≠ v) (filter (fun j => j ≠ a) (Dom.children_of (pdom s) sns)) /\
    Dom.parentNode (pdom s') a = None /\ Dom.parentNode (pdom s') v = None.
Proof.
  intros Hs Ha Hv Hpa Hpv Hne.
  unfold cleanSearchInput. run_page. rewrite Hs. run_page. rewrite Ha, Hv. run_page.
  rewrite Hpa, bool_decide_eq_true_2 by reflexivity. cbn [pdom set_pdom].
  rewrite Dom.parentNode_detach_ne, Hpv, bool_decide_eq_true_2 by congruence.
  eexists. split_and!; [reflexivity|..]; cbn [pdom set_pdom].
  - rewrite !Dom.children_of_detach, Dom.parentNode_detach_ne, Hpa, Hpv by congruence.
    by rewrite !decide_True.
  - rewrite Dom.parentNode_detach_ne by congruence. apply Dom.parentNode_detach.
  - apply Dom.parentNode_detach.
Qed.

(** C18. When the first anchor of the search box is not a child of the
    box but nested deeper, [cleanSearchInput] throws the DOM's
    ["NotFoundError"] from [removeChild] and changes nothing. *)
Theorem cleanSearchInput_nested_anchor s sns a :
  Dom.querySelector (pdom s) (Dom.by_class "wy-side-nav-search") = Some sns ->
  Dom.querySelector_from (pdom s) sns (Dom.by_tag "a") = Some a ->
  Dom.parentNode (pdom s) a ≠ Some sns ->
  cleanSearchInput s = Throw (DOMException "NotFoundError") s.
Proof.
  intros Hs Ha Hpa.
  unfold cleanSearchInput. run_page. rewrite Hs. run_page. rewrite Ha. run_page.
  by rewrite bool_decide_eq_false_2.
Qed.

(** C19. [updateEditButtonLabel] never throws.  Without an edit link it
    changes nothing; otherwise the link's content becomes the text
    "Edit on GitHub": its former children (the icon of the theme's
    markup) are detached. *)
Theorem updateEditButtonLabel_spec s :
  exists s', updateEditButtonLabel s = Normal tt s' /\
    match Dom.querySelector (pdom s) edit_button_selector with
    | None => s' = s
    | Some e =>
        Dom.text_of (pdom s') e = Some "Edit on GitHub"%string /\
        Dom.children_of (pdom s') e = [] /\
        forall c, c ∈ Dom.children_of (pdom s) e -> is_Some (Dom.node_at (pdom s) c) ->
                  Dom.parentNode (pdom s') c = None
    end.
Proof.
  unfold updateEditButtonLabel. run_page.
  destruct (Dom.querySelector (pdom s) edit_button_selector) as [e|] eqn:He; run_page;
    [|by eexists].
  pose proof (Dom.querySelector_Some_node _ _ _ He) as Se.
  eexists. split; [reflexivity|]. cbn [pdom set_pdom]. split_and!.
  - by apply Dom.text_of_textContent.
  - by apply Dom.children_of_textContent.
  - intros c Hc Sc. rewrite Dom.parentNode_setText. by apply Dom.parentNode_clear_in.
Qed.

(** Rewrite the class tests of a sequence of class updates. *)
Ltac class_norm :=
  repeat first
    [ rewrite Dom.has_class_add by dom_side
    | rewrite Dom.has_class_remove
    | rewrite Dom.has_class_add_other by discriminate
    | rewrite Dom.has_class_remove_other by discriminate
    | rewrite Dom.has_class_add_ne by (apply not_eq_sym; assumption)
    | rewrite Dom.has_class_remove_ne by (apply not_eq_sym; assumption) ].

(** C20. [updateFooterButtonIcons] never throws, and the first element
    with the right (left) arrow class ends with the right (left) caret
    class and without the arrow class, also when both are the same
    element. *)
Theorem updateFooterButtonIcons_spec s :
  exists s', updateFooterButtonIcons s = Normal tt s' /\
    (forall r, Dom.querySelector (pdom s) (Dom.by_class "fa-arrow-circle-right") = Some r ->
       Dom.has_class (pdom s') r "fa-caret-right" = true /\
       Dom.has_class (pdom s') r "fa-arrow-circle-right" = false) /\
    (forall l, Dom.querySelector (pdom s) (Dom.by_class "fa-arrow-circle-left") = Some l ->
       Dom.has_class (pdom s') l "fa-caret-left" = true /\
       Dom.has_class (pdom s') l "fa-arrow-circle-left" = false).
Proof.
  unfold updateFooterButtonIcons, swapIcon. run_page.
  destruct (Dom.querySelector (pdom s) (Dom.by_class "fa-arrow-circle-right")) as [r|] eqn:Hr;
    run_page;
    rewrite ?Dom.querySelector_classList_remove, ?Dom.querySelector_classList_add by discriminate;
    destruct (Dom.querySelector (pdom s) (Dom.by_class "fa-arrow-circle-left")) as [l|] eqn:Hl;
    run_page; eexists; (split; [reflexivity|]); cbn [pdom set_pdom];
    split; intros ? [= <-]; 
    repeat match goal with H : Dom.querySelector _ _ = Some _ |- _ =>
      pose proof (Dom.querySelector_Some_node _ _ _ H); clear H end;
    try (destruct (decide (r = l)) as [<-|]); split; class_norm; reflexivity.
Qed.

(** Rewrite the attribute reads of a sequence of [setAttribute]. *)
Ltac attr_norm :=
  repeat first
    [ rewrite Dom.getAttribute_setAttribute by dom_side
    | rewrite Dom.getAttribute_setAttribute_other_key by discriminate ].

(** C21. In a well-formed document with a head, [preloadFonts]
    completes and appends to the head one new [link] element that
    preloads the font file [_static/fonts/Helvetica.ttc]. *)
Theorem preloadFonts_spec s :
  Dom.wf (pdom s) -> is_Some (Dom.node_at (pdom s) (Dom.head_id (pdom s))) ->
  let n := Dom.next_id (pdom s) in
  exists s', preloadFonts s = Normal tt s' /\
    Dom.children_of (pdom s') (Dom.head_id (pdom s)) =
      Dom.children_of (pdom s) (Dom.head_id (pdom s)) ++ [n] /\
    Dom.getAttribute (pdom s') n "rel" = Some "preload"%string /\
    Dom.getAttribute (pdom s') n "as" = Some "font"%string /\
    Dom.getAttribute (pdom s') n "href" = Some "_static/fonts/Helvetica.ttc"%string /\
    Dom.getAttribute (pdom s') n "crossorigin" = Some ""%string.
Proof.
  intros Hwf Sh n. subst n. pose proof (Dom.wf_fresh _ Hwf) as Hf.
  pose proof (Dom.wf_next_not_child _ Hwf (Dom.head_id (pdom s))) as Hfree.
  pose proof (Dom.fresh_ne _ _ Hf Sh).
  unfold preloadFonts, fonts. cbn [js_forEach]. unfold preloadFont. run_page.
  autorewrite with dom_id. eexists. split; [reflexivity|]. cbn [pdom set_pdom].
  split_and!; dom_norm; attr_norm; reflexivity.
Qed.

(** ** Witnesses on the Read the Docs page of [Fixtures] *)

(** The flyover of [rtd_page] is element 18 with the book icon 19 and
    the caret 21; the next fresh handle is 22. *)
Lemma updateFlyoverMenu_spec_witness :
  Dom.fresh (pdom rtd_page) /\
  Dom.querySelector (pdom rtd_page) (Dom.by_class "rst-current-version") = Some 18 /\
  Dom.querySelector_from (pdom rtd_page) 18 book_selector = Some 19 /\
  Dom.querySelector_from (pdom rtd_page) 18 caret_selector = Some 21 /\
  Dom.children_of (pdom rtd_page) 19 = [] /\ 19 ≠ 18 /\ 21 ≠ 18 /\ 19 ≠ 21 /\
  exists s', updateFlyoverMenu rtd_page = Normal tt s' /\
    Dom.children_of (pdom s') 18 = [19; 21; 22] /\
    Dom.text_of (pdom s') 19 = Some "RTD"%string /\
    Dom.text_of (pdom s') 22 = Some "Latest"%string /\
    Dom.parentNode (pdom s') 19 = Some 18 /\ Dom.parentNode (pdom s') 21 = Some 18 /\
    Dom.parentNode (pdom s') 22 = Some 18.
Proof.
  assert (Dom.querySelector (pdom rtd_page) (Dom.by_class "rst-current-version") = Some 18)
    as Hv by (vm_compute; reflexivity).
  assert (Dom.querySelector_from (pdom rtd_page) 18 book_selector = Some 19)
    as Hl by (vm_compute; reflexivity).
  assert (Dom.querySelector_from (pdom rtd_page) 18 caret_selector = Some 21)
    as Hc by (vm_compute; reflexivity).
  assert (Dom.children_of (pdom rtd_page) 19 = []) as Hlc by (vm_compute; reflexivity).
  split_and!; try assumption; try lia; [apply rtd_dom_fresh|].
  exact (updateFlyoverMenu_spec rtd_page 18 19 21 rtd_dom_fresh Hv Hl Hc Hlc
           ltac:(lia) ltac:(lia) ltac:(lia)).
Defined.

(** A flyover whose caret is missing: element 21 loses its classes. *)
Definition no_caret_page : page :=
  set_pdom (Dom.update 21 (Dom.with_classes (fun _ => [])) rtd_dom) rtd_page.

Lemma updateFlyoverMenu_no_caret_witness :
  Dom.fresh (pdom no_caret_page) /\
  Dom.querySelector (pdom no_caret_page) (Dom.by_class "rst-current-version") = Some 18 /\
  Dom.querySelector_from (pdom no_caret_page) 18 book_selector = Some 19 /\
  Dom.querySelector_from (pdom no_caret_page) 18 caret_selector = None /\
  Dom.children_of (pdom no_caret_page) 19 = [] /\ 19 ≠ 18 /\
  exists msg s', updateFlyoverMenu no_caret_page = Throw (TypeError msg) s' /\
    Dom.children_of (pdom s') 18 = [19] /\ Dom.text_of (pdom s') 19 = Some "RTD"%string.
Proof.
  assert (Dom.fresh (pdom no_caret_page)) as Hf by (apply Dom.fresh_update, rtd_dom_fresh).
  assert (Dom.querySelector (pdom no_caret_page) (Dom.by_class "rst-current-version") = Some 18)
    as Hv by (vm_compute; reflexivity).
  assert (Dom.querySelector_from (pdom no_caret_page) 18 book_selector = Some 19)
    as Hl by (vm_compute; reflexivity).
  assert (Dom.querySelector_from (pdom no_caret_page) 18 caret_selector = None)
    as Hc by (vm_compute; reflexivity).
  assert (Dom.children_of (pdom no_caret_page) 19 = []) as Hlc by (vm_compute; reflexivity).
  split_and!; try assumption; try lia.
  exact (updateFlyoverMenu_no_caret no_caret_page 18 19 Hf Hv Hl Hc Hlc ltac:(lia)).
Defined.

(** The vertical menu 10 is the second child of the side bar 5. *)
Lemma addHrUnderSearchForm_spec_witness :
  Dom.wf (pdom rtd_page) /\
  Dom.querySelector (pdom rtd_page) vertical_menu_selector = Some 10 /\
  Dom.parentNode (pdom rtd_page) 10 = Some 5 /\
  exists l1 l2 s', addHrUnderSearchForm rtd_page = Normal tt s' /\
    Dom.children_of (pdom rtd_page) 5 = l1 ++ 10 :: l2 /\
    Dom.children_of (pdom s') 5 = l1 ++ 22 :: 10 :: l2 /\
    Dom.parentNode (pdom s') 22 = Some 5.
Proof.
  assert (Dom.querySelector (pdom rtd_page) vertical_menu_selector = Some 10)
    as Hq by (vm_compute; reflexivity).
  assert (Dom.parentNode (pdom rtd_page) 10 = Some 5) as Hp by (vm_compute; reflexivity).
  split_and!; [exact rtd_dom_wf|exact Hq|exact Hp|].
  exact (addHrUnderSearchForm_spec rtd_page 10 5 rtd_dom_wf Hq Hp).
Defined.

(** The content-info block 15 sits between 13 and 16 in element 12. *)
Lemma addFooterNote_spec_witness :
  Dom.wf (pdom rtd_page) /\
  Dom.querySelector (pdom rtd_page) content_info_selector = Some 15 /\
  Dom.parentNode (pdom rtd_page) 15 = Some 12 /\
  exists l1 l2 s', addFooterNote rtd_page = Normal tt s' /\
    Dom.children_of (pdom rtd_page) 12 = l1 ++ 15 :: l2 /\
    Dom.children_of (pdom s') 12 = l1 ++ 15 :: 22 :: l2 /\
    Dom.parentNode (pdom s') 22 = Some 12 /\
    Dom.text_of (pdom s') 22 = Some footer_note_html /\
    Dom.has_class (pdom s') 22 "footer-note" = true.
Proof.
  assert (Dom.querySelector (pdom rtd_page) content_info_selector = Some 15)
    as Hq by (vm_compute; reflexivity).
  assert (Dom.parentNode (pdom rtd_page) 15 = Some 12) as Hp by (vm_compute; reflexivity).
  split_and!; [exact rtd_dom_wf|exact Hq|exact Hp|].
  exact (addFooterNote_spec rtd_page 15 12 rtd_dom_wf Hq Hp).
Defined.

(** The search box 6 holds the anchor 7 and the version block 8. *)
Lemma cleanSearchInput_spec_witness :
  Dom.querySelector (pdom rtd_page) (Dom.by_class "wy-side-nav-search") = Some 6 /\
  Dom.querySelector_from (pdom rtd_page) 6 (Dom.by_tag "a") = Some 7 /\
  Dom.querySelector_from (pdom rtd_page) 6 version_div_selector = Some 8 /\
  Dom.parentNode (pdom rtd_page) 7 = Some 6 /\ Dom.parentNode (pdom rtd_page) 8 = Some 6 /\
  7 ≠ 8 /\
  exists s', cleanSearchInput rtd_page = Normal tt s' /\
    Dom.children_of (pdom s') 6 =
      filter (fun j => j ≠ 8) (filter (fun j => j ≠ 7) (Dom.children_of (pdom rtd_page) 6)) /\
    Dom.parentNode (pdom s') 7 = None /\ Dom.parentNode (pdom s') 8 = None.
Proof.
  assert (Dom.querySelector (pdom rtd_page) (Dom.by_class "wy-side-nav-search") = Some 6)
    as Hs by (vm_compute; reflexivity).
  assert (Dom.querySelector_from (pdom rtd_page) 6 (Dom.by_tag "a") = Some 7)
    as Ha by (vm_compute; reflexivity).
  assert (Dom.querySelector_from (pdom rtd_page) 6 version_div_selector = Some 8)
    as Hv by (vm_compute; reflexivity).
  assert (Dom.parentNode (pdom rtd_page) 7 = Some 6) as Hpa by (vm_compute; reflexivity).
  assert (Dom.parentNode (pdom rtd_page) 8 = Some 6) as Hpv by (vm_compute; reflexivity).
  split_and!; try assumption; try lia.
  exact (cleanSearchInput_spec rtd_page 6 7 8 Hs Ha Hv Hpa Hpv ltac:(lia)).
Defined.

(** A search box whose anchor is wrapped in a [span] (element 22). *)
Definition nested_anchor_page : page :=
  set_pdom (Dom.appendChild 6 22 (Dom.appendChild 22 7 (Dom.created "span" rtd_dom))) rtd_page.

Lemma cleanSearchInput_nested_anchor_witness :
  Dom.querySelector (pdom nested_anchor_page) (Dom.by_class "wy-side-nav-search") = Some 6 /\
  Dom.querySelector_from (pdom nested_anchor_page) 6 (Dom.by_tag "a") = Some 7 /\
  Dom.parentNode (pdom nested_anchor_page) 7 ≠ Some 6 /\
  cleanSearchInput nested_anchor_page = Throw (DOMException "NotFoundError") nested_anchor_page.
Proof.
  assert (Dom.querySelector (pdom nested_anchor_page) (Dom.by_class "wy-side-nav-search") = Some 6)
    as Hs by (vm_compute; reflexivity).
  assert (Dom.querySelector_from (pdom nested_anchor_page) 6 (Dom.by_tag "a") = Some 7)
    as Ha by (vm_compute; reflexivity).
  assert (Dom.parentNode (pdom nested_anchor_page) 7 ≠ Some 6) as Hpa by (vm_compute; congruence).
  split_and!; try assumption.
  exact (cleanSearchInput_nested_anchor nested_anchor_page 6 7 Hs Ha Hpa).
Defined.

(** The head of [rtd_page] is element 2. *)
Lemma preloadFonts_spec_witness :
  Dom.wf (pdom rtd_page) /\ is_Some (Dom.node_at (pdom rtd_page) (Dom.head_id (pdom rtd_page))) /\
  exists s', preloadFonts rtd_page = Normal tt s' /\
    Dom.children_of (pdom s') 2 = [22] /\
    Dom.getAttribute (pdom s') 22 "rel" = Some "preload"%string /\
    Dom.getAttribute (pdom s') 22 "as" = Some "font"%string /\
    Dom.getAttribute (pdom s') 22 "href" = Some "_static/fonts/Helvetica.ttc"%string /\
    Dom.getAttribute (pdom s') 22 "crossorigin" = Some ""%string.
Proof.
  assert (is_Some (Dom.node_at (pdom rtd_page) (Dom.head_id (pdom rtd_page)))) as Sh
    by (vm_compute; eexists; reflexivity).
  split_and!; [exact rtd_dom_wf|exact Sh|].
  exact (preloadFonts_spec rtd_page rtd_dom_wf Sh).
Defined.

End Touchups.
