(* ===== verification/Layout.v ===== *)
(** * Layout: [rearrangeDom]

    [rearrangeDom] (loaders.js, lines 22-41) moves every [div] child of
    the body into a new wrapper [div] of class [WRAPPER_CLASS], puts the
    wrapper first in the body, calls [moveRstVersions] (a helper of
    another script), appends a backdrop to the wrapper, and moves the
    content element out of its old wrapping section into the grid.

    The function is modelled in three parts that follow its text:
    [wrapBodyDivs] (lines 23-28), the call of [moveRstVersions], which
    is a section variable since neither the sources nor the
    specification say what it does, and [finishLayout] (lines 32-40).

    The theorems: the body's divs end in the wrapper in order (C22),
    the [div.remove()] loop is redundant (C29), the wrapper is the
    mount point [buildHeader] and [toggleMenu] look for (C30), and
    [finishLayout] completes on the Read the Docs layout (C32) or
    throws after the statements before the missing element (C33).
    The queries of [finishLayout] are read on the document it starts
    from through the lemmas of Query.v. *)

From stdpp Require Import base gmap strings list sets.
From Stdlib Require Import String.
From S2P Require Import Prelude ClassList Dom Tree Commute Wf Query Config Page Fixtures Theme MobileMenu Build.
Import Config Page Fixtures.

Module Layout.

(** ["body>div"] *)
Definition body_div_selector : Dom.selector :=
  Dom.Child (Dom.by_tag "body") (Dom.Compound (Some "div") [] []).

Definition old_wrap_selector : Dom.selector :=
  Dom.Simple (Dom.Compound (Some "section") ["wy-nav-content-wrap"] []).

Section Layout.
Context (cfg : config) (moveRstVersions : js page unit).

(** Lines 23-28; the wrapper's handle is what the rest of the function
    refers to. *)
Definition wrapBodyDivs : js page nat :=
  bodyDivs <- query_all body_div_selector ;;
  js_forEach remove_node bodyDivs ;;
  wrapperDiv <- dom_create "div" ;;
  add_class wrapperDiv (WRAPPER_CLASS cfg) ;;
  js_forEach (append wrapperDiv) bodyDivs ;;
  body <- dom_read Dom.body_id ;;
  prepend_child body wrapperDiv ;;
  js_ret wrapperDiv.

(** Lines 23-28 without the loop [bodyDivs.forEach((div) => { div.remove(); })]:
    the reference [wrapBodyDivs] is compared with. *)
Definition wrapBodyDivs_moved : js page nat :=
  bodyDivs <- query_all body_div_selector ;;
  wrapperDiv <- dom_create "div" ;;
  add_class wrapperDiv (WRAPPER_CLASS cfg) ;;
  js_forEach (append wrapperDiv) bodyDivs ;;
  body <- dom_read Dom.body_id ;;
  prepend_child body wrapperDiv ;;
  js_ret wrapperDiv.

(** Lines 32-40. *)
Definition finishLayout (wrapperDiv : nat) : js page unit :=
  backdrop <- dom_create "div" ;;
  add_class backdrop "backdrop" ;;
  append wrapperDiv backdrop ;;
  content <- query (Dom.by_class "wy-nav-content") ;;
  c <- deref "Cannot set properties of null (setting 'id')" content ;;
  set_attr c "id" "content" ;;
  oldWrap <- query old_wrap_selector ;;
  ow <- deref "Cannot read properties of null (reading 'remove')" oldWrap ;;
  remove_node ow ;;
  grid <- query (Dom.by_class "wy-grid-for-nav") ;;
  g <- deref "Cannot read properties of null (reading 'appendChild')" grid ;;
  append g c.

Definition rearrangeDom : js page unit :=
  wrapperDiv <- wrapBodyDivs ;;
  moveRstVersions ;;
  finishLayout wrapperDiv.
End Layout.

(** ** What [wrapBodyDivs] does to the document *)

(** The document after lines 23-28, given the divs the query found. *)
Definition wrapped (cls : string) (divs : list nat) (d : Dom.dom) : Dom.dom :=
  let d1 := Dom.detach_all divs d in
  let w := Dom.next_id d1 in
  let d4 := Dom.append_all w divs (Dom.classList_add w cls (Dom.created "div" d1)) in
  Dom.prepend (Dom.body_id d4) w d4.

Lemma wrapBodyDivs_run cfg s divs :
  Dom.querySelectorAll (pdom s) body_div_selector = divs ->
  wrapBodyDivs cfg s =
    Normal (Dom.next_id (pdom s)) (set_pdom (wrapped (WRAPPER_CLASS cfg) divs (pdom s)) s).
Proof.
  intros Hq. unfold wrapBodyDivs. run_page. rewrite Hq.
  rewrite (forEach_dom Dom.detach). run_page. rewrite (forEach_dom (Dom.appendChild _)).
  run_page. unfold wrapped. cbv zeta. rewrite !Dom.next_id_detach_all. reflexivity.
Qed.

(** The document [wrapBodyDivs_moved] leaves. *)
Definition moved (cls : string) (divs : list nat) (d : Dom.dom) : Dom.dom :=
  let w := Dom.next_id d in
  let d4 := Dom.append_all w divs (Dom.classList_add w cls (Dom.created "div" d)) in
  Dom.prepend (Dom.body_id d4) w d4.

Lemma wrapBodyDivs_moved_run cfg s divs :
  Dom.querySelectorAll (pdom s) body_div_selector = divs ->
  wrapBodyDivs_moved cfg s =
    Normal (Dom.next_id (pdom s)) (set_pdom (moved (WRAPPER_CLASS cfg) divs (pdom s)) s).
Proof.
  intros Hq. unfold wrapBodyDivs_moved. run_page. rewrite Hq.
  rewrite (forEach_dom (Dom.appendChild _)). run_page. reflexivity.
Qed.

(** A [body>div] is not its own parent: its tag is [div], its parent's
    [body]. *)
Lemma body_div_not_self_parent d x :
  x ∈ Dom.querySelectorAll d body_div_selector -> Dom.parentNode d x ≠ Some x.
Proof.
  intros Hx Hp. unfold Dom.querySelectorAll, Dom.querySelectorAll_from in Hx.
  apply list_elem_of_In, filter_In in Hx as [_ Hm].
  unfold body_div_selector, Dom.by_tag in Hm. cbn [Dom.matches] in Hm.
  unfold Dom.parentNode in Hp. rewrite Hp in Hm. unfold Dom.node_matches, Dom.compound_matches in Hm.
  destruct (Dom.node_at d x) as [n|]; cbn [Dom.sel_tag Dom.sel_classes Dom.sel_attrs forallb] in Hm; [|discriminate].
  apply andb_prop in Hm as [H1 H2]. apply andb_prop in H1 as [H1 _]. apply andb_prop in H1 as [H1 _].
  apply andb_prop in H2 as [H2 _]. apply andb_prop in H2 as [H2 _].
  apply String.eqb_eq in H1, H2. congruence.
Qed.

(** The root and the classes of the nodes through the moves. *)
Lemma root_id_detach_all l d : Dom.root_id (Dom.detach_all l d) = Dom.root_id d.
Proof.
  revert d. induction l as [|x l IH]; intros d; [reflexivity|]. cbn [Dom.detach_all fold_left].
  fold (Dom.detach_all l (Dom.detach x d)). by rewrite IH, Query.root_id_detach.
Qed.

Lemma root_id_append_all p l d : Dom.root_id (Dom.append_all p l d) = Dom.root_id d.
Proof.
  revert d. induction l as [|x l IH]; intros d; [reflexivity|]. cbn [Dom.append_all fold_left].
  fold (Dom.append_all p l (Dom.appendChild p x d)). rewrite IH. apply Query.root_id_attach_at.
Qed.

Lemma has_class_detach_all l d j k : Dom.has_class (Dom.detach_all l d) j k = Dom.has_class d j k.
Proof.
  revert d. induction l as [|x l IH]; intros d; [reflexivity|]. cbn [Dom.detach_all fold_left].
  fold (Dom.detach_all l (Dom.detach x d)). rewrite IH. apply Dom.has_class_look, Dom.look_detach.
Qed.

(** A class selector asks for the class. *)
Lemma matches_by_class d c j : Dom.matches d (Dom.by_class c) j = Dom.has_class d j c.
Proof.
  unfold Dom.by_class. cbn [Dom.matches]. unfold Dom.node_matches, Dom.has_class, Dom.compound_matches.
  destruct (Dom.node_at d j); [|reflexivity]. cbn [Dom.sel_tag Dom.sel_classes Dom.sel_attrs forallb].
  by rewrite !andb_true_r.
Qed.

(** The first element of [l] with [P] is [w] when [w] is the only one. *)
Lemma hd_error_filter_unique (P : nat -> bool) l w :
  w ∈ l -> P w = true -> (forall j, j ∈ l -> P j = true -> j = w) -> List.hd_error (List.filter P l) = Some w.
Proof.
  induction l as [|x l IH]; intros Hw Pw Hu; [set_solver|]. simpl.
  destruct (P x) eqn:Px.
  - simpl. f_equal. apply Hu; [set_solver|exact Px].
  - apply IH; [|exact Pw|intros j Hj; apply Hu; set_solver].
    apply elem_of_cons in Hw as [->|Hw]; [congruence|exact Hw].
Qed.

Section Wrapped.
Context (cls : string) (divs : list nat) (d : Dom.dom).
Context (Hwf : Dom.wf d) (Sb : is_Some (Dom.node_at d (Dom.body_id d))) (Hnd : NoDup divs).
Context (Hp : forall x, x ∈ divs -> Dom.parentNode d x = Some (Dom.body_id d)).

Let w := Dom.next_id d.
Let d3 := Dom.classList_add w cls (Dom.created "div" (Dom.detach_all divs d)).

Lemma wrapped_unfold : wrapped cls divs d = Dom.prepend (Dom.body_id d) w (Dom.append_all w divs d3).
Proof.
  unfold wrapped. rewrite Dom.next_id_detach_all. fold w d3. f_equal.
  rewrite Dom.body_id_append_all. unfold d3. rewrite Dom.body_id_classList_add, Dom.body_id_created.
  apply Dom.body_id_detach_all.
Qed.

Lemma wrapped_w_fresh : (w ∉ divs) /\ (Dom.body_id d ≠ w).
Proof.
  pose proof (Dom.wf_fresh _ Hwf) as Hf. split.
  - intros Hx. exact (Dom.fresh_ne _ _ Hf (Dom.parentNode_is_Some _ _ _ (Hp _ Hx)) eq_refl).
  - exact (Dom.fresh_ne _ _ Hf Sb).
Qed.

Lemma wrapped_d3_nodes j : is_Some (Dom.node_at d j) -> is_Some (Dom.node_at d3 j).
Proof.
  intros Hj. apply (Dom.is_Some_node_at_update _ w j), Dom.is_Some_created, Dom.is_Some_detach_all, Hj.
Qed.

Lemma wrapped_d3_w : is_Some (Dom.node_at d3 w) /\ Dom.children_of d3 w = [] /\ Dom.parentNode d3 w = None.
Proof.
  assert (w = Dom.next_id (Dom.detach_all divs d)) as Hw by (by rewrite Dom.next_id_detach_all).
  unfold d3. rewrite Dom.children_of_classList_add, Dom.parentNode_classList_add. split_and!.
  - apply (Dom.is_Some_node_at_update _ w w). by apply Dom.is_Some_created_self.
  - by apply Dom.children_of_created_self.
  - by apply Dom.parentNode_created_self.
Qed.

Lemma wrapped_d3_divs x : x ∈ divs -> Dom.parentNode d3 x = None.
Proof.
  intros Hx. destruct wrapped_w_fresh as [Hw _]. unfold d3.
  rewrite Dom.parentNode_classList_add, Dom.parentNode_created.
  - by apply Dom.parentNode_detach_all.
  - rewrite Dom.next_id_detach_all. intros ->. by apply Hw.
Qed.

Lemma wrapped_d3_body : Dom.children_of d3 (Dom.body_id d) = filter (fun j => j ∉ divs) (Dom.children_of d (Dom.body_id d)).
Proof.
  destruct wrapped_w_fresh as [_ Hb]. unfold d3.
  rewrite Dom.children_of_classList_add, Dom.children_of_created
    by (rewrite Dom.next_id_detach_all; done).
  by apply Dom.children_of_detach_all.
Qed.
Lemma wrapped_spec :
  let d' := wrapped cls divs d in
  Dom.children_of d' (Dom.body_id d) = w :: filter (fun j => j ∉ divs) (Dom.children_of d (Dom.body_id d)) /\
  Dom.children_of d' w = divs /\
  (forall x, x ∈ divs -> Dom.parentNode d' x = Some w) /\
  Dom.parentNode d' w = Some (Dom.body_id d) /\
  Dom.has_class d' w cls = true.
Proof.
  intros d'. subst d'. rewrite wrapped_unfold. unfold Dom.prepend.
  destruct wrapped_w_fresh as [Hw Hbw]. destruct wrapped_d3_w as (Sw & Cw & Pw).
  assert (Dom.loose (Dom.append_all w divs d3) w) as L4
    by (unfold Dom.loose; by rewrite Dom.parentNode_append_all_notin).
  assert (is_Some (Dom.node_at (Dom.append_all w divs d3) (Dom.body_id d))) as Sb4
    by (apply Dom.is_Some_append_all, wrapped_d3_nodes, Sb).
  split_and!.
  - rewrite Dom.children_of_attach_at, Dom.children_of_detach_loose by done. f_equal.
    rewrite Dom.children_of_append_all_other; [apply wrapped_d3_body|done|].
    intros x Hx. rewrite wrapped_d3_divs by done. congruence.
  - rewrite Dom.children_of_attach_at_ne, Dom.children_of_detach_loose by done.
    rewrite Dom.children_of_append_all, Cw; [done..|].
    intros x Hx. rewrite Cw, wrapped_d3_divs by done. set_solver.
  - intros x Hx. rewrite Dom.parentNode_attach_at_ne by set_solver.
    apply Dom.parentNode_append_all; [done|].
    apply wrapped_d3_nodes, (Dom.parentNode_is_Some _ _ _ (Hp x Hx)).
  - apply Dom.parentNode_attach_at. by apply Dom.is_Some_append_all.
  - rewrite Dom.has_class_attach_at, Dom.has_class_append_all. unfold d3.
    apply Dom.has_class_add, Dom.is_Some_created_self. by rewrite Dom.next_id_detach_all.
Qed.
(** The wrapped document is well formed, keeps its root, and changes the
    children, parents and classes of the body, the divs and the wrapper
    only. *)
Lemma wrapped_wf : Dom.wf (wrapped cls divs d).
Proof.
  rewrite wrapped_unfold. destruct wrapped_w_fresh as [Hw Hbw]. destruct wrapped_d3_w as (Sw & _ & _).
  apply Wf.wf_prepend; [|congruence|apply Dom.is_Some_append_all, wrapped_d3_nodes, Sb
                                    |by apply Dom.is_Some_append_all].
  apply Wf.wf_append_all; [|exact Sw|].
  - unfold d3. apply Wf.wf_classList_add, Wf.wf_created, Wf.wf_detach_all, Hwf.
  - intros c Hc. split; [intros ->; exact (Hw Hc)|].
    apply wrapped_d3_nodes, (Dom.parentNode_is_Some _ _ _ (Hp c Hc)).
Qed.

Lemma wrapped_root : Dom.root_id (wrapped cls divs d) = Dom.root_id d.
Proof.
  rewrite wrapped_unfold. unfold Dom.prepend. rewrite Query.root_id_attach_at, root_id_append_all.
  unfold d3, Dom.classList_add. rewrite Dom.update_root. exact (root_id_detach_all divs d).
Qed.

Lemma wrapped_nodes j : is_Some (Dom.node_at d j) -> is_Some (Dom.node_at (wrapped cls divs d) j).
Proof.
  intros Sj. rewrite wrapped_unfold. apply Dom.is_Some_prepend, Dom.is_Some_append_all, wrapped_d3_nodes, Sj.
Qed.

Lemma wrapped_d4_loose : Dom.loose (Dom.append_all w divs d3) w.
Proof.
  destruct wrapped_w_fresh as [Hw _]. destruct wrapped_d3_w as (_ & _ & Pw).
  unfold Dom.loose. by rewrite Dom.parentNode_append_all_notin.
Qed.

Lemma wrapped_children_other a :
  a ≠ Dom.body_id d -> a ≠ w -> Dom.children_of (wrapped cls divs d) a = Dom.children_of d a.
Proof.
  intros Ha Haw. rewrite wrapped_unfold. unfold Dom.prepend.
  rewrite Dom.children_of_attach_at_ne, Dom.children_of_detach_loose by (exact Ha || apply wrapped_d4_loose).
  rewrite Dom.children_of_append_all_other; [|exact Haw|intros x Hx; by rewrite wrapped_d3_divs].
  unfold d3. rewrite Dom.children_of_classList_add, Dom.children_of_created
    by (rewrite Dom.next_id_detach_all; exact Haw).
  apply Dom.children_of_detach_all_other. intros x Hx. rewrite Hp by exact Hx. congruence.
Qed.

Lemma wrapped_parent_other j :
  j ∉ divs -> j ≠ w -> Dom.parentNode (wrapped cls divs d) j = Dom.parentNode d j.
Proof.
  intros Hj Hjw. rewrite wrapped_unfold. unfold Dom.prepend.
  rewrite Dom.parentNode_attach_at_ne by exact Hjw.
  rewrite Dom.parentNode_append_all_notin by exact Hj.
  unfold d3. rewrite Dom.parentNode_classList_add, Dom.parentNode_created
    by (rewrite Dom.next_id_detach_all; exact Hjw).
  by apply Dom.parentNode_detach_all_notin.
Qed.

Lemma wrapped_has_class_other j k : j ≠ w -> Dom.has_class (wrapped cls divs d) j k = Dom.has_class d j k.
Proof.
  intros Hj. rewrite wrapped_unfold. unfold Dom.prepend.
  rewrite Dom.has_class_attach_at, Dom.has_class_append_all. unfold d3.
  rewrite Dom.has_class_add_ne by congruence.
  rewrite (Dom.has_class_look _ (Dom.detach_all divs d)); [apply has_class_detach_all|].
  apply Dom.look_created. rewrite Dom.next_id_detach_all. exact Hj.
Qed.
End Wrapped.

(** C22. In a well-formed document with a body, when the query
    ["body>div"] returns distinct children of the body, [wrapBodyDivs]
    (lines 23-28 of [rearrangeDom]) completes: the body's children are
    the new wrapper followed by its other children, the wrapper's
    children are the divs in the order of the query, each of them has
    the wrapper as parent, and the wrapper has [WRAPPER_CLASS]. *)
Theorem wrapBodyDivs_spec cfg s divs :
  Dom.wf (pdom s) -> is_Some (Dom.node_at (pdom s) (Dom.body_id (pdom s))) ->
  Dom.querySelectorAll (pdom s) body_div_selector = divs -> NoDup divs ->
  (forall x, x ∈ divs -> Dom.parentNode (pdom s) x = Some (Dom.body_id (pdom s))) ->
  let b := Dom.body_id (pdom s) in
  let w := Dom.next_id (pdom s) in
  exists s', wrapBodyDivs cfg s = Normal w s' /\
    Dom.children_of (pdom s') b = w :: filter (fun j => j ∉ divs) (Dom.children_of (pdom s) b) /\
    Dom.children_of (pdom s') w = divs /\
    (forall x, x ∈ divs -> Dom.parentNode (pdom s') x = Some w) /\
    Dom.parentNode (pdom s') w = Some b /\
    Dom.has_class (pdom s') w (WRAPPER_CLASS cfg) = true.
Proof.
  intros Hwf Sb Hq Hnd Hp b w. rewrite (wrapBodyDivs_run cfg s divs Hq).
  eexists. split; [reflexivity|]. exact (wrapped_spec _ divs (pdom s) Hwf Sb Hnd Hp).
Qed.

(** C29. The loop [bodyDivs.forEach((div) => { div.remove(); })] of
    [rearrangeDom] is redundant: in a well-formed document where the
    query ["body>div"] returns distinct children of the body, lines
    23-28 leave exactly the page [wrapBodyDivs_moved] leaves, which
    appends the divs to the wrapper without removing them first, since
    [appendChild] moves a node out of its parent itself. *)
Theorem wrapBodyDivs_remove_redundant cfg s divs :
  Dom.wf (pdom s) ->
  Dom.querySelectorAll (pdom s) body_div_selector = divs -> NoDup divs ->
  (forall x, x ∈ divs -> Dom.parentNode (pdom s) x = Some (Dom.body_id (pdom s))) ->
  wrapBodyDivs cfg s = wrapBodyDivs_moved cfg s.
Proof.
  intros Hwf Hq Hnd Hp.
  rewrite (wrapBodyDivs_run cfg s divs Hq), (wrapBodyDivs_moved_run cfg s divs Hq). do 3 f_equal.
  pose proof (Dom.wf_fresh _ Hwf) as Hf.
  assert (forall y, y ∈ divs -> y ≠ Dom.next_id (pdom s)) as Hyw
    by (intros y Hy; exact (Dom.fresh_ne _ _ Hf (Dom.parentNode_is_Some _ _ _ (Hp y Hy)))).
  assert (forall y, y ∈ divs -> Dom.body_id (pdom s) ≠ Dom.next_id (pdom s)) as Hbw.
  { intros y Hy. apply (Dom.fresh_ne _ _ Hf), (Dom.children_of_is_Some _ _ y).
    exact (Dom.wf_parent_child _ Hwf _ _ (Hp y Hy)). }
  assert (Dom.body_id (pdom s) ∉ divs) as Hb.
  { intros Hb. apply (body_div_not_self_parent (pdom s) (Dom.body_id (pdom s))); [by rewrite Hq|exact (Hp _ Hb)]. }
  unfold wrapped, moved. cbv zeta. rewrite Dom.next_id_detach_all. unfold Dom.classList_add.
  rewrite <- Commute.detach_all_created_update.
  2:{ intros y Hy. split; [by apply Hyw|]. intros p Hyp. rewrite Hp in Hyp by exact Hy.
      injection Hyp as <-. by apply (Hbw y). }
  rewrite Commute.append_all_detach_all; [reflexivity|exact Hnd| |].
  - intros Hw. exact (Hyw _ Hw eq_refl).
  - intros y p Hy Hyp. pose proof (Hyw y Hy) as Hy'.
    rewrite Dom.parentNode_update_ne, Dom.parentNode_created, Hp in Hyp by (done || congruence).
    injection Hyp as <-. split_and!; [exact (Hbw y Hy)|exact (Hbw y Hy)|exact Hb].
Qed.

(** On a page where no element has the class [c], the wrapper is the
    first element of class [c] in document order: the body is in the
    document, the wrapper becomes its child, and no other node has
    [c]. *)
Lemma wrapped_mounts c divs d :
  Tree.rooted d -> Dom.body_id d ∈ Dom.preorder (Dom.fuel_of d) d (Dom.root_id d) ->
  (forall j, Dom.has_class d j c = false) ->
  NoDup divs -> (forall x, x ∈ divs -> Dom.parentNode d x = Some (Dom.body_id d)) ->
  Dom.querySelector (wrapped c divs d) (Dom.by_class c) = Some (Dom.next_id d).
Proof.
  intros (Hwf & Hroot & Sr) Hb Hcls Hnd Hp.
  pose proof (Tree.preorder_nodes _ d _ Hwf Sr _ Hb) as Sb.
  pose proof (Dom.wf_fresh _ Hwf) as Hf.
  pose proof (wrapped_spec c divs d Hwf Sb Hnd Hp) as Hspec. cbv zeta in Hspec.
  destruct Hspec as (Hcb & _ & _ & _ & Hcw).
  assert (Dom.root_id d ∉ divs) as Hrd by (intros Hr; rewrite (Hp _ Hr) in Hroot; discriminate).
  assert (Dom.root_id d ≠ Dom.next_id d) as Hrw by exact (Dom.fresh_ne _ _ Hf Sr).
  assert (Dom.parentNode (wrapped c divs d) (Dom.root_id d) = None) as Hroot'
    by (rewrite wrapped_parent_other; assumption).
  destruct (Tree.preorder_chain _ _ _ _ Hb) as (l & Hc & Hz).
  assert (Tree.chain (wrapped c divs d) (Dom.root_id d :: l)) as Hc'.
  { apply (Tree.chain_transfer d _ _ l (Dom.body_id d) Hc (Tree.chain_NoDup d Hwf _ l Hroot Hc) Hz).
    intros a y Ha Hab Hy. rewrite wrapped_children_other by (assumption
      || exact (Dom.fresh_ne _ _ Hf (Tree.chain_nodes d Hwf _ l Sr Hc a Ha))). exact Hy. }
  destruct (Tree.chain_snoc _ _ l _ (Dom.next_id d) Hc' Hz ltac:(rewrite Hcb; left)) as [Hc2 Hz2].
  pose proof (Tree.chain_length _ (wrapped_wf c divs d Hwf Sb Hp) _ _ Hroot' (wrapped_nodes c divs d _ Sr) Hc2)
    as Hlen.
  pose proof (Tree.chain_preorder (Dom.fuel_of (wrapped c divs d)) _ _ _ _ Hc2 Hz2
                ltac:(unfold Dom.fuel_of; cbn [List.length] in Hlen; lia)) as Hin.
  unfold Dom.querySelector, Dom.querySelector_from, Dom.querySelectorAll_from, Dom.descendants.
  rewrite (wrapped_root c divs d). unfold Dom.fuel_of in *. rewrite Tree.preorder_S_eq in Hin |- *.
  apply hd_error_filter_unique.
  - apply elem_of_cons in Hin as [Hw|Hin]; [congruence|exact Hin].
  - by rewrite matches_by_class.
  - intros j _ Hj. rewrite matches_by_class in Hj. destruct (decide (j = Dom.next_id d)) as [->|Hjw]; [done|].
    rewrite wrapped_has_class_other, Hcls in Hj by exact Hjw. discriminate.
Qed.

(** C30. [rearrangeDom] creates the mount point the other functions look
    for: on a well-formed page whose body is in the document and where
    no element has [WRAPPER_CLASS], after lines 23-28 the query
    [document.querySelector(`.${WRAPPER_CLASS}`)] of [buildHeader]
    ([Build.wrapper_of]) and of [toggleMenu] finds the new wrapper, so
    neither takes its [TypeError] path on [null]. *)
Theorem wrapBodyDivs_mounts_header cfg s divs :
  Tree.rooted (pdom s) ->
  Dom.body_id (pdom s) ∈ Dom.preorder (Dom.fuel_of (pdom s)) (pdom s) (Dom.root_id (pdom s)) ->
  (forall j, Dom.has_class (pdom s) j (WRAPPER_CLASS cfg) = false) ->
  Dom.querySelectorAll (pdom s) body_div_selector = divs -> NoDup divs ->
  (forall x, x ∈ divs -> Dom.parentNode (pdom s) x = Some (Dom.body_id (pdom s))) ->
  let s' := final (wrapBodyDivs cfg s) in
  Build.wrapper_of cfg (pdom s') = Some (Dom.next_id (pdom s)) /\
  Dom.querySelector (pdom s') (MobileMenu.wrapper_selector cfg) = Some (Dom.next_id (pdom s)).
Proof.
  intros Hr Hb Hcls Hq Hnd Hp s'. subst s'. rewrite (wrapBodyDivs_run cfg s divs Hq). cbn [final set_pdom pdom].
  unfold Build.wrapper_of, MobileMenu.wrapper_selector.
  rewrite (wrapped_mounts _ divs (pdom s) Hr Hb Hcls Hnd Hp). by split.
Qed.

(** ** [finishLayout]: the backdrop and the content element *)

(** The document after lines 32-34: a new [div] of class ["backdrop"]
    appended to the wrapper. *)
Definition backdrop_dom (w : nat) (d : Dom.dom) : Dom.dom :=
  Dom.appendChild w (Dom.next_id d) (Dom.classList_add (Dom.next_id d) "backdrop" (Dom.created "div" d)).

Section Finish.
Context (d : Dom.dom) (w : nat) (Hr : Tree.rooted d) (Sw : is_Some (Dom.node_at d w)).

(** The backdrop is a leaf that the later queries do not match. *)
Lemma backdrop_querySelectorAll c :
  Dom.compound_matches c (Dom.with_classes (ClassList.add "backdrop") (Dom.blank "div")) = false ->
  Dom.querySelectorAll (backdrop_dom w d) (Dom.Simple c) = Dom.querySelectorAll d (Dom.Simple c).
Proof. unfold backdrop_dom, Dom.classList_add. apply Query.querySelectorAll_new_leaf; [exact Hr|exact Sw|done]. Qed.

Lemma backdrop_keeps a y : y ∈ Dom.children_of d a -> y ∈ Dom.children_of (backdrop_dom w d) a.
Proof.
  intros Hy. pose proof (Dom.wf_fresh _ (proj1 Hr)) as Hf.
  pose proof (Dom.fresh_ne _ _ Hf (Dom.children_of_is_Some _ _ _ Hy)) as Ha. unfold backdrop_dom.
  destruct (decide (a = w)) as [->|Haw]; dom_norm; [set_solver|exact Hy].
Qed.

Lemma backdrop_rooted : Tree.rooted (backdrop_dom w d).
Proof.
  destruct Hr as (Hwf & Hroot & Sr). pose proof (Dom.wf_fresh _ Hwf) as Hf.
  pose proof (Dom.fresh_ne _ _ Hf Sw) as Hw. pose proof (Dom.fresh_ne _ _ Hf Sr) as Hrb.
  assert (Dom.root_id (backdrop_dom w d) = Dom.root_id d) as Hrid
    by (unfold backdrop_dom, Dom.appendChild; by rewrite Query.root_id_attach_at).
  split_and!; rewrite ?Hrid; unfold backdrop_dom.
  - apply Wf.wf_appendChild; [apply Wf.wf_classList_add, Wf.wf_created, Hwf|congruence|dom_some|dom_some].
  - rewrite Dom.parentNode_appendChild_ne by exact Hrb.
    by rewrite Dom.parentNode_classList_add, Dom.parentNode_created.
  - dom_some.
Qed.

(** Writing the [id] keeps the page rooted and its links. *)
Lemma backdrop_id_rooted c : Tree.rooted (Dom.setAttribute c "id" "content" (backdrop_dom w d)).
Proof.
  destruct backdrop_rooted as (Hwf & Hroot & Sr). split_and!; [by apply Wf.wf_setAttribute| |dom_some].
  unfold Dom.setAttribute. by rewrite Dom.update_root, Dom.parentNode_update_keep.
Qed.

(** [finishLayout] on every branch, with the queries for the content
    element and the old wrapping section read on the document it starts
    from. *)
Lemma finishLayout_outcome s :
  pdom s = d ->
  finishLayout w s =
    match Dom.querySelector d (Dom.by_class "wy-nav-content") with
    | None => Throw (TypeError "Cannot set properties of null (setting 'id')") (set_pdom (backdrop_dom w d) s)
    | Some c =>
        let d1 := Dom.setAttribute c "id" "content" (backdrop_dom w d) in
        match Dom.querySelector d old_wrap_selector with
        | None => Throw (TypeError "Cannot read properties of null (reading 'remove')") (set_pdom d1 s)
        | Some ow =>
            match Dom.querySelector (Dom.detach ow d1) (Dom.by_class "wy-grid-for-nav") with
            | None => Throw (TypeError "Cannot read properties of null (reading 'appendChild')")
                        (set_pdom (Dom.detach ow d1) s)
            | Some g => Normal tt (set_pdom (Dom.appendChild g c (Dom.detach ow d1)) s)
            end
        end
    end.
Proof.
  intros Hs. unfold finishLayout. run_page. rewrite Hs. fold (backdrop_dom w d). autorewrite with page_rw.
  unfold Dom.by_class, old_wrap_selector.
  rewrite Query.querySelector_all, backdrop_querySelectorAll, <- Query.querySelector_all by reflexivity.
  destruct (Dom.querySelector d _) as [c|]; [|reflexivity]. cbv beta iota zeta. autorewrite with page_rw.
  rewrite Query.querySelector_all, Query.querySelectorAll_setAttribute, backdrop_querySelectorAll,
    <- Query.querySelector_all by reflexivity.
  destruct (Dom.querySelector d _) as [ow|]; [|reflexivity].
  cbv beta iota zeta. autorewrite with page_rw. by destruct (Dom.querySelector _ _).
Qed.
End Finish.

(** C32. [finishLayout] on the Read the Docs layout: on a rooted page
    with the wrapper, the content element [c], the old wrapping section
    [ow] and a single grid [g], when [ow] is neither the grid nor one of
    its ancestors, lines 32-40 complete.  The backdrop is appended to
    the wrapper and has its class.  The content element gets
    [id="content"] and becomes the last child of the grid.  The old
    section is out of the tree.  The document is still well formed.
    The queries see through the changes made before them: the content
    element and the section are the ones of the page [finishLayout]
    starts from. *)
Theorem finishLayout_spec s w c ow g :
  Tree.rooted (pdom s) -> is_Some (Dom.node_at (pdom s) w) ->
  Dom.querySelector (pdom s) (Dom.by_class "wy-nav-content") = Some c ->
  Dom.querySelector (pdom s) old_wrap_selector = Some ow ->
  Dom.querySelectorAll (pdom s) (Dom.by_class "wy-grid-for-nav") = [g] ->
  ow ∉ (g :: Dom.ancestors (Dom.fuel_of (pdom s)) (pdom s) g) -> c ≠ g -> c ≠ ow ->
  let b := Dom.next_id (pdom s) in
  let d' := Dom.appendChild g c (Dom.detach ow (Dom.setAttribute c "id" "content" (backdrop_dom w (pdom s)))) in
  finishLayout w s = Normal tt (set_pdom d' s) /\ Dom.wf d' /\
  Dom.parentNode d' c = Some g /\ last (Dom.children_of d' g) = Some c /\
  Dom.getAttribute d' c "id" = Some "content"%string /\ Dom.parentNode d' ow = None /\
  Dom.has_class d' b "backdrop" = true /\ Dom.parentNode d' b = Some w.
Proof.
  intros Hr Sw Hc How Hg Ho Hcg Hco. cbv zeta.
  pose proof (Dom.wf_fresh _ (proj1 Hr)) as Hf.
  pose proof (Dom.querySelector_Some_node _ _ _ Hc) as Sc.
  pose proof (Dom.fresh_ne _ _ Hf Sc) as Hbc.
  pose proof (Dom.fresh_ne _ _ Hf (Dom.querySelector_Some_node _ _ _ How)) as Hbo.
  assert (g ∈ Dom.querySelectorAll (pdom s) (Dom.by_class "wy-grid-for-nav")) as Hgin by (rewrite Hg; set_solver).
  pose proof (Dom.querySelectorAll_node _ _ _ Hgin) as Sg.
  pose proof (backdrop_id_rooted (pdom s) w Hr Sw c) as Hr1.
  set (d1 := Dom.setAttribute c "id" "content" (backdrop_dom w (pdom s))) in *.
  assert (Dom.querySelector (Dom.detach ow d1) (Dom.by_class "wy-grid-for-nav") = Some g) as Hgrid.
  { rewrite Query.querySelector_all. unfold Dom.by_class in *.
    rewrite (Query.querySelectorAll_detach_one d1 ow _ g Hr1); [reflexivity| |].
    - unfold d1. rewrite Query.querySelectorAll_setAttribute, backdrop_querySelectorAll by (assumption || reflexivity).
      exact Hg.
    - rewrite (Query.ancestors_grow (pdom s) d1 g Hr Hr1); [exact Ho| | |].
      + unfold d1, backdrop_dom, Dom.setAttribute, Dom.appendChild. by rewrite Dom.update_root, Query.root_id_attach_at.
      + intros a y Hy. unfold d1. rewrite Dom.children_of_setAttribute. by apply backdrop_keeps.
      + unfold Dom.querySelectorAll, Dom.querySelectorAll_from in Hgin.
        apply list_elem_of_In, filter_In in Hgin as [Hgin _]. by apply list_elem_of_In. }
  rewrite (finishLayout_outcome (pdom s) w Hr Sw s eq_refl), Hc, How. cbv zeta. fold d1. rewrite Hgrid.
  assert (is_Some (Dom.node_at (Dom.detach ow d1) c) /\ is_Some (Dom.node_at (Dom.detach ow d1) g)) as [Sc1 Sg1]
    by (unfold d1, backdrop_dom; split; dom_some).
  split_and!; [reflexivity| | | | | | |].
  - apply Wf.wf_appendChild; [apply Wf.wf_detach, Hr1|exact Hcg|exact Sg1|exact Sc1].
  - by apply Dom.parentNode_appendChild.
  - rewrite Dom.children_of_appendChild by exact Sg1. apply last_snoc.
  - rewrite Dom.getAttribute_appendChild, (Dom.getAttribute_look _ d1) by apply Dom.look_detach.
    apply Dom.getAttribute_setAttribute. unfold backdrop_dom. dom_some.
  - rewrite Dom.parentNode_appendChild_ne by congruence. apply Dom.parentNode_detach.
  - rewrite Dom.has_class_appendChild, (Dom.has_class_look _ d1) by apply Dom.look_detach.
    unfold d1. rewrite Dom.has_class_setAttribute. unfold backdrop_dom. rewrite Dom.has_class_appendChild.
    apply Dom.has_class_add. dom_some.
  - rewrite Dom.parentNode_appendChild_ne, Dom.parentNode_detach_ne by congruence.
    unfold d1. rewrite Dom.parentNode_setAttribute. unfold backdrop_dom. apply Dom.parentNode_appendChild. dom_some.
Qed.

(** C33. The [TypeError]s of [finishLayout] and what each leaves behind.
    Without a [.wy-nav-content] element, the [id] assignment throws
    after the backdrop has been appended.  Without the old wrapping
    section, [oldWrap.remove()] throws after the content element got its
    [id].  Without a [.wy-nav-content]-grid anywhere, the final
    [appendChild] throws after the old section has been removed, taking
    the content element out of the tree with it. *)
Theorem finishLayout_errors s w :
  Tree.rooted (pdom s) -> is_Some (Dom.node_at (pdom s) w) ->
  (Dom.querySelector (pdom s) (Dom.by_class "wy-nav-content") = None ->
     finishLayout w s = Throw (TypeError "Cannot set properties of null (setting 'id')")
                          (set_pdom (backdrop_dom w (pdom s)) s)) /\
  (forall c, Dom.querySelector (pdom s) (Dom.by_class "wy-nav-content") = Some c ->
     Dom.querySelector (pdom s) old_wrap_selector = None ->
     finishLayout w s = Throw (TypeError "Cannot read properties of null (reading 'remove')")
                          (set_pdom (Dom.setAttribute c "id" "content" (backdrop_dom w (pdom s))) s)) /\
  (forall c ow, Dom.querySelector (pdom s) (Dom.by_class "wy-nav-content") = Some c ->
     Dom.querySelector (pdom s) old_wrap_selector = Some ow ->
     Dom.querySelectorAll (pdom s) (Dom.by_class "wy-grid-for-nav") = [] ->
     finishLayout w s = Throw (TypeError "Cannot read properties of null (reading 'appendChild')")
                          (set_pdom (Dom.detach ow (Dom.setAttribute c "id" "content" (backdrop_dom w (pdom s)))) s)).
Proof.
  intros Hr Sw. rewrite (finishLayout_outcome (pdom s) w Hr Sw s eq_refl). split_and!.
  - by intros ->.
  - by intros c -> ->.
  - intros c ow -> -> Hg. cbv zeta.
    set (d1 := Dom.setAttribute c "id" "content" (backdrop_dom w (pdom s))).
    pose proof (Query.querySelectorAll_detach_sublist ow d1 (Dom.Compound None ["wy-grid-for-nav"] [])) as Hs.
    unfold Dom.by_class in *. unfold d1 in Hs at 2.
    rewrite Query.querySelectorAll_setAttribute, backdrop_querySelectorAll, Hg, sublist_nil_r in Hs
      by (assumption || reflexivity).
    by rewrite Query.querySelector_all, Hs.
Qed.

(** ** Witness on the Read the Docs page: the body's divs 4 and 17 *)
Lemma wrapBodyDivs_spec_witness :
  Dom.wf (pdom rtd_page) /\ is_Some (Dom.node_at (pdom rtd_page) (Dom.body_id (pdom rtd_page))) /\
  Dom.querySelectorAll (pdom rtd_page) body_div_selector = [4; 17] /\ NoDup [4; 17] /\
  (forall x, x ∈ [4; 17] -> Dom.parentNode (pdom rtd_page) x = Some (Dom.body_id (pdom rtd_page))) /\
  exists s', wrapBodyDivs sample_config rtd_page = Normal 22 s' /\
    Dom.children_of (pdom s') 3 = 22 :: filter (fun j => j ∉ [4; 17]) (Dom.children_of (pdom rtd_page) 3) /\
    Dom.children_of (pdom s') 22 = [4; 17] /\
    (forall x, x ∈ [4; 17] -> Dom.parentNode (pdom s') x = Some 22) /\
    Dom.parentNode (pdom s') 22 = Some 3 /\
    Dom.has_class (pdom s') 22 (WRAPPER_CLASS sample_config) = true.
Proof.
  assert (is_Some (Dom.node_at (pdom rtd_page) (Dom.body_id (pdom rtd_page)))) as Sb
    by (vm_compute; eexists; reflexivity).
  assert (Dom.querySelectorAll (pdom rtd_page) body_div_selector = [4; 17]) as Hq
    by (vm_compute; reflexivity).
  assert (NoDup [4; 17]) as Hnd by (apply (bool_decide_unpack _); vm_compute; reflexivity).
  assert (forall x, x ∈ [4; 17] -> Dom.parentNode (pdom rtd_page) x = Some (Dom.body_id (pdom rtd_page)))
    as Hp by (intros x Hx; apply list_elem_of_In in Hx as [<-|[<-|[]]]; vm_compute; reflexivity).
  split_and!; [exact rtd_dom_wf|exact Sb|exact Hq|exact Hnd|exact Hp|].
  exact (wrapBodyDivs_spec sample_config rtd_page [4; 17] rtd_dom_wf Sb Hq Hnd Hp).
Defined.

(** The Read the Docs page: with or without the removal loop. *)
Lemma wrapBodyDivs_remove_redundant_witness :
  Dom.wf (pdom rtd_page) /\
  Dom.querySelectorAll (pdom rtd_page) body_div_selector = [4; 17] /\ NoDup [4; 17] /\
  (forall x, x ∈ [4; 17] -> Dom.parentNode (pdom rtd_page) x = Some (Dom.body_id (pdom rtd_page))) /\
  wrapBodyDivs sample_config rtd_page = wrapBodyDivs_moved sample_config rtd_page.
Proof.
  assert (Dom.querySelectorAll (pdom rtd_page) body_div_selector = [4; 17]) as Hq
    by (vm_compute; reflexivity).
  assert (NoDup [4; 17]) as Hnd by (apply (bool_decide_unpack _); vm_compute; reflexivity).
  assert (forall x, x ∈ [4; 17] -> Dom.parentNode (pdom rtd_page) x = Some (Dom.body_id (pdom rtd_page)))
    as Hp by (intros x Hx; apply list_elem_of_In in Hx as [<-|[<-|[]]]; vm_compute; reflexivity).
  split_and!; [exact rtd_dom_wf|exact Hq|exact Hnd|exact Hp|].
  exact (wrapBodyDivs_remove_redundant sample_config rtd_page [4; 17] rtd_dom_wf Hq Hnd Hp).
Defined.

(** The Read the Docs page has no wrapper before [rearrangeDom]. *)
Lemma wrapBodyDivs_mounts_header_witness :
  Tree.rooted (pdom rtd_page) /\
  Dom.body_id (pdom rtd_page) ∈ Dom.preorder (Dom.fuel_of (pdom rtd_page)) (pdom rtd_page) (Dom.root_id (pdom rtd_page)) /\
  (forall j, Dom.has_class (pdom rtd_page) j (WRAPPER_CLASS sample_config) = false) /\
  Dom.querySelectorAll (pdom rtd_page) body_div_selector = [4; 17] /\ NoDup [4; 17] /\
  (forall x, x ∈ [4; 17] -> Dom.parentNode (pdom rtd_page) x = Some (Dom.body_id (pdom rtd_page))) /\
  (let s' := final (wrapBodyDivs sample_config rtd_page) in
   Build.wrapper_of sample_config (pdom s') = Some (Dom.next_id (pdom rtd_page)) /\
   Dom.querySelector (pdom s') (MobileMenu.wrapper_selector sample_config) = Some (Dom.next_id (pdom rtd_page))).
Proof.
  assert (Tree.rooted (pdom rtd_page)) as Hr by (apply (bool_decide_unpack _); vm_compute; reflexivity).
  assert (Dom.body_id (pdom rtd_page) ∈ Dom.preorder (Dom.fuel_of (pdom rtd_page)) (pdom rtd_page)
            (Dom.root_id (pdom rtd_page))) as Hb by (apply (bool_decide_unpack _); vm_compute; reflexivity).
  assert (forall j, Dom.has_class (pdom rtd_page) j (WRAPPER_CLASS sample_config) = false) as Hcls.
  { assert (map_Forall (fun _ n => ClassList.contains "unified-wrapper" (Dom.classes n) = false)
              (Dom.nodes (pdom rtd_page))) as Hall by (apply (bool_decide_unpack _); vm_compute; reflexivity).
    intros j. unfold Dom.has_class, Dom.node_at. destruct (Dom.nodes (pdom rtd_page) !! j) eqn:E; [|reflexivity].
    exact (map_Forall_lookup_1 _ _ _ _ Hall E). }
  assert (Dom.querySelectorAll (pdom rtd_page) body_div_selector = [4; 17]) as Hq
    by (vm_compute; reflexivity).
  assert (NoDup [4; 17]) as Hnd by (apply (bool_decide_unpack _); vm_compute; reflexivity).
  assert (forall x, x ∈ [4; 17] -> Dom.parentNode (pdom rtd_page) x = Some (Dom.body_id (pdom rtd_page)))
    as Hp by (intros x Hx; apply list_elem_of_In in Hx as [<-|[<-|[]]]; vm_compute; reflexivity).
  split_and!; [exact Hr|exact Hb|exact Hcls|exact Hq|exact Hnd|exact Hp|].
  exact (wrapBodyDivs_mounts_header sample_config rtd_page [4; 17] Hr Hb Hcls Hq Hnd Hp).
Defined.

(** ** Witnesses of [finishLayout]: the Read the Docs page after lines
    23-28, whose wrapper is 22; the sample page, which has no content
    element, with the wrapper 4 *)
Definition rtd_wrapped : page := final (wrapBodyDivs sample_config rtd_page).

Lemma finishLayout_spec_witness :
  Tree.rooted (pdom rtd_wrapped) /\ is_Some (Dom.node_at (pdom rtd_wrapped) 22) /\
  Dom.querySelector (pdom rtd_wrapped) (Dom.by_class "wy-nav-content") = Some 12 /\
  Dom.querySelector (pdom rtd_wrapped) old_wrap_selector = Some 11 /\
  Dom.querySelectorAll (pdom rtd_wrapped) (Dom.by_class "wy-grid-for-nav") = [4] /\
  (11 ∉ (4 :: Dom.ancestors (Dom.fuel_of (pdom rtd_wrapped)) (pdom rtd_wrapped) 4)) /\ 12 ≠ 4 /\ 12 ≠ 11 /\
  (let b := Dom.next_id (pdom rtd_wrapped) in
   let d' := Dom.appendChild 4 12 (Dom.detach 11 (Dom.setAttribute 12 "id" "content" (backdrop_dom 22 (pdom rtd_wrapped)))) in
   finishLayout 22 rtd_wrapped = Normal tt (set_pdom d' rtd_wrapped) /\ Dom.wf d' /\
   Dom.parentNode d' 12 = Some 4 /\ last (Dom.children_of d' 4) = Some 12 /\
   Dom.getAttribute d' 12 "id" = Some "content"%string /\ Dom.parentNode d' 11 = None /\
   Dom.has_class d' b "backdrop" = true /\ Dom.parentNode d' b = Some 22).
Proof.
  assert (Tree.rooted (pdom rtd_wrapped)) as Hr by (apply (bool_decide_unpack _); vm_compute; reflexivity).
  assert (is_Some (Dom.node_at (pdom rtd_wrapped) 22)) as Sw by (vm_compute; eexists; reflexivity).
  assert (Dom.querySelector (pdom rtd_wrapped) (Dom.by_class "wy-nav-content") = Some 12) as Hc
    by (vm_compute; reflexivity).
  assert (Dom.querySelector (pdom rtd_wrapped) old_wrap_selector = Some 11) as Ho by (vm_compute; reflexivity).
  assert (Dom.querySelectorAll (pdom rtd_wrapped) (Dom.by_class "wy-grid-for-nav") = [4]) as Hg
    by (vm_compute; reflexivity).
  assert (11 ∉ (4 :: Dom.ancestors (Dom.fuel_of (pdom rtd_wrapped)) (pdom rtd_wrapped) 4)) as Ha
    by (apply (bool_decide_unpack _); vm_compute; reflexivity).
  refine (conj Hr (conj Sw (conj Hc (conj Ho (conj Hg (conj Ha (conj _ (conj _ _)))))))); [lia|lia|].
  exact (finishLayout_spec rtd_wrapped 22 12 11 4 Hr Sw Hc Ho Hg Ha ltac:(lia) ltac:(lia)).
Defined.

Lemma finishLayout_errors_witness :
  Tree.rooted (pdom sample_page) /\ is_Some (Dom.node_at (pdom sample_page) 4) /\
  Dom.querySelector (pdom sample_page) (Dom.by_class "wy-nav-content") = None /\
  finishLayout 4 sample_page = Throw (TypeError "Cannot set properties of null (setting 'id')")
                                 (set_pdom (backdrop_dom 4 (pdom sample_page)) sample_page).
Proof.
  assert (is_Some (Dom.node_at (pdom sample_page) 4)) as Sw by (vm_compute; eexists; reflexivity).
  assert (Dom.querySelector (pdom sample_page) (Dom.by_class "wy-nav-content") = None) as Hc
    by (vm_compute; reflexivity).
  refine (conj Build.sample_rooted (conj Sw (conj Hc _))).
  exact (proj1 (finishLayout_errors sample_page 4 Build.sample_rooted Sw) Hc).
Defined.

End Layout.
